(** * foundry-iq-demo: export, sanitize and restore of Azure AI Search
      configuration documents

    A shallow embedding of
    - [scripts/sanitize_data.py]            (the Sanitizer),
    - [infra/hooks/configure_search_objects.py] (the Restorer and deployer),
    - [scripts/dump_az_search.py]           (the Graph Exporter),
    followed by the properties of these programs.

    Conventions of the embedding.
    - A Python [str] is a [string]; [str.lower] and the regular expression
      flag [re.IGNORECASE] are modelled on the ASCII letters.
    - A value produced by [json.load] is a [json] tree.  A Python [dict] is an
      association list in insertion order; [d[k] = v] is [dict_set].
    - A Python exception is the [Raise] result of the [res] monad. *)

From Stdlib Require Import List String Ascii ZArith Bool Lia PeanoNat.
From Stdlib Require Import PrimFloat.
Import ListNotations.
Local Open Scope string_scope.
Local Open Scope list_scope.

Set Implicit Arguments.

(* ================================================================== *)
(** * Python strings *)
(* ================================================================== *)

Module PyStr.

Definition is_upper (c : ascii) : bool :=
  let n := nat_of_ascii c in (65 <=? n)%nat && (n <=? 90)%nat.

Definition is_lower (c : ascii) : bool :=
  let n := nat_of_ascii c in (97 <=? n)%nat && (n <=? 122)%nat.

Definition is_digit (c : ascii) : bool :=
  let n := nat_of_ascii c in (48 <=? n)%nat && (n <=? 57)%nat.

Definition lower_char (c : ascii) : ascii :=
  if is_upper c then ascii_of_nat (nat_of_ascii c + 32) else c.

Definition upper_char (c : ascii) : ascii :=
  if is_lower c then ascii_of_nat (nat_of_ascii c - 32) else c.

(** [s.lower()] *)
Fixpoint lower (s : string) : string :=
  match s with
  | EmptyString => EmptyString
  | String c s' => String (lower_char c) (lower s')
  end.

(** [s.replace(old, '')] for a one-character [old]: every occurrence of
    the character is deleted. *)
Fixpoint remove_char (old : ascii) (s : string) : string :=
  match s with
  | EmptyString => EmptyString
  | String c s' =>
      if Ascii.eqb c old then remove_char old s'
      else String c (remove_char old s')
  end.

(** [x in xs] for a collection of strings. *)
Definition mem (x : string) (xs : list string) : bool :=
  existsb (String.eqb x) xs.

(** [sub in s] for two strings: substring test. *)
Fixpoint contains (sub s : string) : bool :=
  String.prefix sub s ||
  match s with
  | EmptyString => false
  | String _ s' => contains sub s'
  end.

End PyStr.

(* ================================================================== *)
(** * Regular expressions, as used through [re.match] *)
(* ================================================================== *)

Module Re.

(** The fragment of Python's pattern language that [AZURE_URL_PATTERNS]
    uses: literal characters, character sets, concatenation, [?], [*], [+]. *)
Inductive regex : Type :=
| Eps : regex                                (* the empty pattern *)
| Chr : ascii -> regex                       (* a literal character *)
| Cls : (ascii -> bool) -> regex             (* a character set [...] *)
| Cat : regex -> regex -> regex
| Opt : regex -> regex                       (* r? *)
| Star : regex -> regex                      (* r* *)
| Plus : regex -> regex.                     (* r+ *)

(** A literal string is the concatenation of its characters. *)
Fixpoint Lit (s : string) : regex :=
  match s with
  | EmptyString => Eps
  | String c s' => Cat (Chr c) (Lit s')
  end.

Fixpoint Seq (rs : list regex) : regex :=
  match rs with
  | [] => Eps
  | r :: rs' => Cat r (Seq rs')
  end.

(** Does the one-character pattern accept [x]?  With [re.IGNORECASE] a
    literal or a set accepts a character when it accepts one of its case
    variants. *)
Definition chr_ok (ignorecase : bool) (c x : ascii) : bool :=
  if ignorecase
  then Ascii.eqb (PyStr.lower_char c) (PyStr.lower_char x)
  else Ascii.eqb c x.

Definition cls_ok (ignorecase : bool) (p : ascii -> bool) (x : ascii) : bool :=
  if ignorecase
  then p x || p (PyStr.lower_char x) || p (PyStr.upper_char x)
  else p x.

(** Does the pattern match the empty string? *)
Fixpoint nullable (r : regex) : bool :=
  match r with
  | Eps => true
  | Chr _ => false
  | Cls _ => false
  | Cat r1 r2 => nullable r1 && nullable r2
  | Opt _ => true
  | Star _ => true
  | Plus r1 => nullable r1
  end.

(** [deriv ic x r]: the patterns that remain to be matched after [r] has
    consumed the character [x] (a list of alternatives). *)
Fixpoint deriv (ic : bool) (x : ascii) (r : regex) : list regex :=
  match r with
  | Eps => []
  | Chr c => if chr_ok ic c x then [Eps] else []
  | Cls p => if cls_ok ic p x then [Eps] else []
  | Cat r1 r2 =>
      map (fun d => Cat d r2) (deriv ic x r1)
      ++ (if nullable r1 then deriv ic x r2 else [])
  | Opt r1 => deriv ic x r1
  | Star r1 => map (fun d => Cat d (Star r1)) (deriv ic x r1)
  | Plus r1 => map (fun d => Cat d (Star r1)) (deriv ic x r1)
  end.

(** [re.match(pattern, s, flags)] is not [None]: some prefix of [s],
    starting at position 0, is matched by the pattern. *)
Fixpoint match_states (ic : bool) (rs : list regex) (s : string) : bool :=
  existsb nullable rs ||
  match s with
  | EmptyString => false
  | String x s' =>
      match flat_map (deriv ic x) rs with
      | [] => false
      | rs' => match_states ic rs' s'
      end
  end.

Definition re_match (ic : bool) (r : regex) (s : string) : bool :=
  match_states ic [r] s.

End Re.

(* ================================================================== *)
(** * JSON documents and the Python operations on them *)
(* ================================================================== *)

Module Py.

(** What [json.load] returns: [None], [bool], [int], [float], [str],
    [list], [dict]. *)
#[local] Unset Elimination Schemes.
Inductive json : Type :=
| JNull : json
| JBool : bool -> json
| JInt : Z -> json
| JFloat : float -> json
| JStr : string -> json
| JList : list json -> json
| JDict : list (string * json) -> json.
#[local] Set Elimination Schemes.

Definition dict : Type := list (string * json).

(** Exceptions that the modelled code can raise on a value of an
    unexpected type. *)
Inductive exn : Type :=
| AttributeError    (* [x.get(...)] on a value that is not a dict *)
| TypeError         (* [k in x] on a number, [x[k]] on a str or list, ... *)
| KeyError
| OSError           (* a file that cannot be opened *)
| HTTPError         (* [raise_for_status] and the transport errors of requests *)
| Unmodelled.       (* not an exception: the run leaves the modelled fragment *)

Inductive res (A : Type) : Type :=
| Ok : A -> res A
| Raise : exn -> res A.
Arguments Raise {A} _.

Definition bind {A B : Type} (m : res A) (f : A -> res B) : res B :=
  match m with
  | Ok a => f a
  | Raise e => Raise e
  end.

(** Truth value of a Python object, as tested by [if x] and [x and y]. *)
Definition truthy (v : json) : bool :=
  match v with
  | JNull => false
  | JBool b => b
  | JInt n => negb (Z.eqb n 0)
  | JFloat f => negb (PrimFloat.eqb f PrimFloat.zero)
  | JStr s => negb (String.eqb s EmptyString)
  | JList l => match l with [] => false | _ => true end
  | JDict d => match d with [] => false | _ => true end
  end.

(** A value that is neither a dict nor a list. *)
Definition scalar (v : json) : Prop :=
  match v with
  | JList _ | JDict _ => False
  | _ => True
  end.

(** [v == s] for a string literal [s]. *)
Definition is_str (s : string) (v : json) : bool :=
  match v with
  | JStr s' => String.eqb s' s
  | _ => false
  end.

(** ** Dictionaries *)

(** [k in d] *)
Fixpoint dict_in {V : Type} (k : string) (d : list (string * V)) : bool :=
  match d with
  | [] => false
  | (k', _) :: d' => String.eqb k' k || dict_in k d'
  end.

(** [d[k]], [None] standing for [KeyError]. *)
Fixpoint dict_find (k : string) (d : dict) : option json :=
  match d with
  | [] => None
  | (k', v) :: d' => if String.eqb k' k then Some v else dict_find k d'
  end.

(** [d.get(k, default)] *)
Definition dict_get (d : dict) (k : string) (default : json) : json :=
  match dict_find k d with
  | Some v => v
  | None => default
  end.

(** [d[k] = v]: an existing key keeps its position, a new key is appended. *)
Fixpoint dict_set {V : Type} (k : string) (v : V) (d : list (string * V))
  : list (string * V) :=
  match d with
  | [] => [(k, v)]
  | (k', v') :: d' =>
      if String.eqb k' k then (k', v) :: d'
      else (k', v') :: dict_set k v d'
  end.

(** [d.pop(k, None)], the popped value being discarded. *)
Fixpoint dict_pop (k : string) (d : dict) : dict :=
  match d with
  | [] => []
  | (k', v') :: d' =>
      if String.eqb k' k then d' else (k', v') :: dict_pop k d'
  end.

Definition dict_keys {V : Type} (d : list (string * V)) : list string :=
  map fst d.

(** The loop
    [[
    for key, value in data.items():
        result[key] = f(key, value)
    ]]
    started on the dict [result]. *)
Definition build {V : Type} (f : string -> V -> V)
  (data result : list (string * V)) : list (string * V) :=
  fold_left (fun result kv => let '(k, v) := kv in dict_set k (f k v) result)
            data result.

(** The value at a field path of a document; [JNull], that is absent, when
    the path cannot be followed. *)
Fixpoint field (path : list string) (v : json) : json :=
  match path with
  | [] => v
  | k :: path' =>
      match v with
      | JDict d => field path' (dict_get d k JNull)
      | _ => JNull
      end
  end.

(** ** Operations on a value whose type is only known at run time *)

(** [x.get(k)]: only a dict has the method. *)
Definition py_get (x : json) (k : string) : res json :=
  match x with
  | JDict d => Ok (dict_get d k JNull)
  | _ => Raise AttributeError
  end.

(** [x.get(k, default)] *)
Definition py_get_default (x : json) (k : string) (default : json) : res json :=
  match x with
  | JDict d => Ok (dict_get d k default)
  | _ => Raise AttributeError
  end.

(** [k in x] for a string literal [k]: key test on a dict, element test on
    a list, substring test on a str, [TypeError] on anything else. *)
Definition py_contains (k : string) (x : json) : res bool :=
  match x with
  | JDict d => Ok (dict_in k d)
  | JList l => Ok (existsb (is_str k) l)
  | JStr s => Ok (PyStr.contains k s)
  | _ => Raise TypeError
  end.

(** [x[k]] for a string literal [k]. *)
Definition py_getitem (x : json) (k : string) : res json :=
  match x with
  | JDict d => match dict_find k d with
               | Some v => Ok v
               | None => Raise KeyError
               end
  | _ => Raise TypeError
  end.

(** [x[k] = v] for a string literal [k]; the result is the updated [x]. *)
Definition py_setitem (x : json) (k : string) (v : json) : res json :=
  match x with
  | JDict d => Ok (JDict (dict_set k v d))
  | _ => Raise TypeError
  end.

(** The guard [k in x and x[k]], which the Restorer writes before it
    descends into a block: [Some v] when the guard is true, [v] being
    [x[k]]; [None] when it is false. *)
Definition py_guard (x : json) (k : string) : res (option json) :=
  bind (py_contains k x) (fun c =>
    if c then
      bind (py_getitem x k) (fun v =>
        Ok (if truthy v then Some v else None))
    else Ok None).

(** [for e in x]: the elements of a list, the keys of a dict, the
    characters of a str; anything else is not iterable. *)
Definition py_iter (x : json) : res (list json) :=
  match x with
  | JList l => Ok l
  | JDict d => Ok (map (fun kv => JStr (fst kv)) d)
  | JStr s => Ok (map (fun c => JStr (String c EmptyString))
                      (list_ascii_of_string s))
  | _ => Raise TypeError
  end.

(** A loop body run on every element in order; the first exception ends
    the loop. *)
Fixpoint map_res {A B : Type} (f : A -> res B) (l : list A) : res (list B) :=
  match l with
  | [] => Ok []
  | a :: l' =>
      bind (f a) (fun b => bind (map_res f l') (fun bs => Ok (b :: bs)))
  end.

End Py.

(* ================================================================== *)
(** * The Sanitizer: [scripts/sanitize_data.py] *)
(* ================================================================== *)

Module Sanitizer.
Import Py.

(** ** Patterns to redact *)

(** [[a-zA-Z0-9\-]] *)
Definition host_char (c : ascii) : bool :=
  PyStr.is_lower c || PyStr.is_upper c || PyStr.is_digit c
  || Ascii.eqb c "-"%char.

(** [\s] on the ASCII range: space, the controls 9 to 13 and 28 to 31. *)
Definition space_char (c : ascii) : bool :=
  let n := nat_of_ascii c in
  (n =? 32)%nat || ((9 <=? n)%nat && (n <=? 13)%nat)
  || ((28 <=? n)%nat && (n <=? 31)%nat).

(** The negated set at the end of each pattern: any character that is
    neither whitespace nor the double quote (character 34). *)
Definition tail_char (c : ascii) : bool :=
  negb (space_char c || Ascii.eqb c (ascii_of_nat 34)).

(** [https://[a-zA-Z0-9\-]+<domain>/?<tail>*], where [domain] is the
    escaped literal such as [\.search\.windows\.net] and [tail] the
    negated set above. *)
Definition azure_url_pattern (domain : string) : Re.regex :=
  Re.Seq [ Re.Lit "https://";
           Re.Plus (Re.Cls host_char);
           Re.Lit domain;
           Re.Opt (Re.Chr "/"%char);
           Re.Star (Re.Cls tail_char) ].

Definition AZURE_URL_PATTERNS : list Re.regex :=
  [ azure_url_pattern ".search.windows.net";
    azure_url_pattern ".openai.azure.com";
    azure_url_pattern ".cognitiveservices.azure.com";
    azure_url_pattern ".blob.core.windows.net";
    azure_url_pattern ".documents.azure.com" ].

(** Keys that should be redacted *)
Definition SENSITIVE_KEYS : list string :=
  [ "apikey"; "api_key"; "key"; "connectionstring"; "connection_string";
    "secret"; "password"; "token"; "accesskey"; "primarykey";
    "secondarykey" ].

(** Keys that contain URLs to redact *)
Definition URL_KEYS : list string :=
  [ "@odata.context"; "resourceuri"; "resource_uri"; "uri"; "url";
    "endpoint"; "subdomainurl" ].

Definition REDACTED_PLACEHOLDER : string := "<REDACTED>".
Definition URL_PLACEHOLDER : string := "<AZURE_ENDPOINT_PLACEHOLDER>".
Definition CONTAINER_PLACEHOLDER : string := "<BLOB_CONTAINER_PLACEHOLDER>".

(** Legacy container names to replace with placeholder *)
Definition LEGACY_CONTAINER_NAMES : list string :=
  [ "kr-demos"; "sample-documents"; "foundry-iq-data" ].

(** [key.lower().replace('-', '').replace('_', '')] *)
Definition normalize_key (key : string) : string :=
  PyStr.remove_char "_"%char (PyStr.remove_char "-"%char (PyStr.lower key)).

Definition should_redact_key (key : string) : bool :=
  let key_lower := normalize_key key in
  PyStr.mem key_lower (map (PyStr.remove_char "_"%char) SENSITIVE_KEYS).

(** The key test as the specification words it: the key, compared
    case- and separator-insensitively, is one of the fixed
    secret-indicating names. *)
Definition secret_name (key : string) : Prop :=
  exists name, In name SENSITIVE_KEYS /\ normalize_key key = normalize_key name.

Definition should_redact_url_key (key : string) : bool :=
  let key_lower := normalize_key key in
  PyStr.mem key_lower
    (map (fun k => PyStr.remove_char "."%char (PyStr.remove_char "_"%char k))
         URL_KEYS).

Definition is_azure_url (value : json) : bool :=
  match value with
  | JStr s => existsb (fun pattern => Re.re_match true pattern s)
                      AZURE_URL_PATTERNS
  | _ => false
  end.

Definition sanitize_value (key : string) (value : json) : json :=
  match value with
  | JNull => JNull
  | _ =>
      if should_redact_key key then
        match value with
        | JStr s =>
            if negb (String.eqb s EmptyString) && negb (String.eqb s "null")
            then JStr REDACTED_PLACEHOLDER
            else value
        | _ => value
        end
      else if should_redact_url_key key then
        if is_azure_url value then JStr URL_PLACEHOLDER else value
      else if is_azure_url value then JStr URL_PLACEHOLDER
      else value
  end.

(** The [else] branch of the loop of [sanitize_dict]: what is stored under
    [key] for a value that is neither a dict nor a list. *)
Definition sanitize_scalar (parent_key key : string) (value : json) : json :=
  let key_lower := PyStr.lower key in
  if PyStr.mem key_lower ["name"; "containername"]
     && (String.eqb (PyStr.lower parent_key) "container"
         || String.eqb key_lower "containername")
     && match value with
        | JStr s => PyStr.mem s LEGACY_CONTAINER_NAMES
        | _ => false
        end
  then JStr CONTAINER_PLACEHOLDER
  else sanitize_value key value.

(** The two loops.  [sanitize_entry parent_key key value] is what one
    iteration of [sanitize_dict(data, parent_key)] stores at [result[key]];
    [sanitize_item parent_key item] is what one iteration of
    [sanitize_list(parent_key, data)] appends.  The nested calls
    [sanitize_dict(value, key)] and [sanitize_list(key, value)] are the
    two loops again, one level down. *)
Fixpoint sanitize_entry (parent_key key : string) (value : json)
  {struct value} : json :=
  match value with
  | JDict data =>
      JDict (build (sanitize_entry key) data [])
  | JList data => JList (map (sanitize_item key) data)
  | _ => sanitize_scalar parent_key key value
  end
with sanitize_item (parent_key : string) (item : json) {struct item} : json :=
  match item with
  | JDict data =>
      JDict (build (sanitize_entry parent_key) data [])
  | JList data => JList (map (sanitize_item parent_key) data)
  | _ => sanitize_value parent_key item
  end.

Definition sanitize_dict (data : dict) (parent_key : string) : dict :=
  build (sanitize_entry parent_key) data [].

Definition sanitize_list (parent_key : string) (data : list json) : list json :=
  map (sanitize_item parent_key) data.

(** ** [sanitize_file] *)

(** The expression
    [sanitize_dict(data, '') if isinstance(data, dict) else sanitize_list('', data)]
    of [sanitize_file].  A top-level str is iterated character by
    character; a number, a boolean or [None] is not iterable. *)
Definition sanitize_document (data : json) : res json :=
  match data with
  | JDict d => Ok (JDict (sanitize_dict d EmptyString))
  | JList l => Ok (JList (sanitize_list EmptyString l))
  | JStr s =>
      Ok (JList (map (fun c => sanitize_value EmptyString
                                 (JStr (String c EmptyString)))
                     (list_ascii_of_string s)))
  | _ => Raise TypeError
  end.

(** The files, by path. *)
Definition filesystem : Type := string -> option string.

Definition write_file (fs : filesystem) (path content : string) : filesystem :=
  fun p => if String.eqb p path then Some content else fs p.

Section File.
(** [json.load]: [None] for [JSONDecodeError] and [UnicodeDecodeError]. *)
Variable json_load : string -> option json.
(** [json.dumps(obj, indent=2, ensure_ascii=b)] *)
Variable json_dumps : bool -> json -> string.

(** The result is the returned boolean and the files after the call. *)
Definition sanitize_file (fs : filesystem) (file_path : string) (dry_run : bool)
  : res (bool * filesystem) :=
  match fs file_path with
  | None => Raise OSError
  | Some content =>
      match json_load content with
      | None => Ok (false, fs)
      | Some data =>
          bind (sanitize_document data) (fun sanitized =>
            if dry_run then
              let original := json_dumps true data in
              let modified := json_dumps true sanitized in
              Ok (negb (String.eqb original modified), fs)
            else
              Ok (true, write_file fs file_path (json_dumps false sanitized)))
      end
  end.
End File.

End Sanitizer.

(* ================================================================== *)
(** * The Sanitizer on the object store *)
(* ================================================================== *)

(** The functions of [Sanitizer] compute on trees.  Whether
    [sanitize_dict] leaves its argument alone is a question about Python
    objects: this module runs the same two loops on a store of mutable
    [dict] and [list] objects, with every allocation and every write. *)
Module Store.
Import Py.

(** A value is an immutable scalar ([None], a bool, a number, a str) or
    the address of a dict or list object. *)
Inductive value : Type :=
| Scalar : json -> value
| Ref : nat -> value.

Inductive object : Type :=
| DictObj : list (string * value) -> object
| ListObj : list value -> object.

(** Objects by address; a new object takes the next address. *)
Definition heap : Type := list object.

Definition alloc (o : object) (h : heap) : heap * nat :=
  (h ++ [o], List.length h).

Fixpoint store (a : nat) (o : object) (h : heap) : heap :=
  match h, a with
  | [], _ => []
  | _ :: h', O => o :: h'
  | o' :: h', S a' => o' :: store a' o h'
  end.

(** [result[key] = v] on the dict object at [result] *)
Definition setitem (result : nat) (key : string) (v : value) (h : heap) : heap :=
  match nth_error h result with
  | Some (DictObj items) => store result (DictObj (dict_set key v items)) h
  | _ => h
  end.

(** [result.append(v)] on the list object at [result] *)
Definition append (result : nat) (v : value) (h : heap) : heap :=
  match nth_error h result with
  | Some (ListObj items) => store result (ListObj (items ++ [v])) h
  | _ => h
  end.

(** The loop of [sanitize_dict] over the items of [data], [body] being
    what one iteration computes for [result[key]]. *)
Fixpoint dict_loop
  (body : heap -> string -> value -> option (heap * value))
  (result : nat) (items : list (string * value)) (h : heap) : option heap :=
  match items with
  | [] => Some h
  | (key, value) :: rest =>
      match body h key value with
      | Some (h, v) => dict_loop body result rest (setitem result key v h)
      | None => None
      end
  end.

(** The loop of [sanitize_list]. *)
Fixpoint list_loop
  (body : heap -> value -> option (heap * value))
  (result : nat) (items : list value) (h : heap) : option heap :=
  match items with
  | [] => Some h
  | item :: rest =>
      match body h item with
      | Some (h, v) => list_loop body result rest (append result v h)
      | None => None
      end
  end.

(** [sanitize_entry depth h parent_key key value]: one iteration of the
    loop of [sanitize_dict(data, parent_key)]; [sanitize_item]: one
    iteration of the loop of [sanitize_list(parent_key, data)].  [depth]
    bounds the nesting of calls, as the interpreter's recursion limit
    does; [None] is a [RecursionError] or a dangling address.  The items
    of [data] are read when the loop starts. *)
Fixpoint sanitize_entry (depth : nat) (h : heap) (parent_key key : string)
  (v : value) {struct depth} : option (heap * value) :=
  match v with
  | Scalar j => Some (h, Scalar (Sanitizer.sanitize_scalar parent_key key j))
  | Ref a =>
      match depth with
      | O => None
      | S depth =>
          match nth_error h a with
          | Some (DictObj data) =>
              (* sanitize_dict(value, key): result = {} *)
              let '(h, result) := alloc (DictObj []) h in
              option_map (fun h => (h, Ref result))
                (dict_loop (fun h k v => sanitize_entry depth h key k v)
                           result data h)
          | Some (ListObj data) =>
              (* sanitize_list(key, value): result = [] *)
              let '(h, result) := alloc (ListObj []) h in
              option_map (fun h => (h, Ref result))
                (list_loop (fun h v => sanitize_item depth h key v)
                           result data h)
          | None => None
          end
      end
  end
with sanitize_item (depth : nat) (h : heap) (parent_key : string)
  (v : value) {struct depth} : option (heap * value) :=
  match v with
  | Scalar j => Some (h, Scalar (Sanitizer.sanitize_value parent_key j))
  | Ref a =>
      match depth with
      | O => None
      | S depth =>
          match nth_error h a with
          | Some (DictObj data) =>
              let '(h, result) := alloc (DictObj []) h in
              option_map (fun h => (h, Ref result))
                (dict_loop (fun h k v => sanitize_entry depth h parent_key k v)
                           result data h)
          | Some (ListObj data) =>
              let '(h, result) := alloc (ListObj []) h in
              option_map (fun h => (h, Ref result))
                (list_loop (fun h v => sanitize_item depth h parent_key v)
                           result data h)
          | None => None
          end
      end
  end.

(** [sanitize_dict(data, parent_key)] and [sanitize_list(parent_key,
    data)] for the objects at address [data]: the new store and the
    address of the result. *)
Definition sanitize_dict (depth : nat) (h : heap) (data : nat) (parent_key : string)
  : option (heap * nat) :=
  match nth_error h data with
  | Some (DictObj items) =>
      let '(h, result) := alloc (DictObj []) h in
      option_map (fun h => (h, result))
        (dict_loop (fun h k v => sanitize_entry depth h parent_key k v)
                   result items h)
  | _ => None
  end.

Definition sanitize_list (depth : nat) (h : heap) (parent_key : string) (data : nat)
  : option (heap * nat) :=
  match nth_error h data with
  | Some (ListObj items) =>
      let '(h, result) := alloc (ListObj []) h in
      option_map (fun h => (h, result))
        (list_loop (fun h v => sanitize_item depth h parent_key v)
                   result items h)
  | _ => None
  end.

(** The tree that a value stands for in a store, all of whose objects sit
    at address [base] or above. *)
Fixpoint represents_from (base : nat) (h : heap) (v : value) (j : json)
  {struct j} : Prop :=
  match j with
  | JDict d =>
      exists a items,
        v = Ref a /\ base <= a /\ nth_error h a = Some (DictObj items) /\
        (fix all2 (d : list (string * json)) (items : list (string * value))
             {struct d} : Prop :=
           match d, items with
           | [], [] => True
           | (k', j) :: d, (k, v) :: items =>
               k = k' /\ represents_from base h v j /\ all2 d items
           | _, _ => False
           end) d items
  | JList l =>
      exists a items,
        v = Ref a /\ base <= a /\ nth_error h a = Some (ListObj items) /\
        (fix all2 (l : list json) (items : list value) {struct l} : Prop :=
           match l, items with
           | [], [] => True
           | j :: l, v :: items => represents_from base h v j /\ all2 l items
           | _, _ => False
           end) l items
  | _ => v = Scalar j
  end.

(** The tree that a value stands for in a store. *)
Definition represents (h : heap) (v : value) (j : json) : Prop :=
  represents_from 0 h v j.

(** A value, an object that holds no address below [base]. *)
Definition value_fresh (base : nat) (v : value) : Prop :=
  match v with
  | Ref a => base <= a
  | Scalar _ => True
  end.

Definition object_fresh (base : nat) (o : object) : Prop :=
  match o with
  | DictObj items => Forall (fun kv => value_fresh base (snd kv)) items
  | ListObj items => Forall (value_fresh base) items
  end.

(** [h'] is [h] with new objects after it, and the new objects refer to
    new objects only. *)
Definition grows (h h' : heap) : Prop :=
  exists ext, h' = h ++ ext /\ Forall (object_fresh (List.length h)) ext.

(** What one iteration guarantees, for the loops to grow the store. *)
Definition growing {K : Type} (body : heap -> K -> option (heap * value)) : Prop :=
  forall h k h' v, body h k = Some (h', v) ->
                   grows h h' /\ value_fresh (List.length h) v.

(** The items of a dict object, of a list object, stand for the items of
    a tree. *)
Definition items_represent (base : nat) (h : heap)
  (items : list (string * value)) (d : list (string * json)) : Prop :=
  Forall2 (fun kv kj => fst kv = fst kj /\ represents_from base h (snd kv) (snd kj))
          items d.

Definition elements_represent (base : nat) (h : heap)
  (items : list value) (l : list json) : Prop :=
  Forall2 (represents_from base h) items l.

(** The nesting depth of a tree: the calls that the two loops stack up. *)
Fixpoint depth_of (j : json) : nat :=
  match j with
  | JDict d => S (fold_right (fun kv n => Nat.max (depth_of (snd kv)) n) O d)
  | JList l => S (fold_right (fun x n => Nat.max (depth_of x) n) O l)
  | _ => O
  end.

End Store.

(* ================================================================== *)
(** * The Restorer: [infra/hooks/configure_search_objects.py] *)
(* ================================================================== *)

Module Restorer.
Import Py.

Notation "x <- m ;; k" := (bind m (fun x => k))
  (at level 61, m at next level, right associativity).

(** API Version for Azure AI Search agentic retrieval *)
Definition API_VERSION : string := "2025-11-01-preview".

(** The functions below update the document in place and return it.  The
    document comes from [json.load], so it is a tree and no two fields
    share an object: an update of a nested block is modelled by computing
    the new block and storing it back under the key it was read from. *)

(** The statement that the source writes at every field it restores:
    [[
    if x.get(k) == token:
        x[k] = value
    ]] *)
Definition replace_if (x : json) (k token value : string) : res json :=
  v <- py_get x k ;;
  if is_str token v then py_setitem x k (JStr value) else Ok x.

(** The four lines that the source repeats for every
    [azureOpenAIParameters] block:
    [[
    if aoai_params.get("resourceUri") == "<AZURE_ENDPOINT_PLACEHOLDER>":
        aoai_params["resourceUri"] = openai_endpoint
    if aoai_params.get("apiKey") == "<REDACTED>":
        aoai_params["apiKey"] = openai_key
    ]] *)
Definition replace_aoai (aoai_params : json) (openai_endpoint openai_key : string)
  : res json :=
  aoai_params <-
    replace_if aoai_params "resourceUri" "<AZURE_ENDPOINT_PLACEHOLDER>"
               openai_endpoint ;;
  replace_if aoai_params "apiKey" "<REDACTED>" openai_key.

(** The guard that the source writes before it descends into a block:
    [[
    if k in x and x[k]:
        block = x[k]
        ...
    ]]
    [body] is the indented part; it updates [block], which stays the
    object stored under [k]. *)
Definition at_key (x : json) (k : string) (body : json -> res json) : res json :=
  g <- py_guard x k ;;
  match g with
  | Some block =>
      block <- body block ;;
      py_setitem x k block
  | None => Ok x
  end.

(** [[
    if "azureOpenAIParameters" in model and model["azureOpenAIParameters"]:
        aoai_params = model["azureOpenAIParameters"]
        ...
    ]] *)
Definition replace_in_model (model : json) (openai_endpoint openai_key : string)
  : res json :=
  at_key model "azureOpenAIParameters"
    (fun aoai_params => replace_aoai aoai_params openai_endpoint openai_key).

(** [[
    if model_key in ingest_params and ingest_params[model_key]:
        embed_model = ingest_params[model_key]
        ...
    ]]
    for [model_key] one of [embeddingModel], [chatCompletionModel]. *)
Definition replace_in_ingest_model (ingest_params : json) (model_key : string)
  (openai_endpoint openai_key : string) : res json :=
  at_key ingest_params model_key
    (fun model => replace_in_model model openai_endpoint openai_key).

(** [if ai_services_endpoint and ai_services_key] *)
Definition ai_services_available (ai_services_endpoint ai_services_key : option string)
  : option (string * string) :=
  match ai_services_endpoint, ai_services_key with
  | Some e, Some k =>
      if negb (String.eqb e EmptyString) && negb (String.eqb k EmptyString)
      then Some (e, k) else None
  | _, _ => None
  end.

(** AI Services (for built-in skills).  In the [else] branch the source
    assigns [ingest_params["aiServices"] = None]. *)
Definition replace_ai_services (ingest_params : json)
  (ai_services_endpoint ai_services_key : option string) : res json :=
  at_key ingest_params "aiServices"
    (fun ai_svc =>
       match ai_services_available ai_services_endpoint ai_services_key with
       | Some (endpoint, key) =>
           ai_svc <-
             replace_if ai_svc "uri" "<AZURE_ENDPOINT_PLACEHOLDER>" endpoint ;;
           replace_if ai_svc "apiKey" "<REDACTED>" key
       | None =>
           (* No AI Services available - remove to use free tier *)
           Ok JNull
       end).

(** [blob_params.get("connectionString") in ("<REDACTED>", None, '')] *)
Definition connection_string_unset (v : json) : bool :=
  match v with
  | JNull => true
  | JStr s => String.eqb s "<REDACTED>" || String.eqb s EmptyString
  | _ => false
  end.

(** Process ingestion parameters (of the blob block) *)
Definition replace_in_blob_ingestion (ingest_params : json)
  (openai_endpoint openai_key : string)
  (ai_services_endpoint ai_services_key : option string) : res json :=
  ingest_params <-
    replace_in_ingest_model ingest_params "embeddingModel"
                            openai_endpoint openai_key ;;
  ingest_params <-
    replace_in_ingest_model ingest_params "chatCompletionModel"
                            openai_endpoint openai_key ;;
  replace_ai_services ingest_params ai_services_endpoint ai_services_key.

(** Process Azure Blob parameters *)
Definition replace_in_blob_params (blob_params : json)
  (openai_endpoint openai_key storage_connection_string blob_container : string)
  (ai_services_endpoint ai_services_key : option string) : res json :=
  cs <- py_get blob_params "connectionString" ;;
  blob_params <-
    (if connection_string_unset cs
     then py_setitem blob_params "connectionString" (JStr storage_connection_string)
     else Ok blob_params) ;;
  blob_params <-
    replace_if blob_params "containerName" "<BLOB_CONTAINER_PLACEHOLDER>"
               blob_container ;;
  at_key blob_params "ingestionParameters"
    (fun ingest_params =>
       replace_in_blob_ingestion ingest_params openai_endpoint openai_key
                                 ai_services_endpoint ai_services_key).

(** Process indexed OneLake / indexed SharePoint parameters: only the
    embedding model of the ingestion parameters. *)
Definition replace_in_indexed_params (params : json)
  (openai_endpoint openai_key : string) : res json :=
  at_key params "ingestionParameters"
    (fun ingest_params =>
       replace_in_ingest_model ingest_params "embeddingModel"
                               openai_endpoint openai_key).

(** The same guard at the top level, where [source_data] is a dict. *)
Definition with_block (source_data : dict) (k : string)
  (body : json -> res json) : res dict :=
  g <- py_guard (JDict source_data) k ;;
  match g with
  | Some block =>
      block <- body block ;;
      Ok (dict_set k block source_data)
  | None => Ok source_data
  end.

Definition replace_placeholders_in_knowledge_source
  (source_data : dict)
  (openai_endpoint openai_key storage_connection_string blob_container : string)
  (ai_services_endpoint ai_services_key : option string) : res dict :=
  (* Remove OData metadata (not allowed in PUT requests) *)
  let source_data := dict_pop "@odata.context" source_data in
  let source_data := dict_pop "@odata.etag" source_data in
  source_data <-
    with_block source_data "azureBlobParameters"
      (fun blob_params =>
         replace_in_blob_params blob_params openai_endpoint openai_key
           storage_connection_string blob_container
           ai_services_endpoint ai_services_key) ;;
  source_data <-
    with_block source_data "indexedOneLakeParameters"
      (fun onelake_params =>
         replace_in_indexed_params onelake_params openai_endpoint openai_key) ;;
  source_data <-
    with_block source_data "indexedSharePointParameters"
      (fun sp_params =>
         replace_in_indexed_params sp_params openai_endpoint openai_key) ;;
  Ok source_data.

(** Process inferenceParameters (older schema): the inner guard tests the
    key only, not the truth value of the block. *)
Definition replace_in_inference_params (inference : json)
  (openai_endpoint openai_key : string) : res json :=
  c <- py_contains "azureOpenAIParameters" inference ;;
  if c then
    aoai_params <- py_getitem inference "azureOpenAIParameters" ;;
    aoai_params <- replace_aoai aoai_params openai_endpoint openai_key ;;
    py_setitem inference "azureOpenAIParameters" aoai_params
  else Ok inference.

(** Process models array: [for model in kb_data["models"]].  The elements
    of a list are updated in place; the keys of a dict and the characters
    of a str are visited but cannot be updated. *)
Definition replace_in_models (models : json) (openai_endpoint openai_key : string)
  : res json :=
  elements <- py_iter models ;;
  elements <- map_res (fun model =>
                         replace_in_model model openai_endpoint openai_key)
                      elements ;;
  match models with
  | JList _ => Ok (JList elements)
  | _ => Ok models
  end.

Definition replace_placeholders_in_knowledge_base
  (kb_data : dict) (openai_endpoint openai_key : string) : res dict :=
  let kb_data := dict_pop "@odata.context" kb_data in
  let kb_data := dict_pop "@odata.etag" kb_data in
  kb_data <-
    with_block kb_data "models"
      (fun models => replace_in_models models openai_endpoint openai_key) ;;
  kb_data <-
    with_block kb_data "inferenceParameters"
      (fun inference =>
         replace_in_inference_params inference openai_endpoint openai_key) ;;
  Ok kb_data.

(** *** The fields that the Restorer knows *)

Definition PLACEHOLDERS : list string :=
  ["<REDACTED>"; "<AZURE_ENDPOINT_PLACEHOLDER>"; "<BLOB_CONTAINER_PLACEHOLDER>"].

(** Some string of the document, at any depth, is a placeholder token. *)
Fixpoint mentions_placeholder (j : json) : bool :=
  match j with
  | JStr s => PyStr.mem s PLACEHOLDERS
  | JList l => existsb mentions_placeholder l
  | JDict d => existsb (fun kv => mentions_placeholder (snd kv)) d
  | _ => false
  end.

(** The two fields of an [azureOpenAIParameters] block, with the token
    that the Restorer looks for in each. *)
Definition AOAI_FIELDS : list (list string * string) :=
  [ (["azureOpenAIParameters"; "resourceUri"], "<AZURE_ENDPOINT_PLACEHOLDER>");
    (["azureOpenAIParameters"; "apiKey"], "<REDACTED>") ].

(** The two fields of an [aiServices] block. *)
Definition AI_SERVICES_FIELDS : list (list string * string) :=
  [ (["uri"], "<AZURE_ENDPOINT_PLACEHOLDER>"); (["apiKey"], "<REDACTED>") ].

Definition under (prefix : list string) (fields : list (list string * string))
  : list (list string * string) :=
  map (fun pt => (prefix ++ fst pt, snd pt)) fields.

(** The fields of a knowledge source that
    [replace_placeholders_in_knowledge_source] visits. *)
Definition KNOWLEDGE_SOURCE_FIELDS : list (list string * string) :=
  [ (["azureBlobParameters"; "connectionString"], "<REDACTED>");
    (["azureBlobParameters"; "containerName"], "<BLOB_CONTAINER_PLACEHOLDER>") ]
  ++ under ["azureBlobParameters"; "ingestionParameters"; "embeddingModel"] AOAI_FIELDS
  ++ under ["azureBlobParameters"; "ingestionParameters"; "chatCompletionModel"] AOAI_FIELDS
  ++ [ (["azureBlobParameters"; "ingestionParameters"; "aiServices"; "uri"],
        "<AZURE_ENDPOINT_PLACEHOLDER>");
       (["azureBlobParameters"; "ingestionParameters"; "aiServices"; "apiKey"],
        "<REDACTED>") ]
  ++ under ["indexedOneLakeParameters"; "ingestionParameters"; "embeddingModel"] AOAI_FIELDS
  ++ under ["indexedSharePointParameters"; "ingestionParameters"; "embeddingModel"] AOAI_FIELDS.

(** The same fields, block by block. *)
Definition INGESTION_FIELDS : list (list string * string) :=
  under ["embeddingModel"] AOAI_FIELDS
  ++ under ["chatCompletionModel"] AOAI_FIELDS
  ++ under ["aiServices"] AI_SERVICES_FIELDS.

Definition BLOB_FIELDS : list (list string * string) :=
  [ (["connectionString"], "<REDACTED>");
    (["containerName"], "<BLOB_CONTAINER_PLACEHOLDER>") ]
  ++ under ["ingestionParameters"] INGESTION_FIELDS.

Definition INDEXED_FIELDS : list (list string * string) :=
  under ["ingestionParameters"] (under ["embeddingModel"] AOAI_FIELDS).

(** The fields of a knowledge base that
    [replace_placeholders_in_knowledge_base] visits, apart from the
    elements of [models]. *)
Definition KNOWLEDGE_BASE_FIELDS : list (list string * string) :=
  under ["inferenceParameters"] AOAI_FIELDS.

(** Where the AI-services block of a blob knowledge source sits. *)
Definition AI_SERVICES_PATH : list string :=
  ["azureBlobParameters"; "ingestionParameters"; "aiServices"].

(** No listed field of [v] holds the token listed with it. *)
Definition clean (fields : list (list string * string)) (v : json) : Prop :=
  forall path token, In (path, token) fields -> field path v <> JStr token.

(** The credentials are live values: none is a token standing for
    itself, and the AI-services pair is supplied. *)
Definition live_credentials
  (openai_endpoint openai_key storage_connection_string blob_container : string)
  (ai_services_endpoint ai_services_key : option string) : Prop :=
  openai_endpoint <> "<AZURE_ENDPOINT_PLACEHOLDER>" /\
  openai_key <> "<REDACTED>" /\
  storage_connection_string <> "<REDACTED>" /\
  blob_container <> "<BLOB_CONTAINER_PLACEHOLDER>" /\
  exists endpoint key,
    ai_services_available ai_services_endpoint ai_services_key = Some (endpoint, key) /\
    endpoint <> "<AZURE_ENDPOINT_PLACEHOLDER>" /\ key <> "<REDACTED>".

(** ** Deployment *)

(** What [requests.put] gives back: a response, or a
    [requests.RequestException]. *)
Record response : Type := {
  status_code : Z;
  text : string;
  (** [response.json()]; [None] when the body is not JSON
      ([json.JSONDecodeError]) *)
  json_body : option json
}.

Inductive put_result : Type :=
| Responded : response -> put_result
| RequestException : string -> put_result.

(** The lines written by [logger.error]. *)
Inductive log_line : Type :=
| LogHTTP : Z -> log_line                 (* HTTP <status> *)
| LogErrorDetail : json -> log_line       (* Error: <body, as JSON> *)
| LogResponseText : string -> log_line    (* Response: <body, as text> *)
| LogRequestFailed : string -> log_line.  (* Request failed: <e> *)

(** [f"{search_endpoint}/knowledgesources/{source_name}?api-version={API_VERSION}"] *)
Definition knowledge_source_url (search_endpoint source_name : string) : string :=
  (search_endpoint ++ "/knowledgesources/" ++ source_name
   ++ "?api-version=" ++ API_VERSION)%string.

(** [f"{search_endpoint}/knowledgebases/{kb_name}?api-version={API_VERSION}"] *)
Definition knowledge_base_url (search_endpoint kb_name : string) : string :=
  (search_endpoint ++ "/knowledgebases/" ++ kb_name
   ++ "?api-version=" ++ API_VERSION)%string.

Section Deploy.
(** [requests.put(url, headers, json, timeout=60)] with the [api-key]
    header and the payload. *)
Variable requests_put : string -> string -> dict -> put_result.

(** The body shared by the two deploy functions, which differ in the
    URL only. *)
Definition put_document (url search_key : string) (data : dict)
  : bool * list log_line :=
  match requests_put url search_key data with
  | Responded response =>
      if Z.eqb (status_code response) 200
         || Z.eqb (status_code response) 201
         || Z.eqb (status_code response) 204
      then (true, [])
      else
        (false,
         [ LogHTTP (status_code response);
           match json_body response with
           | Some error_detail => LogErrorDetail error_detail
           | None => LogResponseText (text response)
           end ])
  | RequestException e => (false, [LogRequestFailed e])
  end.

Definition deploy_knowledge_source
  (search_endpoint search_key source_name : string) (source_data : dict)
  : bool * list log_line :=
  let url := knowledge_source_url search_endpoint source_name in
  put_document url search_key source_data.

Definition deploy_knowledge_base
  (search_endpoint search_key kb_name : string) (kb_data : dict)
  : bool * list log_line :=
  let url := knowledge_base_url search_endpoint kb_name in
  put_document url search_key kb_data.
End Deploy.

(** A service that answers every PUT with the given status and a body
    that is not JSON. *)
Definition answer (status : Z) (body : string)
  : string -> string -> dict -> put_result :=
  fun _ _ _ =>
    Responded {| status_code := status; text := body; json_body := None |}.

(** The line of the error log that carries the body of a response. *)
Definition body_line (response : response) : log_line :=
  match json_body response with
  | Some error_detail => LogErrorDetail error_detail
  | None => LogResponseText (text response)
  end.

End Restorer.

(* ================================================================== *)
(** * The Graph Exporter: [scripts/dump_az_search.py] *)
(* ================================================================== *)

Module Exporter.
Import Py.

Notation "x <- m ;; k" := (bind m (fun x => k))
  (at level 61, m at next level, right associativity).

(** The dict that [extract_resources_from_ks] returns has four fixed
    keys; [JNull] is Python's [None]. *)
Record resources : Type := {
  indexName : json;
  indexerName : json;
  dataSourceName : json;
  skillsetName : json
}.

Definition no_resources : resources :=
  {| indexName := JNull; indexerName := JNull;
     dataSourceName := JNull; skillsetName := JNull |}.

(** The branch that the source writes three times, for [azureBlob],
    [indexedOneLake] and [indexedSharePoint], with the key of the
    parameter block as the only difference:
    [[
    params = ks.get(params_key, {})
    created = params.get("createdResources", {}) if params else {}
    result["indexName"] = created.get("index")
    ...
    ]] *)
Definition created_resources (ks : dict) (params_key : string) : res resources :=
  let params := dict_get ks params_key (JDict []) in
  created <- (if truthy params
              then py_get_default params "createdResources" (JDict [])
              else Ok (JDict [])) ;;
  index <- py_get created "index" ;;
  indexer <- py_get created "indexer" ;;
  datasource <- py_get created "datasource" ;;
  skillset <- py_get created "skillset" ;;
  Ok {| indexName := index; indexerName := indexer;
        dataSourceName := datasource; skillsetName := skillset |}.

(** The two last branches only print (an information for a remote kind, a
    warning for an unknown one); the printed lines are not modelled.  The
    test [kind in {...}] hashes [kind], which fails on a list or a dict. *)
Definition extract_resources_from_ks (ks : dict) : res resources :=
  let kind := dict_get ks "kind" (JStr EmptyString) in
  if is_str "searchIndex" kind then
    let params := dict_get ks "searchIndexParameters" (JDict []) in
    if truthy params then
      name <- py_get params "searchIndexName" ;;
      Ok {| indexName := name; indexerName := JNull;
            dataSourceName := JNull; skillsetName := JNull |}
    else Ok no_resources
  else if is_str "azureBlob" kind then
    created_resources ks "azureBlobParameters"
  else if is_str "indexedOneLake" kind then
    created_resources ks "indexedOneLakeParameters"
  else if is_str "indexedSharePoint" kind then
    created_resources ks "indexedSharePointParameters"
  else
    match kind with
    | JList _ | JDict _ => Raise TypeError
    | _ => Ok no_resources
    end.

(** *** The dispatch table as the specification words it *)

Definition GENERATED_KINDS : list string :=
  ["azureBlob"; "indexedOneLake"; "indexedSharePoint"].



(** The parameter block of a kind: [azureBlobParameters] for [azureBlob]. *)
Definition parameter_block (kind : string) : string :=
  (kind ++ "Parameters")%string.




(** ** The traversal of [main] *)

Inductive node_kind : Type :=
| KnowledgeBase | KnowledgeSource | Index | Indexer
| DataSource | Skillset | SynonymMap.

Definition node_kind_eqb (a b : node_kind) : bool :=
  match a, b with
  | KnowledgeBase, KnowledgeBase | KnowledgeSource, KnowledgeSource
  | Index, Index | Indexer, Indexer | DataSource, DataSource
  | Skillset, Skillset | SynonymMap, SynonymMap => true
  | _, _ => false
  end.

(** The sub-path of the service for a kind ([get_kb], [get_ks], ...). *)
Definition api_path (k : node_kind) : string :=
  match k with
  | KnowledgeBase => "knowledgebases"
  | KnowledgeSource => "knowledgesources"
  | Index => "indexes"
  | Indexer => "indexers"
  | DataSource => "datasources"
  | Skillset => "skillsets"
  | SynonymMap => "synonymmaps"
  end.

(** The output directory of a kind ([dirs]). *)
Definition out_dir (k : node_kind) : string :=
  match k with
  | KnowledgeBase => "knowledge-bases"
  | KnowledgeSource => "knowledge-sources"
  | Index => "indexes"
  | Indexer => "indexers"
  | DataSource => "datasources"
  | Skillset => "skillsets"
  | SynonymMap => "synonymmaps"
  end.

(** The state of one run: the six dedup sets of [main], and the two
    effects of the run, in order: the GET requests sent and the files
    written. *)
Record state : Type := {
  seen_indexes : list string;
  seen_indexers : list string;
  seen_datasources : list string;
  seen_skillsets : list string;
  seen_synmaps : list string;
  seen_ks : list string;
  requests : list (node_kind * string);
  files : list (node_kind * string * json)
}.

Definition initial : state :=
  {| seen_indexes := []; seen_indexers := []; seen_datasources := [];
     seen_skillsets := []; seen_synmaps := []; seen_ks := [];
     requests := []; files := [] |}.

(** The dedup set of a kind; knowledge bases have none. *)
Definition seen (k : node_kind) (st : state) : list string :=
  match k with
  | KnowledgeBase => []
  | KnowledgeSource => seen_ks st
  | Index => seen_indexes st
  | Indexer => seen_indexers st
  | DataSource => seen_datasources st
  | Skillset => seen_skillsets st
  | SynonymMap => seen_synmaps st
  end.

(** [s.add(x)] *)
Definition set_add (x : string) (s : list string) : list string :=
  if PyStr.mem x s then s else s ++ [x].

Definition mark_seen (k : node_kind) (name : string) (st : state) : state :=
  {| seen_indexes :=
       match k with Index => set_add name (seen_indexes st) | _ => seen_indexes st end;
     seen_indexers :=
       match k with Indexer => set_add name (seen_indexers st) | _ => seen_indexers st end;
     seen_datasources :=
       match k with DataSource => set_add name (seen_datasources st) | _ => seen_datasources st end;
     seen_skillsets :=
       match k with Skillset => set_add name (seen_skillsets st) | _ => seen_skillsets st end;
     seen_synmaps :=
       match k with SynonymMap => set_add name (seen_synmaps st) | _ => seen_synmaps st end;
     seen_ks :=
       match k with KnowledgeSource => set_add name (seen_ks st) | _ => seen_ks st end;
     requests := requests st;
     files := files st |}.

(** [dump(obj, dirs[k] / f"{name}.json", label)] *)
Definition dump (k : node_kind) (name : string) (obj : json) (st : state) : state :=
  {| seen_indexes := seen_indexes st; seen_indexers := seen_indexers st;
     seen_datasources := seen_datasources st;
     seen_skillsets := seen_skillsets st; seen_synmaps := seen_synmaps st;
     seen_ks := seen_ks st;
     requests := requests st;
     files := files st ++ [(k, name, obj)] |}.

Definition record_request (k : node_kind) (name : string) (st : state) : state :=
  {| seen_indexes := seen_indexes st; seen_indexers := seen_indexers st;
     seen_datasources := seen_datasources st;
     seen_skillsets := seen_skillsets st; seen_synmaps := seen_synmaps st;
     seen_ks := seen_ks st;
     requests := requests st ++ [(k, name)];
     files := files st |}.

(** A name read from a document, as the tests [if name and name not in
    seen] treat it: a false value is skipped; a list or a dict cannot be
    hashed; a non-empty str is a name.  A true number or boolean would be
    formatted into the URL and the file name: the service has no such
    names, and the model stops there. *)
Definition name_of (v : json) : res (option string) :=
  if truthy v then
    match v with
    | JStr s => Ok (Some s)
    | JList _ | JDict _ => Raise TypeError
    | _ => Raise Unmodelled
    end
  else Ok None.

(** [if not doc]: a 404, or a document that is false. *)
Definition found (r : option json) : option json :=
  match r with
  | Some doc => if truthy doc then Some doc else None
  | None => None
  end.

(** Sequential loop over a list with a state; the first exception ends it. *)
Fixpoint fold_res {A S : Type} (f : A -> S -> res S) (l : list A) (s : S) : res S :=
  match l with
  | [] => Ok s
  | a :: l' => s' <- f a s ;; fold_res f l' s'
  end.

Section Run.
(** [http_get(endpoint, key, f"{api_path}/{name}")]: [Ok None] on a 404,
    [Raise] when [raise_for_status] or the transport fails.  The
    service is read, never written, during a run. *)
Variable http_get : node_kind -> string -> res (option json).

Definition get (k : node_kind) (name : string) (st : state)
  : res (option json * state) :=
  r <- http_get k name ;;
  Ok (r, record_request k name st).

(** Dump Synonym Maps referenced by the index: the name is marked as
    seen whether the map was found or not. *)
Definition dump_synmap (sm : json) (st : state) : res state :=
  n <- name_of sm ;;
  match n with
  | Some name =>
      if PyStr.mem name (seen SynonymMap st) then Ok st
      else
        rs <- get SynonymMap name st ;;
        let '(r, st) := rs in
        let st := match found r with
                  | Some syn => dump SynonymMap name syn st
                  | None => st
                  end in
        Ok (mark_seen SynonymMap name st)
  | None => Ok st
  end.

(** Dump Index *)
Definition dump_index (index_name : json) (st : state) : res state :=
  n <- name_of index_name ;;
  match n with
  | Some name =>
      if PyStr.mem name (seen Index st) then Ok st
      else
        rs <- get Index name st ;;
        let '(r, st) := rs in
        match found r with
        | Some index =>
            let st := dump Index name index st in
            let st := mark_seen Index name st in
            maps <- py_get_default index "synonymMaps" (JList []) ;;
            maps <- py_iter maps ;;
            fold_res dump_synmap maps st
        | None => Ok st
        end
  | None => Ok st
  end.

(** Dump Indexer / Data Source / Skillset: three blocks of the same
    shape. *)
Definition dump_dependent (k : node_kind) (name : json) (st : state) : res state :=
  n <- name_of name ;;
  match n with
  | Some name =>
      if PyStr.mem name (seen k st) then Ok st
      else
        rs <- get k name st ;;
        let '(r, st) := rs in
        match found r with
        | Some doc => Ok (mark_seen k name (dump k name doc st))
        | None => Ok st
        end
  | None => Ok st
  end.

(** The body of [for ks_ref in kb.get("knowledgeSources", [])]. *)
Definition export_ks_ref (ks_ref : json) (st : state) : res state :=
  ks_name <- py_get ks_ref "name" ;;
  n <- name_of ks_name ;;
  match n with
  | Some ks_name =>
      if PyStr.mem ks_name (seen KnowledgeSource st) then Ok st
      else
        rs <- get KnowledgeSource ks_name st ;;
        let '(r, st) := rs in
        match found r with
        | Some ks =>
            let st := dump KnowledgeSource ks_name ks st in
            let st := mark_seen KnowledgeSource ks_name st in
            (* Extract resource names based on knowledge source kind *)
            rsrc <- match ks with
                    | JDict ks => extract_resources_from_ks ks
                    | _ => Raise AttributeError
                    end ;;
            st <- dump_index (indexName rsrc) st ;;
            st <- dump_dependent Indexer (indexerName rsrc) st ;;
            st <- dump_dependent DataSource (dataSourceName rsrc) st ;;
            dump_dependent Skillset (skillsetName rsrc) st
        | None => Ok st
        end
  | None => Ok st
  end.

(** The body of [for kb_name in kb_names]. *)
Definition export_kb (kb_name : string) (st : state) : res state :=
  rs <- get KnowledgeBase kb_name st ;;
  let '(r, st) := rs in
  match found r with
  | Some kb =>
      let st := dump KnowledgeBase kb_name kb st in
      refs <- py_get_default kb "knowledgeSources" (JList []) ;;
      refs <- py_iter refs ;;
      fold_res export_ks_ref refs st
  | None => Ok st
  end.

(** [main], from the resolved list [kb_names] on. *)
Definition main (kb_names : list string) : res state :=
  fold_res export_kb kb_names initial.

(** How often a node was requested, and how often it was written. *)
Definition request_count (k : node_kind) (name : string) (st : state) : nat :=
  List.length
    (filter (fun r => node_kind_eqb (fst r) k && String.eqb (snd r) name)
            (requests st)).

Definition file_count (k : node_kind) (name : string) (st : state) : nat :=
  List.length
    (filter (fun f => node_kind_eqb (fst (fst f)) k
                      && String.eqb (snd (fst f)) name)
            (files st)).
End Run.

(** What a run knows and did about the knowledge source [name]: whether
    it is in the dedup set, how often it was requested, how often it was
    written. *)
Definition ks_view (name : string) (st : state) : bool * nat * nat :=
  (PyStr.mem name (seen_ks st),
   request_count KnowledgeSource name st,
   file_count KnowledgeSource name st).

(** The source [name] was never asked for; it was asked for once, written
    once, and is in the dedup set. *)
Definition not_yet_requested (name : string) (st : state) : Prop :=
  ks_view name st = (false, 0, 0).

Definition exported_once (name : string) (st : state) : Prop :=
  ks_view name st = (true, 1, 1).

(** The knowledge base document [kb] names the knowledge source [name] in
    its [knowledgeSources]. *)
Definition references (kb : json) (name : string) : Prop :=
  exists refs_value refs ref,
    py_get_default kb "knowledgeSources" (JList []) = Ok refs_value /\
    py_iter refs_value = Ok refs /\
    In ref refs /\
    py_get ref "name" = Ok (JStr name).

(** The knowledge source [name] exists on the service. *)
Definition exists_on_service (http_get : node_kind -> string -> res (option json))
  (k : node_kind) (name : string) : Prop :=
  exists doc, http_get k name = Ok (Some doc) /\ truthy doc = true.

(** A service with two knowledge bases that name the same knowledge
    source, which does not exist. *)
Definition dangling_service (k : node_kind) (name : string) : res (option json) :=
  match k with
  | KnowledgeBase =>
      Ok (Some (JDict [ ("name", JStr name);
                        ("knowledgeSources",
                         JList [ JDict [("name", JStr "ks1")] ]) ]))
  | _ => Ok None
  end.

(** The same two knowledge bases, the knowledge source being there. *)
Definition shared_service (k : node_kind) (name : string) : res (option json) :=
  match k with
  | KnowledgeBase =>
      Ok (Some (JDict [ ("name", JStr name);
                        ("knowledgeSources",
                         JList [ JDict [("name", JStr "ks1")] ]) ]))
  | KnowledgeSource =>
      Ok (Some (JDict [ ("name", JStr name); ("kind", JStr "web") ]))
  | _ => Ok None
  end.

(** The state in which the run on [shared_service] for the roots [kb1]
    and [kb2] ends. *)
Definition shared_run : state :=
  {| seen_indexes := []; seen_indexers := []; seen_datasources := [];
     seen_skillsets := []; seen_synmaps := [];
     seen_ks := ["ks1"];
     requests := [ (KnowledgeBase, "kb1"); (KnowledgeSource, "ks1");
                   (KnowledgeBase, "kb2") ];
     files :=
       [ (KnowledgeBase, "kb1",
          JDict [ ("name", JStr "kb1");
                  ("knowledgeSources", JList [ JDict [("name", JStr "ks1")] ]) ]);
         (KnowledgeSource, "ks1",
          JDict [ ("name", JStr "ks1"); ("kind", JStr "web") ]);
         (KnowledgeBase, "kb2",
          JDict [ ("name", JStr "kb2");
                  ("knowledgeSources", JList [ JDict [("name", JStr "ks1")] ]) ]) ] |}.

(** The state in which the run on [dangling_service] ends. *)
Definition dangling_run : state :=
  {| seen_indexes := []; seen_indexers := []; seen_datasources := [];
     seen_skillsets := []; seen_synmaps := [];
     seen_ks := [];
     requests := [ (KnowledgeBase, "kb1"); (KnowledgeSource, "ks1");
                   (KnowledgeBase, "kb2"); (KnowledgeSource, "ks1") ];
     files :=
       [ (KnowledgeBase, "kb1",
          JDict [ ("name", JStr "kb1");
                  ("knowledgeSources", JList [ JDict [("name", JStr "ks1")] ]) ]);
         (KnowledgeBase, "kb2",
          JDict [ ("name", JStr "kb2");
                  ("knowledgeSources", JList [ JDict [("name", JStr "ks1")] ]) ]) ] |}.

End Exporter.

(* ================================================================== *)
(** * Sample documents *)
(* ================================================================== *)

Module Samples.
Import Py.

(** An [indexedSharePoint] knowledge source as the service returns it. *)
Definition sharepoint_source : dict :=
  [ ("@odata.etag", JStr "0x8DE0A1B2C3D4E5F");
    ("name", JStr "sp-ks");
    ("kind", JStr "indexedSharePoint");
    ("indexedSharePointParameters",
     JDict
       [ ("connectionString",
          JStr "SharePointOnlineEndpoint=https://contoso.sharepoint.com/sites/hr;ApplicationId=11111111;ApplicationSecret=s3cr3t");
         ("containerName", JStr "defaultSiteLibrary");
         ("ingestionParameters",
          JDict
            [ ("embeddingModel",
               JDict
                 [ ("kind", JStr "azureOpenAI");
                   ("azureOpenAIParameters",
                    JDict
                      [ ("resourceUri", JStr "https://contoso.openai.azure.com");
                        ("deploymentId", JStr "text-embedding-3-large");
                        ("apiKey", JStr "abc123") ]) ]) ]) ]) ].

(** A sanitized [azureBlob] knowledge source with an AI-services block. *)
Definition blob_source : dict :=
  [ ("name", JStr "blob-ks");
    ("kind", JStr "azureBlob");
    ("azureBlobParameters",
     JDict
       [ ("connectionString", JStr "<REDACTED>");
         ("containerName", JStr "<BLOB_CONTAINER_PLACEHOLDER>");
         ("ingestionParameters",
          JDict
            [ ("embeddingModel",
               JDict
                 [ ("kind", JStr "azureOpenAI");
                   ("azureOpenAIParameters",
                    JDict
                      [ ("resourceUri", JStr "<AZURE_ENDPOINT_PLACEHOLDER>");
                        ("deploymentId", JStr "text-embedding-3-large");
                        ("apiKey", JStr "<REDACTED>") ]) ]);
              ("chatCompletionModel", JNull);
              ("aiServices",
               JDict [ ("uri", JStr "<AZURE_ENDPOINT_PLACEHOLDER>");
                       ("apiKey", JStr "<REDACTED>") ]) ]) ]) ].

(** A sanitized knowledge base with one model. *)
Definition knowledge_base : dict :=
  [ ("name", JStr "kb1");
    ("knowledgeSources", JList [ JDict [("name", JStr "blob-ks")] ]);
    ("models",
     JList
       [ JDict
           [ ("kind", JStr "azureOpenAI");
             ("azureOpenAIParameters",
              JDict
                [ ("resourceUri", JStr "<AZURE_ENDPOINT_PLACEHOLDER>");
                  ("deploymentId", JStr "gpt-4o");
                  ("apiKey", JStr "<REDACTED>") ]) ] ]) ].

(** A knowledge source without tokens whose connection string is empty. *)
Definition keyless_blob_source : dict :=
  [ ("name", JStr "blob-ks");
    ("kind", JStr "azureBlob");
    ("azureBlobParameters",
     JDict [ ("connectionString", JStr EmptyString);
             ("containerName", JStr "docs") ]) ].

(** A knowledge source without tokens, complete. *)
Definition plain_blob_source : dict :=
  [ ("@odata.etag", JStr "0x8DE0A1B2C3D4E5F");
    ("name", JStr "blob-ks");
    ("kind", JStr "azureBlob");
    ("azureBlobParameters",
     JDict [ ("connectionString", JStr "ResourceId=/subscriptions/s/storage;");
             ("containerName", JStr "docs") ]) ].

(** A store with one document: a dict that holds a secret, a dict and a
    list. *)
Definition store_before : Store.heap :=
  [ Store.DictObj [ ("apiKey", Store.Scalar (JStr "abc123"));
                    ("container", Store.Ref 1);
                    ("urls", Store.Ref 2) ];
    Store.DictObj [ ("name", Store.Scalar (JStr "kr-demos")) ];
    Store.ListObj [ Store.Scalar (JStr "https://contoso.blob.core.windows.net/docs");
                    Store.Scalar (JInt 3) ] ].

(** The same store after [sanitize_dict] ran on the document at address 0. *)
Definition store_after : Store.heap :=
  store_before
  ++ [ Store.DictObj [ ("apiKey", Store.Scalar (JStr "<REDACTED>"));
                       ("container", Store.Ref 4);
                       ("urls", Store.Ref 5) ];
       Store.DictObj [ ("name", Store.Scalar (JStr "<BLOB_CONTAINER_PLACEHOLDER>")) ];
       Store.ListObj [ Store.Scalar (JStr "<AZURE_ENDPOINT_PLACEHOLDER>");
                       Store.Scalar (JInt 3) ] ].

End Samples.

(* ================================================================== *)
(** * Documents as [json.load] builds them, and what they hold *)
(* ================================================================== *)

Module Documents.
Import Py.

(** No string occurs twice in the list. *)
Fixpoint distinct (ks : list string) : bool :=
  match ks with
  | [] => true
  | k :: ks' => negb (PyStr.mem k ks') && distinct ks'
  end.

(** A Python dict holds a key once: in a document that [json.load]
    returned, the keys of every dict, at every depth, are distinct. *)
Fixpoint well_formed (v : json) : bool :=
  match v with
  | JDict d => distinct (map fst d) && forallb (fun kv => well_formed (snd kv)) d
  | JList l => forallb well_formed l
  | _ => true
  end.

(** Every string value of the document, at any depth, passes the test
    [p].  The keys of a dict are not values. *)
Fixpoint all_strings (p : string -> bool) (v : json) : bool :=
  match v with
  | JStr s => p s
  | JList l => forallb (all_strings p) l
  | JDict d => forallb (fun kv => all_strings p (snd kv)) d
  | _ => true
  end.

(** A string of ASCII characters: on such strings [str.lower] and
    [re.IGNORECASE] are what [PyStr.lower] and [Re.re_match] compute. *)
Definition ascii_only (s : string) : bool :=
  forallb (fun c => (nat_of_ascii c <? 128)%nat) (list_ascii_of_string s).

(** The test of a string value that is not an Azure service URL. *)
Definition not_azure_url (s : string) : bool :=
  negb (Sanitizer.is_azure_url (JStr s)).

(** The three tokens that the Sanitizer writes. *)
Definition SANITIZER_PLACEHOLDERS : list string :=
  [ Sanitizer.REDACTED_PLACEHOLDER; Sanitizer.URL_PLACEHOLDER;
    Sanitizer.CONTAINER_PLACEHOLDER ].

(** [redaction v v']: the document [v'] is the document [v] in which some
    strings have been replaced by one of the three tokens, and nothing
    else differs: the same keys in the same order, lists of the same
    length, the same numbers, booleans and nulls. *)
Fixpoint redaction (v v' : json) {struct v} : Prop :=
  match v, v' with
  | JDict d, JDict d' =>
      (fix items (d d' : list (string * json)) {struct d} : Prop :=
         match d, d' with
         | [], [] => True
         | (k, x) :: d, (k', x') :: d' => k' = k /\ redaction x x' /\ items d d'
         | _, _ => False
         end) d d'
  | JList l, JList l' =>
      (fix elements (l l' : list json) {struct l} : Prop :=
         match l, l' with
         | [], [] => True
         | x :: l, x' :: l' => redaction x x' /\ elements l l'
         | _, _ => False
         end) l l'
  | JStr s, JStr s' => s' = s \/ In s' SANITIZER_PLACEHOLDERS
  | JDict _, _ | JList _, _ | JStr _, _ => False
  | _, _ => v' = v
  end.

End Documents.

(* ================================================================== *)
(** * The Sanitizer: [main] of [scripts/sanitize_data.py] *)
(* ================================================================== *)

Module SanitizerMain.
Import Py.

(** How a script ends: [main] returns, [sys.exit(code)] is called, or an
    exception escapes. *)
Inductive ending (A : Type) : Type :=
| Returned : A -> ending A
| Exited : Z -> ending A
| Uncaught : exn -> ending A.
Arguments Returned {A} _.
Arguments Exited {A} _.
Arguments Uncaught {A} _.

(** An entry of the data directory, as [sorted(data_dir.iterdir())] yields
    it: its name, whether it is a directory and, for a directory, the
    paths that [sorted(subdir.glob('*.json'))] yields. *)
Record entry : Type := {
  name : string;
  is_dir : bool;
  json_files : list string
}.

(** The command line: [--data-dir], given by the entries of the directory
    ([None] when it does not exist), [--dry-run] and [--exclude]. *)
Record args : Type := {
  data_dir : option (list entry);
  dry_run : bool;
  exclude : list string
}.

(** The two counters of [main]. *)
Record counts : Type := {
  modified_count : nat;
  total_count : nat
}.

Section Main.
Variable json_load : string -> option json.
Variable json_dumps : bool -> json -> string.

(** The body of [for json_file in sorted(json_files)]. *)
Definition sanitize_one (dry_run : bool) (json_file : string)
  (st : counts * Sanitizer.filesystem) : res (counts * Sanitizer.filesystem) :=
  let '(c, fs) := st in
  let total_count := S (total_count c) in
  bind (Sanitizer.sanitize_file json_load json_dumps fs json_file dry_run)
       (fun r =>
          let '(modified, fs) := r in
          Ok ({| modified_count := if modified : bool
                                   then S (modified_count c)
                                   else modified_count c;
                 total_count := total_count |}, fs)).

(** The body of [for subdir in sorted(data_dir.iterdir())]. *)
Definition sanitize_subdir (dry_run : bool) (exclude_dirs : list string)
  (subdir : entry) (st : counts * Sanitizer.filesystem)
  : res (counts * Sanitizer.filesystem) :=
  if negb (is_dir subdir) then Ok st
  else if PyStr.mem (name subdir) exclude_dirs then Ok st
  else Exporter.fold_res (sanitize_one dry_run) (json_files subdir) st.

Definition main (a : args) (fs : Sanitizer.filesystem)
  : ending (counts * Sanitizer.filesystem) :=
  match data_dir a with
  | None => Exited 1
  | Some entries =>
      match Exporter.fold_res (sanitize_subdir (dry_run a) (exclude a)) entries
              ({| modified_count := 0; total_count := 0 |}, fs) with
      | Ok r => Returned r
      | Raise e => Uncaught e
      end
  end.

(** The file at [path] holds a JSON document. *)
Definition parses (fs : Sanitizer.filesystem) (path : string) : bool :=
  match fs path with
  | Some content => match json_load content with Some _ => true | None => false end
  | None => false
  end.
End Main.

(** The files that a run works on: the JSON files of the directories that
    are not excluded. *)
Definition selected (a : args) : list string :=
  match data_dir a with
  | None => []
  | Some entries =>
      flat_map json_files
        (filter (fun e => is_dir e && negb (PyStr.mem (name e) (exclude a)))
                entries)
  end.

(** A toy parser and printer for the examples: the content [{}] is the
    empty object, everything else is not JSON. *)
Definition toy_load (content : string) : option json :=
  if String.eqb content "{}" then Some (JDict []) else None.

Definition toy_dumps (ensure_ascii : bool) (v : json) : string := "{}".

(** A data directory with one excluded directory, one plain file and one
    directory with two files, the second of which is not JSON. *)
Definition sample_args (dry_run : bool) : args :=
  {| data_dir :=
       Some [ {| name := "blob"; is_dir := true; json_files := ["blob/a.json"] |};
              {| name := "README.md"; is_dir := false; json_files := [] |};
              {| name := "indexes"; is_dir := true;
                 json_files := ["indexes/i1.json"; "indexes/i2.json"] |} ];
     dry_run := dry_run;
     exclude := ["blob"] |}.

Definition sample_files : Sanitizer.filesystem :=
  fun path =>
    if String.eqb path "blob/a.json" then Some "{}"
    else if String.eqb path "indexes/i1.json" then Some "{}"
    else if String.eqb path "indexes/i2.json" then Some "not json"
    else None.

(** The files after a run on them without [--dry-run]. *)
Definition sample_files_after : Sanitizer.filesystem :=
  Sanitizer.write_file sample_files "indexes/i1.json" "{}".

End SanitizerMain.

(* ================================================================== *)
(** * Updates of a document at fixed keys *)
(* ================================================================== *)

Module Locality.
Import Py.

(** Two values look alike at the key [k]: two dicts in which [x.get(k)]
    is the same value, or one and the same value that is not a dict. *)
Definition same_at (k : string) (x y : json) : Prop :=
  match x, y with
  | JDict d, JDict d' => dict_get d k JNull = dict_get d' k JNull
  | JDict _, _ | _, JDict _ => False
  | _, _ => x = y
  end.

(** The step [f] reads and writes its argument at the keys [keys] only:
    it leaves every other key alone, and a value that looks at [keys] like
    a result of [f] is returned by [f] as it is. *)
Definition acts_on (keys : list string) (f : json -> res json) : Prop :=
  (forall x x', f x = Ok x' ->
     forall y, (forall k, In k keys -> same_at k x' y) -> f y = Ok y) /\
  (forall x x', f x = Ok x' ->
     forall k, ~ In k keys -> same_at k x x').

End Locality.

(* ================================================================== *)
(** * More sample documents *)
(* ================================================================== *)

Module RestoreSamples.
Import Py.

(** An [azureBlob] knowledge source as the service returns it. *)
Definition exported_blob_source : dict :=
  [ ("@odata.context",
     JStr "https://old.search.windows.net/$metadata#knowledgesources/$entity");
    ("name", JStr "blob-ks");
    ("kind", JStr "azureBlob");
    ("azureBlobParameters",
     JDict
       [ ("connectionString",
          JStr "DefaultEndpointsProtocol=https;AccountName=old;AccountKey=abc");
         ("containerName", JStr "kr-demos");
         ("ingestionParameters",
          JDict
            [ ("embeddingModel",
               JDict
                 [ ("kind", JStr "azureOpenAI");
                   ("azureOpenAIParameters",
                    JDict
                      [ ("resourceUri", JStr "https://old.openai.azure.com");
                        ("deploymentId", JStr "text-embedding-3-large");
                        ("apiKey", JStr "old-key") ]) ]) ]) ]) ].

(** The same knowledge source, sanitized and then restored with the
    credentials of another deployment. *)
Definition restored_blob_source : dict :=
  [ ("name", JStr "blob-ks");
    ("kind", JStr "azureBlob");
    ("azureBlobParameters",
     JDict
       [ ("connectionString",
          JStr "DefaultEndpointsProtocol=https;AccountName=live");
         ("containerName", JStr "docs");
         ("ingestionParameters",
          JDict
            [ ("embeddingModel",
               JDict
                 [ ("kind", JStr "azureOpenAI");
                   ("azureOpenAIParameters",
                    JDict
                      [ ("resourceUri", JStr "https://live.openai.azure.com");
                        ("deploymentId", JStr "text-embedding-3-large");
                        ("apiKey", JStr "live-key") ]) ]) ]) ]) ].

(** A knowledge base as the service returns it, and the same knowledge
    base sanitized and then restored. *)
Definition exported_knowledge_base : dict :=
  [ ("@odata.etag", JStr "0x8DE0A1B2C3D4E5F");
    ("name", JStr "kb1");
    ("knowledgeSources", JList [ JDict [("name", JStr "blob-ks")] ]);
    ("models",
     JList
       [ JDict
           [ ("kind", JStr "azureOpenAI");
             ("azureOpenAIParameters",
              JDict
                [ ("resourceUri", JStr "https://old.openai.azure.com");
                  ("deploymentId", JStr "gpt-4o");
                  ("apiKey", JStr "old-key") ]) ] ]) ].

Definition restored_knowledge_base : dict :=
  [ ("name", JStr "kb1");
    ("knowledgeSources", JList [ JDict [("name", JStr "blob-ks")] ]);
    ("models",
     JList
       [ JDict
           [ ("kind", JStr "azureOpenAI");
             ("azureOpenAIParameters",
              JDict
                [ ("resourceUri", JStr "https://live.openai.azure.com");
                  ("deploymentId", JStr "gpt-4o");
                  ("apiKey", JStr "live-key") ]) ] ]) ].

End RestoreSamples.

(* ================================================================== *)
(** * The Restorer: the two deployment loops of [main] *)
(* ================================================================== *)

Module RestorerMain.
Import Py Restorer.

(** What steps 1 to 3 of [main] collect: the search endpoint and admin
    key, the Azure OpenAI endpoint and key, the storage connection
    string, the blob container, and the AI-services pair, which may be
    missing. *)
Record credentials : Type := {
  search_endpoint : string;
  search_key : string;
  openai_endpoint : string;
  openai_key : string;
  storage_connection_string : string;
  blob_container : string;
  ai_services_endpoint : option string;
  ai_services_key : option string
}.

(** A configuration file is given as [sorted(directory.glob('*.json'))]
    yields it, by its stem (the file name without the suffix) and its
    content.  A PUT request that was sent is recorded by its URL, its
    payload and whether the deploy function returned [True]. *)

(** The URL and payload of the requests sent so far. *)
Definition history (sent : list (string * dict * bool)) : list (string * dict) :=
  map fst sent.

Section Main.
Variable json_load : string -> option json.
(** [requests.put] on a service that changes with every request: its
    answer may depend on the requests sent before, the first argument. *)
Variable requests_put :
  list (string * dict) -> string -> string -> dict -> put_result.
Variable c : credentials.

(** The loop that [main] writes twice, over the knowledge source files
    and over the knowledge base files:
    [[
    for file in files:
        name = file.stem
        try:
            data = json.load(f)
            data = replace(data)
            if deploy(search_endpoint, search_key, name, data): ...
            else: sys.exit(1)
        except Exception as e:
            sys.exit(1)
    ]]
    A content that is not JSON raises in [json.load]; a document that is
    not an object raises in [replace], which starts with [data.pop(key,
    None)].  [deploy] is [deploy_knowledge_source] or
    [deploy_knowledge_base], which differ in the URL.  The result is the
    requests sent, those sent before the loop included, and whether the
    loop came to its end; when it did not, the run has ended with
    [sys.exit(1)]. *)
Fixpoint deploy_files (url : string -> string) (replace : dict -> res dict)
  (files : list (string * string)) (sent : list (string * dict * bool))
  : list (string * dict * bool) * bool :=
  match files with
  | [] => (sent, true)
  | (name, content) :: rest =>
      match json_load content with
      | Some (JDict data) =>
          match replace data with
          | Ok data =>
              let deployed :=
                fst (put_document (requests_put (history sent))
                                  (url name) (search_key c) data) in
              let sent := sent ++ [(url name, data, deployed)] in
              if deployed then deploy_files url replace rest sent
              else (sent, false)
          | Raise _ => (sent, false)
          end
      | _ => (sent, false)
      end
  end.

(** Deploy Knowledge Sources *)
Definition deploy_knowledge_sources (source_files : list (string * string))
  (sent : list (string * dict * bool)) : list (string * dict * bool) * bool :=
  deploy_files
    (knowledge_source_url (search_endpoint c))
    (fun source_data =>
       replace_placeholders_in_knowledge_source source_data
         (openai_endpoint c) (openai_key c) (storage_connection_string c)
         (blob_container c) (ai_services_endpoint c) (ai_services_key c))
    source_files sent.

(** Deploy Knowledge Bases *)
Definition deploy_knowledge_bases (kb_files : list (string * string))
  (sent : list (string * dict * bool)) : list (string * dict * bool) * bool :=
  deploy_files
    (knowledge_base_url (search_endpoint c))
    (fun kb_data =>
       replace_placeholders_in_knowledge_base kb_data
         (openai_endpoint c) (openai_key c))
    kb_files sent.

(** Steps 4 and 5 of [main].  A directory that does not exist ([None]) is
    passed over with a warning.  The result is the requests sent, in
    order, and the exit status of the script. *)
Definition main (knowledge_sources_dir knowledge_bases_dir : option (list (string * string)))
  : list (string * dict * bool) * Z :=
  let '(sent, completed) :=
    match knowledge_sources_dir with
    | Some source_files => deploy_knowledge_sources source_files []
    | None => ([], true)
    end in
  if completed then
    let '(sent, completed) :=
      match knowledge_bases_dir with
      | Some kb_files => deploy_knowledge_bases kb_files sent
      | None => (sent, true)
      end in
    (sent, if completed then 0%Z else 1%Z)
  else (sent, 1%Z).

(** The URLs of a run in which nothing fails: one per file, the knowledge
    sources first. *)
Definition planned (knowledge_sources_dir knowledge_bases_dir : option (list (string * string)))
  : list string :=
  map (fun f => knowledge_source_url (search_endpoint c) (fst f))
      (match knowledge_sources_dir with Some files => files | None => [] end)
  ++ map (fun f => knowledge_base_url (search_endpoint c) (fst f))
         (match knowledge_bases_dir with Some files => files | None => [] end).

(** Every recorded outcome is the answer of the service to that request,
    after the requests recorded before it. *)
Fixpoint answered_after (before : list (string * dict))
  (sent : list (string * dict * bool)) : bool :=
  match sent with
  | [] => true
  | (url, data, deployed) :: rest =>
      Bool.eqb deployed
        (fst (put_document (requests_put before) url (search_key c) data))
      && answered_after (before ++ [(url, data)]) rest
  end.
End Main.

(** The URLs of the requests, and their outcomes. *)
Definition urls (sent : list (string * dict * bool)) : list string :=
  map (fun r => fst (fst r)) sent.

Definition outcomes (sent : list (string * dict * bool)) : list bool :=
  map snd sent.

(** A toy parser for the examples: two contents are documents, everything
    else is not JSON. *)
Definition toy_load (content : string) : option json :=
  if String.eqb content "source" then Some (JDict Samples.plain_blob_source)
  else if String.eqb content "base" then Some (JDict Samples.knowledge_base)
  else None.

(** A service that accepts a knowledge source, and accepts a knowledge
    base when it has received two requests before. *)
Definition needs_two_sources (before : list (string * dict))
  (url key : string) (data : dict) : put_result :=
  Responded
    {| status_code :=
         if PyStr.contains "/knowledgesources/" url then 201%Z
         else if (2 <=? List.length before)%nat then 201%Z
         else 400%Z;
       text := "Bad Request"; json_body := None |}.

Definition sample_credentials : credentials :=
  {| search_endpoint := "https://live.search.windows.net";
     search_key := "admin-key";
     openai_endpoint := "https://live.openai.azure.com";
     openai_key := "live-key";
     storage_connection_string := "DefaultEndpointsProtocol=https;AccountName=live";
     blob_container := "docs";
     ai_services_endpoint := None;
     ai_services_key := None |}.

End RestorerMain.

(* ================================================================== *)
(** * The Graph Exporter: what a run did, step by step *)
(* ================================================================== *)

Module Trace.
Import Py Exporter.

(** The names of the files of a kind that a run has written, and the
    names that it has requested, in order. *)
Definition written (k : node_kind) (st : state) : list string :=
  map (fun f => snd (fst f))
      (filter (fun f => node_kind_eqb (fst (fst f)) k) (files st)).

Definition requested (k : node_kind) (st : state) : list string :=
  map snd (filter (fun r => node_kind_eqb (fst r) k) (requests st)).

(** The kinds whose dedup set is filled when a file is written: all but
    the knowledge bases, which have no set, and the synonym maps, whose
    set is filled when a map is asked for. *)
Definition deduplicated (k : node_kind) : bool :=
  match k with
  | KnowledgeBase | SynonymMap => false
  | _ => true
  end.

(** The two things that [main] does with a name: it asks for the object
    and finds it ([Stored]: the request, then [dump], then the dedup set),
    or asks and does not find it ([Missed]: the request only; for a
    synonym map the dedup set as well). *)
Inductive event : Type :=
| Stored : node_kind -> string -> json -> event
| Missed : node_kind -> string -> event.

Definition kind_of (e : event) : node_kind :=
  match e with
  | Stored k _ _ => k
  | Missed k _ => k
  end.

Definition apply_event (e : event) (st : state) : state :=
  match e with
  | Stored k name obj =>
      let st := dump k name obj (record_request k name st) in
      match k with
      | KnowledgeBase => st
      | _ => mark_seen k name st
      end
  | Missed k name =>
      let st := record_request k name st in
      match k with
      | SynonymMap => mark_seen k name st
      | _ => st
      end
  end.

Section Events.
Variable http_get : node_kind -> string -> res (option json).

(** When [main] does it: the service gave that answer, and the name was
    not in the dedup set of its kind. *)
Definition happens (e : event) (st : state) : Prop :=
  match e with
  | Stored k name obj =>
      http_get k name = Ok (Some obj) /\ truthy obj = true /\
      PyStr.mem name (seen k st) = false
  | Missed k name =>
      (exists r, http_get k name = Ok r /\ found r = None) /\
      PyStr.mem name (seen k st) = false
  end.

(** [course allowed st st']: the state [st'] comes from [st] by a
    sequence of such events, all of kinds that [allowed] admits. *)
Inductive course (allowed : node_kind -> bool) : state -> state -> Prop :=
| course_done : forall st, course allowed st st
| course_step : forall st e st',
    happens e st -> allowed (kind_of e) = true ->
    course allowed (apply_event e st) st' ->
    course allowed st st'.

(** The knowledge base [name] is on the service. *)
Definition on_service (name : string) : bool :=
  match http_get KnowledgeBase name with
  | Ok r => match found r with Some _ => true | None => false end
  | Raise _ => false
  end.
End Events.

(** Every kind but the knowledge bases; every kind. *)
Definition below_roots (k : node_kind) : bool :=
  negb (node_kind_eqb k KnowledgeBase).

Definition any_kind (k : node_kind) : bool := true.

(** A service with one knowledge base, [kb1]; its knowledge source wraps
    the index [idx], which names the synonym maps [syn-a] and [syn-b],
    twice each; the service has [syn-a] only. *)
Definition synonym_service (k : node_kind) (name : string) : res (option json) :=
  match k with
  | KnowledgeBase =>
      if String.eqb name "kb1"
      then Ok (Some (JDict [ ("name", JStr "kb1");
                             ("knowledgeSources",
                              JList [ JDict [("name", JStr "ks1")] ]) ]))
      else Ok None
  | KnowledgeSource =>
      Ok (Some (JDict [ ("name", JStr name);
                        ("kind", JStr "searchIndex");
                        ("searchIndexParameters",
                         JDict [ ("searchIndexName", JStr "idx") ]) ]))
  | Index =>
      Ok (Some (JDict [ ("name", JStr name);
                        ("synonymMaps",
                         JList [ JStr "syn-a"; JStr "syn-b"; JStr "syn-a";
                                 JStr "syn-b" ]) ]))
  | SynonymMap =>
      if String.eqb name "syn-a"
      then Ok (Some (JDict [ ("name", JStr "syn-a") ]))
      else Ok None
  | _ => Ok None
  end.

(** The state in which the run on [synonym_service] for the roots [kb1],
    [kb2], [kb1] ends. *)
Definition synonym_run : state :=
  {| seen_indexes := ["idx"]; seen_indexers := []; seen_datasources := [];
     seen_skillsets := [];
     seen_synmaps := ["syn-a"; "syn-b"];
     seen_ks := ["ks1"];
     requests :=
       [ (KnowledgeBase, "kb1"); (KnowledgeSource, "ks1"); (Index, "idx");
         (SynonymMap, "syn-a"); (SynonymMap, "syn-b");
         (KnowledgeBase, "kb2"); (KnowledgeBase, "kb1") ];
     files :=
       [ (KnowledgeBase, "kb1",
          JDict [ ("name", JStr "kb1");
                  ("knowledgeSources", JList [ JDict [("name", JStr "ks1")] ]) ]);
         (KnowledgeSource, "ks1",
          JDict [ ("name", JStr "ks1"); ("kind", JStr "searchIndex");
                  ("searchIndexParameters",
                   JDict [ ("searchIndexName", JStr "idx") ]) ]);
         (Index, "idx",
          JDict [ ("name", JStr "idx");
                  ("synonymMaps",
                   JList [ JStr "syn-a"; JStr "syn-b"; JStr "syn-a";
                           JStr "syn-b" ]) ]);
         (SynonymMap, "syn-a", JDict [ ("name", JStr "syn-a") ]);
         (KnowledgeBase, "kb1",
          JDict [ ("name", JStr "kb1");
                  ("knowledgeSources", JList [ JDict [("name", JStr "ks1")] ]) ]) ] |}.

(** A service on which the request for the root [kb1] fails. *)
Definition failing_service (k : node_kind) (name : string) : res (option json) :=
  match k with
  | KnowledgeBase => if String.eqb name "kb1" then Raise HTTPError else Ok None
  | _ => Ok None
  end.

End Trace.

(* ================================================================== *)
(** * Paths into a document *)
(* ================================================================== *)

Module Paths.
Import Py.

(** One step into a document: to the value under a key of an object, or
    to the element at a position of a list. *)
Inductive step : Type :=
| Key : string -> step
| Index : nat -> step.

(** The value that a path reaches in a document, through objects and
    lists at any depth; [None] where the path cannot be followed. *)
Fixpoint at_path (p : list step) (v : json) : option json :=
  match p with
  | [] => Some v
  | Key k :: p' =>
      match v with
      | JDict d =>
          match dict_find k d with
          | Some x => at_path p' x
          | None => None
          end
      | _ => None
      end
  | Index i :: p' =>
      match v with
      | JList l =>
          match nth_error l i with
          | Some x => at_path p' x
          | None => None
          end
      | _ => None
      end
  end.

End Paths.

(* ================================================================== *)
(** * What a step of the Restorer keeps *)
(* ================================================================== *)

Module Substitution.
Import Py.

(** A value at which a field path ends: anything but an object. *)
Definition leaf (v : json) : Prop :=
  match v with
  | JDict _ => False
  | _ => True
  end.

(** The value is none of the three tokens. *)
Definition no_token (v : json) : Prop :=
  forall token, In token Restorer.PLACEHOLDERS -> v <> JStr token.

(** The step [f] keeps every field that ends in a leaf other than a
    token, apart from the fields that [except] lists by path and value. *)
Definition keeps (except : list string -> json -> Prop) (f : json -> res json)
  : Prop :=
  forall x x', f x = Ok x' ->
  forall path, leaf (field path x) -> no_token (field path x) ->
               ~ except path (field path x) ->
               field path x' = field path x.

(** The exception [except], one key further down: the path goes through
    [k], and the guard of the descent under [k] was true. *)
Definition below (k : string) (except : list string -> json -> Prop)
  (path : list string) (v : json) : Prop :=
  match path with
  | [] => False
  | k' :: p => k' = k /\ except p v /\ (p = [] -> truthy v = true)
  end.

Definition nowhere (path : list string) (v : json) : Prop := False.

(** The [connectionString] of the blob block, filled in when it is
    missing, [None] or empty, as well as when it is the token. *)
Definition unset_connection_string (path : list string) (v : json) : Prop :=
  path = ["connectionString"] /\ Restorer.connection_string_unset v = true.

(** The [aiServices] block of the ingestion parameters, replaced by
    [None] when no AI-services credential is supplied: every field that
    held something is gone. *)
Definition dropped_ai_services (e k : option string) (path : list string)
  (v : json) : Prop :=
  Restorer.ai_services_available e k = None /\
  below "aiServices" (fun _ w => w <> JNull) path v.

(** The two exceptions, seen from the blob block. *)
Definition blob_exceptions (e k : option string) (path : list string) (v : json)
  : Prop :=
  unset_connection_string path v \/
  below "ingestionParameters" (dropped_ai_services e k) path v.

End Substitution.

(* ================================================================== *)
(** * Sample documents with nested blocks *)
(* ================================================================== *)

Module NestedSamples.
Import Py.

(** A skillset as the service returns it: metadata keys at the top and
    inside a nested object, secrets two and three levels down, one of
    them inside a list. *)
Definition skillset : dict :=
  [ ("@odata.context",
     JStr "https://contoso.search.windows.net/$metadata#skillsets/$entity");
    ("@odata.etag", JStr "0x8DE0A1B2C3D4E5F");
    ("name", JStr "ss1");
    ("skills",
     JList
       [ JDict [ ("name", JStr "embed");
                 ("@odata.etag", JStr "0x1");
                 ("apiKey", JStr "abc123");
                 ("inputs", JList [ JDict [ ("name", JStr "text") ] ]) ] ]);
    ("cognitiveServices",
     JDict [ ("@odata.type", JStr "#Microsoft.Azure.Search.AIServicesByKey");
             ("key", JStr "k-42") ]) ].

(** A sanitized blob knowledge source whose [aiServices] block is the
    empty object. *)
Definition free_tier_source : dict :=
  [ ("name", JStr "blob-ks");
    ("kind", JStr "azureBlob");
    ("azureBlobParameters",
     JDict
       [ ("connectionString", JStr "<REDACTED>");
         ("containerName", JStr "docs");
         ("ingestionParameters",
          JDict [ ("embeddingModel", JNull);
                  ("aiServices", JDict []) ]) ]) ].

(** A blob knowledge source in which the key of the embedding model is
    the token and its endpoint is a live value. *)
Definition half_sanitized_source : dict :=
  [ ("@odata.etag", JStr "0x8DE0A1B2C3D4E5F");
    ("name", JStr "blob-ks");
    ("kind", JStr "azureBlob");
    ("azureBlobParameters",
     JDict
       [ ("connectionString", JStr "ResourceId=/subscriptions/s/storage;");
         ("containerName", JStr "docs");
         ("ingestionParameters",
          JDict
            [ ("embeddingModel",
               JDict
                 [ ("kind", JStr "azureOpenAI");
                   ("azureOpenAIParameters",
                    JDict
                      [ ("resourceUri", JStr "https://mine.openai.azure.com");
                        ("deploymentId", JStr "text-embedding-3-large");
                        ("apiKey", JStr "<REDACTED>") ]) ]) ]) ]) ].

(** A knowledge base in which the key of the one model is the token and
    its endpoint is a live value. *)
Definition half_sanitized_base : dict :=
  [ ("name", JStr "kb1");
    ("models",
     JList
       [ JDict
           [ ("kind", JStr "azureOpenAI");
             ("azureOpenAIParameters",
              JDict
                [ ("resourceUri", JStr "https://mine.openai.azure.com");
                  ("deploymentId", JStr "gpt-4o");
                  ("apiKey", JStr "<REDACTED>") ]) ] ]);
    ("outputMode", JStr "answerSynthesis") ].

End NestedSamples.

(* ================================================================== *)
(** * Properties *)
(* ================================================================== *)

Import Py.

(** ** Induction on documents *)

(** The induction principle of [json], with the hypothesis for every
    element of a list and every value of a dict. *)
Lemma json_ind (P : json -> Prop)
  (HNull : P JNull)
  (HBool : forall b, P (JBool b))
  (HInt : forall n, P (JInt n))
  (HFloat : forall f, P (JFloat f))
  (HStr : forall s, P (JStr s))
  (HList : forall l, Forall P l -> P (JList l))
  (HDict : forall d, Forall (fun kv => P (snd kv)) d -> P (JDict d)) :
  forall j, P j.
Proof.
  fix IH 1. intros [ | b | n | f | s | l | d ].
  - exact HNull.
  - apply HBool.
  - apply HInt.
  - apply HFloat.
  - apply HStr.
  - apply HList. induction l as [ | x l IHl ]; constructor.
    + apply IH.
    + exact IHl.
  - apply HDict. induction d as [ | [k v] d IHd ]; constructor.
    + apply IH.
    + exact IHd.
Qed.

(** ** Dictionaries *)

Section DictFacts.
Context {V : Type}.
Implicit Types (d acc : list (string * V)) (k : string) (v : V).

Lemma dict_in_In k d : dict_in k d = true <-> In k (map fst d).
Proof.
  induction d as [ | [k0 v0] d IH ]; simpl.
  - split; [discriminate | contradiction].
  - rewrite orb_true_iff, IH, String.eqb_eq. reflexivity.
Qed.

Lemma dict_in_set k k' v d :
  dict_in k (dict_set k' v d) = String.eqb k' k || dict_in k d.
Proof.
  induction d as [ | [k0 v0] d IH ]; simpl.
  - now rewrite orb_false_r.
  - destruct (String.eqb_spec k0 k') as [-> | Hne]; simpl.
    + destruct (String.eqb k' k); reflexivity.
    + rewrite IH. destruct (String.eqb k0 k), (String.eqb k' k); reflexivity.
Qed.

Lemma dict_set_fresh k v d :
  ~ In k (map fst d) -> dict_set k v d = d ++ [(k, v)].
Proof.
  induction d as [ | [k0 v0] d IH ]; simpl; intros Hnin.
  - reflexivity.
  - destruct (String.eqb_spec k0 k) as [-> | Hne].
    + exfalso. apply Hnin. now left.
    + rewrite IH; [reflexivity | intros Hin; apply Hnin; now right].
Qed.

Lemma dict_set_keys k v d :
  In k (map fst d) -> map fst (dict_set k v d) = map fst d.
Proof.
  induction d as [ | [k0 v0] d IH ]; simpl; intros Hin.
  - contradiction.
  - destruct (String.eqb_spec k0 k) as [-> | Hne]; simpl.
    + reflexivity.
    + rewrite IH; [reflexivity | ]. destruct Hin; [congruence | assumption].
Qed.

Lemma dict_set_NoDup k v d :
  NoDup (map fst d) -> NoDup (map fst (dict_set k v d)).
Proof.
  intros Hnd. destruct (in_dec string_dec k (map fst d)) as [Hin | Hnin].
  - now rewrite dict_set_keys.
  - rewrite dict_set_fresh by assumption. rewrite map_app. simpl.
    apply NoDup_app; [assumption | repeat constructor; auto | ].
    intros x Hx [<- | []]. contradiction.
Qed.

Lemma dict_set_In k v d k1 v1 :
  In (k1, v1) (dict_set k v d) -> (k1, v1) = (k, v) \/ In (k1, v1) d.
Proof.
  induction d as [ | [k0 v0] d IH ]; simpl.
  - intros [H | []]. left. now symmetry.
  - destruct (String.eqb_spec k0 k) as [-> | Hne]; simpl.
    + intros [H | H]; [left; now symmetry | right; now right].
    + intros [H | H]; [right; now left | ].
      destruct (IH H) as [H' | H']; [now left | right; now right].
Qed.

Lemma build_dict_in (f : string -> V -> V) k data : forall acc,
  dict_in k (build f data acc) = dict_in k acc || dict_in k data.
Proof.
  induction data as [ | [k0 v0] data IH ]; intros acc; simpl.
  - now rewrite orb_false_r.
  - unfold build in *. simpl. rewrite IH, dict_in_set.
    destruct (dict_in k acc), (String.eqb k0 k); reflexivity.
Qed.

Lemma build_NoDup (f : string -> V -> V) data : forall acc,
  NoDup (map fst acc) -> NoDup (map fst (build f data acc)).
Proof.
  induction data as [ | [k0 v0] data IH ]; intros acc Hnd; simpl.
  - exact Hnd.
  - apply IH. now apply dict_set_NoDup.
Qed.

Lemma build_In (f : string -> V -> V) data : forall acc k v,
  In (k, v) (build f data acc) ->
  In (k, v) acc \/ exists v0, In (k, v0) data /\ v = f k v0.
Proof.
  induction data as [ | [k0 v0] data IH ]; intros acc k v; simpl.
  - now left.
  - intros Hin. destruct (IH _ _ _ Hin) as [Hacc | [v1 [Hin1 ->]]].
    + destruct (dict_set_In _ _ _ _ _ Hacc) as [Heq | Hacc'].
      * injection Heq as -> ->. right. exists v0. split; [now left | reflexivity].
      * now left.
    + right. exists v1. split; [now right | reflexivity].
Qed.

(** On a dict, whose keys are distinct, the loop is a map. *)
Lemma build_distinct (f : string -> V -> V) data : forall acc,
  NoDup (map fst (acc ++ data)) ->
  build f data acc = acc ++ map (fun kv => (fst kv, f (fst kv) (snd kv))) data.
Proof.
  induction data as [ | [k0 v0] data IH ]; intros acc Hnd; simpl.
  - now rewrite app_nil_r.
  - assert (Hnin : ~ In k0 (map fst acc)).
    { rewrite map_app in Hnd. simpl in Hnd.
      apply NoDup_remove_2 in Hnd. intros Hin. apply Hnd.
      apply in_or_app. now left. }
    unfold build in *. simpl. rewrite dict_set_fresh by assumption.
    rewrite IH.
    + now rewrite <- app_assoc.
    + rewrite <- app_assoc. simpl.
      rewrite map_app in *. exact Hnd.
Qed.

(** The loop run again on its own result changes nothing, when [f] is
    idempotent on the values of [data]. *)
Lemma build_idempotent (f : string -> V -> V) data :
  (forall k v, In (k, v) data -> f k (f k v) = f k v) ->
  build f (build f data []) [] = build f data [].
Proof.
  intros Hf.
  assert (Hnd : NoDup (map fst (build f data []))).
  { apply build_NoDup. constructor. }
  rewrite build_distinct by exact Hnd. simpl.
  assert (Hall : forall k v, In (k, v) (build f data []) -> f k v = v).
  { intros k v Hin. destruct (build_In _ _ _ _ _ Hin) as [[] | [v0 [Hin0 ->]]].
    now apply Hf. }
  revert Hall. generalize (build f data []). intros l.
  induction l as [ | [k v] l IH ]; simpl; intros Hall.
  - reflexivity.
  - rewrite (Hall k v) by now left. f_equal. apply IH.
    intros k1 v1 Hin. apply Hall. now right.
Qed.
End DictFacts.

(** ** Strings *)

Lemma PyStr_mem_In (x : string) (xs : list string) :
  PyStr.mem x xs = true <-> In x xs.
Proof.
  unfold PyStr.mem. rewrite existsb_exists. split.
  - intros [y [Hin Heq]]. apply String.eqb_eq in Heq. now subst.
  - intros Hin. exists x. split; [assumption | apply String.eqb_refl].
Qed.

(** ** The Sanitizer *)

Section SanitizerFacts.
Import Sanitizer.

Lemma sanitize_entry_dict parent_key key data :
  sanitize_entry parent_key key (JDict data) = JDict (sanitize_dict data key).
Proof. reflexivity. Qed.

Lemma sanitize_entry_list parent_key key data :
  sanitize_entry parent_key key (JList data) = JList (sanitize_list key data).
Proof. reflexivity. Qed.

Lemma sanitize_item_dict parent_key data :
  sanitize_item parent_key (JDict data) = JDict (sanitize_dict data parent_key).
Proof. reflexivity. Qed.

Lemma sanitize_item_list parent_key data :
  sanitize_item parent_key (JList data) = JList (sanitize_list parent_key data).
Proof. reflexivity. Qed.

(** The three placeholders are not Azure URLs. *)
Lemma placeholders_not_urls :
  is_azure_url (JStr REDACTED_PLACEHOLDER) = false /\
  is_azure_url (JStr URL_PLACEHOLDER) = false /\
  is_azure_url (JStr CONTAINER_PLACEHOLDER) = false.
Proof. repeat split; vm_compute; reflexivity. Qed.

Lemma sanitize_value_cases key v :
  sanitize_value key v = v \/
  (sanitize_value key v = JStr REDACTED_PLACEHOLDER /\ should_redact_key key = true) \/
  (sanitize_value key v = JStr URL_PLACEHOLDER /\ should_redact_key key = false).
Proof.
  unfold sanitize_value.
  destruct v as [ | b | n | f | s | l | d ]; try (left; reflexivity);
    destruct (should_redact_key key) eqn:Hk;
    try (left; reflexivity);
    try (destruct (should_redact_url_key key);
         match goal with
         | |- context [is_azure_url ?x] => destruct (is_azure_url x)
         end; auto).
  destruct (negb (String.eqb s EmptyString) && negb (String.eqb s "null"));
    auto.
Qed.

Lemma sanitize_value_idempotent key v :
  sanitize_value key (sanitize_value key v) = sanitize_value key v.
Proof.
  destruct (sanitize_value_cases key v) as [H | [[-> Hk] | [-> Hk]]].
  - rewrite H. exact H.
  - unfold sanitize_value. rewrite Hk. reflexivity.
  - unfold sanitize_value. rewrite Hk.
    destruct placeholders_not_urls as [_ [-> _]].
    destruct (should_redact_url_key key); reflexivity.
Qed.

Lemma sanitize_value_scalar key v : scalar v -> scalar (sanitize_value key v).
Proof.
  intros Hv. destruct (sanitize_value_cases key v) as [H | [[H _] | [H _]]];
    rewrite H; simpl; auto.
Qed.

(** A key that the container rule looks at is neither a secret key nor a
    URL key. *)
Lemma container_key_plain key :
  PyStr.mem (PyStr.lower key) ["name"; "containername"] = true ->
  should_redact_key key = false /\ should_redact_url_key key = false.
Proof.
  intros H. apply PyStr_mem_In in H.
  unfold should_redact_key, should_redact_url_key, normalize_key.
  destruct H as [<- | [<- | []]]; split; vm_compute; reflexivity.
Qed.

Lemma sanitize_scalar_cases parent_key key v :
  (sanitize_scalar parent_key key v = JStr CONTAINER_PLACEHOLDER /\
   PyStr.mem (PyStr.lower key) ["name"; "containername"] = true) \/
  (sanitize_scalar parent_key key v = sanitize_value key v /\
   forall w, (forall s, w = JStr s -> PyStr.mem s LEGACY_CONTAINER_NAMES = false) ->
             sanitize_scalar parent_key key w = sanitize_value key w).
Proof.
  unfold sanitize_scalar.
  destruct (PyStr.mem (PyStr.lower key) ["name"; "containername"]) eqn:Hk;
    cbn [andb].
  2: { right. split; [reflexivity | intros; reflexivity]. }
  destruct (String.eqb (PyStr.lower parent_key) "container"
            || String.eqb (PyStr.lower key) "containername"); cbn [andb].
  2: { right. split; [reflexivity | intros; reflexivity]. }
  assert (Hw : forall w,
             (forall s, w = JStr s -> PyStr.mem s LEGACY_CONTAINER_NAMES = false) ->
             (if match w with
                 | JStr s => PyStr.mem s LEGACY_CONTAINER_NAMES
                 | _ => false
                 end
              then JStr CONTAINER_PLACEHOLDER else sanitize_value key w)
             = sanitize_value key w).
  { intros w Hw. destruct w; try reflexivity. now rewrite (Hw _ eq_refl). }
  destruct v as [ | b | n | f | s | l | d ];
    try (right; split; [reflexivity | exact Hw]).
  destruct (PyStr.mem s LEGACY_CONTAINER_NAMES) eqn:Hs.
  - left. split; reflexivity.
  - right. split; [reflexivity | exact Hw].
Qed.

Lemma sanitize_scalar_idempotent parent_key key v :
  sanitize_scalar parent_key key (sanitize_scalar parent_key key v)
  = sanitize_scalar parent_key key v.
Proof.
  destruct (sanitize_scalar_cases parent_key key v) as [[H Hk] | [H Hw]].
  - rewrite H. destruct (container_key_plain _ Hk) as [Hr Hu].
    unfold sanitize_scalar. rewrite Hk.
    replace (PyStr.mem CONTAINER_PLACEHOLDER LEGACY_CONTAINER_NAMES)
      with false by reflexivity.
    rewrite andb_false_r.
    unfold sanitize_value. rewrite Hr, Hu.
    destruct placeholders_not_urls as [_ [_ ->]]. reflexivity.
  - rewrite H.
    destruct (sanitize_value_cases key v) as [Hv | [[Hv _] | [Hv _]]].
    + rewrite Hv. rewrite H. exact Hv.
    + rewrite Hv at 1. rewrite Hw.
      * rewrite <- Hv. apply sanitize_value_idempotent.
      * intros s [= <-]. reflexivity.
    + rewrite Hv at 1. rewrite Hw.
      * rewrite <- Hv. apply sanitize_value_idempotent.
      * intros s [= <-]. reflexivity.
Qed.

Lemma sanitize_scalar_scalar parent_key key v :
  scalar v -> scalar (sanitize_scalar parent_key key v).
Proof.
  intros Hv. destruct (sanitize_scalar_cases parent_key key v) as [[H _] | [H _]];
    rewrite H; [exact I | now apply sanitize_value_scalar].
Qed.

Lemma sanitize_entry_scalar parent_key key v :
  scalar v -> sanitize_entry parent_key key v = sanitize_scalar parent_key key v.
Proof. destruct v; simpl; intros H; try reflexivity; contradiction. Qed.

Lemma sanitize_item_scalar parent_key v :
  scalar v -> sanitize_item parent_key v = sanitize_value parent_key v.
Proof. destruct v; simpl; intros H; try reflexivity; contradiction. Qed.

(** Both loop bodies are idempotent, at every key. *)
Lemma sanitize_idempotent_value (v : json) :
  (forall parent_key key,
      sanitize_entry parent_key key (sanitize_entry parent_key key v)
      = sanitize_entry parent_key key v) /\
  (forall parent_key,
      sanitize_item parent_key (sanitize_item parent_key v)
      = sanitize_item parent_key v).
Proof.
  induction v as [ | b | n | f | s | l IH | d IH ] using json_ind;
    try (split; intros; cbn [sanitize_entry sanitize_item];
         [ rewrite sanitize_entry_scalar
             by (apply sanitize_scalar_scalar; exact I);
           apply sanitize_scalar_idempotent
         | rewrite sanitize_item_scalar
             by (apply sanitize_value_scalar; exact I);
           apply sanitize_value_idempotent ]).
  - (* a list *)
    assert (Hl : forall pk, sanitize_list pk (sanitize_list pk l)
                            = sanitize_list pk l).
    { intros pk. unfold sanitize_list. rewrite map_map.
      apply map_ext_in. intros x Hx.
      rewrite Forall_forall in IH. apply (IH x Hx). }
    split; intros.
    + rewrite !sanitize_entry_list. now rewrite Hl.
    + rewrite !sanitize_item_list. now rewrite Hl.
  - (* a dict *)
    assert (Hd : forall pk, sanitize_dict (sanitize_dict d pk) pk
                            = sanitize_dict d pk).
    { intros pk. unfold sanitize_dict. apply build_idempotent.
      intros k v Hin. rewrite Forall_forall in IH.
      apply (IH (k, v) Hin). }
    split; intros.
    + rewrite !sanitize_entry_dict. now rewrite Hd.
    + rewrite !sanitize_item_dict. now rewrite Hd.
Qed.
End SanitizerFacts.

Section SanitizerClaims.
Import Sanitizer.

Lemma should_redact_key_spec key :
  should_redact_key key = true <-> secret_name key.
Proof.
  unfold should_redact_key, secret_name. rewrite PyStr_mem_In.
  replace (map (PyStr.remove_char "_"%char) SENSITIVE_KEYS)
    with (map normalize_key SENSITIVE_KEYS) by reflexivity.
  rewrite in_map_iff. split.
  - intros [name [Heq Hin]]. exists name. split; [assumption | now symmetry].
  - intros [name [Hin Heq]]. exists name. split; [now symmetry | assumption].
Qed.

Lemma sanitize_scalar_secret parent_key key s :
  should_redact_key key = true ->
  s <> EmptyString -> s <> "null" ->
  sanitize_scalar parent_key key (JStr s) = JStr REDACTED_PLACEHOLDER.
Proof.
  intros Hk Hne Hnull.
  destruct (sanitize_scalar_cases parent_key key (JStr s)) as [[_ Hc] | [-> _]].
  - apply container_key_plain in Hc. destruct Hc as [Hc _]. congruence.
  - unfold sanitize_value. rewrite Hk.
    destruct (String.eqb_spec s EmptyString); [contradiction | ].
    destruct (String.eqb_spec s "null"); [contradiction | ]. reflexivity.
Qed.

(** C2. The sanitize transform is idempotent: for every dict [d] and
    every list [l], whatever the key they sit under, sanitizing the
    sanitized document gives the sanitized document again:
    [sanitize_dict (sanitize_dict d)] is [sanitize_dict d], and likewise
    for [sanitize_list]. *)
Theorem sanitize_idempotent :
  (forall (d : dict) (parent_key : string),
      sanitize_dict (sanitize_dict d parent_key) parent_key
      = sanitize_dict d parent_key) /\
  (forall (l : list json) (parent_key : string),
      sanitize_list parent_key (sanitize_list parent_key l)
      = sanitize_list parent_key l).
Proof.
  split.
  - intros d parent_key.
    destruct (sanitize_idempotent_value (JDict d)) as [_ H].
    specialize (H parent_key). rewrite !sanitize_item_dict in H.
    now injection H.
  - intros l parent_key.
    destruct (sanitize_idempotent_value (JList l)) as [_ H].
    specialize (H parent_key). rewrite !sanitize_item_list in H.
    now injection H.
Qed.

End SanitizerClaims.


(** ** The Dependency Resolver *)

Section ResolverClaims.
Import Exporter.





End ResolverClaims.

(** ** Deployment *)

Section DeployClaims.
Import Restorer.

Lemma put_document_success requests_put url search_key data :
  fst (put_document requests_put url search_key data) = true <->
  exists r, requests_put url search_key data = Responded r /\
            In (status_code r) [200; 201; 204]%Z.
Proof.
  unfold put_document.
  destruct (requests_put url search_key data) as [r | e].
  - destruct (Z.eqb_spec (status_code r) 200) as [H0 | H0];
      destruct (Z.eqb_spec (status_code r) 201) as [H1 | H1];
      destruct (Z.eqb_spec (status_code r) 204) as [H4 | H4];
      cbn [orb fst]; split;
      try (intros _; reflexivity);
      try (intros _; exists r; split; [reflexivity | simpl; auto; fail]);
      try discriminate.
    intros [r' [[= <-] Hin]]. simpl in Hin.
    destruct Hin as [H | [H | [H | []]]]; congruence.
  - simpl. split; [discriminate | ]. intros [r [H _]]. discriminate.
Qed.

Lemma put_document_error requests_put url search_key data r :
  requests_put url search_key data = Responded r ->
  ~ In (status_code r) [200; 201; 204]%Z ->
  put_document requests_put url search_key data
  = (false, [LogHTTP (status_code r); body_line r]).
Proof.
  intros Hr Hs. unfold put_document. rewrite Hr.
  destruct (Z.eqb_spec (status_code r) 200) as [H0 | H0];
    [exfalso; apply Hs; simpl; auto | ].
  destruct (Z.eqb_spec (status_code r) 201) as [H1 | H1];
    [exfalso; apply Hs; simpl; auto | ].
  destruct (Z.eqb_spec (status_code r) 204) as [H4 | H4];
    [exfalso; apply Hs; simpl; auto | ].
  reflexivity.
Qed.

(** C6, as the code has it.  A deployment is reported successful exactly
    when the service answered with status 200, 201 or 204; an answer with
    any other status is reported as a failure whose log carries the status
    and the body of the response. *)
Theorem deploy_success_statuses :
  forall (requests_put : string -> string -> dict -> put_result)
         (search_endpoint search_key name : string) (data : dict),
    (fst (deploy_knowledge_source requests_put search_endpoint search_key name data)
     = true <->
     exists r, requests_put (knowledge_source_url search_endpoint name)
                            search_key data = Responded r /\
               In (status_code r) [200; 201; 204]%Z) /\
    (fst (deploy_knowledge_base requests_put search_endpoint search_key name data)
     = true <->
     exists r, requests_put (knowledge_base_url search_endpoint name)
                            search_key data = Responded r /\
               In (status_code r) [200; 201; 204]%Z) /\
    (forall r,
        requests_put (knowledge_source_url search_endpoint name) search_key data
        = Responded r ->
        ~ In (status_code r) [200; 201; 204]%Z ->
        deploy_knowledge_source requests_put search_endpoint search_key name data
        = (false, [LogHTTP (status_code r); body_line r])) /\
    (forall r,
        requests_put (knowledge_base_url search_endpoint name) search_key data
        = Responded r ->
        ~ In (status_code r) [200; 201; 204]%Z ->
        deploy_knowledge_base requests_put search_endpoint search_key name data
        = (false, [LogHTTP (status_code r); body_line r])).
Proof.
  intros. unfold deploy_knowledge_source, deploy_knowledge_base.
  repeat split;
    try (apply put_document_success);
    try (intros; now apply put_document_error).
Qed.

Lemma deploy_success_statuses_witness :
  deploy_knowledge_source (answer 409 "conflict")
    "https://contoso.search.windows.net" "admin-key" "ks1" [("name", JStr "ks1")]
  = (false, [LogHTTP 409; LogResponseText "conflict"]) /\
  deploy_knowledge_base (answer 400 "bad request")
    "https://contoso.search.windows.net" "admin-key" "kb1" [("name", JStr "kb1")]
  = (false, [LogHTTP 400; LogResponseText "bad request"]).
Proof.
  split.
  - refine (proj1 (proj2 (proj2 (deploy_success_statuses
              (answer 409 "conflict") "https://contoso.search.windows.net"
              "admin-key" "ks1" [("name", JStr "ks1")]))) _ eq_refl _).
    simpl. intros [H | [H | [H | []]]]; discriminate.
  - refine (proj2 (proj2 (proj2 (deploy_success_statuses
              (answer 400 "bad request") "https://contoso.search.windows.net"
              "admin-key" "kb1" [("name", JStr "kb1")]))) _ eq_refl _).
    simpl. intros [H | [H | [H | []]]]; discriminate.
Defined.

(** C6 fails as stated: 202 is in the 2xx range, and both deploy functions
    report the deployment as failed. *)
Lemma deploy_rejects_status_202 :
  (200 <= 202 < 300)%Z /\
  fst (deploy_knowledge_source (answer 202 "accepted")
         "https://contoso.search.windows.net" "admin-key" "ks1"
         [("name", JStr "ks1")]) = false /\
  fst (deploy_knowledge_base (answer 202 "accepted")
         "https://contoso.search.windows.net" "admin-key" "kb1"
         [("name", JStr "kb1")]) = false.
Proof. repeat split; reflexivity || lia. Qed.
End DeployClaims.


(** ** The Restorer *)

Unset Implicit Arguments.

Section RestorerFacts.
Import Restorer.

Lemma bind_Ok {A B : Type} (m : res A) (f : A -> res B) (b : B) :
  bind m f = Ok b -> exists a, m = Ok a /\ f a = Ok b.
Proof. destruct m as [a | e]; simpl; [eauto | discriminate]. Qed.

Lemma dict_find_set_same (k : string) (v : json) (d : dict) :
  dict_find k (dict_set k v d) = Some v.
Proof.
  induction d as [ | [k0 v0] d IH ]; simpl.
  - now rewrite String.eqb_refl.
  - destruct (String.eqb_spec k0 k) as [-> | Hne]; simpl.
    + now rewrite String.eqb_refl.
    + destruct (String.eqb_spec k0 k); [contradiction | exact IH].
Qed.

Lemma dict_find_set_other (k k' : string) (v : json) (d : dict) :
  k <> k' -> dict_find k (dict_set k' v d) = dict_find k d.
Proof.
  intros Hne. induction d as [ | [k0 v0] d IH ]; simpl.
  - destruct (String.eqb_spec k' k); [congruence | reflexivity].
  - destruct (String.eqb_spec k0 k') as [-> | Hne0]; simpl.
    + destruct (String.eqb_spec k' k); [congruence | reflexivity].
    + destruct (String.eqb_spec k0 k); [reflexivity | exact IH].
Qed.

Lemma dict_set_same_value (k : string) (v : json) (d : dict) :
  dict_find k d = Some v -> dict_set k v d = d.
Proof.
  induction d as [ | [k0 v0] d IH ]; simpl.
  - discriminate.
  - destruct (String.eqb_spec k0 k) as [-> | Hne].
    + now intros [= ->].
    + intros H. now rewrite IH.
Qed.

Lemma dict_find_pop_other (k k' : string) (d : dict) :
  k <> k' -> dict_find k (dict_pop k' d) = dict_find k d.
Proof.
  intros Hne. induction d as [ | [k0 v0] d IH ]; simpl.
  - reflexivity.
  - destruct (String.eqb_spec k0 k') as [-> | Hne0]; simpl.
    + destruct (String.eqb_spec k' k); [congruence | reflexivity].
    + destruct (String.eqb_spec k0 k); [reflexivity | exact IH].
Qed.

Lemma dict_in_find (k : string) (d : dict) :
  dict_in k d = match dict_find k d with Some _ => true | None => false end.
Proof.
  induction d as [ | [k0 v0] d IH ]; simpl.
  - reflexivity.
  - destruct (String.eqb k0 k); [reflexivity | exact IH].
Qed.

(** *** Field paths *)

Lemma field_null (path : list string) : field path JNull = JNull.
Proof. destruct path; reflexivity. Qed.

Lemma field_app (p q : list string) (v : json) :
  field (p ++ q) v = field q (field p v).
Proof.
  revert v. induction p as [ | k p IH ]; intros v; simpl.
  - reflexivity.
  - destruct v; try (symmetry; apply field_null). apply IH.
Qed.

Lemma field_falsy (k : string) (path : list string) (v : json) :
  truthy v = false -> field (k :: path) v = JNull.
Proof.
  destruct v as [ | | | | | | [ | kv d ] ]; simpl; try reflexivity.
  - intros _. apply field_null.
  - discriminate.
Qed.

Lemma field_set_same (k : string) (path : list string) (v : json) (d : dict) :
  field (k :: path) (JDict (dict_set k v d)) = field path v.
Proof. simpl. unfold dict_get. now rewrite dict_find_set_same. Qed.

Lemma field_set_other (k k' : string) (path : list string) (v : json) (d : dict) :
  k' <> k ->
  field (k' :: path) (JDict (dict_set k v d)) = field (k' :: path) (JDict d).
Proof.
  intros Hne. simpl. unfold dict_get. now rewrite dict_find_set_other.
Qed.

(** *** The guard and the descent under a key *)

Lemma py_guard_Some (x : json) (k : string) (v : json) :
  py_guard x k = Ok (Some v) ->
  exists d, x = JDict d /\ dict_find k d = Some v /\ truthy v = true.
Proof.
  unfold py_guard.
  destruct x as [ | | | | s | l | d ]; simpl; try discriminate.
  - destruct (PyStr.contains k s); simpl; discriminate.
  - destruct (existsb (is_str k) l); simpl; discriminate.
  - rewrite dict_in_find. destruct (dict_find k d) as [v0 | ] eqn:Hf; simpl.
    + destruct (truthy v0) eqn:Ht; [ | discriminate ].
      intros [= <-]. now exists d.
    + discriminate.
Qed.

Lemma py_guard_None (x : json) (k : string) (path : list string) :
  py_guard x k = Ok None -> path <> [] -> field (k :: path) x = JNull.
Proof.
  unfold py_guard. intros H Hp.
  destruct x as [ | | | | s | l | d ]; try reflexivity.
  simpl in *. rewrite dict_in_find in H. unfold dict_get.
  destruct (dict_find k d) as [v0 | ]; simpl in H.
  - destruct (truthy v0) eqn:Ht; [discriminate | ].
    destruct path as [ | k1 path]; [contradiction | ].
    now apply field_falsy.
  - apply field_null.
Qed.

(** What a successful descent did. *)
Lemma at_key_Ok (x : json) (k : string) (body : json -> res json) (x' : json) :
  at_key x k body = Ok x' ->
  (exists d v v', x = JDict d /\ dict_find k d = Some v /\ truthy v = true /\
                  body v = Ok v' /\ x' = JDict (dict_set k v' d)) \/
  (x' = x /\ py_guard x k = Ok None).
Proof.
  unfold at_key. intros H. apply bind_Ok in H. destruct H as [g [Hg H]].
  destruct g as [v | ].
  - left. apply py_guard_Some in Hg. destruct Hg as [d [-> [Hf Ht]]].
    apply bind_Ok in H. destruct H as [v' [Hb H]]. simpl in H.
    injection H as <-. now exists d, v, v'.
  - right. injection H as <-. now split.
Qed.

Lemma clean_app (F1 F2 : list (list string * string)) (v : json) :
  clean (F1 ++ F2) v <-> clean F1 v /\ clean F2 v.
Proof.
  unfold clean. split.
  - intros H. split; intros path token Hin; apply H; apply in_or_app; auto.
  - intros [H1 H2] path token Hin. apply in_app_or in Hin.
    destruct Hin; [now apply H1 | now apply H2].
Qed.

Lemma clean_under_key (k : string) (F : list (list string * string)) (v : json) (d : dict) :
  clean F v -> clean (under [k] F) (JDict (dict_set k v d)).
Proof.
  intros H path token Hin. unfold under in Hin. apply in_map_iff in Hin.
  destruct Hin as [[p t] [[= <- <-] Hin]]. simpl app.
  rewrite field_set_same. now apply H.
Qed.

(** The fields under [k] are clean after a descent under [k] whose body
    leaves clean fields. *)
Lemma at_key_clean (x : json) (k : string) (body : json -> res json) (x' : json)
  (F : list (list string * string)) :
  at_key x k body = Ok x' ->
  (forall v v', body v = Ok v' -> clean F v') ->
  (forall path token, In (path, token) F -> path <> []) ->
  clean (under [k] F) x'.
Proof.
  intros H Hbody Hne. apply at_key_Ok in H.
  destruct H as [[d [v [v' [-> [Hf [Ht [Hb ->]]]]]]] | [-> Hg]].
  - apply clean_under_key. now apply (Hbody v).
  - intros path token Hin. unfold under in Hin. apply in_map_iff in Hin.
    destruct Hin as [[p t] [[= <- <-] Hin]]. simpl app.
    rewrite py_guard_None; [discriminate | assumption | now apply (Hne p t)].
Qed.

(** The fields under another key are left as they were. *)
Lemma at_key_frame (x : json) (k k' : string) (body : json -> res json) (x' : json)
  (path : list string) :
  at_key x k body = Ok x' -> k' <> k ->
  field (k' :: path) x' = field (k' :: path) x.
Proof.
  intros H Hne. apply at_key_Ok in H.
  destruct H as [[d [v [v' [-> [Hf [Ht [Hb ->]]]]]]] | [-> Hg]].
  - now apply field_set_other.
  - reflexivity.
Qed.

Lemma clean_frame (k : string) (F : list (list string * string)) (x x' : json) :
  (forall path, field (k :: path) x' = field (k :: path) x) ->
  clean (under [k] F) x -> clean (under [k] F) x'.
Proof.
  intros Hf Hc path token Hin. pose proof (Hc path token Hin) as Hx.
  unfold under in Hin. apply in_map_iff in Hin.
  destruct Hin as [[p t] [[= <- <-] Hin]]. simpl app in *.
  now rewrite Hf.
Qed.

(** *** The statement [if x.get(k) == token: x[k] = value] *)

Lemma replace_if_Ok (x : json) (k token value : string) (x' : json) :
  replace_if x k token value = Ok x' ->
  exists d, x = JDict d /\
            x' = JDict (if is_str token (dict_get d k JNull)
                        then dict_set k (JStr value) d else d).
Proof.
  unfold replace_if. destruct x as [ | | | | | | d ]; simpl; try discriminate.
  intros H. exists d. split; [reflexivity | ].
  destruct (is_str token (dict_get d k JNull)); simpl in H; now injection H as <-.
Qed.

Lemma is_str_true (token : string) (v : json) :
  is_str token v = true <-> v = JStr token.
Proof.
  destruct v; simpl; try (split; [discriminate | discriminate]).
  rewrite String.eqb_eq. split; [now intros -> | now intros [= ->]].
Qed.

Lemma replace_if_clean (x : json) (k token value : string) (x' : json) :
  replace_if x k token value = Ok x' -> value <> token ->
  field [k] x' <> JStr token.
Proof.
  intros H Hne. apply replace_if_Ok in H. destruct H as [d [-> ->]].
  destruct (is_str token (dict_get d k JNull)) eqn:Hs.
  - rewrite field_set_same. simpl. congruence.
  - simpl. intros Heq. apply is_str_true in Heq. congruence.
Qed.

Lemma replace_if_frame (x : json) (k k' token value : string) (x' : json)
  (path : list string) :
  replace_if x k token value = Ok x' -> k' <> k ->
  field (k' :: path) x' = field (k' :: path) x.
Proof.
  intros H Hne. apply replace_if_Ok in H. destruct H as [d [-> ->]].
  destruct (is_str token (dict_get d k JNull)).
  - now apply field_set_other.
  - reflexivity.
Qed.

Lemma replace_if_unchanged (x : json) (k token value : string) (x' : json) :
  replace_if x k token value = Ok x' -> field [k] x <> JStr token -> x' = x.
Proof.
  intros H Hne. apply replace_if_Ok in H. destruct H as [d [-> ->]].
  destruct (is_str token (dict_get d k JNull)) eqn:Hs; [ | reflexivity ].
  apply is_str_true in Hs. simpl in Hne. contradiction.
Qed.

(** Two such statements in a row, on two different fields. *)
Lemma replace_if_twice_clean (x : json) (k1 t1 v1 k2 t2 v2 : string) (x' : json) :
  bind (replace_if x k1 t1 v1) (fun x1 => replace_if x1 k2 t2 v2) = Ok x' ->
  k1 <> k2 -> v1 <> t1 -> v2 <> t2 ->
  clean [([k1], t1); ([k2], t2)] x'.
Proof.
  intros H Hk H1 H2. apply bind_Ok in H. destruct H as [x1 [Ha Hb]].
  intros path token [[= <- <-] | [[= <- <-] | []]].
  - rewrite (replace_if_frame _ _ _ _ _ _ [] Hb) by assumption.
    eapply replace_if_clean; eauto.
  - eapply replace_if_clean; eauto.
Qed.

Lemma replace_aoai_clean (a : json) (endpoint key : string) (a' : json) :
  replace_aoai a endpoint key = Ok a' ->
  endpoint <> "<AZURE_ENDPOINT_PLACEHOLDER>" -> key <> "<REDACTED>" ->
  clean [ (["resourceUri"], "<AZURE_ENDPOINT_PLACEHOLDER>");
          (["apiKey"], "<REDACTED>") ] a'.
Proof.
  intros H He Hk. unfold replace_aoai in H.
  apply (replace_if_twice_clean a _ _ _ _ _ _ a' H); [discriminate | assumption ..].
Qed.

Lemma nonempty_paths_2 (p1 p2 : list string) (t1 t2 : string) :
  p1 <> [] -> p2 <> [] ->
  forall path (token : string), In (path, token) [(p1, t1); (p2, t2)] -> path <> [].
Proof. intros H1 H2 path token [[= <- <-] | [[= <- <-] | []]]; assumption. Qed.

Lemma replace_in_model_clean (m : json) (endpoint key : string) (m' : json) :
  replace_in_model m endpoint key = Ok m' ->
  endpoint <> "<AZURE_ENDPOINT_PLACEHOLDER>" -> key <> "<REDACTED>" ->
  clean AOAI_FIELDS m'.
Proof.
  intros H He Hk. unfold replace_in_model in H.
  change AOAI_FIELDS
    with (under ["azureOpenAIParameters"]
            [ (["resourceUri"], "<AZURE_ENDPOINT_PLACEHOLDER>");
              (["apiKey"], "<REDACTED>") ]).
  eapply at_key_clean; [exact H | | ].
  - intros v v' Hv. exact (replace_aoai_clean v endpoint key v' Hv He Hk).
  - apply nonempty_paths_2; discriminate.
Qed.

Lemma AOAI_FIELDS_nonempty :
  forall path (token : string), In (path, token) AOAI_FIELDS -> path <> [].
Proof. apply nonempty_paths_2; discriminate. Qed.

Lemma replace_in_ingest_model_clean (ip : json) (model_key endpoint key : string)
  (ip' : json) :
  replace_in_ingest_model ip model_key endpoint key = Ok ip' ->
  endpoint <> "<AZURE_ENDPOINT_PLACEHOLDER>" -> key <> "<REDACTED>" ->
  clean (under [model_key] AOAI_FIELDS) ip'.
Proof.
  intros H He Hk. unfold replace_in_ingest_model in H.
  eapply at_key_clean; [exact H | | ].
  - intros v v' Hv. exact (replace_in_model_clean v endpoint key v' Hv He Hk).
  - exact AOAI_FIELDS_nonempty.
Qed.

Lemma replace_in_ingest_model_frame (ip : json) (model_key endpoint key k : string)
  (ip' : json) (path : list string) :
  replace_in_ingest_model ip model_key endpoint key = Ok ip' -> k <> model_key ->
  field (k :: path) ip' = field (k :: path) ip.
Proof.
  intros H Hne. unfold replace_in_ingest_model in H.
  eapply at_key_frame; eauto.
Qed.

Lemma replace_ai_services_clean (ip : json) (e k : option string)
  (endpoint key : string) (ip' : json) :
  replace_ai_services ip e k = Ok ip' ->
  ai_services_available e k = Some (endpoint, key) ->
  endpoint <> "<AZURE_ENDPOINT_PLACEHOLDER>" -> key <> "<REDACTED>" ->
  clean (under ["aiServices"] AI_SERVICES_FIELDS) ip'.
Proof.
  intros H Ha He Hk. unfold replace_ai_services in H. rewrite Ha in H.
  eapply at_key_clean; [exact H | | ].
  - intros v v' Hv.
    apply (replace_if_twice_clean v _ _ _ _ _ _ v' Hv); [discriminate | assumption ..].
  - apply nonempty_paths_2; discriminate.
Qed.

Lemma replace_ai_services_frame (ip : json) (e k : option string) (k' : string)
  (ip' : json) (path : list string) :
  replace_ai_services ip e k = Ok ip' -> k' <> "aiServices" ->
  field (k' :: path) ip' = field (k' :: path) ip.
Proof.
  intros H Hne. unfold replace_ai_services in H.
  eapply at_key_frame; eauto.
Qed.

Lemma under_nonempty (prefix : list string) (F : list (list string * string)) :
  prefix <> [] ->
  forall path (token : string), In (path, token) (under prefix F) -> path <> [].
Proof.
  intros Hp path token Hin. unfold under in Hin. apply in_map_iff in Hin.
  destruct Hin as [[p t] [[= <- <-] _]]. destruct prefix; [contradiction | discriminate].
Qed.

Lemma nonempty_app (F1 F2 : list (list string * string)) :
  (forall path (token : string), In (path, token) F1 -> path <> []) ->
  (forall path (token : string), In (path, token) F2 -> path <> []) ->
  forall path (token : string), In (path, token) (F1 ++ F2) -> path <> [].
Proof.
  intros H1 H2 path token Hin. apply in_app_or in Hin.
  destruct Hin; [now apply (H1 path token) | now apply (H2 path token)].
Qed.

Lemma replace_in_blob_ingestion_clean (ip : json) (endpoint key : string)
  (e k : option string) (ai_endpoint ai_key : string) (ip' : json) :
  replace_in_blob_ingestion ip endpoint key e k = Ok ip' ->
  endpoint <> "<AZURE_ENDPOINT_PLACEHOLDER>" -> key <> "<REDACTED>" ->
  ai_services_available e k = Some (ai_endpoint, ai_key) ->
  ai_endpoint <> "<AZURE_ENDPOINT_PLACEHOLDER>" -> ai_key <> "<REDACTED>" ->
  clean INGESTION_FIELDS ip'.
Proof.
  intros H He Hk Ha Hae Hak. unfold replace_in_blob_ingestion in H.
  apply bind_Ok in H. destruct H as [ip1 [H1 H]].
  apply bind_Ok in H. destruct H as [ip2 [H2 H3]].
  unfold INGESTION_FIELDS. apply clean_app. split; [ | apply clean_app; split ].
  - apply (clean_frame "embeddingModel" AOAI_FIELDS ip1).
    + intros path.
      rewrite (replace_ai_services_frame ip2 e k "embeddingModel" ip' path H3)
        by discriminate.
      apply (replace_in_ingest_model_frame ip1 "chatCompletionModel" endpoint key
               "embeddingModel" ip2 path H2). discriminate.
    + exact (replace_in_ingest_model_clean ip "embeddingModel" endpoint key ip1
               H1 He Hk).
  - apply (clean_frame "chatCompletionModel" AOAI_FIELDS ip2).
    + intros path.
      apply (replace_ai_services_frame ip2 e k "chatCompletionModel" ip' path H3).
      discriminate.
    + exact (replace_in_ingest_model_clean ip1 "chatCompletionModel" endpoint key
               ip2 H2 He Hk).
  - exact (replace_ai_services_clean ip2 e k ai_endpoint ai_key ip' H3 Ha Hae Hak).
Qed.

Lemma connection_string_unset_redacted :
  forall v, connection_string_unset v = false -> v <> JStr "<REDACTED>".
Proof. intros v H ->. discriminate. Qed.

Lemma replace_in_blob_params_clean (bp : json)
  (endpoint key cs container : string) (e k : option string) (bp' : json) :
  replace_in_blob_params bp endpoint key cs container e k = Ok bp' ->
  live_credentials endpoint key cs container e k ->
  clean BLOB_FIELDS bp'.
Proof.
  intros H [He [Hk [Hcs [Hcont [ai_endpoint [ai_key [Ha [Hae Hak]]]]]]]].
  unfold replace_in_blob_params in H.
  apply bind_Ok in H. destruct H as [v [Hv H]].
  apply bind_Ok in H. destruct H as [bp1 [H1 H]].
  apply bind_Ok in H. destruct H as [bp2 [H2 H3]].
  destruct bp as [ | | | | | | d ]; try discriminate.
  simpl in Hv. injection Hv as <-.
  assert (Hc1 : field ["connectionString"] bp1 <> JStr "<REDACTED>").
  { destruct (connection_string_unset (dict_get d "connectionString" JNull)) eqn:Hu.
    - simpl in H1. injection H1 as <-. rewrite field_set_same. simpl. congruence.
    - injection H1 as <-. simpl. now apply connection_string_unset_redacted. }
  unfold BLOB_FIELDS. apply clean_app. split.
  - intros path token [[= <- <-] | [[= <- <-] | []]].
    + rewrite (at_key_frame bp2 "ingestionParameters" "connectionString" _ bp' []
                 H3) by discriminate.
      rewrite (replace_if_frame bp1 "containerName" "connectionString" _ _ bp2 []
                 H2) by discriminate.
      exact Hc1.
    + rewrite (at_key_frame bp2 "ingestionParameters" "containerName" _ bp' []
                 H3) by discriminate.
      exact (replace_if_clean bp1 "containerName" _ _ bp2 H2 Hcont).
  - eapply at_key_clean; [exact H3 | | ].
    + intros ip ip' Hip.
      exact (replace_in_blob_ingestion_clean ip endpoint key e k ai_endpoint ai_key
               ip' Hip He Hk Ha Hae Hak).
    + unfold INGESTION_FIELDS.
      repeat apply nonempty_app; apply under_nonempty; discriminate.
Qed.

Lemma replace_in_indexed_params_clean (params : json) (endpoint key : string)
  (params' : json) :
  replace_in_indexed_params params endpoint key = Ok params' ->
  endpoint <> "<AZURE_ENDPOINT_PLACEHOLDER>" -> key <> "<REDACTED>" ->
  clean INDEXED_FIELDS params'.
Proof.
  intros H He Hk. unfold replace_in_indexed_params in H.
  unfold INDEXED_FIELDS. eapply at_key_clean; [exact H | | ].
  - intros ip ip' Hip.
    exact (replace_in_ingest_model_clean ip "embeddingModel" endpoint key ip' Hip
             He Hk).
  - apply under_nonempty. discriminate.
Qed.

(** The guard at the top level is the guard on the dict. *)
Lemma with_block_at_key (d : dict) (k : string) (body : json -> res json) (d' : dict) :
  with_block d k body = Ok d' -> at_key (JDict d) k body = Ok (JDict d').
Proof.
  unfold with_block, at_key.
  destruct (py_guard (JDict d) k) as [[block | ] | err]; simpl; try discriminate.
  - destruct (body block) as [block' | err]; simpl; [ | discriminate ].
    now intros [= <-].
  - now intros [= <-].
Qed.

Lemma KNOWLEDGE_SOURCE_FIELDS_blocks :
  KNOWLEDGE_SOURCE_FIELDS
  = under ["azureBlobParameters"] BLOB_FIELDS
    ++ under ["indexedOneLakeParameters"] INDEXED_FIELDS
    ++ under ["indexedSharePointParameters"] INDEXED_FIELDS.
Proof. reflexivity. Qed.

Lemma replace_knowledge_source_clean (d : dict)
  (endpoint key cs container : string) (e k : option string) (r : dict) :
  replace_placeholders_in_knowledge_source d endpoint key cs container e k = Ok r ->
  live_credentials endpoint key cs container e k ->
  clean KNOWLEDGE_SOURCE_FIELDS (JDict r).
Proof.
  intros H Hlive. pose proof Hlive as [He [Hk _]].
  unfold replace_placeholders_in_knowledge_source in H.
  apply bind_Ok in H. destruct H as [d1 [H1 H]].
  apply bind_Ok in H. destruct H as [d2 [H2 H]].
  apply bind_Ok in H. destruct H as [d3 [H3 H]]. injection H as <-.
  apply with_block_at_key in H1, H2, H3.
  rewrite KNOWLEDGE_SOURCE_FIELDS_blocks.
  apply clean_app. split; [ | apply clean_app; split ].
  - apply (clean_frame "azureBlobParameters" BLOB_FIELDS (JDict d1)).
    + intros path.
      rewrite (at_key_frame _ _ "azureBlobParameters" _ _ path H3) by discriminate.
      apply (at_key_frame _ _ "azureBlobParameters" _ _ path H2). discriminate.
    + eapply at_key_clean; [exact H1 | | ].
      * intros bp bp' Hbp.
        exact (replace_in_blob_params_clean bp endpoint key cs container e k bp'
                 Hbp Hlive).
      * unfold BLOB_FIELDS. apply nonempty_app.
        -- apply nonempty_paths_2; discriminate.
        -- apply under_nonempty. discriminate.
  - apply (clean_frame "indexedOneLakeParameters" INDEXED_FIELDS (JDict d2)).
    + intros path.
      apply (at_key_frame _ _ "indexedOneLakeParameters" _ _ path H3). discriminate.
    + eapply at_key_clean; [exact H2 | | ].
      * intros params params' Hp.
        exact (replace_in_indexed_params_clean params endpoint key params' Hp He Hk).
      * apply under_nonempty. discriminate.
  - eapply at_key_clean; [exact H3 | | ].
    + intros params params' Hp.
      exact (replace_in_indexed_params_clean params endpoint key params' Hp He Hk).
    + apply under_nonempty. discriminate.
Qed.

(** *** The knowledge base *)

Lemma map_res_Forall {A B : Type} (f : A -> res B) (P : B -> Prop) :
  (forall a b, f a = Ok b -> P b) ->
  forall l l', map_res f l = Ok l' -> Forall P l'.
Proof.
  intros Hf. induction l as [ | a l IH ]; simpl; intros l' H.
  - injection H as <-. constructor.
  - apply bind_Ok in H. destruct H as [b [Hb H]].
    apply bind_Ok in H. destruct H as [bs [Hbs H]]. injection H as <-.
    constructor; [now apply (Hf a) | now apply IH].
Qed.

Lemma replace_in_models_clean (models : json) (endpoint key : string) (models' : json) :
  replace_in_models models endpoint key = Ok models' ->
  endpoint <> "<AZURE_ENDPOINT_PLACEHOLDER>" -> key <> "<REDACTED>" ->
  forall elements, models' = JList elements -> Forall (clean AOAI_FIELDS) elements.
Proof.
  intros H He Hk elements ->. unfold replace_in_models in H.
  apply bind_Ok in H. destruct H as [l [Hl H]].
  apply bind_Ok in H. destruct H as [l' [Hl' H]].
  destruct models; try discriminate. injection H as <-.
  apply (map_res_Forall
           (fun model => replace_in_model model endpoint key)
           (clean AOAI_FIELDS)) with (l := l); [ | exact Hl' ].
  intros m m' Hm. exact (replace_in_model_clean m endpoint key m' Hm He Hk).
Qed.

Lemma at_models_clean (x : json) (endpoint key : string) (x' : json) :
  at_key x "models" (fun models => replace_in_models models endpoint key) = Ok x' ->
  endpoint <> "<AZURE_ENDPOINT_PLACEHOLDER>" -> key <> "<REDACTED>" ->
  forall elements, field ["models"] x' = JList elements ->
                   Forall (clean AOAI_FIELDS) elements.
Proof.
  intros H He Hk elements Hf. apply at_key_Ok in H.
  destruct H as [[d [v [v' [-> [Hd [Ht [Hb ->]]]]]]] | [-> Hg]].
  - rewrite field_set_same in Hf. simpl in Hf.
    exact (replace_in_models_clean v endpoint key v' Hb He Hk elements Hf).
  - destruct x as [ | | | | | | d ]; try discriminate.
    unfold py_guard in Hg. simpl in Hg, Hf. rewrite dict_in_find in Hg.
    unfold dict_get in Hf.
    destruct (dict_find "models" d) as [v | ]; [ | discriminate ].
    simpl in Hg. subst v. destruct elements; [constructor | discriminate].
Qed.

Lemma replace_in_inference_params_clean (x : json) (endpoint key : string) (x' : json) :
  replace_in_inference_params x endpoint key = Ok x' ->
  endpoint <> "<AZURE_ENDPOINT_PLACEHOLDER>" -> key <> "<REDACTED>" ->
  clean AOAI_FIELDS x'.
Proof.
  intros H He Hk. unfold replace_in_inference_params in H.
  apply bind_Ok in H. destruct H as [c [Hc H]].
  destruct c.
  - apply bind_Ok in H. destruct H as [a [Ha H]].
    apply bind_Ok in H. destruct H as [a' [Ha' H]].
    destruct x as [ | | | | | | d ]; try discriminate.
    simpl in H. injection H as <-.
    change AOAI_FIELDS
      with (under ["azureOpenAIParameters"]
              [ (["resourceUri"], "<AZURE_ENDPOINT_PLACEHOLDER>");
                (["apiKey"], "<REDACTED>") ]).
    apply clean_under_key.
    exact (replace_aoai_clean a endpoint key a' Ha' He Hk).
  - injection H as <-. intros path token Hin.
    destruct x as [ | | | | | | d ]; try discriminate.
    + destruct Hin as [[= <- <-] | [[= <- <-] | []]]; discriminate.
    + destruct Hin as [[= <- <-] | [[= <- <-] | []]]; discriminate.
    + simpl in Hc. injection Hc as Hc. rewrite dict_in_find in Hc.
      destruct Hin as [[= <- <-] | [[= <- <-] | []]]; simpl; unfold dict_get;
        destruct (dict_find "azureOpenAIParameters" d); discriminate.
Qed.

Lemma replace_knowledge_base_clean (d : dict) (endpoint key : string) (r : dict) :
  replace_placeholders_in_knowledge_base d endpoint key = Ok r ->
  endpoint <> "<AZURE_ENDPOINT_PLACEHOLDER>" -> key <> "<REDACTED>" ->
  (forall elements, field ["models"] (JDict r) = JList elements ->
                    Forall (clean AOAI_FIELDS) elements) /\
  clean KNOWLEDGE_BASE_FIELDS (JDict r).
Proof.
  intros H He Hk. unfold replace_placeholders_in_knowledge_base in H.
  apply bind_Ok in H. destruct H as [d1 [H1 H]].
  apply bind_Ok in H. destruct H as [d2 [H2 H]]. injection H as <-.
  apply with_block_at_key in H1, H2. split.
  - intros elements Hf.
    rewrite (at_key_frame _ _ "models" _ _ [] H2) in Hf by discriminate.
    exact (at_models_clean _ endpoint key _ H1 He Hk elements Hf).
  - unfold KNOWLEDGE_BASE_FIELDS. eapply at_key_clean; [exact H2 | | ].
    + intros x x' Hx.
      exact (replace_in_inference_params_clean x endpoint key x' Hx He Hk).
    + exact AOAI_FIELDS_nonempty.
Qed.

(** *** Descending to a block that is there *)

Lemma py_guard_None_falsy (x : json) (k : string) (path : list string) :
  py_guard x k = Ok None -> truthy (field (k :: path) x) = false.
Proof.
  intros H. destruct path as [ | k1 path ].
  - unfold py_guard in H.
    destruct x as [ | | | | s | l | d ]; try reflexivity.
    simpl in *. rewrite dict_in_find in H. unfold dict_get.
    destruct (dict_find k d) as [v0 | ]; simpl in H; [ | reflexivity ].
    destruct (truthy v0); [discriminate | reflexivity].
  - rewrite py_guard_None; [reflexivity | assumption | discriminate].
Qed.

Lemma at_key_descend (x : json) (k : string) (body : json -> res json) (x' : json)
  (path : list string) :
  at_key x k body = Ok x' ->
  truthy (field (k :: path) x) = true ->
  exists v v', body v = Ok v' /\
               (forall p, field (k :: p) x = field p v) /\
               (forall p, field (k :: p) x' = field p v').
Proof.
  intros H Ht. apply at_key_Ok in H.
  destruct H as [[d [v [v' [-> [Hd [Hv [Hb ->]]]]]]] | [-> Hg]].
  - exists v, v'. split; [assumption | ]. split; intros p.
    + simpl. unfold dict_get. now rewrite Hd.
    + apply field_set_same.
  - rewrite (py_guard_None_falsy x k path Hg) in Ht. discriminate.
Qed.

Lemma field_pop_other (k k' : string) (path : list string) (d : dict) :
  k <> k' ->
  field (k :: path) (JDict (dict_pop k' d)) = field (k :: path) (JDict d).
Proof.
  intros Hne. simpl. unfold dict_get. now rewrite dict_find_pop_other.
Qed.

Lemma replace_ai_services_nulls (ip : json) (e k : option string) (ip' : json) :
  replace_ai_services ip e k = Ok ip' ->
  ai_services_available e k = None ->
  truthy (field ["aiServices"] ip) = true ->
  exists d, ip' = JDict d /\ dict_find "aiServices" d = Some JNull.
Proof.
  intros H Ha Ht. unfold replace_ai_services in H. rewrite Ha in H.
  apply at_key_Ok in H.
  destruct H as [[d [v [v' [-> [Hd [Hv [Hb ->]]]]]]] | [-> Hg]].
  - injection Hb as <-. exists (dict_set "aiServices" JNull d).
    split; [reflexivity | apply dict_find_set_same].
  - rewrite (py_guard_None_falsy ip "aiServices" [] Hg) in Ht. discriminate.
Qed.

Lemma replace_in_blob_ingestion_nulls_ai_services (ip : json)
  (endpoint key : string) (e k : option string) (ip' : json) :
  replace_in_blob_ingestion ip endpoint key e k = Ok ip' ->
  ai_services_available e k = None ->
  truthy (field ["aiServices"] ip) = true ->
  exists d, ip' = JDict d /\ dict_find "aiServices" d = Some JNull.
Proof.
  intros H Ha Ht. unfold replace_in_blob_ingestion in H.
  apply bind_Ok in H. destruct H as [ip1 [H1 H]].
  apply bind_Ok in H. destruct H as [ip2 [H2 H3]].
  rewrite <- (replace_in_ingest_model_frame ip "embeddingModel" endpoint key
                "aiServices" ip1 [] H1) in Ht by discriminate.
  rewrite <- (replace_in_ingest_model_frame ip1 "chatCompletionModel" endpoint key
                "aiServices" ip2 [] H2) in Ht by discriminate.
  exact (replace_ai_services_nulls ip2 e k ip' H3 Ha Ht).
Qed.

Lemma replace_in_blob_params_nulls_ai_services (bp : json)
  (endpoint key cs container : string) (e k : option string) (bp' : json) :
  replace_in_blob_params bp endpoint key cs container e k = Ok bp' ->
  ai_services_available e k = None ->
  truthy (field ["ingestionParameters"; "aiServices"] bp) = true ->
  exists d, field ["ingestionParameters"] bp' = JDict d /\
            dict_find "aiServices" d = Some JNull.
Proof.
  intros H Ha Ht. unfold replace_in_blob_params in H.
  apply bind_Ok in H. destruct H as [v [Hv H]].
  apply bind_Ok in H. destruct H as [bp1 [H1 H]].
  apply bind_Ok in H. destruct H as [bp2 [H2 H3]].
  assert (Hf1 : field ["ingestionParameters"; "aiServices"] bp1
                = field ["ingestionParameters"; "aiServices"] bp).
  { destruct (connection_string_unset v).
    - destruct bp as [ | | | | | | d ]; try discriminate.
      simpl in H1. injection H1 as <-. apply field_set_other. discriminate.
    - now injection H1 as <-. }
  rewrite <- Hf1 in Ht.
  rewrite <- (replace_if_frame bp1 "containerName" "ingestionParameters" _ _ bp2
                ["aiServices"] H2) in Ht by discriminate.
  destruct (at_key_descend bp2 "ingestionParameters" _ bp' ["aiServices"] H3 Ht)
    as [ip [ip' [Hb [Hf Hf']]]].
  rewrite (Hf' []). rewrite Hf in Ht.
  exact (replace_in_blob_ingestion_nulls_ai_services ip endpoint key e k ip'
           Hb Ha Ht).
Qed.

(** *** Documents without tokens *)

Lemma no_placeholder_find (d : dict) (k : string) (v : json) :
  mentions_placeholder (JDict d) = false -> dict_find k d = Some v ->
  mentions_placeholder v = false.
Proof.
  simpl. induction d as [ | [k0 v0] d IH ]; simpl; [discriminate | ].
  intros H. apply orb_false_iff in H. destruct H as [H0 Hd].
  destruct (String.eqb k0 k); [now intros [= <-] | now apply IH].
Qed.

Lemma no_placeholder_field (path : list string) : forall v,
  mentions_placeholder v = false -> mentions_placeholder (field path v) = false.
Proof.
  induction path as [ | k path IH ]; intros v Hv; simpl; [exact Hv | ].
  destruct v as [ | | | | | | d ]; try (apply field_null || reflexivity).
  apply IH. unfold dict_get.
  destruct (dict_find k d) as [v0 | ] eqn:Hf; [ | reflexivity ].
  exact (no_placeholder_find d k v0 Hv Hf).
Qed.

Lemma no_placeholder_token (v : json) (token : string) :
  mentions_placeholder v = false -> In token PLACEHOLDERS -> v <> JStr token.
Proof.
  intros Hv Hin ->. change (PyStr.mem token PLACEHOLDERS = false) in Hv.
  apply PyStr_mem_In in Hin. congruence.
Qed.

Lemma no_placeholder_pop (k : string) (d : dict) :
  mentions_placeholder (JDict d) = false ->
  mentions_placeholder (JDict (dict_pop k d)) = false.
Proof.
  simpl. induction d as [ | [k0 v0] d IH ]; simpl; [reflexivity | ].
  intros H. apply orb_false_iff in H. destruct H as [H0 Hd].
  destruct (String.eqb k0 k); [exact Hd | ].
  simpl. rewrite H0. now apply IH.
Qed.

Lemma replace_if_plain (x : json) (k token value : string) (x' : json) :
  replace_if x k token value = Ok x' ->
  mentions_placeholder x = false -> In token PLACEHOLDERS -> x' = x.
Proof.
  intros H Hx Hin. apply (replace_if_unchanged x k token value x' H).
  apply no_placeholder_token; [ | exact Hin ].
  now apply no_placeholder_field.
Qed.

(** A descent whose body changes nothing changes nothing. *)
Lemma at_key_unchanged (x : json) (k : string) (body : json -> res json) (x' : json) :
  at_key x k body = Ok x' ->
  (forall d v v', x = JDict d -> dict_find k d = Some v -> truthy v = true ->
                  body v = Ok v' -> v' = v) ->
  x' = x.
Proof.
  intros H Hbody. apply at_key_Ok in H.
  destruct H as [[d [v [v' [-> [Hd [Hv [Hb ->]]]]]]] | [-> _]]; [ | reflexivity ].
  rewrite (Hbody d v v' eq_refl Hd Hv Hb). now rewrite dict_set_same_value.
Qed.

Lemma replace_aoai_plain (a : json) (endpoint key : string) (a' : json) :
  replace_aoai a endpoint key = Ok a' -> mentions_placeholder a = false -> a' = a.
Proof.
  intros H Ha. unfold replace_aoai in H.
  apply bind_Ok in H. destruct H as [a1 [H1 H2]].
  assert (a1 = a) as ->.
  { apply (replace_if_plain a _ _ _ a1 H1 Ha). simpl. tauto. }
  apply (replace_if_plain a _ _ _ a' H2 Ha). simpl. tauto.
Qed.

Lemma replace_in_model_plain (m : json) (endpoint key : string) (m' : json) :
  replace_in_model m endpoint key = Ok m' -> mentions_placeholder m = false -> m' = m.
Proof.
  intros H Hm. unfold replace_in_model in H.
  apply (at_key_unchanged m _ _ m' H).
  intros d v v' -> Hd _ Hb.
  apply (replace_aoai_plain v endpoint key v' Hb).
  exact (no_placeholder_find d _ v Hm Hd).
Qed.

Lemma replace_in_ingest_model_plain (ip : json) (model_key endpoint key : string)
  (ip' : json) :
  replace_in_ingest_model ip model_key endpoint key = Ok ip' ->
  mentions_placeholder ip = false -> ip' = ip.
Proof.
  intros H Hip. unfold replace_in_ingest_model in H.
  apply (at_key_unchanged ip _ _ ip' H).
  intros d v v' -> Hd _ Hb.
  apply (replace_in_model_plain v endpoint key v' Hb).
  exact (no_placeholder_find d _ v Hip Hd).
Qed.

Lemma replace_ai_services_plain (ip : json) (e k : option string) (ip' : json) :
  replace_ai_services ip e k = Ok ip' ->
  mentions_placeholder ip = false ->
  ai_services_available e k <> None \/ truthy (field ["aiServices"] ip) = false ->
  ip' = ip.
Proof.
  intros H Hip Hai. unfold replace_ai_services in H.
  apply (at_key_unchanged ip _ _ ip' H).
  intros d v v' -> Hd Hv Hb.
  pose proof (no_placeholder_find d _ v Hip Hd) as Hp.
  destruct (ai_services_available e k) as [[endpoint key] | ].
  - apply bind_Ok in Hb. destruct Hb as [v1 [H1 H2]].
    assert (v1 = v) as ->.
    { apply (replace_if_plain v _ _ _ v1 H1 Hp). simpl. tauto. }
    apply (replace_if_plain v _ _ _ v' H2 Hp). simpl. tauto.
  - destruct Hai as [Hai | Hai]; [congruence | ].
    simpl in Hai. unfold dict_get in Hai. rewrite Hd in Hai. congruence.
Qed.

Lemma replace_in_blob_params_plain (bp : json)
  (endpoint key cs container : string) (e k : option string) (bp' : json) :
  replace_in_blob_params bp endpoint key cs container e k = Ok bp' ->
  mentions_placeholder bp = false ->
  connection_string_unset (field ["connectionString"] bp) = false ->
  ai_services_available e k <> None
  \/ truthy (field ["ingestionParameters"; "aiServices"] bp) = false ->
  bp' = bp.
Proof.
  intros H Hbp Hcs Hai. unfold replace_in_blob_params in H.
  apply bind_Ok in H. destruct H as [v [Hv H]].
  apply bind_Ok in H. destruct H as [bp1 [H1 H]].
  apply bind_Ok in H. destruct H as [bp2 [H2 H3]].
  destruct bp as [ | | | | | | d ]; try discriminate.
  simpl in Hv. injection Hv as <-. simpl in Hcs. rewrite Hcs in H1.
  injection H1 as <-.
  assert (bp2 = JDict d) as ->.
  { apply (replace_if_plain _ _ _ _ bp2 H2 Hbp). simpl. tauto. }
  apply (at_key_unchanged _ _ _ bp' H3).
  intros d0 ip ip' [= <-] Hd Hv Hb.
  pose proof (no_placeholder_find d _ ip Hbp Hd) as Hip.
  unfold replace_in_blob_ingestion in Hb.
  apply bind_Ok in Hb. destruct Hb as [ip1 [Hb1 Hb]].
  apply bind_Ok in Hb. destruct Hb as [ip2 [Hb2 Hb3]].
  assert (ip1 = ip) as ->
    by exact (replace_in_ingest_model_plain ip _ endpoint key ip1 Hb1 Hip).
  assert (ip2 = ip) as ->
    by exact (replace_in_ingest_model_plain ip _ endpoint key ip2 Hb2 Hip).
  apply (replace_ai_services_plain ip e k ip' Hb3 Hip).
  destruct Hai as [Hai | Hai]; [now left | right].
  simpl in Hai. unfold dict_get in Hai. rewrite Hd in Hai. exact Hai.
Qed.

Lemma replace_in_indexed_params_plain (params : json) (endpoint key : string)
  (params' : json) :
  replace_in_indexed_params params endpoint key = Ok params' ->
  mentions_placeholder params = false -> params' = params.
Proof.
  intros H Hp. unfold replace_in_indexed_params in H.
  apply (at_key_unchanged params _ _ params' H).
  intros d v v' -> Hd _ Hb.
  apply (replace_in_ingest_model_plain v _ endpoint key v' Hb).
  exact (no_placeholder_find d _ v Hp Hd).
Qed.

Lemma with_block_unchanged (d : dict) (k : string) (body : json -> res json) (d' : dict) :
  with_block d k body = Ok d' ->
  (forall v v', dict_find k d = Some v -> truthy v = true ->
                body v = Ok v' -> v' = v) ->
  d' = d.
Proof.
  intros H Hbody. apply with_block_at_key in H.
  assert (JDict d' = JDict d) as Heq.
  { apply (at_key_unchanged _ _ _ _ H).
    intros d0 v v' [= <-]. apply Hbody. }
  now injection Heq.
Qed.

Lemma map_res_unchanged {A : Type} (f : A -> res A) :
  forall l l', map_res f l = Ok l' ->
               (forall a b, In a l -> f a = Ok b -> b = a) -> l' = l.
Proof.
  induction l as [ | a l IH ]; simpl; intros l' H Hf.
  - now injection H as <-.
  - apply bind_Ok in H. destruct H as [b [Hb H]].
    apply bind_Ok in H. destruct H as [bs [Hbs H]]. injection H as <-.
    f_equal; [apply (Hf a b); auto | apply IH; auto].
Qed.

Lemma replace_in_models_plain (models : json) (endpoint key : string) (models' : json) :
  replace_in_models models endpoint key = Ok models' ->
  mentions_placeholder models = false -> models' = models.
Proof.
  intros H Hm. unfold replace_in_models in H.
  apply bind_Ok in H. destruct H as [l [Hl H]].
  apply bind_Ok in H. destruct H as [l' [Hl' H]].
  destruct models as [ | | | | s | l0 | d ]; try (now injection H as <-).
  simpl in Hl. injection Hl as <-. injection H as <-. f_equal.
  apply (map_res_unchanged _ l0 l' Hl').
  intros a b Ha Hb. apply (replace_in_model_plain a endpoint key b Hb).
  simpl in Hm. destruct (mentions_placeholder a) eqn:Hpa; [ | reflexivity ].
  assert (existsb mentions_placeholder l0 = true)
    by (apply existsb_exists; eauto).
  congruence.
Qed.

Lemma replace_in_inference_params_plain (x : json) (endpoint key : string) (x' : json) :
  replace_in_inference_params x endpoint key = Ok x' ->
  mentions_placeholder x = false -> x' = x.
Proof.
  intros H Hx. unfold replace_in_inference_params in H.
  apply bind_Ok in H. destruct H as [c [Hc H]].
  destruct c; [ | now injection H as <- ].
  apply bind_Ok in H. destruct H as [a [Ha H]].
  apply bind_Ok in H. destruct H as [a' [Ha' H]].
  destruct x as [ | | | | | | d ]; try discriminate.
  simpl in Ha. destruct (dict_find "azureOpenAIParameters" d) as [v | ] eqn:Hd;
    [ | discriminate ].
  injection Ha as <-. simpl in H. injection H as <-.
  rewrite (replace_aoai_plain v endpoint key a' Ha'
             (no_placeholder_find d _ v Hx Hd)).
  now rewrite dict_set_same_value.
Qed.
End RestorerFacts.

Section RestorerClaims.
Import Restorer.

(** C1, as the code has it.  After a replacement that returns, made with
    live credentials (the AI-services pair included), none of the fields
    that the Restorer visits holds the token it looks for there: in a
    knowledge source the fields of [KNOWLEDGE_SOURCE_FIELDS]; in a
    knowledge base the two [azureOpenAIParameters] fields of every element
    of [models] and of [inferenceParameters]. *)
Theorem restore_cleans_the_known_fields :
  (forall (d : dict) (endpoint key cs container : string) (e k : option string)
          (r : dict),
      replace_placeholders_in_knowledge_source d endpoint key cs container e k
      = Ok r ->
      live_credentials endpoint key cs container e k ->
      clean KNOWLEDGE_SOURCE_FIELDS (JDict r)) /\
  (forall (d : dict) (endpoint key : string) (r : dict),
      replace_placeholders_in_knowledge_base d endpoint key = Ok r ->
      endpoint <> "<AZURE_ENDPOINT_PLACEHOLDER>" -> key <> "<REDACTED>" ->
      (forall elements, field ["models"] (JDict r) = JList elements ->
                        Forall (clean AOAI_FIELDS) elements) /\
      clean KNOWLEDGE_BASE_FIELDS (JDict r)).
Proof.
  split.
  - exact replace_knowledge_source_clean.
  - exact replace_knowledge_base_clean.
Qed.

Lemma live_credentials_sample :
  live_credentials "https://live.openai.azure.com" "live-key"
    "DefaultEndpointsProtocol=https;AccountName=live" "docs"
    (Some "https://live.cognitiveservices.azure.com") (Some "ai-key").
Proof.
  repeat split; try discriminate.
  exists "https://live.cognitiveservices.azure.com", "ai-key".
  repeat split; discriminate || reflexivity.
Qed.

Lemma restore_cleans_the_known_fields_witness :
  clean KNOWLEDGE_SOURCE_FIELDS
    (JDict
       [ ("name", JStr "blob-ks");
         ("kind", JStr "azureBlob");
         ("azureBlobParameters",
          JDict
            [ ("connectionString",
               JStr "DefaultEndpointsProtocol=https;AccountName=live");
              ("containerName", JStr "docs");
              ("ingestionParameters",
               JDict
                 [ ("embeddingModel",
                    JDict
                      [ ("kind", JStr "azureOpenAI");
                        ("azureOpenAIParameters",
                         JDict
                           [ ("resourceUri", JStr "https://live.openai.azure.com");
                             ("deploymentId", JStr "text-embedding-3-large");
                             ("apiKey", JStr "live-key") ]) ]);
                   ("chatCompletionModel", JNull);
                   ("aiServices",
                    JDict [ ("uri", JStr "https://live.cognitiveservices.azure.com");
                            ("apiKey", JStr "ai-key") ]) ]) ]) ]) /\
  clean KNOWLEDGE_BASE_FIELDS
    (JDict
       [ ("name", JStr "kb1");
         ("knowledgeSources", JList [ JDict [("name", JStr "blob-ks")] ]);
         ("models",
          JList
            [ JDict
                [ ("kind", JStr "azureOpenAI");
                  ("azureOpenAIParameters",
                   JDict
                     [ ("resourceUri", JStr "https://live.openai.azure.com");
                       ("deploymentId", JStr "gpt-4o");
                       ("apiKey", JStr "live-key") ]) ] ]) ]).
Proof.
  split.
  - exact (proj1 restore_cleans_the_known_fields Samples.blob_source
             "https://live.openai.azure.com" "live-key"
             "DefaultEndpointsProtocol=https;AccountName=live" "docs"
             (Some "https://live.cognitiveservices.azure.com") (Some "ai-key")
             _ eq_refl live_credentials_sample).
  - refine (proj2 (proj2 restore_cleans_the_known_fields Samples.knowledge_base
                     "https://live.openai.azure.com" "live-key" _ eq_refl _ _)).
    + discriminate.
    + discriminate.
Defined.

(** C1 fails as stated.  The SharePoint connection string of a sanitized
    knowledge source is the token [<REDACTED>]; the Restorer has no
    credential for it and no code that visits it, and the token is still
    there after the replacement with a full bundle of credentials. *)
Lemma restore_leaves_a_placeholder :
  replace_placeholders_in_knowledge_source
    (Sanitizer.sanitize_dict Samples.sharepoint_source EmptyString)
    "https://live.openai.azure.com" "live-key"
    "DefaultEndpointsProtocol=https;AccountName=live" "docs"
    (Some "https://live.cognitiveservices.azure.com") (Some "ai-key")
  = Ok [ ("name", JStr "sp-ks");
         ("kind", JStr "indexedSharePoint");
         ("indexedSharePointParameters",
          JDict
            [ ("connectionString", JStr "<REDACTED>");
              ("containerName", JStr "defaultSiteLibrary");
              ("ingestionParameters",
               JDict
                 [ ("embeddingModel",
                    JDict
                      [ ("kind", JStr "azureOpenAI");
                        ("azureOpenAIParameters",
                         JDict
                           [ ("resourceUri", JStr "https://live.openai.azure.com");
                             ("deploymentId", JStr "text-embedding-3-large");
                             ("apiKey", JStr "live-key") ]) ]) ]) ]) ]
  /\
  mentions_placeholder
    (field ["indexedSharePointParameters"; "connectionString"]
       (JDict
          [ ("name", JStr "sp-ks");
            ("kind", JStr "indexedSharePoint");
            ("indexedSharePointParameters",
             JDict
               [ ("connectionString", JStr "<REDACTED>");
                 ("containerName", JStr "defaultSiteLibrary") ]) ]))
  = true.
Proof. split; vm_compute; reflexivity. Qed.


(** A document that holds no token anywhere comes back as it was, apart
    from the two dropped metadata keys, unless the connection string of
    its blob block is missing, [None] or empty, or its [aiServices] block
    is to be dropped; this holds for a knowledge source and for a
    knowledge base. *)
Lemma replace_plain_documents :
  (forall (d : dict) (endpoint key cs container : string) (e k : option string)
          (r : dict),
      replace_placeholders_in_knowledge_source d endpoint key cs container e k
      = Ok r ->
      mentions_placeholder (JDict d) = false ->
      (truthy (field ["azureBlobParameters"] (JDict d)) = true ->
       connection_string_unset
         (field ["azureBlobParameters"; "connectionString"] (JDict d)) = false) ->
      (ai_services_available e k <> None
       \/ truthy (field AI_SERVICES_PATH (JDict d)) = false) ->
      r = dict_pop "@odata.etag" (dict_pop "@odata.context" d)) /\
  (forall (d : dict) (endpoint key : string) (r : dict),
      replace_placeholders_in_knowledge_base d endpoint key = Ok r ->
      mentions_placeholder (JDict d) = false ->
      r = dict_pop "@odata.etag" (dict_pop "@odata.context" d)).
Proof.
  split.
  - intros d endpoint key cs container e k r H Hd Hcs Hai.
    unfold replace_placeholders_in_knowledge_source in H.
    set (d0 := dict_pop "@odata.etag" (dict_pop "@odata.context" d)) in *.
    assert (Hd0 : mentions_placeholder (JDict d0) = false)
      by (unfold d0; now repeat apply no_placeholder_pop).
    assert (Hfind : forall k0, k0 <> "@odata.context" -> k0 <> "@odata.etag" ->
                               dict_find k0 d0 = dict_find k0 d).
    { intros k0 H1 H2. unfold d0. now rewrite !dict_find_pop_other. }
    apply bind_Ok in H. destruct H as [d1 [H1 H]].
    apply bind_Ok in H. destruct H as [d2 [H2 H]].
    apply bind_Ok in H. destruct H as [d3 [H3 H]]. injection H as <-.
    assert (d1 = d0) as ->.
    { apply (with_block_unchanged d0 _ _ d1 H1). intros v v' Hv Ht Hb.
      rewrite Hfind in Hv by discriminate.
      apply (replace_in_blob_params_plain v endpoint key cs container e k v' Hb).
      - rewrite <- Hfind in Hv by discriminate.
        exact (no_placeholder_find d0 _ v Hd0 Hv).
      - simpl in Hcs. unfold dict_get in Hcs at 1 2. rewrite Hv in Hcs.
        now apply Hcs.
      - destruct Hai as [Hai | Hai]; [now left | right].
        unfold AI_SERVICES_PATH in Hai. simpl in Hai.
        unfold dict_get in Hai at 1. rewrite Hv in Hai. exact Hai. }
    assert (d2 = d0) as ->.
    { apply (with_block_unchanged d0 _ _ d2 H2). intros v v' Hv Ht Hb.
      apply (replace_in_indexed_params_plain v endpoint key v' Hb).
      exact (no_placeholder_find d0 _ v Hd0 Hv). }
    apply (with_block_unchanged d0 _ _ d3 H3). intros v v' Hv Ht Hb.
    apply (replace_in_indexed_params_plain v endpoint key v' Hb).
    exact (no_placeholder_find d0 _ v Hd0 Hv).
  - intros d endpoint key r H Hd.
    unfold replace_placeholders_in_knowledge_base in H.
    set (d0 := dict_pop "@odata.etag" (dict_pop "@odata.context" d)) in *.
    assert (Hd0 : mentions_placeholder (JDict d0) = false)
      by (unfold d0; now repeat apply no_placeholder_pop).
    apply bind_Ok in H. destruct H as [d1 [H1 H]].
    apply bind_Ok in H. destruct H as [d2 [H2 H]]. injection H as <-.
    assert (d1 = d0) as ->.
    { apply (with_block_unchanged d0 _ _ d1 H1). intros v v' Hv Ht Hb.
      apply (replace_in_models_plain v endpoint key v' Hb).
      exact (no_placeholder_find d0 _ v Hd0 Hv). }
    apply (with_block_unchanged d0 _ _ d2 H2). intros v v' Hv Ht Hb.
    apply (replace_in_inference_params_plain v endpoint key v' Hb).
    exact (no_placeholder_find d0 _ v Hd0 Hv).
Qed.

End RestorerClaims.

(** ** The Graph Exporter *)

Section ExporterFacts.
Import Exporter.

Variable http_get : node_kind -> string -> res (option json).

Lemma mem_set_add (n m : string) (s : list string) :
  PyStr.mem n (set_add m s) = String.eqb n m || PyStr.mem n s.
Proof.
  unfold set_add. destruct (PyStr.mem m s) eqn:Hm.
  - destruct (String.eqb_spec n m) as [-> | Hne]; [now rewrite Hm | reflexivity].
  - unfold PyStr.mem. rewrite existsb_app. simpl.
    rewrite orb_false_r. apply orb_comm.
Qed.

Lemma count_snoc {A : Type} (p : A -> bool) (l : list A) (a : A) :
  List.length (filter p (l ++ [a]))
  = List.length (filter p l) + (if p a then 1 else 0).
Proof.
  rewrite filter_app, length_app. simpl. now destruct (p a).
Qed.

Lemma ks_view_record_request (n : string) (k : node_kind) (m : string) (st : state) :
  ks_view n (record_request k m st)
  = (fst (fst (ks_view n st)),
     snd (fst (ks_view n st))
     + (if node_kind_eqb k KnowledgeSource && String.eqb m n then 1 else 0),
     snd (ks_view n st)).
Proof.
  unfold ks_view, request_count, file_count. simpl. now rewrite count_snoc.
Qed.

Lemma ks_view_dump (n : string) (k : node_kind) (m : string) (obj : json) (st : state) :
  ks_view n (dump k m obj st)
  = (fst (fst (ks_view n st)),
     snd (fst (ks_view n st)),
     snd (ks_view n st)
     + (if node_kind_eqb k KnowledgeSource && String.eqb m n then 1 else 0)).
Proof.
  unfold ks_view, request_count, file_count. simpl. now rewrite count_snoc.
Qed.

Lemma ks_view_mark_seen (n : string) (k : node_kind) (m : string) (st : state) :
  ks_view n (mark_seen k m st)
  = ((node_kind_eqb k KnowledgeSource && String.eqb n m)
     || fst (fst (ks_view n st)),
     snd (fst (ks_view n st)),
     snd (ks_view n st)).
Proof.
  unfold ks_view, request_count, file_count.
  destruct k; simpl; try reflexivity. now rewrite mem_set_add.
Qed.

Lemma get_Ok (k : node_kind) (name : string) (st : state) (r : option json)
  (st' : state) :
  get http_get k name st = Ok (r, st') ->
  http_get k name = Ok r /\ st' = record_request k name st.
Proof.
  unfold get. intros H. apply bind_Ok in H. destruct H as [r0 [Hr H]].
  injection H as <- <-. now split.
Qed.

Lemma fold_res_invariant {A S : Type} (f : A -> S -> res S) (P : S -> Prop) :
  (forall a s s', f a s = Ok s' -> P s -> P s') ->
  forall l s s', fold_res f l s = Ok s' -> P s -> P s'.
Proof.
  intros Hf. induction l as [ | a l IH ]; simpl; intros s s' H Hs.
  - now injection H as <-.
  - apply bind_Ok in H. destruct H as [s1 [H1 H]].
    apply (IH s1 s' H). now apply (Hf a s).
Qed.

(** The steps that deal with another kind leave the view of every
    knowledge source as it is. *)
Lemma view_unchanged (n : string) (k : node_kind) (m : string) (st : state) :
  node_kind_eqb k KnowledgeSource = false ->
  ks_view n (record_request k m st) = ks_view n st /\
  (forall obj, ks_view n (dump k m obj st) = ks_view n st) /\
  ks_view n (mark_seen k m st) = ks_view n st.
Proof.
  intros Hk. split; [ | split ]; intros;
    rewrite ?ks_view_record_request, ?ks_view_dump, ?ks_view_mark_seen, Hk;
    cbn [andb orb]; rewrite ?Nat.add_0_r;
    destruct (ks_view n st) as [[? ?] ?]; reflexivity.
Qed.

Lemma dump_dependent_view (n : string) (k : node_kind) (name : json) (st st' : state) :
  node_kind_eqb k KnowledgeSource = false ->
  dump_dependent http_get k name st = Ok st' -> ks_view n st' = ks_view n st.
Proof.
  intros Hk H. unfold dump_dependent in H.
  apply bind_Ok in H. destruct H as [[m | ] [_ H]]; [ | now injection H as <- ].
  destruct (PyStr.mem m (seen k st)); [now injection H as <- | ].
  apply bind_Ok in H. destruct H as [[r st1] [Hg H]].
  apply get_Ok in Hg. destruct Hg as [_ ->].
  destruct (view_unchanged n k m st Hk) as [Hr _].
  destruct (found r) as [doc | ]; injection H as <-; [ | exact Hr ].
  destruct (view_unchanged n k m (dump k m doc (record_request k m st)) Hk)
    as [_ [_ Hm]].
  destruct (view_unchanged n k m (record_request k m st) Hk) as [_ [Hd _]].
  now rewrite Hm, Hd.
Qed.

Lemma dump_synmap_view (n : string) (sm : json) (st st' : state) :
  dump_synmap http_get sm st = Ok st' -> ks_view n st' = ks_view n st.
Proof.
  intros H. unfold dump_synmap in H.
  apply bind_Ok in H. destruct H as [[m | ] [_ H]]; [ | now injection H as <- ].
  destruct (PyStr.mem m (seen SynonymMap st)); [now injection H as <- | ].
  apply bind_Ok in H. destruct H as [[r st1] [Hg H]].
  apply get_Ok in Hg. destruct Hg as [_ ->]. injection H as <-.
  destruct (view_unchanged n SynonymMap m st eq_refl) as [Hr _].
  destruct (found r) as [doc | ].
  - destruct (view_unchanged n SynonymMap m
                (dump SynonymMap m doc (record_request SynonymMap m st)) eq_refl)
      as [_ [_ Hm]].
    destruct (view_unchanged n SynonymMap m (record_request SynonymMap m st) eq_refl) as [_ [Hd _]].
    now rewrite Hm, Hd.
  - destruct (view_unchanged n SynonymMap m (record_request SynonymMap m st) eq_refl) as [_ [_ Hm]].
    now rewrite Hm.
Qed.

Lemma dump_index_view (n : string) (name : json) (st st' : state) :
  dump_index http_get name st = Ok st' -> ks_view n st' = ks_view n st.
Proof.
  intros H. unfold dump_index in H.
  apply bind_Ok in H. destruct H as [[m | ] [_ H]]; [ | now injection H as <- ].
  destruct (PyStr.mem m (seen Index st)); [now injection H as <- | ].
  apply bind_Ok in H. destruct H as [[r st1] [Hg H]].
  apply get_Ok in Hg. destruct Hg as [_ ->].
  destruct (view_unchanged n Index m st eq_refl) as [Hr _].
  destruct (found r) as [index | ]; [ | now injection H as <- ].
  apply bind_Ok in H. destruct H as [maps_value [_ H]].
  apply bind_Ok in H. destruct H as [maps [_ H]].
  apply (fold_res_invariant (dump_synmap http_get)
           (fun s => ks_view n s = ks_view n st)) in H; [exact H | | ].
  - intros sm s s' Hs Hv. rewrite <- Hv. now apply dump_synmap_view with (sm := sm).
  - destruct (view_unchanged n Index m
                (dump Index m index (record_request Index m st)) eq_refl)
      as [_ [_ Hm]].
    destruct (view_unchanged n Index m (record_request Index m st) eq_refl)
      as [_ [Hd _]].
    now rewrite Hm, Hd.
Qed.

Lemma fold_res_reaches {A S : Type} (f : A -> S -> res S) (Q G : S -> Prop) (a : A) :
  (forall b s s', f b s = Ok s' -> Q s -> Q s') ->
  (forall b s s', f b s = Ok s' -> G s -> G s') ->
  (forall s s', f a s = Ok s' -> Q s -> G s') ->
  forall l s s', fold_res f l s = Ok s' -> In a l -> Q s -> G s'.
Proof.
  intros HQ HG Ha. induction l as [ | b l IH ]; simpl; intros s s' H Hin Hs.
  - contradiction.
  - apply bind_Ok in H. destruct H as [s1 [H1 H]].
    destruct Hin as [-> | Hin].
    + apply (fold_res_invariant f G HG l s1 s' H). now apply (Ha s).
    + apply (IH s1 s' H Hin). now apply (HQ b s).
Qed.

Lemma name_of_str (n : string) : n <> EmptyString -> name_of (JStr n) = Ok (Some n).
Proof.
  intros Hn. unfold name_of. simpl.
  destruct (String.eqb_spec n EmptyString); [contradiction | reflexivity].
Qed.

Lemma view_after_found (n m : string) (ks : json) (st : state) :
  ks_view n (mark_seen KnowledgeSource m
               (dump KnowledgeSource m ks (record_request KnowledgeSource m st)))
  = (String.eqb n m || fst (fst (ks_view n st)),
     snd (fst (ks_view n st)) + (if String.eqb m n then 1 else 0),
     snd (ks_view n st) + (if String.eqb m n then 1 else 0)).
Proof.
  rewrite ks_view_mark_seen, ks_view_dump, ks_view_record_request. reflexivity.
Qed.

Section OneSource.
Variable n : string.
Hypothesis n_exists : exists_on_service http_get KnowledgeSource n.


Lemma export_ks_ref_view (ks_ref : json) (st st' : state) :
  export_ks_ref http_get ks_ref st = Ok st' ->
  (exported_once n st -> exported_once n st') /\
  (not_yet_requested n st \/ exported_once n st ->
   not_yet_requested n st' \/ exported_once n st') /\
  (py_get ks_ref "name" = Ok (JStr n) -> n <> EmptyString ->
   not_yet_requested n st \/ exported_once n st -> exported_once n st').
Proof.
  unfold not_yet_requested, exported_once. intros H. unfold export_ks_ref in H.
  apply bind_Ok in H. destruct H as [name [Hname H]].
  apply bind_Ok in H. destruct H as [[m | ] [Hm H]].
  2: { injection H as <-. repeat split; auto.
       intros Hn Hne _. rewrite Hname in Hn. injection Hn as ->.
       rewrite name_of_str in Hm by assumption. discriminate. }
  assert (Hthird : py_get ks_ref "name" = Ok (JStr n) -> n <> EmptyString -> m = n).
  { intros Hn Hne. rewrite Hname in Hn. injection Hn as ->.
    rewrite name_of_str in Hm by assumption. now injection Hm. }
  cbn [seen] in H.
  destruct (PyStr.mem m (seen_ks st)) eqn:Hseen.
  - injection H as <-. split; [auto | split; [auto | ] ].
    intros Hn Hne [Hf | Hd]; [ | exact Hd ].
    rewrite (Hthird Hn Hne) in Hseen. unfold ks_view in Hf. congruence.
  - apply bind_Ok in H. destruct H as [[r st1] [Hg H]].
    apply get_Ok in Hg. destruct Hg as [Hr ->].
    destruct (String.eqb_spec m n) as [-> | Hne].
    + (* the reference is to [n], which is not in the dedup set *)
      destruct n_exists as [ks [Hks Ht]]. rewrite Hks in Hr. injection Hr as <-.
      cbn [found] in H. rewrite Ht in H.
      apply bind_Ok in H. destruct H as [rsrc [_ H]].
      apply bind_Ok in H. destruct H as [s1 [H1 H]].
      apply bind_Ok in H. destruct H as [s2 [H2 H]].
      apply bind_Ok in H. destruct H as [s3 [H3 H4]].
      apply (dump_index_view n) in H1.
      apply (dump_dependent_view n) in H2, H3, H4; try reflexivity.
      rewrite H4, H3, H2, H1, view_after_found. rewrite !String.eqb_refl.
      assert (Hnot : ks_view n st <> (true, 1, 1))
        by (unfold ks_view; congruence).
      split; [contradiction | ].
      assert (Hgo : ks_view n st = (false, 0, 0) \/ ks_view n st = (true, 1, 1) ->
                    (true || fst (fst (ks_view n st)),
                     snd (fst (ks_view n st)) + 1, snd (ks_view n st) + 1)
                    = (true, 1, 1)).
      { intros [Hf | Hd]; [now rewrite Hf | contradiction]. }
      split; [intros Hs; right; now apply Hgo | intros _ _ Hs; now apply Hgo].
    + (* the reference is to another source *)
      assert (Hsame : ks_view n st' = ks_view n st).
      { destruct (found r) as [ks | ].
        - apply bind_Ok in H. destruct H as [rsrc [_ H]].
          apply bind_Ok in H. destruct H as [s1 [H1 H]].
          apply bind_Ok in H. destruct H as [s2 [H2 H]].
          apply bind_Ok in H. destruct H as [s3 [H3 H4]].
          apply (dump_index_view n) in H1.
          apply (dump_dependent_view n) in H2, H3, H4; try reflexivity.
          rewrite H4, H3, H2, H1, view_after_found.
          apply String.eqb_neq in Hne. rewrite Hne.
          rewrite String.eqb_sym, Hne. unfold ks_view. simpl.
          now rewrite !Nat.add_0_r.
        - injection H as <-. rewrite ks_view_record_request.
          apply String.eqb_neq in Hne. rewrite Hne. unfold ks_view. simpl.
          now rewrite !Nat.add_0_r. }
      rewrite Hsame. split; [auto | split; [auto | ] ].
      intros Hn Hne' _. elim Hne. now apply Hthird.
Qed.

Lemma export_kb_view (kb_name : string) (st st' : state) :
  export_kb http_get kb_name st = Ok st' ->
  (exported_once n st -> exported_once n st') /\
  (not_yet_requested n st \/ exported_once n st ->
   not_yet_requested n st' \/ exported_once n st') /\
  (exists_on_service http_get KnowledgeBase kb_name ->
   (forall kb, http_get KnowledgeBase kb_name = Ok (Some kb) -> references kb n) ->
   n <> EmptyString -> not_yet_requested n st \/ exported_once n st -> exported_once n st').
Proof.
  unfold not_yet_requested, exported_once. intros H. unfold export_kb in H.
  apply bind_Ok in H. destruct H as [[r st1] [Hg H]].
  apply get_Ok in Hg. destruct Hg as [Hr ->].
  destruct (view_unchanged n KnowledgeBase kb_name st eq_refl) as [Hv1 _].
  destruct (found r) as [kb | ] eqn:Hfound.
  - destruct (view_unchanged n KnowledgeBase kb_name
                (record_request KnowledgeBase kb_name st) eq_refl) as [_ [Hv2 _]].
    apply bind_Ok in H. destruct H as [refs_value [Hrv H]].
    apply bind_Ok in H. destruct H as [refs [Hrefs H]].
    set (st2 := dump KnowledgeBase kb_name kb
                  (record_request KnowledgeBase kb_name st)) in *.
    assert (Hst2 : ks_view n st2 = ks_view n st)
      by (unfold st2; now rewrite Hv2, Hv1).
    rewrite <- Hst2. split; [ | split ].
    + apply (fold_res_invariant (export_ks_ref http_get)
               (fun s => ks_view n s = (true, 1, 1))) with (l := refs); [ | exact H ].
      intros a s s' Hs. now apply export_ks_ref_view in Hs.
    + apply (fold_res_invariant (export_ks_ref http_get)
               (fun s => ks_view n s = (false, 0, 0) \/ ks_view n s = (true, 1, 1)))
        with (l := refs); [ | exact H ].
      intros a s s' Hs. now apply export_ks_ref_view in Hs.
    + intros [kb0 [Hkb0 Ht0]] Href Hne Hstart.
      assert (kb = kb0) as <-.
      { rewrite Hkb0 in Hr. injection Hr as <-. simpl in Hfound.
        rewrite Ht0 in Hfound. now injection Hfound. }
      destruct (Href kb Hkb0) as [rv [rs [ks_ref [Hrv' [Hrs' [Hin Hname]]]]]].
      rewrite Hrv in Hrv'. injection Hrv' as <-.
      rewrite Hrefs in Hrs'. injection Hrs' as <-.
      apply (fold_res_reaches (export_ks_ref http_get)
               (fun s => ks_view n s = (false, 0, 0) \/ ks_view n s = (true, 1, 1))
               (fun s => ks_view n s = (true, 1, 1)) ks_ref)
        with (l := refs) (s := st2); try assumption.
      * intros b s s' Hs. now apply export_ks_ref_view in Hs.
      * intros b s s' Hs. now apply export_ks_ref_view in Hs.
      * intros s s' Hs Hq. apply export_ks_ref_view in Hs.
        destruct Hs as [_ [_ Hs]]. now apply Hs.
  - injection H as <-. rewrite Hv1. split; [auto | split; [auto | ] ].
    intros [kb0 [Hkb0 Ht0]] _ _ _. rewrite Hkb0 in Hr. injection Hr as <-.
    simpl in Hfound. rewrite Ht0 in Hfound. discriminate.
Qed.
End OneSource.
End ExporterFacts.

Section ExporterClaims.
Import Exporter.

(** C7, as the code has it.  In a run that completes, a knowledge source
    that exists on the service and is named by one or more of the root
    knowledge bases that were found is requested exactly once and written
    exactly once, and is in the dedup set at the end; every further
    reference to it is skipped.  (A name whose request finds nothing is
    never put into the dedup set.) *)
Theorem export_fetches_an_existing_source_once :
  forall (http_get : node_kind -> string -> res (option json))
         (kb_names : list string) (st : state) (n : string),
    main http_get kb_names = Ok st ->
    exists_on_service http_get KnowledgeSource n ->
    n <> EmptyString ->
    (exists kb_name kb,
        In kb_name kb_names /\
        http_get KnowledgeBase kb_name = Ok (Some kb) /\ truthy kb = true /\
        references kb n) ->
    request_count KnowledgeSource n st = 1 /\
    file_count KnowledgeSource n st = 1 /\
    PyStr.mem n (seen_ks st) = true.
Proof.
  intros http_get kb_names st n Hrun Hks Hn [kb_name [kb [Hin [Hkb [Ht Href]]]]].
  assert (Hdone : ks_view n st = (true, 1, 1)).
  { unfold main in Hrun.
    apply (fold_res_reaches (export_kb http_get)
             (fun s => ks_view n s = (false, 0, 0) \/ ks_view n s = (true, 1, 1))
             (fun s => ks_view n s = (true, 1, 1)) kb_name)
      with (l := kb_names) (s := initial); try assumption.
    - intros b s s' Hs. now apply (export_kb_view http_get n Hks) in Hs.
    - intros b s s' Hs. now apply (export_kb_view http_get n Hks) in Hs.
    - intros s s' Hs Hq. apply (export_kb_view http_get n Hks) in Hs.
      destruct Hs as [_ [_ Hs]]. apply Hs; try assumption.
      + now exists kb.
      + intros kb0 Hkb0. rewrite Hkb in Hkb0. now injection Hkb0 as <-.
    - now left. }
  unfold ks_view in Hdone. injection Hdone as H1 H2 H3. auto.
Qed.

Lemma export_fetches_an_existing_source_once_witness :
  request_count KnowledgeSource "ks1" shared_run = 1 /\
  file_count KnowledgeSource "ks1" shared_run = 1 /\
  PyStr.mem "ks1" (seen_ks shared_run) = true.
Proof.
  refine (export_fetches_an_existing_source_once shared_service ["kb1"; "kb2"]
            shared_run "ks1" eq_refl _ _ _).
  - exists (JDict [ ("name", JStr "ks1"); ("kind", JStr "web") ]).
    split; reflexivity.
  - discriminate.
  - exists "kb2",
      (JDict [ ("name", JStr "kb2");
               ("knowledgeSources", JList [ JDict [("name", JStr "ks1")] ]) ]).
    split; [simpl; tauto | ]. split; [reflexivity | ]. split; [reflexivity | ].
    exists (JList [ JDict [("name", JStr "ks1")] ]),
      [ JDict [("name", JStr "ks1")] ], (JDict [("name", JStr "ks1")]).
    repeat split; simpl; tauto.
Defined.

(** C7 fails as stated: two knowledge bases name the knowledge source
    [ks1], which is not on the service; the run completes, having
    requested [ks1] twice and written it never. *)
Lemma export_requests_a_missing_source_twice :
  main dangling_service ["kb1"; "kb2"] = Ok dangling_run /\
  request_count KnowledgeSource "ks1" dangling_run = 2 /\
  file_count KnowledgeSource "ks1" dangling_run = 0.
Proof. repeat split. Qed.
End ExporterClaims.

(** ** The Sanitizer on the object store *)

Section StoreFacts.
Import Store.

Lemma store_length (a : nat) (o : object) : forall h,
  List.length (store a o h) = List.length h.
Proof.
  induction a as [ | a IH ]; intros [ | o' h ]; simpl; try reflexivity.
  now rewrite IH.
Qed.

Lemma store_app (h ext : heap) (a : nat) (o : object) :
  List.length h <= a -> store a o (h ++ ext) = h ++ store (a - List.length h) o ext.
Proof.
  revert a. induction h as [ | o' h IH ]; intros a Ha; simpl.
  - now rewrite Nat.sub_0_r.
  - destruct a as [ | a ]; [simpl in Ha; lia | ].
    simpl in Ha. destruct ext; simpl; rewrite IH by lia; reflexivity.
Qed.

Lemma Forall_store (P : object -> Prop) (o : object) : forall a ext,
  Forall P ext -> P o -> Forall P (store a o ext).
Proof.
  induction a as [ | a IH ]; intros [ | o' ext ] Hext Ho; simpl;
    try constructor; inversion Hext; subst; auto.
Qed.

Lemma Forall_dict_set {V : Type} (P : string * V -> Prop) (k : string) (v : V) :
  forall d, Forall P d -> (forall k', P (k', v)) -> Forall P (dict_set k v d).
Proof.
  induction d as [ | [k0 v0] d IH ]; simpl; intros Hd Hv.
  - constructor; [apply Hv | constructor].
  - inversion Hd; subst. destruct (String.eqb k0 k); constructor; auto.
Qed.

Lemma grows_refl (h : heap) : grows h h.
Proof. exists []. split; [now rewrite app_nil_r | constructor]. Qed.

Lemma value_fresh_le (b b' : nat) (v : value) :
  b <= b' -> value_fresh b' v -> value_fresh b v.
Proof. destruct v; simpl; [auto | lia]. Qed.

Lemma object_fresh_le (b b' : nat) (o : object) :
  b <= b' -> object_fresh b' o -> object_fresh b o.
Proof.
  intros Hb. destruct o as [items | items]; simpl; intros H;
    eapply Forall_impl; try exact H; intros; eapply value_fresh_le; eauto.
Qed.

Lemma grows_trans (h1 h2 h3 : heap) : grows h1 h2 -> grows h2 h3 -> grows h1 h3.
Proof.
  intros [e1 [-> H1]] [e2 [-> H2]]. exists (e1 ++ e2).
  split; [now rewrite app_assoc | ].
  apply Forall_app. split; [exact H1 | ].
  eapply Forall_impl; [ | exact H2 ]. intros o.
  apply object_fresh_le. rewrite length_app. lia.
Qed.

Lemma grows_length (h h' : heap) : grows h h' -> List.length h <= List.length h'.
Proof. intros [ext [-> _]]. rewrite length_app. lia. Qed.

Lemma grows_lookup (h h' : heap) (a : nat) (o : object) :
  grows h h' -> nth_error h a = Some o -> nth_error h' a = Some o.
Proof.
  intros [ext [-> _]] H. rewrite nth_error_app1; [exact H | ].
  apply nth_error_Some. congruence.
Qed.

Lemma grows_alloc (h : heap) (o : object) :
  object_fresh (List.length h) o -> grows h (h ++ [o]).
Proof. intros Ho. exists [o]. split; [reflexivity | now constructor]. Qed.

Lemma grows_store (h0 h : heap) (a : nat) (o : object) :
  grows h0 h -> List.length h0 <= a -> object_fresh (List.length h0) o ->
  grows h0 (store a o h).
Proof.
  intros [ext [-> Hext]] Ha Ho. exists (store (a - List.length h0) o ext).
  split; [now apply store_app | now apply Forall_store].
Qed.

Lemma grows_fresh_at (h0 h : heap) (a : nat) (o : object) :
  grows h0 h -> List.length h0 <= a -> nth_error h a = Some o ->
  object_fresh (List.length h0) o.
Proof.
  intros [ext [-> Hext]] Ha Hn. rewrite nth_error_app2 in Hn by exact Ha.
  rewrite Forall_forall in Hext. apply Hext. eapply nth_error_In; eauto.
Qed.

Lemma grows_setitem (h0 h : heap) (result : nat) (key : string) (v : value) :
  grows h0 h -> List.length h0 <= result -> value_fresh (List.length h0) v ->
  grows h0 (setitem result key v h).
Proof.
  intros Hg Hr Hv. unfold setitem.
  destruct (nth_error h result) as [[items | items] | ] eqn:Hn; try exact Hg.
  apply grows_store; try assumption.
  pose proof (grows_fresh_at h0 h result _ Hg Hr Hn) as Hf. simpl in *.
  apply Forall_dict_set; [exact Hf | intros; exact Hv].
Qed.

Lemma grows_append (h0 h : heap) (result : nat) (v : value) :
  grows h0 h -> List.length h0 <= result -> value_fresh (List.length h0) v ->
  grows h0 (append result v h).
Proof.
  intros Hg Hr Hv. unfold append.
  destruct (nth_error h result) as [[items | items] | ] eqn:Hn; try exact Hg.
  apply grows_store; try assumption.
  pose proof (grows_fresh_at h0 h result _ Hg Hr Hn) as Hf. simpl in *.
  apply Forall_app. split; [exact Hf | now constructor].
Qed.

Lemma dict_loop_grows (body : heap -> string -> value -> option (heap * value))
  (h0 : heap) (result : nat) :
  growing (fun h kv => body h (fst kv) (snd kv)) ->
  List.length h0 <= result ->
  forall items h h', grows h0 h ->
                     dict_loop body result items h = Some h' -> grows h0 h'.
Proof.
  intros Hbody Hr. induction items as [ | [key v] items IH ]; simpl; intros h h' Hg H.
  - now injection H as <-.
  - destruct (body h key v) as [[h1 v1] | ] eqn:Hb; [ | discriminate ].
    destruct (Hbody h (key, v) h1 v1 Hb) as [Hg1 Hv1].
    apply (IH _ _ (grows_setitem h0 h1 result key v1
                     (grows_trans _ _ _ Hg Hg1) Hr
                     (value_fresh_le _ _ v1 (grows_length _ _ Hg) Hv1)) H).
Qed.

Lemma list_loop_grows (body : heap -> value -> option (heap * value))
  (h0 : heap) (result : nat) :
  growing body ->
  List.length h0 <= result ->
  forall items h h', grows h0 h ->
                     list_loop body result items h = Some h' -> grows h0 h'.
Proof.
  intros Hbody Hr. induction items as [ | v items IH ]; simpl; intros h h' Hg H.
  - now injection H as <-.
  - destruct (body h v) as [[h1 v1] | ] eqn:Hb; [ | discriminate ].
    destruct (Hbody h v h1 v1 Hb) as [Hg1 Hv1].
    apply (IH _ _ (grows_append h0 h1 result v1
                     (grows_trans _ _ _ Hg Hg1) Hr
                     (value_fresh_le _ _ v1 (grows_length _ _ Hg) Hv1)) H).
Qed.

(** A new container and its loop. *)
Lemma new_dict_grows (body : heap -> string -> value -> option (heap * value))
  (h : heap) (items : list (string * value)) (h' : heap) :
  growing (fun h kv => body h (fst kv) (snd kv)) ->
  dict_loop body (List.length h) items (h ++ [DictObj []]) = Some h' ->
  grows h h'.
Proof.
  intros Hbody H.
  apply (dict_loop_grows body h (List.length h) Hbody (le_n _) items _ _) in H;
    [exact H | ].
  apply grows_alloc. constructor.
Qed.

Lemma new_list_grows (body : heap -> value -> option (heap * value))
  (h : heap) (items : list value) (h' : heap) :
  growing body ->
  list_loop body (List.length h) items (h ++ [ListObj []]) = Some h' ->
  grows h h'.
Proof.
  intros Hbody H.
  apply (list_loop_grows body h (List.length h) Hbody (le_n _) items _ _) in H;
    [exact H | ].
  apply grows_alloc. constructor.
Qed.

Lemma sanitize_grows (depth : nat) :
  (forall parent_key,
      growing (fun h kv => sanitize_entry depth h parent_key (fst kv) (snd kv))) /\
  (forall parent_key, growing (fun h v => sanitize_item depth h parent_key v)).
Proof.
  induction depth as [ | depth [IHe IHi] ].
  - split; intros parent_key h k h' v H.
    + destruct k as [key [j | a]]; simpl in H; [ | discriminate ].
      injection H as <- <-. split; [apply grows_refl | exact I].
    + destruct k as [j | a]; simpl in H; [ | discriminate ].
      injection H as <- <-. split; [apply grows_refl | exact I].
  - split; intros parent_key h k h' v H.
    + destruct k as [key [j | a]]; cbn [fst snd sanitize_entry] in H.
      * injection H as <- <-. split; [apply grows_refl | exact I].
      * destruct (nth_error h a) as [[data | data] | ]; [ | | discriminate ];
          cbn [alloc] in H.
        -- destruct (dict_loop _ _ data _) as [h1 | ] eqn:Hl; [ | discriminate ].
           injection H as <- <-. split; [ | simpl; lia ].
           apply (new_dict_grows _ h data h1 (IHe key) Hl).
        -- destruct (list_loop _ _ data _) as [h1 | ] eqn:Hl; [ | discriminate ].
           injection H as <- <-. split; [ | simpl; lia ].
           apply (new_list_grows _ h data h1 (IHi key) Hl).
    + destruct k as [j | a]; cbn [sanitize_item] in H.
      * injection H as <- <-. split; [apply grows_refl | exact I].
      * destruct (nth_error h a) as [[data | data] | ]; [ | | discriminate ];
          cbn [alloc] in H.
        -- destruct (dict_loop _ _ data _) as [h1 | ] eqn:Hl; [ | discriminate ].
           injection H as <- <-. split; [ | simpl; lia ].
           apply (new_dict_grows _ h data h1 (IHe parent_key) Hl).
        -- destruct (list_loop _ _ data _) as [h1 | ] eqn:Hl; [ | discriminate ].
           injection H as <- <-. split; [ | simpl; lia ].
           apply (new_list_grows _ h data h1 (IHi parent_key) Hl).
Qed.

(** *** Enough depth gives a result, which is the sanitized tree *)

Lemma represents_dict (base : nat) (h : heap) (v : value) (d : list (string * json)) :
  represents_from base h v (JDict d) <->
  exists a items, v = Ref a /\ base <= a /\ nth_error h a = Some (DictObj items) /\
                  items_represent base h items d.
Proof.
  assert (Hall : forall d items,
             (fix all2 (d : list (string * json)) (items : list (string * value))
                  {struct d} : Prop :=
                match d, items with
                | [], [] => True
                | (k', j) :: d, (k, v) :: items =>
                    k = k' /\ represents_from base h v j /\ all2 d items
                | _, _ => False
                end) d items <-> items_represent base h items d).
  { clear. induction d as [ | [k' j] d IH ]; intros [ | [k v] items ]; simpl.
    - split; [constructor | trivial].
    - split; [contradiction | intros H; inversion H].
    - split; [contradiction | intros H; inversion H].
    - rewrite IH. split.
      + intros [-> [Hv Hd]]. constructor; [now split | exact Hd].
      + intros H. inversion H; subst. simpl in *. tauto. }
  simpl. split; intros [a [items [Hv [Hb [Hn H]]]]]; exists a, items;
    (split; [exact Hv | split; [exact Hb | split; [exact Hn | now apply Hall]]]).
Qed.

Lemma represents_list (base : nat) (h : heap) (v : value) (l : list json) :
  represents_from base h v (JList l) <->
  exists a items, v = Ref a /\ base <= a /\ nth_error h a = Some (ListObj items) /\
                  elements_represent base h items l.
Proof.
  assert (Hall : forall l items,
             (fix all2 (l : list json) (items : list value) {struct l} : Prop :=
                match l, items with
                | [], [] => True
                | j :: l, v :: items => represents_from base h v j /\ all2 l items
                | _, _ => False
                end) l items <-> elements_represent base h items l).
  { clear. induction l as [ | j l IH ]; intros [ | v items ]; simpl.
    - split; [constructor | trivial].
    - split; [contradiction | intros H; inversion H].
    - split; [contradiction | intros H; inversion H].
    - rewrite IH. split.
      + intros [Hv Hl]. now constructor.
      + intros H. inversion H; subst. tauto. }
  simpl. split; intros [a [items [Hv [Hb [Hn H]]]]]; exists a, items;
    (split; [exact Hv | split; [exact Hb | split; [exact Hn | now apply Hall]]]).
Qed.

Lemma represents_scalar (base : nat) (h : heap) (j : json) :
  scalar j -> represents_from base h (Scalar j) j.
Proof. destruct j; simpl; intros H; try contradiction; reflexivity. Qed.

(** A represented tree stays represented when the objects it is made of
    are looked up with the same result, and when the bound is relaxed. *)
Lemma represents_transfer (base base' : nat) (h h' : heap) :
  base' <= base ->
  (forall a o, base <= a -> nth_error h a = Some o -> nth_error h' a = Some o) ->
  forall j v, represents_from base h v j -> represents_from base' h' v j.
Proof.
  intros Hb Hlook.
  induction j as [ | b | n | f | s | l IH | d IH ] using json_ind; intros v;
    try (simpl; auto; fail).
  - rewrite !represents_list. intros [a [items [-> [Ha [Hn Hall]]]]].
    exists a, items. split; [reflexivity | ]. split; [lia | ].
    split; [now apply Hlook | ]. clear Hn.
    unfold elements_represent in *. revert IH.
    induction Hall as [ | x j items l Hx Hall IHall ]; intros IH; constructor.
    + inversion IH; subst. auto.
    + apply IHall. now inversion IH.
  - rewrite !represents_dict. intros [a [items [-> [Ha [Hn Hall]]]]].
    exists a, items. split; [reflexivity | ]. split; [lia | ].
    split; [now apply Hlook | ]. clear Hn.
    unfold items_represent in *. revert IH.
    induction Hall as [ | x kj items d Hx Hall IHall ]; intros IH; constructor.
    + inversion IH; subst. destruct Hx. split; auto.
    + apply IHall. now inversion IH.
Qed.

Lemma represents_grows (base : nat) (h h' : heap) (j : json) (v : value) :
  grows h h' -> represents_from base h v j -> represents_from base h' v j.
Proof.
  intros Hg. apply represents_transfer; [lia | ].
  intros a o _. now apply grows_lookup.
Qed.

Lemma store_lookup_other (a a' : nat) (o : object) : forall h,
  a' <> a -> nth_error (store a o h) a' = nth_error h a'.
Proof.
  revert a'. induction a as [ | a IH ]; intros a' [ | o' h ] Hne; simpl;
    try reflexivity.
  - destruct a'; [contradiction | reflexivity].
  - destruct a'; [reflexivity | ]. simpl. apply IH. lia.
Qed.

Lemma store_lookup_same (a : nat) (o : object) : forall h,
  a < List.length h -> nth_error (store a o h) a = Some o.
Proof.
  induction a as [ | a IH ]; intros [ | o' h ] Ha; simpl in *; try lia.
  - reflexivity.
  - apply IH. lia.
Qed.

Lemma represents_store (base a : nat) (o : object) (h : heap) (j : json) (v : value) :
  a < base -> represents_from base h v j -> represents_from base (store a o h) v j.
Proof.
  intros Ha. apply represents_transfer; [lia | ].
  intros a' o' Ha' Hn. rewrite store_lookup_other by lia. exact Hn.
Qed.

Lemma items_represent_impl (base base' : nat) (h h' : heap)
  (items : list (string * value)) (d : list (string * json)) :
  (forall j v, represents_from base h v j -> represents_from base' h' v j) ->
  items_represent base h items d -> items_represent base' h' items d.
Proof.
  intros Himp Hall. unfold items_represent in *.
  eapply Forall2_impl; [ | exact Hall ]. intros kv kj [Hk Hv]. split; auto.
Qed.

Lemma elements_represent_impl (base base' : nat) (h h' : heap)
  (items : list value) (l : list json) :
  (forall j v, represents_from base h v j -> represents_from base' h' v j) ->
  elements_represent base h items l -> elements_represent base' h' items l.
Proof.
  intros Himp Hall. unfold elements_represent in *.
  eapply Forall2_impl; [ | exact Hall ]. intros v j. apply Himp.
Qed.

Lemma items_represent_set (base : nat) (h : heap) (k : string) (v : value) (j : json) :
  represents_from base h v j ->
  forall items d, items_represent base h items d ->
                  items_represent base h (dict_set k v items) (dict_set k j d).
Proof.
  intros Hv. induction 1 as [ | [k1 v1] [k2 j2] items d [Hk H1] Hall IH ]; simpl.
  - constructor; [now split | constructor].
  - simpl in Hk. subst k2. destruct (String.eqb k1 k).
    + constructor; [now split | exact Hall].
    + constructor; [now split | exact IH].
Qed.

Lemma depth_of_dict (d : list (string * json)) (depth : nat) :
  depth_of (JDict d) <= S depth -> Forall (fun kj => depth_of (snd kj) <= depth) d.
Proof.
  simpl. intros H. apply le_S_n in H.
  induction d as [ | kj d IH ]; simpl in *; constructor.
  - lia.
  - apply IH. lia.
Qed.

Lemma depth_of_list (l : list json) (depth : nat) :
  depth_of (JList l) <= S depth -> Forall (fun j => depth_of j <= depth) l.
Proof.
  simpl. intros H. apply le_S_n in H.
  induction l as [ | j l IH ]; simpl in *; constructor.
  - lia.
  - apply IH. lia.
Qed.

(** The loop of [sanitize_dict] on the store computes what [build]
    computes on the tree. *)
Lemma dict_loop_refines (body : heap -> string -> value -> option (heap * value))
  (f : string -> json -> json) (depth : nat) (h0 : heap) (result : nat) :
  growing (fun h kv => body h (fst kv) (snd kv)) ->
  (forall h key v j,
      represents h v j -> depth_of j <= depth ->
      exists h' v', body h key v = Some (h', v') /\
                    represents_from (List.length h) h' v' (f key j)) ->
  List.length h0 <= result ->
  forall items d,
    items_represent 0 h0 items d ->
    Forall (fun kj => depth_of (snd kj) <= depth) d ->
    forall h acc_items acc,
      grows h0 h -> result < List.length h ->
      nth_error h result = Some (DictObj acc_items) ->
      items_represent (S result) h acc_items acc ->
      exists h' final_items,
        dict_loop body result items h = Some h' /\
        nth_error h' result = Some (DictObj final_items) /\
        items_represent (S result) h' final_items (build f d acc).
Proof.
  intros Hgrow Hbody Hr items d Hall.
  induction Hall as [ | [key v] [key' j] items d [Hk Hv] Hall IH ];
    intros Hd h acc_items acc Hg Hlen Hres Hacc; simpl.
  - exists h, acc_items. auto.
  - simpl in Hk. subst key'. inversion Hd as [ | ? ? Hj Hd' ]; subst. simpl in *.
    destruct (Hbody h key v j (represents_grows 0 h0 h j v Hg Hv) Hj)
      as [h1 [v1 [Hb Hv1]]].
    rewrite Hb.
    destruct (Hgrow h (key, v) h1 v1 Hb) as [Hg1 Hf1].
    pose proof (grows_lookup h h1 result _ Hg1 Hres) as Hres1.
    unfold build in *. simpl.
    apply (IH Hd' _ (dict_set key v1 acc_items) (dict_set key (f key j) acc)).
    + apply grows_setitem; [now apply (grows_trans h0 h h1) | exact Hr | ].
      apply (value_fresh_le _ (List.length h)); [now apply grows_length | exact Hf1].
    + unfold setitem. rewrite Hres1, store_length.
      pose proof (grows_length h h1 Hg1). lia.
    + unfold setitem. rewrite Hres1. apply store_lookup_same.
      pose proof (grows_length h h1 Hg1). lia.
    + unfold setitem. rewrite Hres1.
      apply (items_represent_impl (S result) (S result) h1).
      { intros j0 v0. apply represents_store. lia. }
      apply items_represent_set.
      * apply (represents_transfer (List.length h) (S result) h1 h1);
          [lia | auto | exact Hv1].
      * apply (items_represent_impl (S result) (S result) h).
        { intros j0 v0. now apply represents_grows. }
        exact Hacc.
Qed.

Lemma list_loop_refines (body : heap -> value -> option (heap * value))
  (f : json -> json) (depth : nat) (h0 : heap) (result : nat) :
  growing body ->
  (forall h v j,
      represents h v j -> depth_of j <= depth ->
      exists h' v', body h v = Some (h', v') /\
                    represents_from (List.length h) h' v' (f j)) ->
  List.length h0 <= result ->
  forall items l,
    elements_represent 0 h0 items l ->
    Forall (fun j => depth_of j <= depth) l ->
    forall h acc_items acc,
      grows h0 h -> result < List.length h ->
      nth_error h result = Some (ListObj acc_items) ->
      elements_represent (S result) h acc_items acc ->
      exists h' final_items,
        list_loop body result items h = Some h' /\
        nth_error h' result = Some (ListObj final_items) /\
        elements_represent (S result) h' final_items (acc ++ map f l).
Proof.
  intros Hgrow Hbody Hr items l Hall.
  induction Hall as [ | v j items l Hv Hall IH ];
    intros Hl h acc_items acc Hg Hlen Hres Hacc; simpl.
  - exists h, acc_items. rewrite app_nil_r. auto.
  - inversion Hl as [ | ? ? Hj Hl' ]; subst.
    destruct (Hbody h v j (represents_grows 0 h0 h j v Hg Hv) Hj)
      as [h1 [v1 [Hb Hv1]]].
    rewrite Hb.
    destruct (Hgrow h v h1 v1 Hb) as [Hg1 Hf1].
    pose proof (grows_lookup h h1 result _ Hg1 Hres) as Hres1.
    replace (acc ++ f j :: map f l) with ((acc ++ [f j]) ++ map f l)
      by now rewrite <- app_assoc.
    apply (IH Hl' _ (acc_items ++ [v1]) (acc ++ [f j])).
    + apply grows_append; [now apply (grows_trans h0 h h1) | exact Hr | ].
      apply (value_fresh_le _ (List.length h)); [now apply grows_length | exact Hf1].
    + unfold append. rewrite Hres1, store_length.
      pose proof (grows_length h h1 Hg1). lia.
    + unfold append. rewrite Hres1. apply store_lookup_same.
      pose proof (grows_length h h1 Hg1). lia.
    + unfold append. rewrite Hres1.
      apply (elements_represent_impl (S result) (S result) h1).
      { intros j0 v0. apply represents_store. lia. }
      unfold elements_represent. apply Forall2_app.
      * apply (elements_represent_impl (S result) (S result) h).
        { intros j0 v0. now apply represents_grows. }
        exact Hacc.
      * constructor; [ | constructor ].
        apply (represents_transfer (List.length h) (S result) h1 h1);
          [lia | auto | exact Hv1].
Qed.

(** A new dict and its loop; a new list and its loop. *)
Lemma new_dict_refines (body : heap -> string -> value -> option (heap * value))
  (f : string -> json -> json) (depth : nat) (h : heap) (a : nat)
  (items : list (string * value)) (d : list (string * json)) :
  growing (fun h kv => body h (fst kv) (snd kv)) ->
  (forall h key v j,
      represents h v j -> depth_of j <= depth ->
      exists h' v', body h key v = Some (h', v') /\
                    represents_from (List.length h) h' v' (f key j)) ->
  items_represent 0 h items d ->
  Forall (fun kj => depth_of (snd kj) <= depth) d ->
  exists h',
    dict_loop body (List.length h) items (h ++ [DictObj []]) = Some h' /\
    represents_from (List.length h) h' (Ref (List.length h)) (JDict (build f d [])).
Proof.
  intros Hgrow Hbody Hall Hd.
  destruct (dict_loop_refines body f depth h (List.length h) Hgrow Hbody (le_n _)
              items d Hall Hd (h ++ [DictObj []]) [] [])
    as [h' [final [Hloop [Hres Hfinal]]]].
  - apply grows_alloc. constructor.
  - rewrite length_app. simpl. lia.
  - rewrite nth_error_app2 by lia. now rewrite Nat.sub_diag.
  - constructor.
  - exists h'. split; [exact Hloop | ].
    apply represents_dict. exists (List.length h), final.
    split; [reflexivity | ]. split; [lia | ]. split; [exact Hres | ].
    apply (items_represent_impl (S (List.length h)) (List.length h) h' h');
      [ | exact Hfinal ].
    intros j v. apply represents_transfer; [lia | auto].
Qed.

Lemma new_list_refines (body : heap -> value -> option (heap * value))
  (f : json -> json) (depth : nat) (h : heap)
  (items : list value) (l : list json) :
  growing body ->
  (forall h v j,
      represents h v j -> depth_of j <= depth ->
      exists h' v', body h v = Some (h', v') /\
                    represents_from (List.length h) h' v' (f j)) ->
  elements_represent 0 h items l ->
  Forall (fun j => depth_of j <= depth) l ->
  exists h',
    list_loop body (List.length h) items (h ++ [ListObj []]) = Some h' /\
    represents_from (List.length h) h' (Ref (List.length h)) (JList (map f l)).
Proof.
  intros Hgrow Hbody Hall Hl.
  destruct (list_loop_refines body f depth h (List.length h) Hgrow Hbody (le_n _)
              items l Hall Hl (h ++ [ListObj []]) [] [])
    as [h' [final [Hloop [Hres Hfinal]]]].
  - apply grows_alloc. constructor.
  - rewrite length_app. simpl. lia.
  - rewrite nth_error_app2 by lia. now rewrite Nat.sub_diag.
  - constructor.
  - exists h'. split; [exact Hloop | ].
    apply represents_list. exists (List.length h), final.
    split; [reflexivity | ]. split; [lia | ]. split; [exact Hres | ].
    apply (elements_represent_impl (S (List.length h)) (List.length h) h' h');
      [ | exact Hfinal ].
    intros j v. apply represents_transfer; [lia | auto].
Qed.

Lemma sanitize_refines (depth : nat) :
  (forall parent_key h key v j,
      represents h v j -> depth_of j <= depth ->
      exists h' v',
        sanitize_entry depth h parent_key key v = Some (h', v') /\
        represents_from (List.length h) h' v'
                        (Sanitizer.sanitize_entry parent_key key j)) /\
  (forall parent_key h v j,
      represents h v j -> depth_of j <= depth ->
      exists h' v',
        sanitize_item depth h parent_key v = Some (h', v') /\
        represents_from (List.length h) h' v' (Sanitizer.sanitize_item parent_key j)).
Proof.
  assert (Hscalar :
            forall depth,
              (forall parent_key h key v j,
                  scalar j -> represents h v j ->
                  exists h' v',
                    sanitize_entry depth h parent_key key v = Some (h', v') /\
                    represents_from (List.length h) h' v'
                                    (Sanitizer.sanitize_entry parent_key key j)) /\
              (forall parent_key h v j,
                  scalar j -> represents h v j ->
                  exists h' v',
                    sanitize_item depth h parent_key v = Some (h', v') /\
                    represents_from (List.length h) h' v'
                                    (Sanitizer.sanitize_item parent_key j))).
  { intros dp. split.
    - intros parent_key h key v j Hj Hv.
      assert (v = Scalar j) as -> by (destruct j; simpl in *; tauto).
      exists h, (Scalar (Sanitizer.sanitize_scalar parent_key key j)).
      split; [destruct dp; reflexivity | ].
      rewrite sanitize_entry_scalar by exact Hj.
      apply represents_scalar. now apply sanitize_scalar_scalar.
    - intros parent_key h v j Hj Hv.
      assert (v = Scalar j) as -> by (destruct j; simpl in *; tauto).
      exists h, (Scalar (Sanitizer.sanitize_value parent_key j)).
      split; [destruct dp; reflexivity | ].
      rewrite sanitize_item_scalar by exact Hj.
      apply represents_scalar. now apply sanitize_value_scalar. }
  induction depth as [ | depth [IHe IHi] ].
  - destruct (Hscalar 0) as [He Hi].
    split; intros; [apply He | apply Hi]; try assumption;
      destruct j; simpl in *; try exact I; lia.
  - destruct (sanitize_grows depth) as [Ge Gi].
    destruct (Hscalar (S depth)) as [He Hi].
    split.
    + intros parent_key h key v j Hv Hd.
      destruct j as [ | b | n | f | s | l | d ];
        try (apply He; [exact I | exact Hv]).
      * apply represents_list in Hv.
        destruct Hv as [a [items [-> [_ [Hn Hall]]]]].
        cbn [sanitize_entry]. rewrite Hn. cbn [alloc].
        destruct (new_list_refines
                    (fun h v => sanitize_item depth h key v)
                    (Sanitizer.sanitize_item key) depth h items l
                    (Gi key) (IHi key) Hall (depth_of_list l depth Hd))
          as [h' [Hloop Hrep]].
        rewrite Hloop. simpl. eauto.
      * apply represents_dict in Hv.
        destruct Hv as [a [items [-> [_ [Hn Hall]]]]].
        cbn [sanitize_entry]. rewrite Hn. cbn [alloc].
        destruct (new_dict_refines
                    (fun h k v => sanitize_entry depth h key k v)
                    (Sanitizer.sanitize_entry key) depth h a items d
                    (Ge key) (IHe key) Hall (depth_of_dict d depth Hd))
          as [h' [Hloop Hrep]].
        rewrite Hloop. simpl. eauto.
    + intros parent_key h v j Hv Hd.
      destruct j as [ | b | n | f | s | l | d ];
        try (apply Hi; [exact I | exact Hv]).
      * apply represents_list in Hv.
        destruct Hv as [a [items [-> [_ [Hn Hall]]]]].
        cbn [sanitize_item]. rewrite Hn. cbn [alloc].
        destruct (new_list_refines
                    (fun h v => sanitize_item depth h parent_key v)
                    (Sanitizer.sanitize_item parent_key) depth h items l
                    (Gi parent_key) (IHi parent_key) Hall
                    (depth_of_list l depth Hd))
          as [h' [Hloop Hrep]].
        rewrite Hloop. simpl. eauto.
      * apply represents_dict in Hv.
        destruct Hv as [a [items [-> [_ [Hn Hall]]]]].
        cbn [sanitize_item]. rewrite Hn. cbn [alloc].
        destruct (new_dict_refines
                    (fun h k v => sanitize_entry depth h parent_key k v)
                    (Sanitizer.sanitize_entry parent_key) depth h a items d
                    (Ge parent_key) (IHe parent_key) Hall
                    (depth_of_dict d depth Hd))
          as [h' [Hloop Hrep]].
        rewrite Hloop. simpl. eauto.
Qed.
End StoreFacts.

Section StoreClaims.
Import Store.

Lemma grows_frame (h h' : heap) :
  grows h h' ->
  (forall a o, nth_error h a = Some o -> nth_error h' a = Some o) /\
  (forall a o, List.length h <= a -> nth_error h' a = Some o ->
               object_fresh (List.length h) o).
Proof.
  intros Hg. split.
  - intros a o. now apply grows_lookup.
  - intros a o. now apply grows_fresh_at.
Qed.

(** C10. [sanitize_dict] and [sanitize_list] leave every object that was
    in the store before the call as it was, the argument and everything
    nested in it included; the result is a new object, and the new objects
    refer to new objects only.  On a store that holds the document as a
    tree, with enough depth left, both calls do return, and the result
    stands for the tree that [Sanitizer.sanitize_dict]
    ([Sanitizer.sanitize_list]) computes.  A dry run of [sanitize_file]
    that returns leaves the files as they were and reports whether the two
    serializations differ. *)
Theorem sanitize_leaves_its_argument_unchanged :
  (forall (depth : nat) (h : heap) (data : nat) (parent_key : string)
          (h' : heap) (result : nat),
      sanitize_dict depth h data parent_key = Some (h', result) ->
      (forall a o, nth_error h a = Some o -> nth_error h' a = Some o) /\
      result = List.length h /\
      (forall a o, List.length h <= a -> nth_error h' a = Some o ->
                   object_fresh (List.length h) o)) /\
  (forall (depth : nat) (h : heap) (data : nat) (parent_key : string)
          (h' : heap) (result : nat),
      sanitize_list depth h parent_key data = Some (h', result) ->
      (forall a o, nth_error h a = Some o -> nth_error h' a = Some o) /\
      result = List.length h /\
      (forall a o, List.length h <= a -> nth_error h' a = Some o ->
                   object_fresh (List.length h) o)) /\
  (forall (depth : nat) (h : heap) (data : nat) (d : dict) (parent_key : string),
      represents h (Ref data) (JDict d) -> depth_of (JDict d) <= S depth ->
      exists h' result,
        sanitize_dict depth h data parent_key = Some (h', result) /\
        represents_from (List.length h) h' (Ref result)
                        (JDict (Sanitizer.sanitize_dict d parent_key))) /\
  (forall (depth : nat) (h : heap) (data : nat) (l : list json) (parent_key : string),
      represents h (Ref data) (JList l) -> depth_of (JList l) <= S depth ->
      exists h' result,
        sanitize_list depth h parent_key data = Some (h', result) /\
        represents_from (List.length h) h' (Ref result)
                        (JList (Sanitizer.sanitize_list parent_key l))) /\
  (forall (json_load : string -> option json) (json_dumps : bool -> json -> string)
          (fs : Sanitizer.filesystem) (file_path : string)
          (changed : bool) (fs' : Sanitizer.filesystem),
      Sanitizer.sanitize_file json_load json_dumps fs file_path true
      = Ok (changed, fs') ->
      fs' = fs /\
      exists content,
        fs file_path = Some content /\
        match json_load content with
        | None => changed = false
        | Some data =>
            exists sanitized,
              Sanitizer.sanitize_document data = Ok sanitized /\
              changed = negb (String.eqb (json_dumps true data)
                                         (json_dumps true sanitized))
        end).
Proof.
  split; [ | split; [ | split; [ | split ] ] ].
  - intros depth h data parent_key h' result H. unfold sanitize_dict in H.
    destruct (nth_error h data) as [[items | items] | ]; try discriminate.
    cbn [alloc] in H.
    destruct (dict_loop _ _ items _) as [h1 | ] eqn:Hl; [ | discriminate ].
    injection H as <- <-.
    destruct (sanitize_grows depth) as [Ge _].
    destruct (grows_frame h h1 (new_dict_grows _ h items h1 (Ge parent_key) Hl)).
    auto.
  - intros depth h data parent_key h' result H. unfold sanitize_list in H.
    destruct (nth_error h data) as [[items | items] | ]; try discriminate.
    cbn [alloc] in H.
    destruct (list_loop _ _ items _) as [h1 | ] eqn:Hl; [ | discriminate ].
    injection H as <- <-.
    destruct (sanitize_grows depth) as [_ Gi].
    destruct (grows_frame h h1 (new_list_grows _ h items h1 (Gi parent_key) Hl)).
    auto.
  - intros depth h data d parent_key Hv Hd.
    destruct (sanitize_refines (S depth)) as [_ Hi].
    destruct (Hi parent_key h (Ref data) (JDict d) Hv Hd) as [h' [v' [Hrun Hrep]]].
    apply represents_dict in Hv. destruct Hv as [a [items [[= <-] [_ [Hn _]]]]].
    cbn [sanitize_item] in Hrun. rewrite Hn in Hrun. cbn [alloc] in Hrun.
    unfold sanitize_dict. rewrite Hn. cbn [alloc].
    destruct (dict_loop _ _ items _) as [h1 | ]; [ | discriminate ].
    injection Hrun as <- <-. exists h1, (List.length h). split; [reflexivity | ].
    exact Hrep.
  - intros depth h data l parent_key Hv Hd.
    destruct (sanitize_refines (S depth)) as [_ Hi].
    destruct (Hi parent_key h (Ref data) (JList l) Hv Hd) as [h' [v' [Hrun Hrep]]].
    apply represents_list in Hv. destruct Hv as [a [items [[= <-] [_ [Hn _]]]]].
    cbn [sanitize_item] in Hrun. rewrite Hn in Hrun. cbn [alloc] in Hrun.
    unfold sanitize_list. rewrite Hn. cbn [alloc].
    destruct (list_loop _ _ items _) as [h1 | ]; [ | discriminate ].
    injection Hrun as <- <-. exists h1, (List.length h). split; [reflexivity | ].
    exact Hrep.
  - intros json_load json_dumps fs file_path changed fs' H.
    unfold Sanitizer.sanitize_file in H.
    destruct (fs file_path) as [content | ]; [ | discriminate ].
    destruct (json_load content) as [data | ] eqn:Hload.
    + apply bind_Ok in H. destruct H as [sanitized [Hs H]].
      injection H as <- <-. split; [reflexivity | ].
      exists content. split; [reflexivity | ]. rewrite Hload. eauto.
    + injection H as <- <-. split; [reflexivity | ].
      exists content. split; [reflexivity | ]. now rewrite Hload.
Qed.

Lemma sanitize_leaves_its_argument_unchanged_witness :
  nth_error Samples.store_after 0
  = Some (DictObj [ ("apiKey", Scalar (JStr "abc123"));
                    ("container", Ref 1);
                    ("urls", Ref 2) ]) /\
  nth_error Samples.store_after 1
  = Some (DictObj [ ("name", Scalar (JStr "kr-demos")) ]).
Proof.
  destruct (proj1 sanitize_leaves_its_argument_unchanged
              1 Samples.store_before 0 EmptyString Samples.store_after 3 eq_refl)
    as [Hsame _].
  split; apply Hsame; reflexivity.
Defined.
End StoreClaims.


(* ================================================================== *)
(** * Further properties of the three programs *)
(* ================================================================== *)


Section SanitizerShape.
Import Sanitizer Documents.

(** A string that [sanitize_value] returns is not an Azure URL. *)
Lemma sanitize_value_not_url (key : string) (v : json) (s : string) :
  sanitize_value key v = JStr s -> is_azure_url (JStr s) = false.
Proof.
  unfold sanitize_value.
  destruct v as [ | b | n | f | s0 | l | d ]; try discriminate;
    destruct (should_redact_key key);
    try discriminate;
    try (destruct (should_redact_url_key key); cbn [is_azure_url];
         discriminate).
  - destruct (String.eqb_spec s0 EmptyString) as [-> | Hne]; cbn [negb andb].
    + intros [= <-]. reflexivity.
    + destruct (String.eqb_spec s0 "null") as [-> | Hnull]; cbn [negb andb].
      * intros [= <-]. vm_compute. reflexivity.
      * intros [= <-]. vm_compute. reflexivity.
  - destruct (should_redact_url_key key);
      destruct (is_azure_url (JStr s0)) eqn:Hu;
      intros [= <-]; try exact Hu; vm_compute; reflexivity.
Qed.

Lemma sanitize_scalar_not_url (parent_key key : string) (v : json) (s : string) :
  sanitize_scalar parent_key key v = JStr s -> is_azure_url (JStr s) = false.
Proof.
  destruct (sanitize_scalar_cases parent_key key v) as [[H _] | [H _]];
    rewrite H.
  - intros [= <-]. vm_compute. reflexivity.
  - apply sanitize_value_not_url.
Qed.

Lemma forallb_build (p : json -> bool) (f : string -> json -> json)
  (data : list (string * json)) :
  (forall k v, In (k, v) data -> p (f k v) = true) ->
  forallb (fun kv => p (snd kv)) (build f data []) = true.
Proof.
  intros Hf. apply forallb_forall. intros [k v] Hin.
  destruct (build_In f data [] k v Hin) as [[] | [v0 [Hin0 ->]]].
  simpl. now apply Hf.
Qed.

Lemma all_strings_scalar (p : string -> bool) (w : json) :
  scalar w -> (forall s, w = JStr s -> p s = true) -> all_strings p w = true.
Proof.
  destruct w; simpl; intros Hs Hp; try reflexivity; try contradiction.
  now apply Hp.
Qed.

Lemma sanitize_no_url_value (v : json) :
  (forall parent_key key,
      all_strings not_azure_url (sanitize_entry parent_key key v) = true) /\
  (forall parent_key,
      all_strings not_azure_url (sanitize_item parent_key v) = true).
Proof.
  induction v as [ | b | n | f | s | l IH | d IH ] using json_ind;
    try (split; intros; cbn [sanitize_entry sanitize_item];
         apply all_strings_scalar;
         try (apply sanitize_scalar_scalar; exact I);
         try (apply sanitize_value_scalar; exact I);
         intros s0 Hs0; unfold not_azure_url;
         first [ now rewrite (sanitize_scalar_not_url _ _ _ _ Hs0)
               | now rewrite (sanitize_value_not_url _ _ _ Hs0) ]).
  - assert (Hl : forall pk, forallb (all_strings not_azure_url)
                                    (map (sanitize_item pk) l) = true).
    { intros pk. apply forallb_forall. intros x Hx.
      apply in_map_iff in Hx. destruct Hx as [x0 [<- Hx0]].
      rewrite Forall_forall in IH. apply (IH x0 Hx0). }
    split; intros; cbn [sanitize_entry sanitize_item all_strings]; apply Hl.
  - assert (Hd : forall pk, forallb (fun kv => all_strings not_azure_url (snd kv))
                                    (build (sanitize_entry pk) d []) = true).
    { intros pk. apply (forallb_build (all_strings not_azure_url)).
      intros k v Hin. rewrite Forall_forall in IH. apply (IH (k, v) Hin). }
    split; intros; cbn [sanitize_entry sanitize_item all_strings]; apply Hd.
Qed.


Lemma distinct_NoDup (ks : list string) : distinct ks = true -> NoDup ks.
Proof.
  induction ks as [ | k ks IH ]; simpl; intros H.
  - constructor.
  - apply andb_true_iff in H. destruct H as [Hk Hks].
    constructor; [ | now apply IH ].
    intros Hin. apply PyStr_mem_In in Hin. rewrite Hin in Hk. discriminate.
Qed.

Lemma sanitize_value_redaction (key : string) (v : json) :
  scalar v -> redaction v (sanitize_value key v).
Proof.
  intros Hv. unfold sanitize_value.
  destruct v as [ | b | n | f | s | l | d ]; try contradiction;
    try reflexivity;
    destruct (should_redact_key key);
    try reflexivity;
    try (destruct (should_redact_url_key key); reflexivity).
  - destruct (negb (String.eqb s EmptyString) && negb (String.eqb s "null"));
      simpl; [right; simpl; tauto | now left].
  - destruct (should_redact_url_key key);
      destruct (is_azure_url (JStr s)); simpl;
      first [ now left | right; simpl; tauto ].
Qed.

Lemma sanitize_scalar_redaction (parent_key key : string) (v : json) :
  scalar v -> redaction v (sanitize_scalar parent_key key v).
Proof.
  intros Hv. unfold sanitize_scalar.
  destruct (PyStr.mem (PyStr.lower key) ["name"; "containername"]
            && (String.eqb (PyStr.lower parent_key) "container"
                || String.eqb (PyStr.lower key) "containername")); cbn [andb].
  - destruct v as [ | b | n | f | s | l | d ]; try contradiction;
      try (now apply sanitize_value_redaction).
    destruct (PyStr.mem s LEGACY_CONTAINER_NAMES).
    + simpl. right. simpl. tauto.
    + now apply sanitize_value_redaction.
  - now apply sanitize_value_redaction.
Qed.

Lemma sanitize_redaction_value (v : json) :
  well_formed v = true ->
  (forall parent_key key, redaction v (sanitize_entry parent_key key v)) /\
  (forall parent_key, redaction v (sanitize_item parent_key v)).
Proof.
  induction v as [ | b | n | f | s | l IH | d IH ] using json_ind; intros Hwf;
    try (split; intros; cbn [sanitize_entry sanitize_item];
         first [ apply sanitize_scalar_redaction; exact I
               | apply sanitize_value_redaction; exact I ]).
  - assert (Hl : forall pk, redaction (JList l) (JList (map (sanitize_item pk) l))).
    { intros pk. cbn [redaction]. simpl in Hwf.
      induction l as [ | x l IHl ]; simpl; [exact I | ].
      simpl in Hwf. apply andb_true_iff in Hwf. destruct Hwf as [Hx Hl].
      inversion IH as [ | x0 l0 IHx IHrest ]; subst.
      split; [ apply (IHx Hx) | now apply IHl ]. }
    split; intros; cbn [sanitize_entry sanitize_item]; apply Hl.
  - assert (Hd : forall pk, redaction (JDict d)
                                      (JDict (build (sanitize_entry pk) d []))).
    { intros pk. simpl in Hwf. apply andb_true_iff in Hwf.
      destruct Hwf as [Hnd Hall].
      rewrite build_distinct by (simpl; now apply distinct_NoDup).
      cbn [redaction app]. clear Hnd.
      induction d as [ | [k x] d IHd ]; simpl; [exact I | ].
      simpl in Hall. apply andb_true_iff in Hall. destruct Hall as [Hx Hrest].
      inversion IH as [ | kv0 d0 IHx IHrest ]; subst. simpl in IHx.
      split; [reflexivity | split; [ apply (IHx Hx) | now apply IHd ] ]. }
    split; intros; cbn [sanitize_entry sanitize_item]; apply Hd.
Qed.

End SanitizerShape.

Section SanitizerExtras.
Import Sanitizer Documents.

(** X1. After sanitizing, no string value of the document, at any depth,
    is an Azure service URL (a string that one of [AZURE_URL_PATTERNS]
    matches): this holds for every dict and every list, under every
    parent key. *)
Theorem sanitize_leaves_no_azure_url :
  (forall (d : dict) (parent_key : string),
      all_strings not_azure_url (JDict (sanitize_dict d parent_key)) = true) /\
  (forall (l : list json) (parent_key : string),
      all_strings not_azure_url (JList (sanitize_list parent_key l)) = true).
Proof.
  split.
  - intros d parent_key.
    exact (proj2 (sanitize_no_url_value (JDict d)) parent_key).
  - intros l parent_key.
    exact (proj2 (sanitize_no_url_value (JList l)) parent_key).
Qed.

(** X2. The Sanitizer changes strings only, and only into one of its
    three tokens: the sanitized document has the keys of the given one in
    the same order, lists of the same length, the same numbers, booleans
    and nulls, and every string is the given string or a token. *)
Theorem sanitize_only_replaces_strings :
  (forall (d : dict) (parent_key : string),
      well_formed (JDict d) = true ->
      redaction (JDict d) (JDict (sanitize_dict d parent_key))) /\
  (forall (l : list json) (parent_key : string),
      well_formed (JList l) = true ->
      redaction (JList l) (JList (sanitize_list parent_key l))).
Proof.
  split.
  - intros d parent_key Hwf.
    exact (proj2 (sanitize_redaction_value (JDict d) Hwf) parent_key).
  - intros l parent_key Hwf.
    exact (proj2 (sanitize_redaction_value (JList l) Hwf) parent_key).
Qed.

Lemma sanitize_only_replaces_strings_witness :
  redaction
    (JDict [ ("name", JStr "ds1"); ("retries", JInt 3);
             ("credentials", JDict [ ("connectionString", JStr "AccountKey=abc") ]);
             ("tags", JList [ JStr "a"; JNull ]) ])
    (JDict (sanitize_dict
              [ ("name", JStr "ds1"); ("retries", JInt 3);
                ("credentials", JDict [ ("connectionString", JStr "AccountKey=abc") ]);
                ("tags", JList [ JStr "a"; JNull ]) ] EmptyString)) /\
  redaction
    (JList [ JStr "https://contoso.search.windows.net"; JBool true ])
    (JList (sanitize_list "endpoint"
              [ JStr "https://contoso.search.windows.net"; JBool true ])).
Proof.
  split.
  - apply (proj1 sanitize_only_replaces_strings). reflexivity.
  - apply (proj2 sanitize_only_replaces_strings). reflexivity.
Defined.

(** X3. A list stored under a secret key passes the key on to its
    elements: a string element that is neither empty nor the literal
    [null] is replaced by [<REDACTED>], wherever it stands in the list. *)
Theorem sanitize_redacts_list_elements_under_secret_keys :
  forall (parent_key key s : string) (before after : list json),
    secret_name key -> s <> EmptyString -> s <> "null" ->
    sanitize_entry parent_key key (JList (before ++ JStr s :: after))
    = JList (sanitize_list key before
             ++ JStr "<REDACTED>" :: sanitize_list key after).
Proof.
  intros parent_key key s before after Hk Hne Hnull.
  apply should_redact_key_spec in Hk.
  rewrite sanitize_entry_list. unfold sanitize_list. rewrite map_app.
  cbn [map sanitize_item]. do 3 f_equal.
  unfold sanitize_value. rewrite Hk.
  destruct (String.eqb_spec s EmptyString); [contradiction | ].
  destruct (String.eqb_spec s "null"); [contradiction | ]. reflexivity.
Qed.

Lemma sanitize_redacts_list_elements_under_secret_keys_witness :
  sanitize_entry "credentials" "Access-Key" (JList ([JInt 1] ++ JStr "k1" :: [JStr "k2"]))
  = JList (sanitize_list "Access-Key" [JInt 1]
           ++ JStr "<REDACTED>" :: sanitize_list "Access-Key" [JStr "k2"]).
Proof.
  apply (sanitize_redacts_list_elements_under_secret_keys
           "credentials" "Access-Key" "k1" [JInt 1] [JStr "k2"]).
  - exists "accesskey". split; [simpl; tauto | reflexivity].
  - discriminate.
  - discriminate.
Defined.

(** X4. The container rule.  One of the three legacy container names is
    replaced by [<BLOB_CONTAINER_PLACEHOLDER>] when it is the value of a
    key [containerName] (in any letter case), or of a key [name] directly
    inside a block whose key is [container]; under a key [name] anywhere
    else a string of ASCII characters that is not an Azure URL is kept, a
    legacy container name included. *)
Theorem sanitize_container_rule :
  (forall (parent_key key s : string),
      PyStr.lower key = "containername" -> In s LEGACY_CONTAINER_NAMES ->
      sanitize_entry parent_key key (JStr s) = JStr "<BLOB_CONTAINER_PLACEHOLDER>") /\
  (forall (parent_key key s : string),
      PyStr.lower key = "name" -> PyStr.lower parent_key = "container" ->
      In s LEGACY_CONTAINER_NAMES ->
      sanitize_entry parent_key key (JStr s) = JStr "<BLOB_CONTAINER_PLACEHOLDER>") /\
  (forall (parent_key key s : string),
      PyStr.lower key = "name" -> PyStr.lower parent_key <> "container" ->
      ascii_only s = true -> is_azure_url (JStr s) = false ->
      sanitize_entry parent_key key (JStr s) = JStr s).
Proof.
  split; [ | split ].
  - intros parent_key key s Hk Hs. apply PyStr_mem_In in Hs.
    cbn [sanitize_entry]. unfold sanitize_scalar. rewrite Hk, Hs.
    rewrite orb_true_r. reflexivity.
  - intros parent_key key s Hk Hp Hs. apply PyStr_mem_In in Hs.
    cbn [sanitize_entry]. unfold sanitize_scalar. rewrite Hk, Hp, Hs.
    reflexivity.
  - intros parent_key key s Hk Hp _ Hu.
    cbn [sanitize_entry]. unfold sanitize_scalar. rewrite Hk.
    destruct (String.eqb_spec (PyStr.lower parent_key) "container");
      [contradiction | ].
    cbn [PyStr.mem existsb String.eqb Ascii.eqb Bool.eqb orb andb].
    assert (Hplain : should_redact_key key = false /\
                     should_redact_url_key key = false).
    { apply container_key_plain. rewrite Hk. reflexivity. }
    destruct Hplain as [Hr Hurl].
    unfold sanitize_value. rewrite Hr, Hurl, Hu. reflexivity.
Qed.

Lemma sanitize_container_rule_witness :
  sanitize_entry "azureBlobParameters" "ContainerName" (JStr "kr-demos")
  = JStr "<BLOB_CONTAINER_PLACEHOLDER>" /\
  sanitize_entry "Container" "name" (JStr "sample-documents")
  = JStr "<BLOB_CONTAINER_PLACEHOLDER>" /\
  sanitize_entry EmptyString "name" (JStr "foundry-iq-data") = JStr "foundry-iq-data".
Proof.
  split; [ | split ].
  - apply (proj1 sanitize_container_rule); [reflexivity | simpl; tauto].
  - apply (proj1 (proj2 sanitize_container_rule));
      [reflexivity | reflexivity | simpl; tauto].
  - apply (proj2 (proj2 sanitize_container_rule));
      [reflexivity | discriminate | reflexivity | reflexivity].
Defined.

End SanitizerExtras.

Section SanitizerMainFacts.
Import SanitizerMain.
Variable json_load : string -> option json.
Variable json_dumps : bool -> json -> string.


Ltac split_all := repeat match goal with |- _ /\ _ => split end.

(** What one file does to the counters and to the files. *)
Lemma sanitize_one_Ok (dry : bool) (p : string) (c c' : counts)
  (fs fs' : Sanitizer.filesystem) :
  sanitize_one json_load json_dumps dry p (c, fs) = Ok (c', fs') ->
  total_count c' = S (total_count c) /\
  (forall q, q <> p -> fs' q = fs q) /\
  (dry = true -> fs' = fs) /\
  modified_count c <= modified_count c' <= S (modified_count c) /\
  (dry = false ->
   modified_count c' = modified_count c + (if parses json_load fs p then 1 else 0)).
Proof.
  unfold sanitize_one, Sanitizer.sanitize_file, SanitizerMain.parses.
  destruct (fs p) as [content | ]; [ | discriminate ].
  destruct (json_load content) as [data | ].
  - destruct (Sanitizer.sanitize_document data) as [sanitized | e];
      [ | discriminate ].
    destruct dry; cbn [bind].
    + intros [= <- <-]. cbn [total_count modified_count].
      split_all; try reflexivity; try discriminate;
        destruct (negb _); lia.
    + intros [= <- <-]. cbn [total_count modified_count].
      split_all; try reflexivity; try discriminate; try lia.
      intros q Hq. unfold Sanitizer.write_file.
      destruct (String.eqb_spec q p); [contradiction | reflexivity].
  - cbn [bind]. intros [= <- <-]. cbn [total_count modified_count].
    split_all; try reflexivity; try lia.
Qed.

Lemma sanitize_files_Ok (dry : bool) (files : list string) :
  forall (c c' : counts) (fs fs' : Sanitizer.filesystem),
    Exporter.fold_res (sanitize_one json_load json_dumps dry) files (c, fs) = Ok (c', fs') ->
    total_count c' = total_count c + List.length files /\
    (forall q, ~ In q files -> fs' q = fs q) /\
    (dry = true -> fs' = fs) /\
    modified_count c <= modified_count c' /\
    modified_count c' - modified_count c <= List.length files /\
    (dry = false -> NoDup files ->
     modified_count c'
     = modified_count c + List.length (filter (parses json_load fs) files)).
Proof.
  induction files as [ | p files IH ]; intros c c' fs fs' H.
  - simpl in H. injection H as <- <-. simpl.
    split_all; try reflexivity; try lia.
  - cbn [Exporter.fold_res] in H. apply bind_Ok in H.
    destruct H as [[c1 fs1] [H1 H]].
    apply sanitize_one_Ok in H1.
    destruct H1 as [Ht [Hother [Hdry [Hm Hw]]]].
    apply IH in H. destruct H as [Ht' [Hother' [Hdry' [Hm' [Hb' Hw']]]]].
    split_all.
    + simpl. lia.
    + intros q Hq. rewrite Hother'; [apply Hother | ]; intros Hin; apply Hq;
        [left; now symmetry | now right].
    + intros Hd. rewrite (Hdry' Hd). now apply Hdry.
    + lia.
    + simpl. lia.
    + intros Hd Hnd. apply NoDup_cons_iff in Hnd. destruct Hnd as [Hnin Hnd'].
      rewrite (Hw' Hd Hnd'), (Hw Hd). cbn [filter].
      assert (Hsame : filter (parses json_load fs1) files = filter (parses json_load fs) files).
      { apply filter_ext_in. intros q Hq. unfold SanitizerMain.parses.
        rewrite Hother; [reflexivity | ]. intros ->. contradiction. }
      rewrite Hsame. destruct (parses json_load fs p); simpl; lia.
Qed.

Lemma sanitize_entries_Ok (dry : bool) (excl : list string) (entries : list entry) :
  forall (c c' : counts) (fs fs' : Sanitizer.filesystem),
    let files :=
      flat_map json_files
        (filter (fun e => is_dir e && negb (PyStr.mem (name e) excl)) entries) in
    Exporter.fold_res (sanitize_subdir json_load json_dumps dry excl) entries (c, fs) = Ok (c', fs') ->
    total_count c' = total_count c + List.length files /\
    (forall q, ~ In q files -> fs' q = fs q) /\
    (dry = true -> fs' = fs) /\
    modified_count c <= modified_count c' /\
    modified_count c' - modified_count c <= List.length files /\
    (dry = false -> NoDup files ->
     modified_count c'
     = modified_count c + List.length (filter (parses json_load fs) files)).
Proof.
  induction entries as [ | e entries IH ]; intros c c' fs fs' files H.
  - simpl in H. injection H as <- <-. subst files. simpl.
    split_all; try reflexivity; try lia.
  - cbn [Exporter.fold_res] in H. apply bind_Ok in H.
    destruct H as [[c1 fs1] [H1 H]].
    apply IH in H. destruct H as [Ht' [Hother' [Hdry' [Hm' [Hb' Hw']]]]].
    unfold SanitizerMain.sanitize_subdir in H1. subst files. cbn [filter].
    destruct (is_dir e); cbn [negb andb] in *.
    2: { injection H1 as <- <-. split_all; assumption. }
    destruct (PyStr.mem (name e) excl); cbn [negb] in *.
    { injection H1 as <- <-. split_all; assumption. }
    apply sanitize_files_Ok in H1.
    destruct H1 as [Ht [Hother [Hdry [Hm [Hb Hw]]]]].
    cbn [flat_map]. rewrite length_app.
    split_all.
    + lia.
    + intros q Hq. rewrite Hother', Hother; [reflexivity | | ];
        intros Hin; apply Hq; apply in_or_app; auto.
    + intros Hd. rewrite (Hdry' Hd). now apply Hdry.
    + lia.
    + lia.
    + intros Hd Hnd. apply NoDup_app_remove_l in Hnd as Hnd2.
      apply NoDup_app_remove_r in Hnd as Hnd1.
      rewrite (Hw' Hd Hnd2), (Hw Hd Hnd1).
      rewrite filter_app, length_app.
      set (rest := flat_map json_files
                     (filter (fun e0 => is_dir e0 && negb (PyStr.mem (name e0) excl))
                             entries)) in *.
      assert (Hsame : filter (parses json_load fs1) rest = filter (parses json_load fs) rest).
      { apply filter_ext_in. intros q Hq. unfold SanitizerMain.parses.
        rewrite Hother; [reflexivity | ]. intros Hin.
        revert Hnd Hin Hq. clear. intros Hnd Hin Hq.
        induction (json_files e) as [ | x l IHl ]; [contradiction | ].
        simpl in Hnd. apply NoDup_cons_iff in Hnd. destruct Hnd as [Hnin Hnd'].
        destruct Hin as [-> | Hin].
        - apply Hnin. apply in_or_app. now right.
        - now apply IHl. }
      rewrite Hsame. lia.
Qed.

End SanitizerMainFacts.

Section SanitizerMainExtras.
Import SanitizerMain.

(** X5. A run of the Sanitizer that returns has written no file other
    than the JSON files of the directories that are not excluded; with
    [--dry-run] it has written no file at all.  When the data directory
    does not exist the run exits with status 1. *)
Theorem sanitize_main_writes_selected_files_only :
  forall (json_load : string -> option json) (json_dumps : bool -> json -> string)
         (a : args) (fs fs' : Sanitizer.filesystem) (c : counts),
    main json_load json_dumps a fs = Returned (c, fs') ->
    (forall path, ~ In path (selected a) -> fs' path = fs path) /\
    (dry_run a = true -> fs' = fs) /\
    data_dir a <> None.
Proof.
  intros json_load json_dumps a fs fs' c H. unfold main in H.
  unfold selected. destruct (data_dir a) as [entries | ]; [ | discriminate ].
  destruct (Exporter.fold_res _ entries _) as [[c1 fs1] | e] eqn:Hrun;
    [ | discriminate ].
  injection H as <- <-.
  apply sanitize_entries_Ok in Hrun.
  destruct Hrun as [_ [Hother [Hdry _]]].
  split; [exact Hother | split; [exact Hdry | discriminate]].
Qed.

Lemma sanitize_main_writes_selected_files_only_witness :
  (forall path, ~ In path ["indexes/i1.json"; "indexes/i2.json"] ->
                sample_files_after path = sample_files path) /\
  (false = true -> sample_files_after = sample_files) /\
  data_dir (sample_args false) <> None.
Proof.
  exact (sanitize_main_writes_selected_files_only toy_load toy_dumps
           (sample_args false) sample_files sample_files_after
           {| modified_count := 1; total_count := 2 |} eq_refl).
Defined.

(** X6. The two counters that a run reports at its end.  The total is the
    number of selected files.  Without [--dry-run] the other counter is
    the number of selected files that hold a JSON document, whether the
    Sanitizer changed them or not: a file that needs no change is written
    again and counted as sanitized. *)
Theorem sanitize_main_counts :
  forall (json_load : string -> option json) (json_dumps : bool -> json -> string)
         (a : args) (fs fs' : Sanitizer.filesystem) (c : counts),
    main json_load json_dumps a fs = Returned (c, fs') ->
    total_count c = List.length (selected a) /\
    modified_count c <= total_count c /\
    (dry_run a = false -> NoDup (selected a) ->
     modified_count c
     = List.length (filter (parses json_load fs) (selected a))).
Proof.
  intros json_load json_dumps a fs fs' c H. unfold main in H.
  unfold selected. destruct (data_dir a) as [entries | ]; [ | discriminate ].
  destruct (Exporter.fold_res _ entries _) as [[c1 fs1] | e] eqn:Hrun;
    [ | discriminate ].
  injection H as <- <-.
  apply sanitize_entries_Ok in Hrun. cbn [modified_count total_count] in Hrun.
  destruct Hrun as [Ht [_ [_ [Hm [Hb Hw]]]]].
  split; [exact Ht | split; [lia | ]].
  intros Hd Hnd. exact (Hw Hd Hnd).
Qed.

Lemma sanitize_main_counts_witness :
  2 = List.length (selected (sample_args false)) /\
  1 <= 2 /\
  (false = false -> NoDup (selected (sample_args false)) ->
   1 = List.length (filter (parses toy_load sample_files)
                           (selected (sample_args false)))).
Proof.
  exact (sanitize_main_counts toy_load toy_dumps
           (sample_args false) sample_files sample_files_after
           {| modified_count := 1; total_count := 2 |} eq_refl).
Defined.

End SanitizerMainExtras.

Section RestorerKeys.
Import Restorer.

Lemma dict_pop_absent (k : string) (d : dict) :
  dict_in k d = false -> dict_pop k d = d.
Proof.
  induction d as [ | [k0 v0] d IH ]; simpl; [reflexivity | ].
  destruct (String.eqb k0 k); simpl; [discriminate | ].
  intros H. now rewrite IH.
Qed.

Lemma dict_pop_keys (k : string) (d : dict) :
  NoDup (dict_keys d) ->
  dict_keys (dict_pop k d)
  = filter (fun k0 => negb (String.eqb k0 k)) (dict_keys d).
Proof.
  unfold dict_keys.
  induction d as [ | [k0 v0] d IH ]; simpl; intros Hnd; [reflexivity | ].
  apply NoDup_cons_iff in Hnd. destruct Hnd as [Hnin Hnd].
  destruct (String.eqb_spec k0 k) as [-> | Hne]; simpl.
  - symmetry. apply forallb_filter_id. apply forallb_forall.
    intros x Hx. destruct (String.eqb_spec x k) as [-> | ]; [contradiction | reflexivity].
  - now rewrite IH.
Qed.

Lemma dict_pop_NoDup (k : string) (d : dict) :
  NoDup (dict_keys d) -> NoDup (dict_keys (dict_pop k d)).
Proof.
  intros Hnd. rewrite dict_pop_keys by assumption. now apply NoDup_filter.
Qed.

Lemma with_block_keys (d : dict) (k : string) (body : json -> res json) (d' : dict) :
  with_block d k body = Ok d' -> dict_keys d' = dict_keys d.
Proof.
  intros H. apply with_block_at_key in H. apply at_key_Ok in H.
  destruct H as [[d0 [v [v' [[= <-] [Hf [Ht [Hb [= ->]]]]]]]] | [[= ->] _]];
    [ | reflexivity ].
  unfold dict_keys. apply dict_set_keys.
  apply (proj1 (dict_in_In k d)). rewrite dict_in_find, Hf. reflexivity.
Qed.

Lemma replace_knowledge_source_keys (d : dict)
  (endpoint key cs container : string) (e k : option string) (r : dict) :
  replace_placeholders_in_knowledge_source d endpoint key cs container e k = Ok r ->
  dict_keys r = dict_keys (dict_pop "@odata.etag" (dict_pop "@odata.context" d)).
Proof.
  intros H. unfold replace_placeholders_in_knowledge_source in H.
  apply bind_Ok in H. destruct H as [d1 [H1 H]].
  apply bind_Ok in H. destruct H as [d2 [H2 H]].
  apply bind_Ok in H. destruct H as [d3 [H3 H]]. injection H as <-.
  apply with_block_keys in H1, H2, H3. congruence.
Qed.

Lemma replace_knowledge_base_keys (d : dict) (endpoint key : string) (r : dict) :
  replace_placeholders_in_knowledge_base d endpoint key = Ok r ->
  dict_keys r = dict_keys (dict_pop "@odata.etag" (dict_pop "@odata.context" d)).
Proof.
  intros H. unfold replace_placeholders_in_knowledge_base in H.
  apply bind_Ok in H. destruct H as [d1 [H1 H]].
  apply bind_Ok in H. destruct H as [d2 [H2 H]]. injection H as <-.
  apply with_block_keys in H1, H2. congruence.
Qed.

Lemma with_block_Raise (d : dict) (k : string) (body : json -> res json)
  (v : json) (err : exn) :
  dict_find k d = Some v -> truthy v = true -> body v = Raise err ->
  with_block d k body = Raise err.
Proof.
  intros Hf Ht Hb. unfold with_block, py_guard. cbn [py_contains bind].
  rewrite dict_in_find, Hf. cbn [py_getitem bind]. rewrite Hf. cbn [bind].
  rewrite Ht, Hb. reflexivity.
Qed.

(** The keys that are left when the two metadata keys are dropped. *)
Lemma popped_keys (d : dict) :
  NoDup (dict_keys d) ->
  dict_keys (dict_pop "@odata.etag" (dict_pop "@odata.context" d))
  = filter (fun k0 => negb (String.eqb k0 "@odata.context")
                      && negb (String.eqb k0 "@odata.etag"))
           (dict_keys d).
Proof.
  intros Hnd. rewrite dict_pop_keys by now apply dict_pop_NoDup.
  rewrite dict_pop_keys by assumption.
  generalize (dict_keys d). intros l.
  induction l as [ | x l IH ]; simpl; [reflexivity | ].
  destruct (String.eqb x "@odata.context"); simpl; [exact IH | ].
  destruct (String.eqb x "@odata.etag"); simpl; [exact IH | now rewrite IH].
Qed.

End RestorerKeys.

Section RestorerKeysExtras.
Import Restorer.

(** X7. The top-level keys of a restored document are the keys of the
    given document without [@odata.context] and [@odata.etag], in the
    same order: the Restorer drops the two metadata keys, and adds and
    drops no other key.  This holds for a knowledge source and for a
    knowledge base. *)
Theorem restore_drops_the_metadata_keys_only :
  (forall (d : dict) (endpoint key cs container : string) (e k : option string)
          (r : dict),
      NoDup (dict_keys d) ->
      replace_placeholders_in_knowledge_source d endpoint key cs container e k
      = Ok r ->
      dict_keys r
      = filter (fun k0 => negb (String.eqb k0 "@odata.context")
                          && negb (String.eqb k0 "@odata.etag"))
               (dict_keys d)) /\
  (forall (d : dict) (endpoint key : string) (r : dict),
      NoDup (dict_keys d) ->
      replace_placeholders_in_knowledge_base d endpoint key = Ok r ->
      dict_keys r
      = filter (fun k0 => negb (String.eqb k0 "@odata.context")
                          && negb (String.eqb k0 "@odata.etag"))
               (dict_keys d)).
Proof.
  split.
  - intros d endpoint key cs container e k r Hnd H.
    rewrite (replace_knowledge_source_keys _ _ _ _ _ _ _ _ H).
    now apply popped_keys.
  - intros d endpoint key r Hnd H.
    rewrite (replace_knowledge_base_keys _ _ _ _ H).
    now apply popped_keys.
Qed.

Lemma restore_drops_the_metadata_keys_only_witness :
  ["name"; "kind"; "azureBlobParameters"]
  = filter (fun k0 => negb (String.eqb k0 "@odata.context")
                      && negb (String.eqb k0 "@odata.etag"))
           (dict_keys Samples.plain_blob_source).
Proof.
  refine (proj1 restore_drops_the_metadata_keys_only Samples.plain_blob_source
            "https://live.openai.azure.com" "live-key"
            "DefaultEndpointsProtocol=https;AccountName=live" "docs"
            None None
            [ ("name", JStr "blob-ks");
              ("kind", JStr "azureBlob");
              ("azureBlobParameters",
               JDict [ ("connectionString", JStr "ResourceId=/subscriptions/s/storage;");
                       ("containerName", JStr "docs") ]) ] _ eq_refl).
  repeat constructor; simpl; intuition discriminate.
Defined.

(** X8. An [azureBlobParameters] that is true and is not an object (a
    non-empty string or list, a number other than zero, [true]) makes the
    replacement in a knowledge source fail with [AttributeError],
    whatever else the document holds. *)
Theorem restore_rejects_a_blob_block_that_is_no_object :
  forall (d : dict) (endpoint key cs container : string) (e k : option string)
         (v : json),
    dict_find "azureBlobParameters" d = Some v ->
    truthy v = true -> (forall o, v <> JDict o) ->
    replace_placeholders_in_knowledge_source d endpoint key cs container e k
    = Raise AttributeError.
Proof.
  intros d endpoint key cs container e k v Hf Ht Hv.
  unfold replace_placeholders_in_knowledge_source.
  set (d0 := dict_pop "@odata.etag" (dict_pop "@odata.context" d)).
  assert (Hf0 : dict_find "azureBlobParameters" d0 = Some v).
  { unfold d0. now rewrite !dict_find_pop_other by discriminate. }
  rewrite (with_block_Raise d0 "azureBlobParameters" _ v AttributeError Hf0 Ht);
    [reflexivity | ].
  unfold replace_in_blob_params.
  destruct v as [ | | | | | | o ]; try reflexivity.
  now elim (Hv o).
Qed.

Lemma restore_rejects_a_blob_block_that_is_no_object_witness :
  replace_placeholders_in_knowledge_source
    [ ("name", JStr "blob-ks"); ("azureBlobParameters", JStr "see the wiki") ]
    "https://live.openai.azure.com" "live-key"
    "DefaultEndpointsProtocol=https;AccountName=live" "docs" None None
  = Raise AttributeError.
Proof.
  apply (restore_rejects_a_blob_block_that_is_no_object
           [ ("name", JStr "blob-ks"); ("azureBlobParameters", JStr "see the wiki") ]
           "https://live.openai.azure.com" "live-key"
           "DefaultEndpointsProtocol=https;AccountName=live" "docs" None None
           (JStr "see the wiki")).
  - reflexivity.
  - reflexivity.
  - discriminate.
Defined.

End RestorerKeysExtras.

Section LocalityFacts.
Import Restorer Locality.

Lemma same_at_refl (k : string) (x : json) : same_at k x x.
Proof. destruct x; simpl; reflexivity. Qed.

Lemma same_at_trans (k : string) (x y z : json) :
  same_at k x y -> same_at k y z -> same_at k x z.
Proof.
  destruct x, y, z; simpl; try congruence; try contradiction.
Qed.

Lemma dict_get_found (d : dict) (k : string) (w : json) :
  dict_get d k JNull = w -> w <> JNull -> dict_find k d = Some w.
Proof.
  unfold dict_get. destruct (dict_find k d); intros H Hw; congruence.
Qed.

(** A step that acts on some keys returns its own results as they are. *)
Lemma acts_on_idem (keys : list string) (f : json -> res json) (x x' : json) :
  acts_on keys f -> f x = Ok x' -> f x' = Ok x'.
Proof.
  intros [Hstab _] H. apply (Hstab x x' H). intros k _. apply same_at_refl.
Qed.

Lemma acts_on_ext (keys : list string) (f g : json -> res json) :
  (forall x, f x = g x) -> acts_on keys f -> acts_on keys g.
Proof.
  intros Hfg [Hstab Hframe]. split.
  - intros x x' H y Hy. rewrite <- Hfg in *. now apply (Hstab x x').
  - intros x x' H k Hk. rewrite <- Hfg in H. now apply (Hframe x x').
Qed.

(** Two steps in a row, on different keys. *)
Lemma acts_on_seq (keys1 keys2 : list string) (f g : json -> res json) :
  acts_on keys1 f -> acts_on keys2 g ->
  (forall k, In k keys1 -> ~ In k keys2) ->
  acts_on (keys1 ++ keys2) (fun x => bind (f x) g).
Proof.
  intros [Hstab1 Hframe1] [Hstab2 Hframe2] Hdisj. split.
  - intros x x' H y Hy. apply bind_Ok in H. destruct H as [a [Hf Hg]].
    assert (Hfy : f y = Ok y).
    { apply (Hstab1 x a Hf). intros k Hk.
      apply same_at_trans with (y := x').
      - apply (Hframe2 a x' Hg). now apply Hdisj.
      - apply Hy. apply in_or_app. now left. }
    rewrite Hfy. cbn [bind]. apply (Hstab2 a x' Hg).
    intros k Hk. apply Hy. apply in_or_app. now right.
  - intros x x' H k Hk. apply bind_Ok in H. destruct H as [a [Hf Hg]].
    apply same_at_trans with (y := a).
    + apply (Hframe1 x a Hf). intros Hin. apply Hk. apply in_or_app. now left.
    + apply (Hframe2 a x' Hg). intros Hin. apply Hk. apply in_or_app. now right.
Qed.

(** The statement [if p(x.get(k)): x[k] = w]. *)
Lemma acts_on_set_if (p : json -> bool) (k : string) (w : json) :
  w <> JNull ->
  acts_on [k] (fun x => bind (py_get x k)
                          (fun c => if p c then py_setitem x k w else Ok x)).
Proof.
  intros Hw.
  assert (Hshape : forall x x',
             bind (py_get x k) (fun c => if p c then py_setitem x k w else Ok x)
             = Ok x' ->
             exists d, x = JDict d /\
                       x' = JDict (if p (dict_get d k JNull)
                                   then dict_set k w d else d)).
  { intros x x' H. destruct x as [ | | | | | | d ]; try discriminate.
    exists d. split; [reflexivity | ]. cbn [py_get bind] in H.
    destruct (p (dict_get d k JNull)); cbn [py_setitem] in H;
      now injection H as <-. }
  split.
  - intros x x' H y Hy. apply Hshape in H. destruct H as [d [-> ->]].
    specialize (Hy k (or_introl eq_refl)).
    destruct y as [ | | | | | | dy ]; try contradiction. cbn [same_at] in Hy.
    cbn [py_get bind].
    destruct (p (dict_get d k JNull)) eqn:Hp.
    + unfold dict_get in Hy at 1. rewrite dict_find_set_same in Hy.
      symmetry in Hy. rewrite Hy.
      destruct (p w); [ | reflexivity ]. cbn [py_setitem].
      now rewrite (dict_set_same_value k w dy (dict_get_found dy k w Hy Hw)).
    + rewrite <- Hy, Hp. reflexivity.
  - intros x x' H k' Hk'. apply Hshape in H. destruct H as [d [-> ->]].
    cbn [same_at]. destruct (p (dict_get d k JNull)); [ | reflexivity ].
    unfold dict_get. rewrite dict_find_set_other; [reflexivity | ].
    intros ->. apply Hk'. now left.
Qed.

Lemma acts_on_replace_if (k token value : string) :
  acts_on [k] (fun x => replace_if x k token value).
Proof.
  exact (acts_on_set_if (is_str token) k (JStr value) ltac:(discriminate)).
Qed.

(** The guarded descent under [k], for a body that returns its own
    results as they are, or returns a false value. *)
Lemma acts_on_at_key (k : string) (body : json -> res json) :
  (forall b b', body b = Ok b' -> body b' = Ok b' \/ truthy b' = false) ->
  acts_on [k] (fun x => at_key x k body).
Proof.
  intros Hbody. split.
  - intros x x' H y Hy. specialize (Hy k (or_introl eq_refl)).
    pose proof H as H0. apply at_key_Ok in H.
    destruct H as [[d [v [v' [-> [Hf [Ht [Hb ->]]]]]]] | [-> Hg]].
    + destruct y as [ | | | | | | dy ]; try contradiction. cbn [same_at] in Hy.
      unfold dict_get in Hy at 1. rewrite dict_find_set_same in Hy.
      unfold at_key, py_guard. cbn [py_contains py_getitem bind].
      rewrite dict_in_find. unfold dict_get in Hy.
      destruct (dict_find k dy) as [w | ] eqn:Hfy; cbn [bind]; [ | reflexivity ].
      subst w. destruct (truthy v') eqn:Htv; cbn [bind]; [ | reflexivity ].
      destruct (Hbody v v' Hb) as [Hb' | Hb']; [ | congruence ].
      rewrite Hb'. cbn [bind py_setitem].
      now rewrite (dict_set_same_value k v' dy Hfy).
    + destruct x as [ | | | | | | d ];
        try (destruct y; try contradiction; cbn [same_at] in Hy;
             first [ exact H0 | rewrite <- Hy; exact H0 ]).
      destruct y as [ | | | | | | dy ]; try contradiction. cbn [same_at] in Hy.
      pose proof (py_guard_None_falsy (JDict d) k [] Hg) as Hfalse.
      cbn [field] in Hfalse. rewrite Hy in Hfalse.
      unfold at_key, py_guard. cbn [py_contains py_getitem bind].
      rewrite dict_in_find. unfold dict_get in Hfalse.
      destruct (dict_find k dy) as [w | ]; cbn [bind]; [ | reflexivity ].
      rewrite Hfalse. reflexivity.
  - intros x x' H k' Hk'. apply at_key_Ok in H.
    destruct H as [[d [v [v' [-> [Hf [Ht [Hb ->]]]]]]] | [-> Hg]].
    + cbn [same_at]. unfold dict_get. rewrite dict_find_set_other; [reflexivity | ].
      intros ->. apply Hk'. now left.
    + apply same_at_refl.
Qed.

Lemma acts_on_at_key_idem (k : string) (keys : list string) (body : json -> res json) :
  acts_on keys body -> acts_on [k] (fun x => at_key x k body).
Proof.
  intros Hb. apply acts_on_at_key. intros b b' H. left.
  exact (acts_on_idem keys body b b' Hb H).
Qed.

Lemma acts_on_replace_aoai (endpoint key : string) :
  acts_on ["resourceUri"; "apiKey"] (fun a => replace_aoai a endpoint key).
Proof.
  apply (acts_on_seq ["resourceUri"] ["apiKey"]
           (fun a => replace_if a "resourceUri" "<AZURE_ENDPOINT_PLACEHOLDER>" endpoint)
           (fun a => replace_if a "apiKey" "<REDACTED>" key)).
  - apply acts_on_replace_if.
  - apply acts_on_replace_if.
  - intros k [<- | []] [H | []]. discriminate.
Qed.

Lemma acts_on_replace_in_model (endpoint key : string) :
  acts_on ["azureOpenAIParameters"] (fun m => replace_in_model m endpoint key).
Proof.
  apply (acts_on_at_key_idem _ _ _ (acts_on_replace_aoai endpoint key)).
Qed.

Lemma acts_on_replace_in_ingest_model (model_key endpoint key : string) :
  acts_on [model_key]
    (fun ip => replace_in_ingest_model ip model_key endpoint key).
Proof.
  apply (acts_on_at_key_idem _ _ _ (acts_on_replace_in_model endpoint key)).
Qed.

Lemma acts_on_replace_ai_services (e k : option string) :
  acts_on ["aiServices"] (fun ip => replace_ai_services ip e k).
Proof.
  unfold replace_ai_services. apply acts_on_at_key. intros b b' H.
  destruct (ai_services_available e k) as [[endpoint key] | ].
  - left.
    apply (acts_on_idem ["uri"; "apiKey"]
             (fun a => bind (replace_if a "uri" "<AZURE_ENDPOINT_PLACEHOLDER>" endpoint)
                         (fun a => replace_if a "apiKey" "<REDACTED>" key)) b b');
      [ | exact H ].
    apply (acts_on_seq ["uri"] ["apiKey"]).
    + apply acts_on_replace_if.
    + apply acts_on_replace_if.
    + intros k0 [<- | []] [H0 | []]. discriminate.
  - right. now injection H as <-.
Qed.

Lemma acts_on_replace_in_blob_ingestion (endpoint key : string) (e k : option string) :
  acts_on ["embeddingModel"; "chatCompletionModel"; "aiServices"]
    (fun ip => replace_in_blob_ingestion ip endpoint key e k).
Proof.
  apply (acts_on_seq ["embeddingModel"] ["chatCompletionModel"; "aiServices"]
           (fun ip => replace_in_ingest_model ip "embeddingModel" endpoint key)
           (fun ip => bind (replace_in_ingest_model ip "chatCompletionModel" endpoint key)
                        (fun ip => replace_ai_services ip e k))).
  - apply acts_on_replace_in_ingest_model.
  - apply (acts_on_seq ["chatCompletionModel"] ["aiServices"]
             (fun ip => replace_in_ingest_model ip "chatCompletionModel" endpoint key)
             (fun ip => replace_ai_services ip e k)).
    + apply acts_on_replace_in_ingest_model.
    + apply acts_on_replace_ai_services.
    + intros k0 [<- | []] [H0 | []]. discriminate.
  - intros k0 [<- | []] [H0 | [H0 | []]]; discriminate.
Qed.

Lemma acts_on_replace_in_blob_params (endpoint key cs container : string)
  (e k : option string) :
  acts_on ["connectionString"; "containerName"; "ingestionParameters"]
    (fun bp => replace_in_blob_params bp endpoint key cs container e k).
Proof.
  apply (acts_on_ext _
           (fun bp =>
              bind (bind (py_get bp "connectionString")
                      (fun c => if connection_string_unset c
                                then py_setitem bp "connectionString" (JStr cs)
                                else Ok bp))
                (fun bp =>
                   bind (replace_if bp "containerName"
                           "<BLOB_CONTAINER_PLACEHOLDER>" container)
                     (fun bp =>
                        at_key bp "ingestionParameters"
                          (fun ip => replace_in_blob_ingestion ip endpoint key e k))))).
  { intros x. unfold replace_in_blob_params.
    destruct (py_get x "connectionString"); reflexivity. }
  apply (acts_on_seq ["connectionString"] ["containerName"; "ingestionParameters"]).
  - apply acts_on_set_if. discriminate.
  - apply (acts_on_seq ["containerName"] ["ingestionParameters"]
             (fun bp => replace_if bp "containerName"
                          "<BLOB_CONTAINER_PLACEHOLDER>" container)
             (fun bp => at_key bp "ingestionParameters"
                          (fun ip => replace_in_blob_ingestion ip endpoint key e k))).
    + apply acts_on_replace_if.
    + apply (acts_on_at_key_idem _ _ _
               (acts_on_replace_in_blob_ingestion endpoint key e k)).
    + intros k0 [<- | []] [H0 | []]. discriminate.
  - intros k0 [<- | []] [H0 | [H0 | []]]; discriminate.
Qed.

Lemma acts_on_replace_in_indexed_params (endpoint key : string) :
  acts_on ["ingestionParameters"]
    (fun params => replace_in_indexed_params params endpoint key).
Proof.
  apply (acts_on_at_key_idem _ _
           (fun ip => replace_in_ingest_model ip "embeddingModel" endpoint key)
           (acts_on_replace_in_ingest_model "embeddingModel" endpoint key)).
Qed.

Lemma map_res_idem {A : Type} (f : A -> res A) :
  (forall a b, f a = Ok b -> f b = Ok b) ->
  forall l l', map_res f l = Ok l' -> map_res f l' = Ok l'.
Proof.
  intros Hf. induction l as [ | a l IH ]; simpl; intros l' H.
  - now injection H as <-.
  - apply bind_Ok in H. destruct H as [b [Hb H]].
    apply bind_Ok in H. destruct H as [bs [Hbs H]]. injection H as <-.
    simpl. rewrite (Hf a b Hb). cbn [bind]. rewrite (IH bs Hbs). reflexivity.
Qed.

Lemma replace_in_models_idem (models models' : json) (endpoint key : string) :
  replace_in_models models endpoint key = Ok models' ->
  replace_in_models models' endpoint key = Ok models'.
Proof.
  intros H. pose proof H as H0. unfold replace_in_models in H.
  apply bind_Ok in H. destruct H as [l [Hl H]].
  apply bind_Ok in H. destruct H as [l' [Hl' H]].
  destruct models as [ | | | | s | l0 | d ];
    try (injection H as <-; exact H0).
  injection H as <-. simpl in Hl. injection Hl as <-.
  unfold replace_in_models. cbn [py_iter bind].
  rewrite (map_res_idem (fun model => replace_in_model model endpoint key)
             (fun a b => acts_on_idem _ _ a b (acts_on_replace_in_model endpoint key))
             l0 l' Hl').
  reflexivity.
Qed.

Lemma replace_in_inference_params_idem (x x' : json) (endpoint key : string) :
  replace_in_inference_params x endpoint key = Ok x' ->
  replace_in_inference_params x' endpoint key = Ok x'.
Proof.
  intros H. pose proof H as H0. unfold replace_in_inference_params in H.
  apply bind_Ok in H. destruct H as [c [Hc H]].
  destruct c; [ | injection H as <-; exact H0 ].
  apply bind_Ok in H. destruct H as [a [Ha H]].
  apply bind_Ok in H. destruct H as [a' [Ha' H]].
  destruct x as [ | | | | | | d ]; try discriminate.
  cbn [py_setitem] in H. injection H as <-.
  unfold replace_in_inference_params. cbn [py_contains py_getitem bind].
  rewrite dict_in_set, String.eqb_refl. cbn [orb].
  rewrite dict_find_set_same. cbn [bind].
  rewrite (acts_on_idem _ _ a a' (acts_on_replace_aoai endpoint key) Ha').
  cbn [bind py_setitem].
  now rewrite (dict_set_same_value _ a' _ (dict_find_set_same _ _ _)).
Qed.

(** The guard at the top level, on a dict that the block leaves as it is. *)
Lemma with_block_stable (d : dict) (k : string) (body : json -> res json) :
  at_key (JDict d) k body = Ok (JDict d) -> with_block d k body = Ok d.
Proof.
  unfold with_block, at_key.
  destruct (py_guard (JDict d) k) as [[block | ] | err]; cbn [bind];
    try discriminate; [ | reflexivity ].
  destruct (body block) as [block' | err]; cbn [bind py_setitem];
    [ | discriminate ].
  now intros [= ->].
Qed.

(** Three guarded blocks in a row at the top level, run again on their
    result. *)
Lemma with_blocks_idem (k1 k2 k3 : string) (b1 b2 b3 : json -> res json)
  (d0 d1 d2 d3 : dict) :
  acts_on [k1] (fun x => at_key x k1 b1) ->
  acts_on [k2] (fun x => at_key x k2 b2) ->
  acts_on [k3] (fun x => at_key x k3 b3) ->
  k1 <> k2 -> k1 <> k3 -> k2 <> k3 ->
  with_block d0 k1 b1 = Ok d1 ->
  with_block d1 k2 b2 = Ok d2 ->
  with_block d2 k3 b3 = Ok d3 ->
  with_block d3 k1 b1 = Ok d3 /\
  with_block d3 k2 b2 = Ok d3 /\
  with_block d3 k3 b3 = Ok d3.
Proof.
  intros [S1 F1] [S2 F2] [S3 F3] H12 H13 H23 H1 H2 H3.
  apply with_block_at_key in H1, H2, H3.
  assert (Hnot : forall a b : string, a <> b -> ~ In a [b])
    by (intros a b Hab [<- | []]; now apply Hab).
  split; [ | split ]; apply with_block_stable.
  - apply (S1 _ _ H1). intros k [<- | []].
    apply same_at_trans with (y := JDict d2).
    + apply (F2 _ _ H2). now apply Hnot.
    + apply (F3 _ _ H3). now apply Hnot.
  - apply (S2 _ _ H2). intros k [<- | []].
    apply (F3 _ _ H3). now apply Hnot.
  - apply (S3 _ _ H3). intros k [<- | []]. apply same_at_refl.
Qed.

Lemma keys_without_metadata (d r : dict) :
  NoDup (dict_keys d) ->
  dict_keys r = dict_keys (dict_pop "@odata.etag" (dict_pop "@odata.context" d)) ->
  dict_pop "@odata.etag" (dict_pop "@odata.context" r) = r.
Proof.
  intros Hnd Hk. rewrite popped_keys in Hk by assumption.
  assert (Hin : forall k0, In k0 (dict_keys r) ->
                           k0 <> "@odata.context" /\ k0 <> "@odata.etag").
  { intros k0 H0. rewrite Hk in H0. apply filter_In in H0.
    destruct H0 as [_ H0]. apply andb_true_iff in H0. destruct H0 as [Ha Hb].
    split; intros ->; discriminate. }
  assert (Habsent : forall k0, (forall k1, In k1 (dict_keys r) -> k1 <> k0) ->
                               dict_in k0 r = false).
  { intros k0 H0. destruct (dict_in k0 r) eqn:Hd; [ | reflexivity ].
    apply dict_in_In in Hd. now elim (H0 k0 Hd). }
  rewrite (dict_pop_absent "@odata.context" r)
    by (apply Habsent; intros k1 H1; now apply Hin).
  apply dict_pop_absent. apply Habsent. intros k1 H1. now apply Hin.
Qed.

End LocalityFacts.

Section RestorerIdempotent.
Import Restorer Locality.

(** X9. Replacing twice is replacing once: when the replacement returns
    a document, the same replacement on that document returns it as it
    is.  This holds for a knowledge source and for a knowledge base,
    whatever the credentials are. *)
Theorem restore_is_idempotent :
  (forall (d : dict) (endpoint key cs container : string) (e k : option string)
          (r : dict),
      NoDup (dict_keys d) ->
      replace_placeholders_in_knowledge_source d endpoint key cs container e k
      = Ok r ->
      replace_placeholders_in_knowledge_source r endpoint key cs container e k
      = Ok r) /\
  (forall (d : dict) (endpoint key : string) (r : dict),
      NoDup (dict_keys d) ->
      replace_placeholders_in_knowledge_base d endpoint key = Ok r ->
      replace_placeholders_in_knowledge_base r endpoint key = Ok r).
Proof.
  split.
  - intros d endpoint key cs container e k r Hnd H.
    pose proof (replace_knowledge_source_keys _ _ _ _ _ _ _ _ H) as Hkeys.
    unfold replace_placeholders_in_knowledge_source in *.
    apply bind_Ok in H. destruct H as [d1 [H1 H]].
    apply bind_Ok in H. destruct H as [d2 [H2 H]].
    apply bind_Ok in H. destruct H as [d3 [H3 H]]. injection H as <-.
    rewrite (keys_without_metadata d d3 Hnd Hkeys).
    destruct (with_blocks_idem
                "azureBlobParameters" "indexedOneLakeParameters"
                "indexedSharePointParameters" _ _ _ _ d1 d2 d3
                (acts_on_at_key_idem _ _ _
                   (acts_on_replace_in_blob_params endpoint key cs container e k))
                (acts_on_at_key_idem _ _ _
                   (acts_on_replace_in_indexed_params endpoint key))
                (acts_on_at_key_idem _ _ _
                   (acts_on_replace_in_indexed_params endpoint key))
                ltac:(discriminate) ltac:(discriminate) ltac:(discriminate)
                H1 H2 H3) as [E1 [E2 E3]].
    rewrite E1. cbn [bind]. rewrite E2. cbn [bind]. rewrite E3. reflexivity.
  - intros d endpoint key r Hnd H.
    pose proof (replace_knowledge_base_keys _ _ _ _ H) as Hkeys.
    unfold replace_placeholders_in_knowledge_base in *.
    apply bind_Ok in H. destruct H as [d1 [H1 H]].
    apply bind_Ok in H. destruct H as [d2 [H2 H]]. injection H as <-.
    rewrite (keys_without_metadata d d2 Hnd Hkeys).
    assert (A1 : acts_on ["models"]
                   (fun x => at_key x "models"
                               (fun models => replace_in_models models endpoint key))).
    { apply acts_on_at_key. intros b b' Hb. left.
      exact (replace_in_models_idem b b' endpoint key Hb). }
    assert (A2 : acts_on ["inferenceParameters"]
                   (fun x => at_key x "inferenceParameters"
                               (fun inference =>
                                  replace_in_inference_params inference endpoint key))).
    { apply acts_on_at_key. intros b b' Hb. left.
      exact (replace_in_inference_params_idem b b' endpoint key Hb). }
    destruct A1 as [S1 F1]. destruct A2 as [S2 F2].
    apply with_block_at_key in H1 as K1. apply with_block_at_key in H2 as K2.
    rewrite (with_block_stable d2 "models").
    2: { apply (S1 _ _ K1). intros k0 [<- | []].
         apply (F2 _ _ K2). intros [H0 | []]. discriminate. }
    cbn [bind]. rewrite (with_block_stable d2 "inferenceParameters").
    2: { apply (S2 _ _ K2). intros k0 [<- | []]. apply same_at_refl. }
    reflexivity.
Qed.

Lemma restore_is_idempotent_witness :
  replace_placeholders_in_knowledge_source
    [ ("name", JStr "blob-ks");
      ("kind", JStr "azureBlob");
      ("azureBlobParameters",
       JDict [ ("connectionString",
                JStr "DefaultEndpointsProtocol=https;AccountName=live");
               ("containerName", JStr "docs") ]) ]
    "https://live.openai.azure.com" "live-key"
    "DefaultEndpointsProtocol=https;AccountName=live" "docs"
    (Some "https://live.cognitiveservices.azure.com") (Some "ai-key")
  = Ok [ ("name", JStr "blob-ks");
         ("kind", JStr "azureBlob");
         ("azureBlobParameters",
          JDict [ ("connectionString",
                   JStr "DefaultEndpointsProtocol=https;AccountName=live");
                  ("containerName", JStr "docs") ]) ].
Proof.
  refine (proj1 restore_is_idempotent Samples.keyless_blob_source
            "https://live.openai.azure.com" "live-key"
            "DefaultEndpointsProtocol=https;AccountName=live" "docs"
            (Some "https://live.cognitiveservices.azure.com") (Some "ai-key")
            _ _ eq_refl).
  repeat constructor; simpl; intuition discriminate.
Defined.

End RestorerIdempotent.

Section RoundTripFacts.
Import Restorer Documents.

Lemma dict_find_map (f : string -> json -> json) (k : string) (d : dict) :
  dict_find k (map (fun kv => (fst kv, f (fst kv) (snd kv))) d)
  = option_map (f k) (dict_find k d).
Proof.
  induction d as [ | [k0 v0] d IH ]; simpl; [reflexivity | ].
  destruct (String.eqb_spec k0 k) as [-> | Hne]; [reflexivity | exact IH].
Qed.

Lemma sanitize_dict_find (d : dict) (parent_key k : string) :
  NoDup (dict_keys d) ->
  dict_find k (Sanitizer.sanitize_dict d parent_key)
  = option_map (Sanitizer.sanitize_entry parent_key k) (dict_find k d).
Proof.
  intros Hnd. unfold Sanitizer.sanitize_dict.
  rewrite build_distinct by exact Hnd. apply dict_find_map.
Qed.

Lemma sanitize_entry_null (parent_key key : string) :
  Sanitizer.sanitize_entry parent_key key JNull = JNull.
Proof.
  cbn [Sanitizer.sanitize_entry]. unfold Sanitizer.sanitize_scalar.
  rewrite andb_false_r. reflexivity.
Qed.

Lemma well_formed_get (d : dict) (k : string) :
  well_formed (JDict d) = true -> well_formed (dict_get d k JNull) = true.
Proof.
  cbn [well_formed]. intros H. apply andb_true_iff in H. destruct H as [_ H].
  unfold dict_get. destruct (dict_find k d) as [v | ] eqn:Hf; [ | reflexivity ].
  rewrite forallb_forall in H.
  assert (Hin : In (k, v) d).
  { clear H. induction d as [ | [k0 v0] d IH ]; simpl in *; [discriminate | ].
    destruct (String.eqb_spec k0 k) as [-> | Hne].
    - injection Hf as ->. now left.
    - right. now apply IH. }
  exact (H (k, v) Hin).
Qed.

Lemma field_not_dict (k : string) (path : list string) (x : json) :
  (forall d, x <> JDict d) -> field (k :: path) x = JNull.
Proof.
  destruct x as [ | | | | | | d ]; try reflexivity. intros H. now elim (H d).
Qed.

Lemma sanitize_entry_not_dict (parent_key key : string) (v : json) :
  (forall d, v <> JDict d) ->
  forall d, Sanitizer.sanitize_entry parent_key key v <> JDict d.
Proof.
  intros Hv d.
  destruct v as [ | b | n | f | s | l | d0 ];
    try (cbn [Sanitizer.sanitize_entry];
         match goal with
         | |- Sanitizer.sanitize_scalar ?a ?b ?c <> _ =>
             pose proof (sanitize_scalar_scalar a b c I) as Hs;
             destruct (Sanitizer.sanitize_scalar a b c);
             try discriminate; contradiction
         end).
  - rewrite sanitize_entry_list. discriminate.
  - now elim (Hv d0).
Qed.

Lemma last_cons (path : list string) :
  forall k1 key : string, last (k1 :: path) key = last path k1.
Proof.
  induction path as [ | k2 path IH ]; intros k1 key; [reflexivity | ].
  change (last (k1 :: k2 :: path) key) with (last (k2 :: path) key).
  rewrite (IH k2 key). symmetry. apply (IH k2 k1).
Qed.

(** The field at a path of the sanitized document is the sanitized field
    of the document, the key being the last key of the path. *)
Lemma field_sanitize (path : list string) :
  forall (v : json) (parent_key key : string),
    well_formed v = true ->
    exists parent_key',
      field path (Sanitizer.sanitize_entry parent_key key v)
      = Sanitizer.sanitize_entry parent_key' (last path key) (field path v).
Proof.
  induction path as [ | k1 path IH ]; intros v parent_key key Hwf.
  - exists parent_key. reflexivity.
  - rewrite last_cons.
    destruct v as [ | b | n | f | s | l | d ];
      try (exists parent_key;
           rewrite (field_not_dict k1 path (Sanitizer.sanitize_entry parent_key key _))
             by (apply sanitize_entry_not_dict; discriminate);
           rewrite (field_not_dict k1 path _) by discriminate;
           now rewrite sanitize_entry_null).
    rewrite sanitize_entry_dict. cbn [field].
      assert (Hnd : NoDup (dict_keys d)).
      { cbn [well_formed] in Hwf. apply andb_true_iff in Hwf.
        apply distinct_NoDup. exact (proj1 Hwf). }
      assert (Hget : dict_get (Sanitizer.sanitize_dict d key) k1 JNull
                     = Sanitizer.sanitize_entry key k1 (dict_get d k1 JNull)).
      { unfold dict_get. rewrite sanitize_dict_find by exact Hnd.
        destruct (dict_find k1 d); cbn [option_map];
          [reflexivity | now rewrite sanitize_entry_null]. }
      rewrite Hget. apply IH. now apply well_formed_get.
Qed.


(** *** What the Restorer writes where a token stands *)

Lemma replace_if_fills (x : json) (k token value : string) (x' : json) :
  replace_if x k token value = Ok x' ->
  field [k] x = JStr token -> field [k] x' = JStr value.
Proof.
  intros H Hf. apply replace_if_Ok in H. destruct H as [d [-> ->]].
  cbn [field] in Hf. rewrite Hf. cbn [is_str]. rewrite String.eqb_refl.
  now rewrite field_set_same.
Qed.

Lemma at_key_fills (x : json) (k : string) (body : json -> res json) (x' : json)
  (path : list string) (a b : json) :
  at_key x k body = Ok x' ->
  truthy a = true ->
  (forall v v', body v = Ok v' -> field path v = a -> field path v' = b) ->
  field (k :: path) x = a -> field (k :: path) x' = b.
Proof.
  intros H Ht Hbody Hx.
  assert (Htx : truthy (field (k :: path) x) = true) by now rewrite Hx.
  destruct (at_key_descend x k body x' path H Htx) as [v [v' [Hb [Hv Hv']]]].
  rewrite Hv'. apply (Hbody v v' Hb). now rewrite <- Hv.
Qed.

Lemma replace_aoai_fills (a : json) (endpoint key : string) (a' : json) :
  replace_aoai a endpoint key = Ok a' ->
  (field ["resourceUri"] a = JStr "<AZURE_ENDPOINT_PLACEHOLDER>" ->
   field ["resourceUri"] a' = JStr endpoint) /\
  (field ["apiKey"] a = JStr "<REDACTED>" -> field ["apiKey"] a' = JStr key).
Proof.
  intros H. unfold replace_aoai in H. apply bind_Ok in H.
  destruct H as [a1 [H1 H2]]. split; intros Hf.
  - rewrite (replace_if_frame a1 "apiKey" "resourceUri" _ _ a' [] H2)
      by discriminate.
    exact (replace_if_fills a _ _ _ a1 H1 Hf).
  - apply (replace_if_fills a1 _ _ _ a' H2).
    now rewrite (replace_if_frame a "resourceUri" "apiKey" _ _ a1 [] H1)
      by discriminate.
Qed.

(** The two fields of the embedding model of a blob block. *)
Lemma replace_in_blob_ingestion_fills (ip : json) (endpoint key : string)
  (e k : option string) (ip' : json) :
  replace_in_blob_ingestion ip endpoint key e k = Ok ip' ->
  (field ["embeddingModel"; "azureOpenAIParameters"; "resourceUri"] ip
   = JStr "<AZURE_ENDPOINT_PLACEHOLDER>" ->
   field ["embeddingModel"; "azureOpenAIParameters"; "resourceUri"] ip'
   = JStr endpoint) /\
  (field ["embeddingModel"; "azureOpenAIParameters"; "apiKey"] ip
   = JStr "<REDACTED>" ->
   field ["embeddingModel"; "azureOpenAIParameters"; "apiKey"] ip' = JStr key).
Proof.
  intros H. unfold replace_in_blob_ingestion in H.
  apply bind_Ok in H. destruct H as [ip1 [H1 H]].
  apply bind_Ok in H. destruct H as [ip2 [H2 H3]].
  assert (Hframe : forall p, field ("embeddingModel" :: p) ip'
                             = field ("embeddingModel" :: p) ip1).
  { intros p.
    rewrite (replace_ai_services_frame ip2 e k "embeddingModel" ip' p H3)
      by discriminate.
    now rewrite (replace_in_ingest_model_frame ip1 "chatCompletionModel"
                   endpoint key "embeddingModel" ip2 p H2) by discriminate. }
  unfold replace_in_ingest_model, replace_in_model in H1.
  split; intros Hf; rewrite Hframe.
  - eapply at_key_fills; [exact H1 | | | exact Hf]; [reflexivity | ].
    intros m m' Hm Hfm.
    eapply at_key_fills; [exact Hm | | | exact Hfm]; [reflexivity | ].
    intros a a' Ha. exact (proj1 (replace_aoai_fills a endpoint key a' Ha)).
  - eapply at_key_fills; [exact H1 | | | exact Hf]; [reflexivity | ].
    intros m m' Hm Hfm.
    eapply at_key_fills; [exact Hm | | | exact Hfm]; [reflexivity | ].
    intros a a' Ha. exact (proj2 (replace_aoai_fills a endpoint key a' Ha)).
Qed.

Lemma replace_in_blob_params_fills (bp : json)
  (endpoint key cs container : string) (e k : option string) (bp' : json) :
  replace_in_blob_params bp endpoint key cs container e k = Ok bp' ->
  (connection_string_unset (field ["connectionString"] bp) = true ->
   field ["connectionString"] bp' = JStr cs) /\
  (field ["containerName"] bp = JStr "<BLOB_CONTAINER_PLACEHOLDER>" ->
   field ["containerName"] bp' = JStr container) /\
  (field ["ingestionParameters"; "embeddingModel"; "azureOpenAIParameters";
          "resourceUri"] bp = JStr "<AZURE_ENDPOINT_PLACEHOLDER>" ->
   field ["ingestionParameters"; "embeddingModel"; "azureOpenAIParameters";
          "resourceUri"] bp' = JStr endpoint) /\
  (field ["ingestionParameters"; "embeddingModel"; "azureOpenAIParameters";
          "apiKey"] bp = JStr "<REDACTED>" ->
   field ["ingestionParameters"; "embeddingModel"; "azureOpenAIParameters";
          "apiKey"] bp' = JStr key).
Proof.
  intros H. unfold replace_in_blob_params in H.
  apply bind_Ok in H. destruct H as [v [Hv H]].
  apply bind_Ok in H. destruct H as [bp1 [H1 H]].
  apply bind_Ok in H. destruct H as [bp2 [H2 H3]].
  destruct bp as [ | | | | | | d ]; try discriminate.
  cbn [py_get] in Hv. injection Hv as <-.
  assert (Hframe1 : forall k0 p, k0 <> "connectionString" ->
                                 field (k0 :: p) bp1 = field (k0 :: p) (JDict d)).
  { intros k0 p Hk0.
    destruct (connection_string_unset (dict_get d "connectionString" JNull)).
    - cbn [py_setitem] in H1. injection H1 as <-. now apply field_set_other.
    - now injection H1 as <-. }
  split; [ | split; [ | split ] ]; intros Hf.
  - rewrite (at_key_frame bp2 "ingestionParameters" "connectionString" _ bp' []
               H3) by discriminate.
    rewrite (replace_if_frame bp1 "containerName" "connectionString" _ _ bp2 []
               H2) by discriminate.
    cbn [field] in Hf. rewrite Hf in H1. cbn [py_setitem] in H1.
    injection H1 as <-. now rewrite field_set_same.
  - rewrite (at_key_frame bp2 "ingestionParameters" "containerName" _ bp' []
               H3) by discriminate.
    apply (replace_if_fills bp1 _ _ _ bp2 H2).
    now rewrite Hframe1 by discriminate.
  - assert (Hf2 : field ["ingestionParameters"; "embeddingModel";
                          "azureOpenAIParameters"; "resourceUri"] bp2
                   = JStr "<AZURE_ENDPOINT_PLACEHOLDER>").
    { rewrite (replace_if_frame bp1 "containerName" "ingestionParameters" _ _ bp2 _
                 H2) by discriminate.
      now rewrite Hframe1 by discriminate. }
    eapply at_key_fills; [exact H3 | | | exact Hf2]; [reflexivity | ].
    intros ip ip' Hip.
    exact (proj1 (replace_in_blob_ingestion_fills ip endpoint key e k ip' Hip)).
  - assert (Hf2 : field ["ingestionParameters"; "embeddingModel";
                          "azureOpenAIParameters"; "apiKey"] bp2
                   = JStr "<REDACTED>").
    { rewrite (replace_if_frame bp1 "containerName" "ingestionParameters" _ _ bp2 _
                 H2) by discriminate.
      now rewrite Hframe1 by discriminate. }
    eapply at_key_fills; [exact H3 | | | exact Hf2]; [reflexivity | ].
    intros ip ip' Hip.
    exact (proj2 (replace_in_blob_ingestion_fills ip endpoint key e k ip' Hip)).
Qed.

(** The blob block of a knowledge source, before and after the
    replacement. *)
Lemma replace_knowledge_source_blob (d : dict)
  (endpoint key cs container : string) (e k : option string) (r : dict) :
  replace_placeholders_in_knowledge_source d endpoint key cs container e k = Ok r ->
  truthy (field ["azureBlobParameters"] (JDict d)) = true ->
  exists bp bp',
    replace_in_blob_params bp endpoint key cs container e k = Ok bp' /\
    (forall p, field ("azureBlobParameters" :: p) (JDict d) = field p bp) /\
    (forall p, field ("azureBlobParameters" :: p) (JDict r) = field p bp').
Proof.
  intros H Ht. unfold replace_placeholders_in_knowledge_source in H.
  apply bind_Ok in H. destruct H as [d1 [H1 H]].
  apply bind_Ok in H. destruct H as [d2 [H2 H]].
  apply bind_Ok in H. destruct H as [d3 [H3 H]]. injection H as <-.
  apply with_block_at_key in H1, H2, H3.
  set (d0 := dict_pop "@odata.etag" (dict_pop "@odata.context" d)) in *.
  assert (Hd0 : forall p, field ("azureBlobParameters" :: p) (JDict d0)
                          = field ("azureBlobParameters" :: p) (JDict d)).
  { intros p. unfold d0. now rewrite !field_pop_other by discriminate. }
  assert (Ht0 : truthy (field ["azureBlobParameters"] (JDict d0)) = true)
    by now rewrite Hd0.
  destruct (at_key_descend _ _ _ _ [] H1 Ht0) as [bp [bp' [Hb [Hv Hv']]]].
  exists bp, bp'. split; [exact Hb | ]. split; intros p.
  - now rewrite <- Hd0, Hv.
  - rewrite (at_key_frame _ _ "azureBlobParameters" _ _ p H3) by discriminate.
    rewrite (at_key_frame _ _ "azureBlobParameters" _ _ p H2) by discriminate.
    apply Hv'.
Qed.

End RoundTripFacts.

Section RoundTrip.
Import Restorer Documents.

(** X10. Sanitizing and then restoring a blob knowledge source puts the
    supplied credentials where the secrets were.  For a document as
    [json.load] returns it, when the replacement on the sanitized document
    returns: a connection string that was neither empty nor the literal
    [null] is the supplied storage connection string; a container name
    that was one of the legacy names is the supplied container; the API
    key of the embedding model that was neither empty nor [null] is the
    supplied key; and its resource URI that was an Azure URL is the
    supplied endpoint. *)
Theorem sanitize_then_restore_blob_source :
  forall (d : dict) (endpoint key cs container : string) (e k : option string)
         (r : dict),
    well_formed (JDict d) = true ->
    replace_placeholders_in_knowledge_source
      (Sanitizer.sanitize_dict d EmptyString) endpoint key cs container e k
    = Ok r ->
    (forall s,
        field ["azureBlobParameters"; "connectionString"] (JDict d) = JStr s ->
        s <> EmptyString -> s <> "null" ->
        field ["azureBlobParameters"; "connectionString"] (JDict r) = JStr cs) /\
    (forall s,
        field ["azureBlobParameters"; "containerName"] (JDict d) = JStr s ->
        In s Sanitizer.LEGACY_CONTAINER_NAMES ->
        field ["azureBlobParameters"; "containerName"] (JDict r)
        = JStr container) /\
    (forall s,
        field ["azureBlobParameters"; "ingestionParameters"; "embeddingModel";
               "azureOpenAIParameters"; "apiKey"] (JDict d) = JStr s ->
        s <> EmptyString -> s <> "null" ->
        field ["azureBlobParameters"; "ingestionParameters"; "embeddingModel";
               "azureOpenAIParameters"; "apiKey"] (JDict r) = JStr key) /\
    (forall s,
        field ["azureBlobParameters"; "ingestionParameters"; "embeddingModel";
               "azureOpenAIParameters"; "resourceUri"] (JDict d) = JStr s ->
        Sanitizer.is_azure_url (JStr s) = true ->
        field ["azureBlobParameters"; "ingestionParameters"; "embeddingModel";
               "azureOpenAIParameters"; "resourceUri"] (JDict r)
        = JStr endpoint).
Proof.
  intros d endpoint key cs container e k r Hwf H.
  assert (Hsan : forall path,
             exists parent_key',
               field path (JDict (Sanitizer.sanitize_dict d EmptyString))
               = Sanitizer.sanitize_entry parent_key' (last path EmptyString)
                   (field path (JDict d))).
  { intros path.
    destruct (field_sanitize path (JDict d) EmptyString EmptyString Hwf)
      as [pk' Hpk']. exists pk'. rewrite <- Hpk'. now rewrite sanitize_entry_dict. }
  assert (Hblock : forall p t,
             field ("azureBlobParameters" :: p)
                   (JDict (Sanitizer.sanitize_dict d EmptyString)) = JStr t ->
             t <> EmptyString ->
             exists bp bp',
               replace_in_blob_params bp endpoint key cs container e k = Ok bp' /\
               field p bp = JStr t /\
               field ("azureBlobParameters" :: p) (JDict r) = field p bp').
  { intros p t Hp Ht.
    assert (Htruthy : truthy (field ["azureBlobParameters"]
                                (JDict (Sanitizer.sanitize_dict d EmptyString)))
                      = true).
    { destruct (truthy (field ["azureBlobParameters"]
                          (JDict (Sanitizer.sanitize_dict d EmptyString))))
        eqn:Hb; [reflexivity | ].
      destruct p as [ | k1 p ].
      - rewrite Hp in Hb. cbn [truthy] in Hb.
        destruct (String.eqb_spec t EmptyString); [contradiction | discriminate].
      - change ("azureBlobParameters" :: k1 :: p)
          with (["azureBlobParameters"] ++ k1 :: p) in Hp.
        rewrite field_app, (field_falsy k1 p _ Hb) in Hp. discriminate. }
    destruct (replace_knowledge_source_blob _ _ _ _ _ _ _ _ H Htruthy)
      as [bp [bp' [Hb [Hv Hv']]]].
    exists bp, bp'. split; [exact Hb | ]. split; [ | apply Hv' ].
    now rewrite <- Hv. }
  split; [ | split; [ | split ] ]; intros s Hs.
  - intros Hne Hnull.
    destruct (Hsan ["azureBlobParameters"; "connectionString"]) as [pk Hpk].
    rewrite Hs in Hpk. cbn [last] in Hpk.
    change (Sanitizer.sanitize_entry pk "connectionString" (JStr s))
      with (Sanitizer.sanitize_scalar pk "connectionString" (JStr s)) in Hpk.
    rewrite (sanitize_scalar_secret pk "connectionString" eq_refl Hne Hnull) in Hpk.
    destruct (Hblock _ _ Hpk ltac:(discriminate)) as [bp [bp' [Hb [Hv Hv']]]].
    rewrite Hv'.
    apply (proj1 (replace_in_blob_params_fills _ _ _ _ _ _ _ _ Hb)).
    now rewrite Hv.
  - intros Hin.
    destruct (Hsan ["azureBlobParameters"; "containerName"]) as [pk Hpk].
    rewrite Hs in Hpk. cbn [last] in Hpk.
    apply PyStr_mem_In in Hin.
    assert (Hc : Sanitizer.sanitize_entry pk "containerName" (JStr s)
                 = JStr "<BLOB_CONTAINER_PLACEHOLDER>").
    { cbn [Sanitizer.sanitize_entry]. unfold Sanitizer.sanitize_scalar.
      rewrite Hin.
      change (PyStr.lower "containerName") with "containername".
      replace (String.eqb "containername" "containername") with true
        by reflexivity.
      rewrite orb_true_r. reflexivity. }
    rewrite Hc in Hpk.
    destruct (Hblock _ _ Hpk ltac:(discriminate)) as [bp [bp' [Hb [Hv Hv']]]].
    rewrite Hv'.
    now apply (proj1 (proj2 (replace_in_blob_params_fills _ _ _ _ _ _ _ _ Hb))).
  - intros Hne Hnull.
    destruct (Hsan ["azureBlobParameters"; "ingestionParameters"; "embeddingModel";
                    "azureOpenAIParameters"; "apiKey"]) as [pk Hpk].
    rewrite Hs in Hpk. cbn [last] in Hpk.
    change (Sanitizer.sanitize_entry pk "apiKey" (JStr s))
      with (Sanitizer.sanitize_scalar pk "apiKey" (JStr s)) in Hpk.
    rewrite (sanitize_scalar_secret pk "apiKey" eq_refl Hne Hnull) in Hpk.
    destruct (Hblock _ _ Hpk ltac:(discriminate)) as [bp [bp' [Hb [Hv Hv']]]].
    rewrite Hv'.
    now apply (proj2 (proj2 (proj2
                 (replace_in_blob_params_fills _ _ _ _ _ _ _ _ Hb)))).
  - intros Hurl.
    destruct (Hsan ["azureBlobParameters"; "ingestionParameters"; "embeddingModel";
                    "azureOpenAIParameters"; "resourceUri"]) as [pk Hpk].
    rewrite Hs in Hpk. cbn [last] in Hpk.
    assert (Hc : Sanitizer.sanitize_entry pk "resourceUri" (JStr s)
                 = JStr "<AZURE_ENDPOINT_PLACEHOLDER>").
    { cbn [Sanitizer.sanitize_entry]. unfold Sanitizer.sanitize_scalar.
      change (PyStr.mem (PyStr.lower "resourceUri") ["name"; "containername"])
        with false.
      cbn [andb]. unfold Sanitizer.sanitize_value.
      change (Sanitizer.should_redact_key "resourceUri") with false.
      change (Sanitizer.should_redact_url_key "resourceUri") with true.
      rewrite Hurl. reflexivity. }
    rewrite Hc in Hpk.
    destruct (Hblock _ _ Hpk ltac:(discriminate)) as [bp [bp' [Hb [Hv Hv']]]].
    rewrite Hv'.
    now apply (proj1 (proj2 (proj2
                 (replace_in_blob_params_fills _ _ _ _ _ _ _ _ Hb)))).
Qed.

Lemma sanitize_then_restore_blob_source_witness :
  field ["azureBlobParameters"; "connectionString"]
        (JDict RestoreSamples.restored_blob_source)
  = JStr "DefaultEndpointsProtocol=https;AccountName=live" /\
  field ["azureBlobParameters"; "containerName"]
        (JDict RestoreSamples.restored_blob_source)
  = JStr "docs" /\
  field ["azureBlobParameters"; "ingestionParameters"; "embeddingModel";
         "azureOpenAIParameters"; "apiKey"]
        (JDict RestoreSamples.restored_blob_source)
  = JStr "live-key" /\
  field ["azureBlobParameters"; "ingestionParameters"; "embeddingModel";
         "azureOpenAIParameters"; "resourceUri"]
        (JDict RestoreSamples.restored_blob_source)
  = JStr "https://live.openai.azure.com".
Proof.
  destruct (sanitize_then_restore_blob_source
              RestoreSamples.exported_blob_source
              "https://live.openai.azure.com" "live-key"
              "DefaultEndpointsProtocol=https;AccountName=live" "docs"
              None None RestoreSamples.restored_blob_source eq_refl eq_refl)
    as [Hcs [Hcontainer [Hkey Huri]]].
  split; [ | split; [ | split ] ].
  - apply (Hcs "DefaultEndpointsProtocol=https;AccountName=old;AccountKey=abc");
      [reflexivity | discriminate | discriminate].
  - apply (Hcontainer "kr-demos"); [reflexivity | simpl; tauto].
  - apply (Hkey "old-key"); [reflexivity | discriminate | discriminate].
  - apply (Huri "https://old.openai.azure.com"); reflexivity.
Defined.

End RoundTrip.

Section RestorerMainFacts.
Import Restorer RestorerMain.
Variable json_load : string -> option json.
Variable requests_put :
  list (string * dict) -> string -> string -> dict -> put_result.
Variable c : credentials.

Lemma answered_after_app (s1 s2 : list (string * dict * bool)) :
  forall before,
    answered_after requests_put c before (s1 ++ s2)
    = answered_after requests_put c before s1
      && answered_after requests_put c (before ++ history s1) s2.
Proof.
  induction s1 as [ | [[u d] b] s1 IH ]; intros before.
  - cbn. now rewrite app_nil_r.
  - cbn [app answered_after history map fst]. rewrite IH.
    rewrite <- app_assoc. cbn [app]. unfold history. now rewrite andb_assoc.
Qed.

(** One loop: the requests added are the requests of the first files;
    the loop comes to its end exactly when there is a request for every
    file and every request was accepted; every payload is a restored
    document; every outcome is the answer of the service. *)
Lemma deploy_files_spec (url : string -> string) (replace : dict -> res dict)
  (files : list (string * string)) :
  forall sent0 sent completed,
    deploy_files json_load requests_put c url replace files sent0
    = (sent, completed) ->
    exists new,
      sent = sent0 ++ new /\
      (exists rest, map (fun f => url (fst f)) files = urls new ++ rest /\
                    (completed = true -> rest = [])) /\
      (completed = true <->
       List.length new = List.length files /\
       forallb id (outcomes new) = true) /\
      Forall (fun r => exists content data,
                         json_load content = Some (JDict data) /\
                         replace data = Ok (snd (fst r))) new /\
      forallb id (outcomes (removelast new)) = true /\
      answered_after requests_put c (history sent0) new = true.
Proof.
  induction files as [ | [name content] files IH ]; intros sent0 sent completed H.
  - injection H as <- <-. exists []. rewrite app_nil_r.
    split; [reflexivity | ]. split; [exists []; split; reflexivity | ].
    split; [split; [intros _; split; reflexivity | reflexivity] | ].
    split; [constructor | split; reflexivity].
  - cbn [deploy_files] in H.
    assert (Hstop : (sent, completed) = (sent0, false) ->
              exists new,
                sent = sent0 ++ new /\
                (exists rest,
                    map (fun f => url (fst f)) ((name, content) :: files)
                    = urls new ++ rest /\ (completed = true -> rest = [])) /\
                (completed = true <->
                 List.length new = List.length ((name, content) :: files) /\
                 forallb id (outcomes new) = true) /\
                Forall (fun r => exists content data,
                                   json_load content = Some (JDict data) /\
                                   replace data = Ok (snd (fst r))) new /\
                forallb id (outcomes (removelast new)) = true /\
                answered_after requests_put c (history sent0) new = true).
    { intros [= -> ->]. exists []. rewrite app_nil_r.
      split; [reflexivity | ].
      split; [eexists; split; [reflexivity | discriminate] | ].
      split; [split; [discriminate | intros [Hl _]; discriminate] | ].
      split; [constructor | split; reflexivity]. }
    destruct (json_load content) as [[ | | | | | | data] | ] eqn:Hload;
      try (symmetry in H; exact (Hstop H)).
    destruct (replace data) as [data' | err] eqn:Hr;
      try (symmetry in H; exact (Hstop H)).
    destruct (fst (put_document (requests_put (history sent0)) (url name)
                     (search_key c) data')) eqn:Hput.
    + destruct (IH _ _ _ H)
        as [new' [Hsent [[rest [Hrest1 Hrest2]] [Hiff [Hall [Hlast Hans]]]]]].
      exists ((url name, data', true) :: new').
      split; [now rewrite Hsent, <- app_assoc | ].
      split; [exists rest; split; [ | exact Hrest2 ];
              cbn [map fst urls app]; unfold urls in Hrest1; now rewrite Hrest1 | ].
      split.
      { cbn [List.length outcomes map snd forallb id]. unfold id at 1.
        cbn [andb]. rewrite Hiff. unfold outcomes. split.
        - intros [Hl Ha]. split; [now rewrite Hl | exact Ha].
        - intros [Hl Ha]. split; [now injection Hl | exact Ha]. }
      split; [constructor; [now exists content, data | exact Hall] | ].
      split.
      { destruct new' as [ | r new' ]; [reflexivity | ].
        change (removelast ((url name, data', true) :: r :: new'))
          with ((url name, data', true) :: removelast (r :: new')).
        exact Hlast. }
      cbn [answered_after]. rewrite Hput. cbn [Bool.eqb andb].
      unfold history in *. rewrite map_app in Hans. exact Hans.
    + injection H as <- <-. exists [(url name, data', false)].
      split; [reflexivity | ].
      split; [exists (map (fun f => url (fst f)) files);
              split; [reflexivity | discriminate] | ].
      split; [split; [discriminate | intros [_ Ha]; discriminate] | ].
      split; [constructor; [now exists content, data | constructor] | ].
      split; [reflexivity | ].
      cbn [answered_after]. rewrite Hput. reflexivity.
Qed.

Lemma main_spec_files (files1 files2 : list (string * string))
  (sent : list (string * dict * bool)) (status : Z) :
  main json_load requests_put c (Some files1) (Some files2) = (sent, status) ->
  answered_after requests_put c [] sent = true /\
  (exists rest,
      planned c (Some files1) (Some files2) = urls sent ++ rest) /\
  (status = 0%Z \/ status = 1%Z) /\
  (status = 0%Z <->
   urls sent = planned c (Some files1) (Some files2) /\
   forallb id (outcomes sent) = true) /\
  forallb id (outcomes (removelast sent)) = true /\
  Forall (fun r => exists content data,
                     json_load content = Some (JDict data) /\
                     (replace_placeholders_in_knowledge_source data
                        (openai_endpoint c) (openai_key c)
                        (storage_connection_string c) (blob_container c)
                        (ai_services_endpoint c) (ai_services_key c)
                      = Ok (snd (fst r)) \/
                      replace_placeholders_in_knowledge_base data
                        (openai_endpoint c) (openai_key c)
                      = Ok (snd (fst r)))) sent.
Proof.
  unfold main, planned. intros H.
  destruct (deploy_knowledge_sources json_load requests_put c files1 [])
    as [s1 c1] eqn:D1.
  unfold deploy_knowledge_sources in D1. apply deploy_files_spec in D1.
  destruct D1 as [new1 [E1 [[rest1 [P1 Q1]] [I1 [A1 [L1 W1]]]]]].
  cbn [app] in E1. subst s1. cbn [history map] in W1.
  destruct c1.
  - destruct (deploy_knowledge_bases json_load requests_put c files2 new1)
      as [s2 c2] eqn:D2.
    injection H as <- <-.
    unfold deploy_knowledge_bases in D2. apply deploy_files_spec in D2.
    destruct D2 as [new2 [E2 [[rest2 [P2 Q2]] [I2 [A2 [L2 W2]]]]]]. subst s2.
    rewrite (Q1 eq_refl), app_nil_r in P1.
    destruct (proj1 I1 eq_refl) as [Hlen1 Hacc1].
    unfold urls, outcomes in *.
    split; [ | split; [ | split; [ | split; [ | split ] ] ] ].
    + rewrite answered_after_app, W1. cbn [andb app]. exact W2.
    + exists rest2. rewrite P1, P2, map_app. now rewrite app_assoc.
    + destruct c2; auto.
    + rewrite P1, !map_app, forallb_app, Hacc1. cbn [andb]. split.
      * intros Hs. destruct c2; [ | discriminate ].
        rewrite P2, (Q2 eq_refl), app_nil_r.
        split; [reflexivity | exact (proj2 (proj1 I2 eq_refl))].
      * intros [Hm Ha]. apply app_inv_head in Hm.
        assert (Hc2 : c2 = true).
        { apply I2. split; [ | exact Ha ].
          apply (f_equal (@List.length string)) in Hm.
          now rewrite !length_map in Hm. }
        now rewrite Hc2.
    + destruct new2 as [ | r new2 ].
      * rewrite app_nil_r. exact L1.
      * rewrite removelast_app by discriminate. rewrite map_app, forallb_app, Hacc1.
        exact L2.
    + apply Forall_app. split.
      * eapply Forall_impl; [ | exact A1 ].
        intros r [content [data [Hl Hr]]]. exists content, data. auto.
      * eapply Forall_impl; [ | exact A2 ].
        intros r [content [data [Hl Hr]]]. exists content, data. auto.
  - injection H as <- <-. unfold urls, outcomes in *.
    split; [ | split; [ | split; [ | split; [ | split ] ] ] ].
    + exact W1.
    + exists (rest1 ++ map (fun f => knowledge_base_url (search_endpoint c) (fst f))
                         files2).
      rewrite P1. now rewrite app_assoc.
    + now right.
    + split; [discriminate | ]. intros [Hm Ha]. exfalso.
      assert (Hlen : List.length new1 = List.length files1).
      { apply (f_equal (@List.length string)) in Hm.
        apply (f_equal (@List.length string)) in P1.
        rewrite !length_app, !length_map in *. lia. }
      assert (Hc : false = true) by (apply I1; split; assumption).
      discriminate.
    + exact L1.
    + eapply Forall_impl; [ | exact A1 ].
      intros r [content [data [Hl Hr]]]. exists content, data. auto.
Qed.

Lemma main_spec (knowledge_sources_dir knowledge_bases_dir : option (list (string * string)))
  (sent : list (string * dict * bool)) (status : Z) :
  main json_load requests_put c knowledge_sources_dir knowledge_bases_dir
  = (sent, status) ->
  answered_after requests_put c [] sent = true /\
  (exists rest,
      planned c knowledge_sources_dir knowledge_bases_dir = urls sent ++ rest) /\
  (status = 0%Z \/ status = 1%Z) /\
  (status = 0%Z <->
   urls sent = planned c knowledge_sources_dir knowledge_bases_dir /\
   forallb id (outcomes sent) = true) /\
  forallb id (outcomes (removelast sent)) = true /\
  Forall (fun r => exists content data,
                     json_load content = Some (JDict data) /\
                     (replace_placeholders_in_knowledge_source data
                        (openai_endpoint c) (openai_key c)
                        (storage_connection_string c) (blob_container c)
                        (ai_services_endpoint c) (ai_services_key c)
                      = Ok (snd (fst r)) \/
                      replace_placeholders_in_knowledge_base data
                        (openai_endpoint c) (openai_key c)
                      = Ok (snd (fst r)))) sent.
Proof.
  destruct knowledge_sources_dir as [files1 | ],
           knowledge_bases_dir as [files2 | ].
  - apply main_spec_files.
  - apply (main_spec_files files1 []).
  - apply (main_spec_files [] files2).
  - apply (main_spec_files [] []).
Qed.

End RestorerMainFacts.

Section RestorerMainExtras.
Import Restorer RestorerMain.

(** X11. The deployment loops of the Restorer stop at the first failure.
    The PUT requests are sent in a fixed order, one per configuration
    file, all knowledge sources before any knowledge base, and the
    outcome recorded for each is the answer of the service at that point.
    The run ends with status 0 exactly when a request was sent for every
    file and every one was accepted; otherwise it ends with status 1 at
    the first file that is not JSON, cannot be restored or is refused, and
    nothing is sent after it: every request but the last was accepted. *)
Theorem restore_main_stops_at_the_first_failure :
  forall (json_load : string -> option json)
         (requests_put :
            list (string * dict) -> string -> string -> dict -> put_result)
         (c : credentials)
         (knowledge_sources_dir knowledge_bases_dir : option (list (string * string)))
         (sent : list (string * dict * bool)) (status : Z),
    main json_load requests_put c knowledge_sources_dir knowledge_bases_dir
    = (sent, status) ->
    answered_after requests_put c [] sent = true /\
    (exists rest,
        planned c knowledge_sources_dir knowledge_bases_dir
        = urls sent ++ rest) /\
    (status = 0%Z \/ status = 1%Z) /\
    (status = 0%Z <->
     urls sent = planned c knowledge_sources_dir knowledge_bases_dir /\
     forallb id (outcomes sent) = true) /\
    forallb id (outcomes (removelast sent)) = true.
Proof.
  intros json_load requests_put c ks kb sent status H.
  destruct (main_spec json_load requests_put c ks kb sent status H)
    as [H0 [H1 [H2 [H3 [H4 _]]]]].
  auto.
Qed.

Lemma restore_main_stops_at_the_first_failure_witness :
  (exists rest,
      [ "https://live.search.windows.net/knowledgesources/ks1?api-version=2025-11-01-preview";
        "https://live.search.windows.net/knowledgebases/kb1?api-version=2025-11-01-preview";
        "https://live.search.windows.net/knowledgebases/kb2?api-version=2025-11-01-preview" ]
      = [ "https://live.search.windows.net/knowledgesources/ks1?api-version=2025-11-01-preview";
          "https://live.search.windows.net/knowledgebases/kb1?api-version=2025-11-01-preview" ]
        ++ rest) /\
  (1%Z = 0%Z \/ 1%Z = 1%Z) /\
  forallb id [true] = true.
Proof.
  destruct (restore_main_stops_at_the_first_failure
              toy_load needs_two_sources sample_credentials
              (Some [("ks1", "source")])
              (Some [("kb1", "base"); ("kb2", "base")])
              (fst (main toy_load needs_two_sources sample_credentials
                      (Some [("ks1", "source")])
                      (Some [("kb1", "base"); ("kb2", "base")])))
              1%Z eq_refl)
    as [_ [Hprefix [Hstatus [_ Hlast]]]].
  split; [exact Hprefix | split; [exact Hstatus | exact Hlast] ].
Defined.

(** X12. Every payload that the Restorer sends is a restored document of
    a configuration file, and holds neither [@odata.context] nor
    [@odata.etag] at its top level, whatever the file held. *)
Theorem restore_main_sends_no_metadata_keys :
  forall (json_load : string -> option json)
         (requests_put :
            list (string * dict) -> string -> string -> dict -> put_result)
         (c : credentials)
         (knowledge_sources_dir knowledge_bases_dir : option (list (string * string)))
         (sent : list (string * dict * bool)) (status : Z),
    (forall content v, json_load content = Some v ->
                       Documents.well_formed v = true) ->
    main json_load requests_put c knowledge_sources_dir knowledge_bases_dir
    = (sent, status) ->
    Forall (fun r => dict_in "@odata.context" (snd (fst r)) = false /\
                     dict_in "@odata.etag" (snd (fst r)) = false) sent.
Proof.
  intros json_load requests_put c ks kb sent status Hload H.
  destruct (main_spec json_load requests_put c ks kb sent status H)
    as [_ [_ [_ [_ [_ Hall]]]]].
  eapply Forall_impl; [ | exact Hall ].
  intros r [content [data [Hl Hr]]].
  assert (Hnd : NoDup (dict_keys data)).
  { specialize (Hload content _ Hl). cbn [Documents.well_formed] in Hload.
    apply andb_true_iff in Hload. apply distinct_NoDup. exact (proj1 Hload). }
  assert (Hkeys : dict_keys (snd (fst r))
                  = filter (fun k0 => negb (String.eqb k0 "@odata.context")
                                      && negb (String.eqb k0 "@odata.etag"))
                           (dict_keys data)).
  { destruct Hr as [Hr | Hr].
    - etransitivity; [exact (replace_knowledge_source_keys _ _ _ _ _ _ _ _ Hr) | ].
      now apply popped_keys.
    - etransitivity; [exact (replace_knowledge_base_keys _ _ _ _ Hr) | ].
      now apply popped_keys. }
  assert (Habsent : forall k0,
             (k0 = "@odata.context" \/ k0 = "@odata.etag") ->
             dict_in k0 (snd (fst r)) = false).
  { intros k0 Hk0. destruct (dict_in k0 (snd (fst r))) eqn:Hd; [ | reflexivity ].
    apply dict_in_In in Hd. unfold dict_keys in Hkeys. rewrite Hkeys in Hd.
    apply filter_In in Hd. destruct Hd as [_ Hd].
    destruct Hk0 as [-> | ->]; discriminate. }
  split; apply Habsent; auto.
Qed.

Lemma restore_main_sends_no_metadata_keys_witness :
  Forall (fun r => dict_in "@odata.context" (snd (fst r)) = false /\
                   dict_in "@odata.etag" (snd (fst r)) = false)
         (fst (main toy_load needs_two_sources sample_credentials
                 (Some [("ks1", "source"); ("ks2", "not json")])
                 (Some [("kb1", "base")]))).
Proof.
  apply (restore_main_sends_no_metadata_keys
           toy_load needs_two_sources sample_credentials
           (Some [("ks1", "source"); ("ks2", "not json")])
           (Some [("kb1", "base")])
           (fst (main toy_load needs_two_sources sample_credentials
                   (Some [("ks1", "source"); ("ks2", "not json")])
                   (Some [("kb1", "base")])))
           1%Z).
  - intros content v. unfold toy_load.
    destruct (String.eqb content "source"); [intros [= <-]; reflexivity | ].
    destruct (String.eqb content "base"); [intros [= <-]; reflexivity | ].
    discriminate.
  - reflexivity.
Defined.

End RestorerMainExtras.

Section RestorerNull.
Import Restorer.

(** X13. A null [azureOpenAIParameters] is treated in two ways in a
    knowledge base.  In an element of [models] it is passed over and the
    element stays as it is.  In [inferenceParameters] (the older schema)
    the key is only tested for presence, and the replacement fails with
    [AttributeError]. *)
Theorem restore_null_openai_parameters :
  (forall (models : list json) (endpoint key : string),
      Forall (fun model => exists m, model = JDict m /\
                dict_find "azureOpenAIParameters" m = Some JNull) models ->
      replace_in_models (JList models) endpoint key = Ok (JList models)) /\
  (forall (d inference : dict) (endpoint key : string),
      truthy (dict_get d "models" JNull) = false ->
      dict_find "inferenceParameters" d = Some (JDict inference) ->
      dict_find "azureOpenAIParameters" inference = Some JNull ->
      replace_placeholders_in_knowledge_base d endpoint key
      = Raise AttributeError).
Proof.
  split.
  - intros models endpoint key Hall. unfold replace_in_models.
    cbn [py_iter bind].
    assert (Hmap : map_res (fun model => replace_in_model model endpoint key) models
                   = Ok models).
    { induction Hall as [ | model models [m [-> Hm]] Hall IH ]; [reflexivity | ].
      cbn [map_res]. unfold replace_in_model at 1, at_key, py_guard.
      cbn [py_contains py_getitem bind]. rewrite dict_in_find, Hm.
      cbn [bind truthy]. now rewrite IH. }
    now rewrite Hmap.
  - intros d inference endpoint key Hmodels Hinf Haoai.
    unfold replace_placeholders_in_knowledge_base.
    set (d0 := dict_pop "@odata.etag" (dict_pop "@odata.context" d)).
    assert (Hget : forall k0, k0 <> "@odata.context" -> k0 <> "@odata.etag" ->
                              dict_find k0 d0 = dict_find k0 d).
    { intros k0 H1 H2. unfold d0. now rewrite !dict_find_pop_other. }
    assert (Hskip : with_block d0 "models"
                      (fun models => replace_in_models models endpoint key)
                    = Ok d0).
    { unfold with_block, py_guard. cbn [py_contains py_getitem bind].
      rewrite dict_in_find, Hget by discriminate.
      unfold dict_get in Hmodels.
      destruct (dict_find "models" d) as [v | ]; cbn [bind]; [ | reflexivity ].
      now rewrite Hmodels. }
    rewrite Hskip. cbn [bind].
    rewrite (with_block_Raise d0 "inferenceParameters" _ (JDict inference)
               AttributeError); [reflexivity | | | ].
    + now rewrite Hget by discriminate.
    + destruct inference; [discriminate | reflexivity].
    + unfold replace_in_inference_params. cbn [py_contains py_getitem bind].
      rewrite dict_in_find, Haoai. reflexivity.
Qed.

Lemma restore_null_openai_parameters_witness :
  replace_in_models
    (JList [ JDict [ ("kind", JStr "azureOpenAI");
                     ("azureOpenAIParameters", JNull) ] ])
    "https://live.openai.azure.com" "live-key"
  = Ok (JList [ JDict [ ("kind", JStr "azureOpenAI");
                        ("azureOpenAIParameters", JNull) ] ]) /\
  replace_placeholders_in_knowledge_base
    [ ("name", JStr "kb1");
      ("inferenceParameters", JDict [ ("azureOpenAIParameters", JNull) ]) ]
    "https://live.openai.azure.com" "live-key"
  = Raise AttributeError.
Proof.
  split.
  - apply (proj1 restore_null_openai_parameters).
    repeat constructor. eexists. split; reflexivity.
  - apply (proj2 restore_null_openai_parameters
             [ ("name", JStr "kb1");
               ("inferenceParameters", JDict [ ("azureOpenAIParameters", JNull) ]) ]
             [ ("azureOpenAIParameters", JNull) ]); reflexivity.
Defined.

End RestorerNull.

Section TraceFacts.
Import Exporter Trace.
Variable http_get : node_kind -> string -> res (option json).

Lemma course_trans (allowed : node_kind -> bool) (s1 s2 s3 : state) :
  course http_get allowed s1 s2 -> course http_get allowed s2 s3 ->
  course http_get allowed s1 s3.
Proof.
  intros H12 H23. induction H12 as [ | st e st' He Ha H IH ]; [exact H23 | ].
  eapply course_step; eauto.
Qed.

Lemma course_one (allowed : node_kind -> bool) (e : event) (st : state) :
  happens http_get e st -> allowed (kind_of e) = true ->
  course http_get allowed st (apply_event e st).
Proof. intros He Ha. eapply course_step; eauto. apply course_done. Qed.

Lemma course_weaken (allowed allowed' : node_kind -> bool) (s s' : state) :
  (forall k, allowed k = true -> allowed' k = true) ->
  course http_get allowed s s' -> course http_get allowed' s s'.
Proof.
  intros Hw H. induction H as [ | st e st' He Ha H IH ].
  - apply course_done.
  - eapply course_step; eauto.
Qed.

Lemma fold_res_course {A : Type} (allowed : node_kind -> bool)
  (f : A -> state -> res state) :
  (forall a s s', f a s = Ok s' -> course http_get allowed s s') ->
  forall l s s', fold_res f l s = Ok s' -> course http_get allowed s s'.
Proof.
  intros Hf. induction l as [ | a l IH ]; simpl; intros s s' H.
  - injection H as <-. apply course_done.
  - apply bind_Ok in H. destruct H as [s1 [H1 H]].
    apply course_trans with (s2 := s1); [apply (Hf a s s1 H1) | apply (IH s1 s' H)].
Qed.

(** One lookup of a name of a kind that has a dedup set: nothing, a miss
    or a find. *)
Lemma lookup_course (k : node_kind) (name : string) (st st1 : state)
  (r : option json) :
  PyStr.mem name (seen k st) = false ->
  get http_get k name st = Ok (r, st1) ->
  match found r with
  | Some doc =>
      happens http_get (Stored k name doc) st /\
      st1 = record_request k name st
  | None =>
      happens http_get (Missed k name) st /\
      st1 = record_request k name st
  end.
Proof.
  intros Hseen H. apply get_Ok in H. destruct H as [Hr ->].
  destruct (found r) as [doc | ] eqn:Hf.
  - split; [ | reflexivity ]. cbn [happens]. unfold found in Hf.
    destruct r as [doc0 | ]; [ | discriminate ].
    destruct (truthy doc0) eqn:Ht; [ | discriminate ].
    injection Hf as <-. auto.
  - split; [ | reflexivity ]. cbn [happens]. split; [ | exact Hseen ].
    now exists r.
Qed.

Lemma dump_dependent_course (k : node_kind) (name : json) (st st' : state) :
  deduplicated k = true ->
  dump_dependent http_get k name st = Ok st' ->
  course http_get below_roots st st'.
Proof.
  intros Hk H. unfold dump_dependent in H.
  apply bind_Ok in H. destruct H as [n [Hn H]].
  destruct n as [nm | ]; [ | injection H as <-; apply course_done ].
  destruct (PyStr.mem nm (seen k st)) eqn:Hseen;
    [injection H as <-; apply course_done | ].
  apply bind_Ok in H. destruct H as [[r st1] [Hget H]].
  pose proof (lookup_course k nm st st1 r Hseen Hget) as Hl.
  destruct (found r) as [doc | ]; destruct Hl as [He ->]; injection H as <-.
  - replace (mark_seen k nm (dump k nm doc (record_request k nm st)))
      with (apply_event (Stored k nm doc) st)
      by (destruct k; try discriminate; reflexivity).
    apply course_one; [exact He | destruct k; try discriminate; reflexivity].
  - replace (record_request k nm st) with (apply_event (Missed k nm) st)
      by (destruct k; try discriminate; reflexivity).
    apply course_one; [exact He | destruct k; try discriminate; reflexivity].
Qed.

Lemma dump_synmap_course (sm : json) (st st' : state) :
  dump_synmap http_get sm st = Ok st' ->
  course http_get below_roots st st'.
Proof.
  intros H. unfold dump_synmap in H.
  apply bind_Ok in H. destruct H as [n [Hn H]].
  destruct n as [nm | ]; [ | injection H as <-; apply course_done ].
  destruct (PyStr.mem nm (seen SynonymMap st)) eqn:Hseen;
    [injection H as <-; apply course_done | ].
  apply bind_Ok in H. destruct H as [[r st1] [Hget H]].
  pose proof (lookup_course SynonymMap nm st st1 r Hseen Hget) as Hl.
  destruct (found r) as [doc | ]; destruct Hl as [He ->]; injection H as <-.
  - apply (course_one below_roots (Stored SynonymMap nm doc) st He eq_refl).
  - apply (course_one below_roots (Missed SynonymMap nm) st He eq_refl).
Qed.

Lemma dump_index_course (index_name : json) (st st' : state) :
  dump_index http_get index_name st = Ok st' ->
  course http_get below_roots st st'.
Proof.
  intros H. unfold dump_index in H.
  apply bind_Ok in H. destruct H as [n [Hn H]].
  destruct n as [nm | ]; [ | injection H as <-; apply course_done ].
  destruct (PyStr.mem nm (seen Index st)) eqn:Hseen;
    [injection H as <-; apply course_done | ].
  apply bind_Ok in H. destruct H as [[r st1] [Hget H]].
  pose proof (lookup_course Index nm st st1 r Hseen Hget) as Hl.
  destruct (found r) as [doc | ]; destruct Hl as [He ->].
  - apply bind_Ok in H. destruct H as [maps [Hm H]].
    apply bind_Ok in H. destruct H as [maps' [Hm' H]].
    apply course_step with (e := Stored Index nm doc);
      [exact He | reflexivity | ].
    apply (fold_res_course below_roots (dump_synmap http_get)
             dump_synmap_course maps' _ st' H).
  - injection H as <-.
    apply (course_one below_roots (Missed Index nm) st He eq_refl).
Qed.

Lemma export_ks_ref_course (ks_ref : json) (st st' : state) :
  export_ks_ref http_get ks_ref st = Ok st' ->
  course http_get below_roots st st'.
Proof.
  intros H. unfold export_ks_ref in H.
  apply bind_Ok in H. destruct H as [v [Hv H]].
  apply bind_Ok in H. destruct H as [n [Hn H]].
  destruct n as [nm | ]; [ | injection H as <-; apply course_done ].
  destruct (PyStr.mem nm (seen KnowledgeSource st)) eqn:Hseen;
    [injection H as <-; apply course_done | ].
  apply bind_Ok in H. destruct H as [[r st1] [Hget H]].
  pose proof (lookup_course KnowledgeSource nm st st1 r Hseen Hget) as Hl.
  destruct (found r) as [doc | ]; destruct Hl as [He ->].
  - apply bind_Ok in H. destruct H as [rsrc [Hr H]].
    apply bind_Ok in H. destruct H as [s1 [H1 H]].
    apply bind_Ok in H. destruct H as [s2 [H2 H]].
    apply bind_Ok in H. destruct H as [s3 [H3 H4]].
    apply course_step with (e := Stored KnowledgeSource nm doc);
      [exact He | reflexivity | ].
    apply course_trans with (s2 := s1); [exact (dump_index_course _ _ _ H1) | ].
    apply course_trans with (s2 := s2);
      [exact (dump_dependent_course Indexer _ _ _ eq_refl H2) | ].
    apply course_trans with (s2 := s3);
      [exact (dump_dependent_course DataSource _ _ _ eq_refl H3) | ].
    exact (dump_dependent_course Skillset _ _ _ eq_refl H4).
  - injection H as <-.
    apply (course_one below_roots (Missed KnowledgeSource nm) st He eq_refl).
Qed.

(** One root: the knowledge base is found or missed, and what follows
    happens below the roots. *)
Lemma export_kb_course (kb_name : string) (st st' : state) :
  export_kb http_get kb_name st = Ok st' ->
  exists e,
    (e = Missed KnowledgeBase kb_name /\ on_service http_get kb_name = false \/
     exists kb, e = Stored KnowledgeBase kb_name kb /\
                on_service http_get kb_name = true) /\
    happens http_get e st /\
    course http_get below_roots (apply_event e st) st'.
Proof.
  intros H. unfold export_kb in H.
  apply bind_Ok in H. destruct H as [[r st1] [Hget H]].
  pose proof (lookup_course KnowledgeBase kb_name st st1 r eq_refl Hget) as Hl.
  pose proof (get_Ok http_get _ _ _ _ _ Hget) as [Hr _].
  destruct (found r) as [kb | ] eqn:Hf; destruct Hl as [He ->].
  - apply bind_Ok in H. destruct H as [refs [Hrefs H]].
    apply bind_Ok in H. destruct H as [refs' [Hrefs' H]].
    exists (Stored KnowledgeBase kb_name kb). split; [ | split; [exact He | ] ].
    + right. exists kb. split; [reflexivity | ].
      unfold on_service. now rewrite Hr, Hf.
    + apply (fold_res_course below_roots (export_ks_ref http_get)
               export_ks_ref_course refs' _ st' H).
  - injection H as <-.
    exists (Missed KnowledgeBase kb_name). split; [ | split; [exact He | ] ].
    + left. split; [reflexivity | ]. unfold on_service. now rewrite Hr, Hf.
    + apply course_done.
Qed.

Lemma main_course (kb_names : list string) (st : state) :
  main http_get kb_names = Ok st -> course http_get any_kind initial st.
Proof.
  unfold main. apply fold_res_course. intros a s s' H.
  destruct (export_kb_course a s s' H) as [e [_ [He Hc]]].
  apply course_step with (e := e); [exact He | reflexivity | ].
  apply (course_weaken below_roots); [reflexivity | exact Hc].
Qed.

End TraceFacts.

Section TraceInvariants.
Import Exporter Trace.
Variable http_get : node_kind -> string -> res (option json).

Lemma course_invariant (allowed : node_kind -> bool) (P : state -> Prop) :
  (forall e st, happens http_get e st -> allowed (kind_of e) = true ->
                P st -> P (apply_event e st)) ->
  forall st st', course http_get allowed st st' -> P st -> P st'.
Proof.
  intros Hstep st st' H. induction H as [ | st e st' He Ha H IH ]; intros HP.
  - exact HP.
  - apply IH. now apply Hstep.
Qed.

Lemma node_kind_eqb_eq (a b : node_kind) : node_kind_eqb a b = true <-> a = b.
Proof. destruct a, b; simpl; split; intros H; congruence. Qed.

(** What an event adds to the files, to the requests and to the dedup
    sets. *)
Lemma files_apply (e : event) (st : state) :
  files (apply_event e st)
  = files st ++ match e with
                | Stored k name obj => [(k, name, obj)]
                | Missed _ _ => []
                end.
Proof.
  destruct e as [k name obj | k name]; destruct k; simpl;
    rewrite ?app_nil_r; reflexivity.
Qed.

Lemma requests_apply (e : event) (st : state) :
  requests (apply_event e st)
  = requests st ++ match e with
                   | Stored k name _ => [(k, name)]
                   | Missed k name => [(k, name)]
                   end.
Proof. destruct e as [k name obj | k name]; destruct k; reflexivity. Qed.

Lemma written_apply (k' : node_kind) (e : event) (st : state) :
  written k' (apply_event e st)
  = written k' st ++ match e with
                     | Stored k name _ => if node_kind_eqb k k' then [name] else []
                     | Missed _ _ => []
                     end.
Proof.
  unfold written. rewrite files_apply, filter_app, map_app.
  destruct e as [k name obj | k name]; [ | reflexivity ].
  cbn [filter fst snd]. destruct (node_kind_eqb k k'); reflexivity.
Qed.

Lemma requested_apply (k' : node_kind) (e : event) (st : state) :
  requested k' (apply_event e st)
  = requested k' st ++ match e with
                       | Stored k name _ => if node_kind_eqb k k' then [name] else []
                       | Missed k name => if node_kind_eqb k k' then [name] else []
                       end.
Proof.
  unfold requested. rewrite requests_apply, filter_app, map_app.
  destruct e as [k name obj | k name]; cbn [filter fst snd];
    destruct (node_kind_eqb k k'); reflexivity.
Qed.

Lemma set_add_new (name : string) (s : list string) :
  PyStr.mem name s = false -> set_add name s = s ++ [name].
Proof. intros H. unfold set_add. now rewrite H. Qed.

Lemma seen_apply (k' : node_kind) (e : event) (st : state) :
  happens http_get e st ->
  seen k' (apply_event e st)
  = seen k' st ++ match e with
                  | Stored k name _ =>
                      if node_kind_eqb k k' && negb (node_kind_eqb k KnowledgeBase)
                      then [name] else []
                  | Missed k name =>
                      if node_kind_eqb k k' && node_kind_eqb k SynonymMap
                      then [name] else []
                  end.
Proof.
  destruct e as [k name obj | k name]; cbn [happens].
  - intros [_ [_ Hseen]].
    destruct k, k'; cbn; rewrite ?app_nil_r; try reflexivity;
      cbn in Hseen; now apply set_add_new.
  - intros [_ Hseen].
    destruct k, k'; cbn; rewrite ?app_nil_r; try reflexivity;
      cbn in Hseen; now apply set_add_new.
Qed.

Lemma not_mem_not_In (name : string) (s : list string) :
  PyStr.mem name s = false -> ~ In name s.
Proof.
  intros H Hin. apply PyStr_mem_In in Hin. congruence.
Qed.

Lemma NoDup_snoc (s : list string) (name : string) :
  NoDup s -> ~ In name s -> NoDup (s ++ [name]).
Proof.
  intros Hnd Hnin. apply NoDup_app; [exact Hnd | repeat constructor; auto | ].
  intros x Hx [<- | []]. contradiction.
Qed.

(** The files are answers of the service. *)
Lemma course_files (allowed : node_kind -> bool) (st st' : state) :
  course http_get allowed st st' ->
  (forall k name obj, In (k, name, obj) (files st) ->
     http_get k name = Ok (Some obj) /\ truthy obj = true /\
     In (k, name) (requests st)) ->
  forall k name obj, In (k, name, obj) (files st') ->
    http_get k name = Ok (Some obj) /\ truthy obj = true /\
    In (k, name) (requests st').
Proof.
  intros H.
  refine (course_invariant allowed
           (fun s => forall k name obj, In (k, name, obj) (files s) ->
              http_get k name = Ok (Some obj) /\ truthy obj = true /\
              In (k, name) (requests s)) _ st st' H).
  intros e s He _ Hs k name obj Hin.
  rewrite files_apply in Hin. rewrite requests_apply.
  apply in_app_or in Hin. destruct Hin as [Hin | Hin].
  - destruct (Hs k name obj Hin) as [H1 [H2 H3]].
    split; [exact H1 | split; [exact H2 | ] ]. apply in_or_app. now left.
  - destruct e as [k0 name0 obj0 | k0 name0]; [ | contradiction ].
    destruct Hin as [[= <- <- <-] | []]. destruct He as [H1 [H2 _]].
    split; [exact H1 | split; [exact H2 | ] ]. apply in_or_app. right. now left.
Qed.

(** The dedup sets and the files. *)
Lemma course_dedup (allowed : node_kind -> bool) (st st' : state) :
  course http_get allowed st st' ->
  ((forall k, deduplicated k = true -> seen k st = written k st) /\
   (forall k, k <> KnowledgeBase -> NoDup (written k st)) /\
   incl (written SynonymMap st) (seen SynonymMap st)) ->
  (forall k, deduplicated k = true -> seen k st' = written k st') /\
  (forall k, k <> KnowledgeBase -> NoDup (written k st')) /\
  incl (written SynonymMap st') (seen SynonymMap st').
Proof.
  intros H.
  refine (course_invariant allowed
           (fun s => (forall k, deduplicated k = true -> seen k s = written k s) /\
                     (forall k, k <> KnowledgeBase -> NoDup (written k s)) /\
                     incl (written SynonymMap s) (seen SynonymMap s)) _ st st' H).
  intros e s He _ [Hs [Hnd Hincl]]. split; [ | split ].
  - intros k Hk. rewrite (seen_apply k e s He), written_apply, (Hs k Hk).
    f_equal. destruct e as [k0 name obj | k0 name].
    + destruct k0, k; try discriminate; reflexivity.
    + destruct k0, k; try discriminate; reflexivity.
  - intros k Hk. rewrite written_apply.
    destruct e as [k0 name obj | k0 name];
      [ | rewrite app_nil_r; now apply Hnd ].
    destruct (node_kind_eqb k0 k) eqn:Hkk;
      [ | rewrite app_nil_r; now apply Hnd ].
    apply node_kind_eqb_eq in Hkk. subst k0.
    apply NoDup_snoc; [now apply Hnd | ].
    destruct He as [_ [_ Hseen]]. apply not_mem_not_In in Hseen.
    intros Hin. apply Hseen.
    destruct (deduplicated k) eqn:Hd.
    + now rewrite (Hs k Hd).
    + destruct k; try discriminate; [now elim Hk | now apply Hincl].
  - rewrite (seen_apply SynonymMap e s He), written_apply.
    intros x Hx. apply in_app_or in Hx. apply in_or_app.
    destruct Hx as [Hx | Hx]; [left; now apply Hincl | right].
    destruct e as [k0 name obj | k0 name]; [ | contradiction ].
    destruct k0; try contradiction. exact Hx.
Qed.

(** The synonym maps: the dedup set is the list of the requests. *)
Lemma course_synonym_maps (allowed : node_kind -> bool) (st st' : state) :
  course http_get allowed st st' ->
  (seen SynonymMap st = requested SynonymMap st /\
   NoDup (requested SynonymMap st) /\
   incl (written SynonymMap st) (requested SynonymMap st)) ->
  seen SynonymMap st' = requested SynonymMap st' /\
  NoDup (requested SynonymMap st') /\
  incl (written SynonymMap st') (requested SynonymMap st').
Proof.
  intros H.
  refine (course_invariant allowed
           (fun s => seen SynonymMap s = requested SynonymMap s /\
                     NoDup (requested SynonymMap s) /\
                     incl (written SynonymMap s) (requested SynonymMap s)) _ st st' H).
  intros e s He _ [Hs [Hnd Hincl]].
  rewrite (seen_apply SynonymMap e s He), requested_apply, written_apply.
  split; [ | split ].
  - rewrite Hs. f_equal. destruct e as [k0 name obj | k0 name]; destruct k0; reflexivity.
  - destruct e as [k0 name obj | k0 name];
      (destruct (node_kind_eqb k0 SynonymMap) eqn:Hk;
       [ | rewrite app_nil_r; exact Hnd ]);
      apply node_kind_eqb_eq in Hk; subst k0;
      (apply NoDup_snoc; [exact Hnd | ]); rewrite <- Hs;
      apply not_mem_not_In.
    + now destruct He as [_ [_ Hseen]].
    + now destruct He as [_ Hseen].
  - intros x Hx. apply in_app_or in Hx. apply in_or_app.
    destruct Hx as [Hx | Hx]; [left; now apply Hincl | right].
    destruct e as [k0 name obj | k0 name]; [exact Hx | contradiction].
Qed.

(** Below the roots nothing is asked or written for a knowledge base. *)
Lemma course_below_roots (st st' : state) :
  course http_get below_roots st st' ->
  requested KnowledgeBase st' = requested KnowledgeBase st /\
  written KnowledgeBase st' = written KnowledgeBase st.
Proof.
  intros H.
  refine (course_invariant below_roots
            (fun s => requested KnowledgeBase s = requested KnowledgeBase st /\
                      written KnowledgeBase s = written KnowledgeBase st)
            _ st st' H (conj eq_refl eq_refl)).
  intros e s He Ha [Hr Hw]. rewrite requested_apply, written_apply, Hr, Hw.
  destruct e as [k0 name obj | k0 name]; destruct k0; try discriminate;
    cbn; rewrite !app_nil_r; split; reflexivity.
Qed.

Lemma roots_course (kb_names : list string) :
  forall st st',
    fold_res (export_kb http_get) kb_names st = Ok st' ->
    requested KnowledgeBase st' = requested KnowledgeBase st ++ kb_names /\
    written KnowledgeBase st'
    = written KnowledgeBase st ++ filter (on_service http_get) kb_names.
Proof.
  induction kb_names as [ | kb_name kb_names IH ]; intros st st' H.
  - injection H as <-. now rewrite !app_nil_r.
  - cbn [fold_res] in H. apply bind_Ok in H. destruct H as [s1 [H1 H]].
    destruct (IH s1 st' H) as [Hr Hw]. rewrite Hr, Hw.
    destruct (export_kb_course http_get kb_name st s1 H1) as [e [He [_ Hc]]].
    destruct (course_below_roots _ _ Hc) as [Hr1 Hw1]. rewrite Hr1, Hw1.
    rewrite requested_apply, written_apply. cbn [filter].
    destruct He as [[-> Hs] | [kb [-> Hs]]]; rewrite Hs; cbn;
      rewrite <- ?app_assoc; split; reflexivity.
Qed.

End TraceInvariants.

Section ExporterExtras.
Import Exporter Trace.

(** X14. Every file that a run of the Exporter has written holds a
    document that the service returned for that kind and name, and the
    request for it is among the requests of the run: the Exporter writes
    nothing that it did not fetch. *)
Theorem export_writes_fetched_documents_only :
  forall (http_get : node_kind -> string -> res (option json))
         (kb_names : list string) (st : state)
         (k : node_kind) (name : string) (obj : json),
    main http_get kb_names = Ok st ->
    In (k, name, obj) (files st) ->
    http_get k name = Ok (Some obj) /\ truthy obj = true /\
    In (k, name) (requests st).
Proof.
  intros http_get kb_names st k name obj Hrun Hin.
  apply (course_files http_get any_kind initial st
           (main_course http_get kb_names st Hrun)); [ | exact Hin ].
  intros k0 name0 obj0 [].
Qed.

Lemma export_writes_fetched_documents_only_witness :
  shared_service KnowledgeSource "ks1"
  = Ok (Some (JDict [ ("name", JStr "ks1"); ("kind", JStr "web") ])) /\
  truthy (JDict [ ("name", JStr "ks1"); ("kind", JStr "web") ]) = true /\
  In (KnowledgeSource, "ks1") (requests shared_run).
Proof.
  apply (export_writes_fetched_documents_only shared_service ["kb1"; "kb2"]
           shared_run KnowledgeSource "ks1"
           (JDict [ ("name", JStr "ks1"); ("kind", JStr "web") ]) eq_refl).
  simpl. tauto.
Defined.

(** X15. At the end of a run the dedup set of knowledge sources, of
    indexes, of indexers, of data sources and of skillsets lists the
    names of the files written for that kind, in the order in which they
    were written; and no file of any kind other than a knowledge base is
    written twice.  So the numbers of the final summary for these five
    kinds are the numbers of files. *)
Theorem export_dedup_sets_are_the_files_written :
  forall (http_get : node_kind -> string -> res (option json))
         (kb_names : list string) (st : state),
    main http_get kb_names = Ok st ->
    (forall k, deduplicated k = true -> seen k st = written k st) /\
    (forall k, k <> KnowledgeBase -> NoDup (written k st)).
Proof.
  intros http_get kb_names st Hrun.
  destruct (course_dedup http_get any_kind initial st
              (main_course http_get kb_names st Hrun)) as [H1 [H2 _]].
  - split; [ | split ].
    + intros k _. destruct k; reflexivity.
    + intros k _. destruct k; constructor.
    + intros x [].
  - split; assumption.
Qed.

Lemma export_dedup_sets_are_the_files_written_witness :
  (forall k, deduplicated k = true -> seen k shared_run = written k shared_run) /\
  (forall k, k <> KnowledgeBase -> NoDup (written k shared_run)).
Proof.
  exact (export_dedup_sets_are_the_files_written shared_service ["kb1"; "kb2"]
           shared_run eq_refl).
Defined.

(** X16. Synonym maps are deduplicated by request, not by file: at the
    end of a run the dedup set of synonym maps is the list of the synonym
    maps that were requested, found or not, each once; the maps written
    are among them.  So a synonym map that the service does not have is
    requested once only, and is counted in the final summary. *)
Theorem export_requests_a_synonym_map_once :
  forall (http_get : node_kind -> string -> res (option json))
         (kb_names : list string) (st : state),
    main http_get kb_names = Ok st ->
    seen_synmaps st = requested SynonymMap st /\
    NoDup (requested SynonymMap st) /\
    incl (written SynonymMap st) (requested SynonymMap st).
Proof.
  intros http_get kb_names st Hrun.
  apply (course_synonym_maps http_get any_kind initial st
           (main_course http_get kb_names st Hrun)).
  split; [reflexivity | split; [constructor | intros x []] ].
Qed.

Lemma export_requests_a_synonym_map_once_witness :
  ["syn-a"; "syn-b"] = requested SynonymMap synonym_run /\
  NoDup (requested SynonymMap synonym_run) /\
  incl (written SynonymMap synonym_run) (requested SynonymMap synonym_run).
Proof.
  exact (export_requests_a_synonym_map_once synonym_service ["kb1"; "kb2"; "kb1"]
           synonym_run eq_refl).
Defined.

(** X17. Every root is requested, in the order of the command line and
    as often as it is named there, whether it is found or not; the
    knowledge bases written are the roots that the service has.  A root
    that is missing does not stop the run. *)
Theorem export_requests_every_root :
  forall (http_get : node_kind -> string -> res (option json))
         (kb_names : list string) (st : state),
    main http_get kb_names = Ok st ->
    requested KnowledgeBase st = kb_names /\
    written KnowledgeBase st = filter (on_service http_get) kb_names.
Proof.
  intros http_get kb_names st Hrun.
  exact (roots_course http_get kb_names initial st Hrun).
Qed.

Lemma export_requests_every_root_witness :
  requested KnowledgeBase synonym_run = ["kb1"; "kb2"; "kb1"] /\
  written KnowledgeBase synonym_run
  = filter (on_service synonym_service) ["kb1"; "kb2"; "kb1"].
Proof.
  exact (export_requests_every_root synonym_service ["kb1"; "kb2"; "kb1"]
           synonym_run eq_refl).
Defined.

(** X18. A [createdResources] that is present and null makes the
    resolver fail: for a knowledge source of kind [azureBlob],
    [indexedOneLake] or [indexedSharePoint] whose parameter block is an
    object in which [createdResources] is [None], it raises
    [AttributeError] (the default of [get] is used for a missing key
    only). *)
Theorem extract_resources_fails_on_null_created_resources :
  forall (ks params : dict) (kind : string),
    dict_find "kind" ks = Some (JStr kind) ->
    In kind GENERATED_KINDS ->
    dict_find (parameter_block kind) ks = Some (JDict params) ->
    dict_find "createdResources" params = Some JNull ->
    extract_resources_from_ks ks = Raise AttributeError.
Proof.
  intros ks params kind Hkind Hin Hblock Hcreated.
  assert (Hcr : created_resources ks (parameter_block kind) = Raise AttributeError).
  { unfold created_resources, dict_get. rewrite Hblock.
    destruct params as [ | kv params ]; [discriminate | ].
    cbn [truthy py_get_default bind]. unfold dict_get. now rewrite Hcreated. }
  unfold extract_resources_from_ks, dict_get. rewrite Hkind.
  destruct Hin as [<- | [<- | [<- | []]]]; exact Hcr.
Qed.

Lemma extract_resources_fails_on_null_created_resources_witness :
  extract_resources_from_ks
    [ ("name", JStr "blob-ks"); ("kind", JStr "azureBlob");
      ("azureBlobParameters",
       JDict [ ("containerName", JStr "docs"); ("createdResources", JNull) ]) ]
  = Raise AttributeError.
Proof.
  apply (extract_resources_fails_on_null_created_resources
           [ ("name", JStr "blob-ks"); ("kind", JStr "azureBlob");
             ("azureBlobParameters",
              JDict [ ("containerName", JStr "docs"); ("createdResources", JNull) ]) ]
           [ ("containerName", JStr "docs"); ("createdResources", JNull) ]
           "azureBlob").
  - reflexivity.
  - simpl. tauto.
  - reflexivity.
  - reflexivity.
Defined.

End ExporterExtras.

Section UrlAnchor.
Import Sanitizer.

(** A pattern that starts with a literal matches, ignoring case, only a
    string that starts with the literal. *)
Lemma literal_prefix (p : string) : forall (r : Re.regex) (s : string),
  Re.match_states true [Re.Cat (Re.Cat Re.Eps (Re.Lit p)) r] s = true ->
  String.prefix (PyStr.lower p) (PyStr.lower s) = true.
Proof.
  induction p as [ | c p IH ]; intros r s H.
  - destruct s; reflexivity.
  - destruct s as [ | x s ]; [discriminate | ].
    cbn [Re.match_states Re.Lit existsb Re.nullable andb orb flat_map
         Re.deriv map app] in H.
    cbn [PyStr.lower String.prefix].
    unfold Re.chr_ok in H.
    destruct (Ascii.eqb_spec (PyStr.lower_char c) (PyStr.lower_char x))
      as [Heq | Hne].
    + cbn [map app] in H. rewrite Heq.
      destruct (ascii_dec (PyStr.lower_char x) (PyStr.lower_char x));
        [ | contradiction ].
      apply (IH r s H).
    + discriminate.
Qed.

Lemma literal_prefix_start (c : ascii) (p : string) (r : Re.regex) (s : string) :
  Re.match_states true [Re.Cat (Re.Lit (String c p)) r] s = true ->
  String.prefix (PyStr.lower (String c p)) (PyStr.lower s) = true.
Proof.
  intros H. destruct s as [ | x s ]; [discriminate | ].
  cbn [Re.match_states Re.Lit existsb Re.nullable andb orb flat_map
       Re.deriv map app] in H.
  cbn [PyStr.lower String.prefix].
  unfold Re.chr_ok in H.
  destruct (Ascii.eqb_spec (PyStr.lower_char c) (PyStr.lower_char x))
    as [Heq | Hne].
  - cbn [map app] in H. rewrite Heq.
    destruct (ascii_dec (PyStr.lower_char x) (PyStr.lower_char x));
      [ | contradiction ].
    apply (literal_prefix p r s H).
  - discriminate.
Qed.

Lemma is_azure_url_https (s : string) :
  is_azure_url (JStr s) = true ->
  String.prefix "https://" (PyStr.lower s) = true.
Proof.
  cbn [is_azure_url]. intros H. apply existsb_exists in H.
  destruct H as [pattern [Hin Hm]].
  assert (Hpat : exists domain, pattern = azure_url_pattern domain).
  { unfold AZURE_URL_PATTERNS in Hin.
    repeat (destruct Hin as [<- | Hin]; [eexists; reflexivity | ]).
    contradiction. }
  destruct Hpat as [domain ->].
  exact (literal_prefix_start "h"%char "ttps://" _ s Hm).
Qed.

End UrlAnchor.

Section UrlAnchorExtras.
Import Sanitizer.

(** X19. The URL patterns are matched at the start of the string only.
    A string of ASCII characters that is an Azure URL for the Sanitizer
    starts with [https://], in any letter case; so under an ASCII key
    that is not a secret key, an ASCII string that starts otherwise (with
    a space, with [http://], with [Endpoint=]) is kept as it is, whatever
    URL it holds further on. *)
Theorem sanitize_keeps_strings_without_the_https_prefix :
  (forall s : string,
      Documents.ascii_only s = true ->
      is_azure_url (JStr s) = true ->
      String.prefix "https://" (PyStr.lower s) = true) /\
  (forall key s : string,
      Documents.ascii_only key = true -> Documents.ascii_only s = true ->
      should_redact_key key = false ->
      String.prefix "https://" (PyStr.lower s) = false ->
      sanitize_value key (JStr s) = JStr s).
Proof.
  split; [intros s _; apply is_azure_url_https | ].
  intros key s _ _ Hk Hp.
  assert (Hu : is_azure_url (JStr s) = false).
  { destruct (is_azure_url (JStr s)) eqn:Hu; [ | reflexivity ].
    apply is_azure_url_https in Hu. congruence. }
  unfold sanitize_value. rewrite Hk, Hu.
  destruct (should_redact_url_key key); reflexivity.
Qed.

Lemma sanitize_keeps_strings_without_the_https_prefix_witness :
  String.prefix "https://" (PyStr.lower "HTTPS://Contoso.Search.Windows.Net/")
  = true /\
  sanitize_value "description"
    (JStr "Endpoint=https://contoso.search.windows.net;Mode=full")
  = JStr "Endpoint=https://contoso.search.windows.net;Mode=full".
Proof.
  split.
  - apply (proj1 sanitize_keeps_strings_without_the_https_prefix); reflexivity.
  - apply (proj2 sanitize_keeps_strings_without_the_https_prefix); reflexivity.
Defined.

End UrlAnchorExtras.

Section RestorerFrames.
Import Restorer Locality.

Lemma same_at_field (k : string) (path : list string) (x y : json) :
  same_at k x y -> field (k :: path) x = field (k :: path) y.
Proof.
  destruct x, y; simpl; try reflexivity; try contradiction; try discriminate.
  now intros ->.
Qed.

(** Inside the block under [k], the keys that the body does not act on
    keep their fields. *)
Lemma at_key_inner_frame (x : json) (k : string) (body : json -> res json)
  (x' : json) (keys : list string) (k2 : string) (path : list string) :
  at_key x k body = Ok x' -> acts_on keys body -> ~ In k2 keys ->
  field (k :: k2 :: path) x' = field (k :: k2 :: path) x.
Proof.
  intros H [_ Hframe] Hk2. apply at_key_Ok in H.
  destruct H as [[d [v [v' [-> [Hf [Ht [Hb ->]]]]]]] | [-> Hg]];
    [ | reflexivity ].
  rewrite field_set_same.
  change (field (k :: k2 :: path) (JDict d))
    with (field (k2 :: path) (dict_get d k JNull)).
  replace (dict_get d k JNull) with v by (unfold dict_get; now rewrite Hf).
  symmetry. apply (same_at_field k2 path v v'). now apply (Hframe v v' Hb).
Qed.

End RestorerFrames.

Section RestorerFramesExtras.
Import Restorer Locality.

(** X20. What the Restorer never touches in a knowledge source.  A
    replacement that returns leaves every field as it was that is outside
    the three parameter blocks and the two metadata keys; inside
    [azureBlobParameters], every field but [connectionString],
    [containerName] and [ingestionParameters]; inside
    [indexedOneLakeParameters] and [indexedSharePointParameters], every
    field but [ingestionParameters], the connection string and the
    container of such a block included. *)
Theorem restore_leaves_the_other_fields :
  forall (d : dict) (endpoint key cs container : string) (e k : option string)
         (r : dict),
    replace_placeholders_in_knowledge_source d endpoint key cs container e k
    = Ok r ->
    (forall k0 path,
        ~ In k0 [ "azureBlobParameters"; "indexedOneLakeParameters";
                  "indexedSharePointParameters"; "@odata.context";
                  "@odata.etag" ] ->
        field (k0 :: path) (JDict r) = field (k0 :: path) (JDict d)) /\
    (forall k0 path,
        ~ In k0 [ "connectionString"; "containerName"; "ingestionParameters" ] ->
        field ("azureBlobParameters" :: k0 :: path) (JDict r)
        = field ("azureBlobParameters" :: k0 :: path) (JDict d)) /\
    (forall block k0 path,
        In block [ "indexedOneLakeParameters"; "indexedSharePointParameters" ] ->
        k0 <> "ingestionParameters" ->
        field (block :: k0 :: path) (JDict r)
        = field (block :: k0 :: path) (JDict d)).
Proof.
  intros d endpoint key cs container e k r H.
  unfold replace_placeholders_in_knowledge_source in H.
  apply bind_Ok in H. destruct H as [d1 [H1 H]].
  apply bind_Ok in H. destruct H as [d2 [H2 H]].
  apply bind_Ok in H. destruct H as [d3 [H3 H]]. injection H as <-.
  apply with_block_at_key in H1, H2, H3.
  set (d0 := dict_pop "@odata.etag" (dict_pop "@odata.context" d)) in *.
  assert (Hd0 : forall k0 path, k0 <> "@odata.context" -> k0 <> "@odata.etag" ->
                                field (k0 :: path) (JDict d0)
                                = field (k0 :: path) (JDict d)).
  { intros k0 path Ha Hb. unfold d0. now rewrite !field_pop_other. }
  split; [ | split ].
  - intros k0 path Hk0.
    rewrite (at_key_frame _ _ k0 _ _ path H3) by (intros ->; apply Hk0; simpl; tauto).
    rewrite (at_key_frame _ _ k0 _ _ path H2) by (intros ->; apply Hk0; simpl; tauto).
    rewrite (at_key_frame _ _ k0 _ _ path H1) by (intros ->; apply Hk0; simpl; tauto).
    apply Hd0; intros ->; apply Hk0; simpl; tauto.
  - intros k0 path Hk0.
    rewrite (at_key_frame _ _ "azureBlobParameters" _ _ (k0 :: path) H3)
      by discriminate.
    rewrite (at_key_frame _ _ "azureBlobParameters" _ _ (k0 :: path) H2)
      by discriminate.
    rewrite (at_key_inner_frame _ _ _ _ _ k0 path H1
               (acts_on_replace_in_blob_params endpoint key cs container e k) Hk0).
    apply Hd0; discriminate.
  - intros block k0 path Hblock Hk0.
    assert (Hnot : ~ In k0 ["ingestionParameters"])
      by (intros [<- | []]; now apply Hk0).
    destruct Hblock as [<- | [<- | []]].
    + rewrite (at_key_frame _ _ "indexedOneLakeParameters" _ _ (k0 :: path) H3)
        by discriminate.
      rewrite (at_key_inner_frame _ _ _ _ _ k0 path H2
                 (acts_on_replace_in_indexed_params endpoint key) Hnot).
      rewrite (at_key_frame _ _ "indexedOneLakeParameters" _ _ (k0 :: path) H1)
        by discriminate.
      apply Hd0; discriminate.
    + rewrite (at_key_inner_frame _ _ _ _ _ k0 path H3
                 (acts_on_replace_in_indexed_params endpoint key) Hnot).
      rewrite (at_key_frame _ _ "indexedSharePointParameters" _ _ (k0 :: path) H2)
        by discriminate.
      rewrite (at_key_frame _ _ "indexedSharePointParameters" _ _ (k0 :: path) H1)
        by discriminate.
      apply Hd0; discriminate.
Qed.

Lemma restore_leaves_the_other_fields_witness :
  field ["kind"] (JDict RestoreSamples.restored_blob_source)
  = field ["kind"] (JDict (Sanitizer.sanitize_dict
                             RestoreSamples.exported_blob_source EmptyString)).
Proof.
  destruct (restore_leaves_the_other_fields
              (Sanitizer.sanitize_dict RestoreSamples.exported_blob_source
                                       EmptyString)
              "https://live.openai.azure.com" "live-key"
              "DefaultEndpointsProtocol=https;AccountName=live" "docs"
              None None RestoreSamples.restored_blob_source eq_refl)
    as [Htop _].
  apply Htop. simpl. intuition discriminate.
Defined.

End RestorerFramesExtras.

Section ExporterErrors.
Import Exporter.

(** X21. A request for a root that fails (any answer of the service that
    is not a document and not a 404, or a transport error) fails the
    whole run: the run does not return.  A root that is missing, by
    contrast, is passed over. *)
Theorem export_fails_when_a_root_request_fails :
  forall (http_get : node_kind -> string -> res (option json))
         (kb_names : list string) (kb_name : string) (err : exn),
    In kb_name kb_names ->
    http_get KnowledgeBase kb_name = Raise err ->
    exists err', main http_get kb_names = Raise err'.
Proof.
  intros http_get kb_names kb_name err Hin Herr. unfold main.
  generalize initial. induction kb_names as [ | a l IH ]; intros st;
    [contradiction | ].
  cbn [fold_res].
  destruct (export_kb http_get a st) as [st1 | err1] eqn:Ha.
  - cbn [bind]. destruct Hin as [-> | Hin].
    + unfold export_kb, get in Ha. rewrite Herr in Ha. discriminate.
    + now apply IH.
  - exists err1. reflexivity.
Qed.

Lemma export_fails_when_a_root_request_fails_witness :
  exists err', main Trace.failing_service ["kb0"; "kb1"; "kb2"] = Raise err'.
Proof.
  apply (export_fails_when_a_root_request_fails Trace.failing_service
           ["kb0"; "kb1"; "kb2"] "kb1" HTTPError).
  - simpl. tauto.
  - reflexivity.
Defined.

End ExporterErrors.

Section RoundTripBase.
Import Restorer Documents.

Lemma map_res_nth {A B : Type} (f : A -> res B) :
  forall (l : list A) (l' : list B) (i : nat) (a : A),
    map_res f l = Ok l' -> nth_error l i = Some a ->
    exists b, f a = Ok b /\ nth_error l' i = Some b.
Proof.
  induction l as [ | x l IH ]; intros l' i a H Hi.
  - destruct i; discriminate.
  - cbn [map_res] in H. apply bind_Ok in H. destruct H as [b [Hb H]].
    apply bind_Ok in H. destruct H as [bs [Hbs H]]. injection H as <-.
    destruct i as [ | i ].
    + injection Hi as <-. now exists b.
    + apply (IH bs i a Hbs Hi).
Qed.

Lemma replace_in_model_fills (m : json) (endpoint key : string) (m' : json) :
  replace_in_model m endpoint key = Ok m' ->
  (field ["azureOpenAIParameters"; "resourceUri"] m
   = JStr "<AZURE_ENDPOINT_PLACEHOLDER>" ->
   field ["azureOpenAIParameters"; "resourceUri"] m' = JStr endpoint) /\
  (field ["azureOpenAIParameters"; "apiKey"] m = JStr "<REDACTED>" ->
   field ["azureOpenAIParameters"; "apiKey"] m' = JStr key).
Proof.
  intros H. unfold replace_in_model in H. split; intros Hf.
  - eapply at_key_fills; [exact H | | | exact Hf]; [reflexivity | ].
    intros a a' Ha. exact (proj1 (replace_aoai_fills a endpoint key a' Ha)).
  - eapply at_key_fills; [exact H | | | exact Hf]; [reflexivity | ].
    intros a a' Ha. exact (proj2 (replace_aoai_fills a endpoint key a' Ha)).
Qed.

(** The field of a sanitized list element. *)
Lemma field_sanitize_item (path : list string) (m : json) (parent_key : string) :
  well_formed m = true -> path <> [] ->
  exists parent_key',
    field path (Sanitizer.sanitize_item parent_key m)
    = Sanitizer.sanitize_entry parent_key' (last path parent_key) (field path m).
Proof.
  intros Hwf Hp. destruct path as [ | k1 path ]; [contradiction | ].
  destruct m as [ | b | n | f | s | l | dm ];
    try (exists parent_key;
         rewrite (field_not_dict k1 path (Sanitizer.sanitize_item parent_key _))
           by (cbn [Sanitizer.sanitize_item];
               match goal with
               | |- forall d, Sanitizer.sanitize_value ?a ?b <> _ =>
                   let Hs := fresh in
                   pose proof (sanitize_value_scalar a b I) as Hs;
                   destruct (Sanitizer.sanitize_value a b);
                   try discriminate; contradiction
               | _ => discriminate
               end);
         rewrite (field_not_dict k1 path _) by discriminate;
         now rewrite sanitize_entry_null).
  rewrite sanitize_item_dict, <- (sanitize_entry_dict EmptyString).
  apply field_sanitize. exact Hwf.
Qed.

End RoundTripBase.

Section RoundTripBaseExtras.
Import Restorer Documents.

(** X22. Sanitizing and then restoring a knowledge base puts the
    supplied Azure OpenAI credentials into every model.  For a document as
    [json.load] returns it whose [models] is a list, when the replacement
    on the sanitized document returns, the restored document has a list
    [models] again, and in the model at each position: an API key that
    was neither empty nor the literal [null] is the supplied key, and a
    resource URI that was an Azure URL is the supplied endpoint. *)
Theorem sanitize_then_restore_knowledge_base :
  forall (d : dict) (models : list json) (i : nat) (m : json)
         (endpoint key : string) (r : dict),
    well_formed (JDict d) = true ->
    dict_find "models" d = Some (JList models) ->
    nth_error models i = Some m ->
    replace_placeholders_in_knowledge_base
      (Sanitizer.sanitize_dict d EmptyString) endpoint key = Ok r ->
    exists models' m',
      dict_find "models" r = Some (JList models') /\
      nth_error models' i = Some m' /\
      (forall s,
          field ["azureOpenAIParameters"; "apiKey"] m = JStr s ->
          s <> EmptyString -> s <> "null" ->
          field ["azureOpenAIParameters"; "apiKey"] m' = JStr key) /\
      (forall s,
          field ["azureOpenAIParameters"; "resourceUri"] m = JStr s ->
          Sanitizer.is_azure_url (JStr s) = true ->
          field ["azureOpenAIParameters"; "resourceUri"] m' = JStr endpoint).
Proof.
  intros d models i m endpoint key r Hwf Hmodels Hi H.
  assert (Hnd : NoDup (dict_keys d)).
  { cbn [well_formed] in Hwf. apply andb_true_iff in Hwf.
    apply distinct_NoDup. exact (proj1 Hwf). }
  assert (Hwfm : well_formed m = true).
  { pose proof (well_formed_get d "models" Hwf) as Hl.
    unfold dict_get in Hl. rewrite Hmodels in Hl. cbn [well_formed] in Hl.
    rewrite forallb_forall in Hl. apply Hl. eapply nth_error_In; eauto. }
  unfold replace_placeholders_in_knowledge_base in H.
  set (d0 := dict_pop "@odata.etag"
               (dict_pop "@odata.context"
                  (Sanitizer.sanitize_dict d EmptyString))) in *.
  assert (Hd0 : dict_find "models" d0
                = Some (JList (Sanitizer.sanitize_list "models" models))).
  { unfold d0. rewrite !dict_find_pop_other by discriminate.
    rewrite sanitize_dict_find by exact Hnd. now rewrite Hmodels. }
  apply bind_Ok in H. destruct H as [d1 [H1 H]].
  apply bind_Ok in H. destruct H as [d2 [H2 H]]. injection H as <-.
  apply with_block_at_key in H1, H2.
  apply at_key_Ok in H1.
  destruct H1 as [[d' [v [v' [[= <-] [Hf [Ht [Hb [= ->]]]]]]]] | [_ Hg]].
  2: { apply (py_guard_None_falsy _ _ []) in Hg. cbn [field] in Hg.
       unfold dict_get in Hg. rewrite Hd0 in Hg.
       destruct models; [destruct i; discriminate | discriminate]. }
  rewrite Hd0 in Hf. injection Hf as <-.
  unfold replace_in_models in Hb. cbn [py_iter bind] in Hb.
  apply bind_Ok in Hb. destruct Hb as [l2 [Hl2 Hb]]. injection Hb as <-.
  assert (Hi1 : nth_error (Sanitizer.sanitize_list "models" models) i
                = Some (Sanitizer.sanitize_item "models" m)).
  { unfold Sanitizer.sanitize_list. now rewrite nth_error_map, Hi. }
  destruct (map_res_nth _ _ _ i _ Hl2 Hi1) as [m' [Hm' Hi2]].
  exists l2, m'. split; [ | split; [exact Hi2 | ] ].
  - apply at_key_Ok in H2.
    destruct H2 as [[d' [v [v' [[= <-] [_ [_ [_ [= ->]]]]]]]] | [[= ->] _]].
    + rewrite dict_find_set_other by discriminate. apply dict_find_set_same.
    + apply dict_find_set_same.
  - split; intros s Hs.
    + intros Hne Hnull.
      destruct (field_sanitize_item ["azureOpenAIParameters"; "apiKey"] m "models"
                  Hwfm ltac:(discriminate)) as [pk Hpk].
      rewrite Hs in Hpk. cbn [last] in Hpk.
      change (Sanitizer.sanitize_entry pk "apiKey" (JStr s))
        with (Sanitizer.sanitize_scalar pk "apiKey" (JStr s)) in Hpk.
      rewrite (sanitize_scalar_secret pk "apiKey" eq_refl Hne Hnull) in Hpk.
      exact (proj2 (replace_in_model_fills _ endpoint key m' Hm') Hpk).
    + intros Hurl.
      destruct (field_sanitize_item ["azureOpenAIParameters"; "resourceUri"] m
                  "models" Hwfm ltac:(discriminate)) as [pk Hpk].
      rewrite Hs in Hpk. cbn [last] in Hpk.
      assert (Hc : Sanitizer.sanitize_entry pk "resourceUri" (JStr s)
                   = JStr "<AZURE_ENDPOINT_PLACEHOLDER>").
      { cbn [Sanitizer.sanitize_entry]. unfold Sanitizer.sanitize_scalar.
        change (PyStr.mem (PyStr.lower "resourceUri") ["name"; "containername"])
          with false.
        cbn [andb]. unfold Sanitizer.sanitize_value.
        change (Sanitizer.should_redact_key "resourceUri") with false.
        change (Sanitizer.should_redact_url_key "resourceUri") with true.
        rewrite Hurl. reflexivity. }
      rewrite Hc in Hpk.
      exact (proj1 (replace_in_model_fills _ endpoint key m' Hm') Hpk).
Qed.

Lemma sanitize_then_restore_knowledge_base_witness :
  exists models' m',
    dict_find "models" RestoreSamples.restored_knowledge_base
    = Some (JList models') /\
    nth_error models' 0 = Some m' /\
    field ["azureOpenAIParameters"; "apiKey"] m' = JStr "live-key" /\
    field ["azureOpenAIParameters"; "resourceUri"] m'
    = JStr "https://live.openai.azure.com".
Proof.
  destruct (sanitize_then_restore_knowledge_base
              RestoreSamples.exported_knowledge_base
              [ JDict
                  [ ("kind", JStr "azureOpenAI");
                    ("azureOpenAIParameters",
                     JDict
                       [ ("resourceUri", JStr "https://old.openai.azure.com");
                         ("deploymentId", JStr "gpt-4o");
                         ("apiKey", JStr "old-key") ]) ] ]
              0
              (JDict
                 [ ("kind", JStr "azureOpenAI");
                   ("azureOpenAIParameters",
                    JDict
                      [ ("resourceUri", JStr "https://old.openai.azure.com");
                        ("deploymentId", JStr "gpt-4o");
                        ("apiKey", JStr "old-key") ]) ])
              "https://live.openai.azure.com" "live-key"
              RestoreSamples.restored_knowledge_base
              eq_refl eq_refl eq_refl eq_refl)
    as [models' [m' [Hmodels [Hm [Hkey Huri]]]]].
  exists models', m'. split; [exact Hmodels | split; [exact Hm | split] ].
  - apply (Hkey "old-key"); [reflexivity | discriminate | discriminate].
  - apply (Huri "https://old.openai.azure.com"); reflexivity.
Defined.

End RoundTripBaseExtras.

Section TraceCounts.
Import Exporter Trace.
Variable http_get : node_kind -> string -> res (option json).

Lemma request_count_apply (k : node_kind) (n : string) (e : event) (st : state) :
  request_count k n (apply_event e st)
  = request_count k n st
    + match e with
      | Stored k0 n0 _ | Missed k0 n0 =>
          if node_kind_eqb k0 k && String.eqb n0 n then 1 else 0
      end.
Proof.
  unfold request_count. rewrite requests_apply.
  destruct e as [k0 n0 obj | k0 n0]; now rewrite count_snoc.
Qed.

Lemma file_count_apply (k : node_kind) (n : string) (e : event) (st : state) :
  file_count k n (apply_event e st)
  = file_count k n st
    + match e with
      | Stored k0 n0 _ => if node_kind_eqb k0 k && String.eqb n0 n then 1 else 0
      | Missed _ _ => 0
      end.
Proof.
  unfold file_count. rewrite files_apply.
  destruct e as [k0 n0 obj | k0 n0].
  - now rewrite count_snoc.
  - rewrite app_nil_r. lia.
Qed.

Lemma mem_app (n : string) (s l : list string) :
  PyStr.mem n (s ++ l) = PyStr.mem n s || PyStr.mem n l.
Proof. unfold PyStr.mem. apply existsb_app. Qed.

(** An object that the service has: its requests and its files. *)
Lemma course_existing (allowed : node_kind -> bool) (k : node_kind) (n : string)
  (st st' : state) :
  k <> KnowledgeBase ->
  exists_on_service http_get k n ->
  course http_get allowed st st' ->
  (request_count k n st = file_count k n st /\
   file_count k n st <= (if PyStr.mem n (seen k st) then 1 else 0)) ->
  request_count k n st' = file_count k n st' /\
  file_count k n st' <= (if PyStr.mem n (seen k st') then 1 else 0).
Proof.
  intros Hk [doc [Hdoc Htruthy]] H.
  refine (course_invariant http_get allowed
            (fun s => request_count k n s = file_count k n s /\
                      file_count k n s <= (if PyStr.mem n (seen k s) then 1 else 0))
            _ st st' H).
  intros e s He _ [Heq Hle].
  rewrite request_count_apply, file_count_apply, (seen_apply http_get k e s He),
    mem_app.
  destruct e as [k0 n0 obj | k0 n0].
  - destruct (node_kind_eqb k0 k && String.eqb n0 n) eqn:Hsame.
    + apply andb_true_iff in Hsame. destruct Hsame as [Hk0 Hn0].
      apply node_kind_eqb_eq in Hk0. apply String.eqb_eq in Hn0. subst k0 n0.
      destruct He as [_ [_ Hseen]]. rewrite Hseen in Hle |- *.
      assert (Hmark : node_kind_eqb k k && negb (node_kind_eqb k KnowledgeBase)
                      = true)
        by (destruct k; try reflexivity; now elim Hk).
      rewrite Hmark. cbn [PyStr.mem existsb]. rewrite String.eqb_refl.
      cbn [orb]. split; lia.
    + split; [lia | ].
      destruct (PyStr.mem n (seen k s)); cbn [orb]; [lia | ].
      destruct (PyStr.mem n _); lia.
  - destruct (node_kind_eqb k0 k && String.eqb n0 n) eqn:Hsame.
    + apply andb_true_iff in Hsame. destruct Hsame as [Hk0 Hn0].
      apply node_kind_eqb_eq in Hk0. apply String.eqb_eq in Hn0. subst k0 n0.
      destruct He as [[r [Hr Hfound]] _]. rewrite Hdoc in Hr.
      injection Hr as <-. unfold found in Hfound. rewrite Htruthy in Hfound.
      discriminate.
    + split; [lia | ].
      destruct (PyStr.mem n (seen k s)); cbn [orb]; [lia | ].
      destruct (PyStr.mem n _); lia.
Qed.

End TraceCounts.

Section ExporterCountsExtras.
Import Exporter Trace.

(** X23. An object that the service has, of any kind but a knowledge
    base, is requested at most once in a run that completes, and it is
    written as often as it is requested: never twice, and never requested
    without being written. *)
Theorem export_requests_an_existing_object_at_most_once :
  forall (http_get : node_kind -> string -> res (option json))
         (kb_names : list string) (st : state) (k : node_kind) (n : string),
    main http_get kb_names = Ok st ->
    k <> KnowledgeBase ->
    exists_on_service http_get k n ->
    request_count k n st = file_count k n st /\ file_count k n st <= 1.
Proof.
  intros http_get kb_names st k n Hrun Hk Hn.
  destruct (course_existing http_get any_kind k n initial st Hk Hn
              (main_course http_get kb_names st Hrun)) as [Heq Hle].
  - split; [reflexivity | ]. cbn. lia.
  - split; [exact Heq | ].
    destruct (PyStr.mem n (seen k st)); lia.
Qed.

Lemma export_requests_an_existing_object_at_most_once_witness :
  request_count Index "idx" synonym_run = file_count Index "idx" synonym_run /\
  file_count Index "idx" synonym_run <= 1.
Proof.
  apply (export_requests_an_existing_object_at_most_once synonym_service
           ["kb1"; "kb2"; "kb1"] synonym_run Index "idx" eq_refl).
  - discriminate.
  - eexists. split; reflexivity.
Defined.

End ExporterCountsExtras.

Section SanitizerEndToEnd.
Import Sanitizer SanitizerMain Documents.
Variable json_load : string -> option json.
Variable json_dumps : bool -> json -> string.

Lemma sanitize_document_no_url (data out : json) :
  sanitize_document data = Ok out -> all_strings not_azure_url out = true.
Proof.
  destruct data as [ | b | n | f | s | l | d ]; try discriminate; intros H.
  - assert (Hout : out = JList (map (fun ch => sanitize_value EmptyString
                                               (JStr (String ch EmptyString)))
                                    (list_ascii_of_string s)))
      by (cbn [sanitize_document] in H; congruence).
    subst out. clear H.
    cbn [all_strings]. apply forallb_forall. intros x Hx.
    apply in_map_iff in Hx. destruct Hx as [ch [<- _]].
    apply all_strings_scalar.
    + apply sanitize_value_scalar. exact I.
    + intros s0 Hs0. unfold not_azure_url.
      now rewrite (sanitize_value_not_url _ _ _ Hs0).
  - assert (Hout : out = JList (sanitize_list EmptyString l))
      by (cbn [sanitize_document] in H; congruence).
    subst out. exact (proj2 (sanitize_no_url_value (JList l)) EmptyString).
  - assert (Hout : out = JDict (sanitize_dict d EmptyString))
      by (cbn [sanitize_document] in H; congruence).
    subst out. exact (proj2 (sanitize_no_url_value (JDict d)) EmptyString).
Qed.

(** The state of a file in a run without [--dry-run]: it was written, and
    then holds a sanitized document; or it is as it was. *)
Lemma sanitize_one_written (p : string) (c c' : counts)
  (fs fs' : filesystem) :
  sanitize_one json_load json_dumps false p (c, fs) = Ok (c', fs') ->
  (forall q, q <> p -> fs' q = fs q) /\
  ((fs' = fs /\ parses json_load fs p = false) \/
   exists out, fs' p = Some (json_dumps false out) /\
               all_strings not_azure_url out = true).
Proof.
  unfold sanitize_one, sanitize_file, parses.
  destruct (fs p) as [content | ]; [ | discriminate ].
  destruct (json_load content) as [data | ].
  - destruct (sanitize_document data) as [out | e] eqn:Hout; [ | discriminate ].
    cbn [bind]. intros [= <- <-]. split.
    + intros q Hq. unfold write_file.
      destruct (String.eqb_spec q p); [contradiction | reflexivity].
    + right. exists out. split.
      * unfold write_file. now rewrite String.eqb_refl.
      * exact (sanitize_document_no_url data out Hout).
  - cbn [bind]. intros [= <- <-]. split; [reflexivity | now left].
Qed.

Lemma sanitize_files_written (fs0 : filesystem) (files : list string) :
  forall (done : list string) (c c' : counts) (fs fs' : filesystem),
    Exporter.fold_res (sanitize_one json_load json_dumps false) files (c, fs)
    = Ok (c', fs') ->
    (forall p, fs p = fs0 p \/
               exists out, fs p = Some (json_dumps false out) /\
                           all_strings not_azure_url out = true) ->
    (forall p, In p done ->
               (fs p = fs0 p /\ parses json_load fs0 p = false) \/
               exists out, fs p = Some (json_dumps false out) /\
                           all_strings not_azure_url out = true) ->
    (forall p, fs' p = fs0 p \/
               exists out, fs' p = Some (json_dumps false out) /\
                           all_strings not_azure_url out = true) /\
    (forall p, In p (files ++ done) ->
               (fs' p = fs0 p /\ parses json_load fs0 p = false) \/
               exists out, fs' p = Some (json_dumps false out) /\
                           all_strings not_azure_url out = true).
Proof.
  induction files as [ | q files IH ]; intros done c c' fs fs' H Hinv Hdone.
  - injection H as <- <-. split; assumption.
  - cbn [Exporter.fold_res] in H. apply bind_Ok in H.
    destruct H as [[c1 fs1] [H1 H]].
    apply sanitize_one_written in H1. destruct H1 as [Hother Hq].
    assert (Hinv1 : forall p, fs1 p = fs0 p \/
                              exists out, fs1 p = Some (json_dumps false out) /\
                                          all_strings not_azure_url out = true).
    { intros p. destruct (string_dec p q) as [-> | Hne].
      - destruct Hq as [[-> _] | Hw]; [apply Hinv | now right].
      - rewrite (Hother p Hne). apply Hinv. }
    assert (Hdone1 : forall p, In p (q :: done) ->
               (fs1 p = fs0 p /\ parses json_load fs0 p = false) \/
               exists out, fs1 p = Some (json_dumps false out) /\
                           all_strings not_azure_url out = true).
    { intros p Hp. destruct (string_dec p q) as [-> | Hne].
      - destruct Hq as [[-> Hfail] | Hw]; [ | now right ].
        destruct (Hinv q) as [Hsame | Hw]; [left | now right].
        split; [exact Hsame | ]. unfold parses in *. now rewrite <- Hsame.
      - rewrite (Hother p Hne). apply Hdone.
        destruct Hp as [<- | Hp]; [now elim Hne | exact Hp]. }
    destruct (IH (q :: done) c1 c' fs1 fs' H Hinv1 Hdone1) as [Hinv' Hdone'].
    split; [exact Hinv' | ].
    intros p Hp. apply Hdone'. cbn [app] in Hp.
    apply in_or_app. destruct Hp as [<- | Hp]; [right; now left | ].
    apply in_app_or in Hp. destruct Hp; [now left | right; now right].
Qed.

Lemma sanitize_entries_written (fs0 : filesystem) (excl : list string)
  (entries : list entry) :
  forall (done : list string) (c c' : counts) (fs fs' : filesystem),
    Exporter.fold_res (sanitize_subdir json_load json_dumps false excl) entries
      (c, fs) = Ok (c', fs') ->
    (forall p, fs p = fs0 p \/
               exists out, fs p = Some (json_dumps false out) /\
                           all_strings not_azure_url out = true) ->
    (forall p, In p done ->
               (fs p = fs0 p /\ parses json_load fs0 p = false) \/
               exists out, fs p = Some (json_dumps false out) /\
                           all_strings not_azure_url out = true) ->
    forall p,
      In p (flat_map json_files
              (filter (fun e => is_dir e && negb (PyStr.mem (name e) excl))
                      entries) ++ done) ->
      (fs' p = fs0 p /\ parses json_load fs0 p = false) \/
      exists out, fs' p = Some (json_dumps false out) /\
                  all_strings not_azure_url out = true.
Proof.
  induction entries as [ | e entries IH ]; intros done c c' fs fs' H Hinv Hdone.
  - injection H as <- <-. exact Hdone.
  - cbn [Exporter.fold_res] in H. apply bind_Ok in H.
    destruct H as [[c1 fs1] [H1 H]].
    unfold sanitize_subdir in H1. cbn [filter].
    destruct (is_dir e); cbn [negb andb] in *.
    2: { injection H1 as <- <-. exact (IH done c c' fs fs' H Hinv Hdone). }
    destruct (PyStr.mem (name e) excl); cbn [negb] in *.
    { injection H1 as <- <-. exact (IH done c c' fs fs' H Hinv Hdone). }
    destruct (sanitize_files_written fs0 (json_files e) done c c1 fs fs1
                H1 Hinv Hdone) as [Hinv1 Hdone1].
    intros p Hp.
    apply (IH (json_files e ++ done) c1 c' fs1 fs' H Hinv1 Hdone1).
    cbn [flat_map] in Hp. rewrite <- app_assoc in Hp.
    apply in_or_app. apply in_app_or in Hp.
    destruct Hp as [Hp | Hp]; [right; apply in_or_app; now left | ].
    apply in_app_or in Hp.
    destruct Hp as [Hp | Hp]; [now left | right; apply in_or_app; now right].
Qed.

End SanitizerEndToEnd.

Section SanitizerEndToEndExtras.
Import Sanitizer SanitizerMain Documents.

(** X24. After a run of the Sanitizer without [--dry-run] that returns,
    every selected file is in one of two states: it did not hold JSON and
    is as it was; or it holds the serialization of a document in which no
    string value is an Azure URL. *)
Theorem sanitize_main_leaves_sanitized_files :
  forall (json_load : string -> option json) (json_dumps : bool -> json -> string)
         (a : args) (fs fs' : filesystem) (c : counts) (path : string),
    main json_load json_dumps a fs = Returned (c, fs') ->
    dry_run a = false ->
    In path (selected a) ->
    (fs' path = fs path /\ parses json_load fs path = false) \/
    exists out, fs' path = Some (json_dumps false out) /\
                all_strings not_azure_url out = true.
Proof.
  intros json_load json_dumps a fs fs' c path H Hdry Hin. unfold main in H.
  unfold selected in Hin.
  destruct (data_dir a) as [entries | ]; [ | discriminate ].
  destruct (Exporter.fold_res _ entries _) as [[c1 fs1] | e] eqn:Hrun;
    [ | discriminate ].
  injection H as <- <-. rewrite Hdry in Hrun.
  apply (sanitize_entries_written json_load json_dumps fs (exclude a) entries
           [] _ _ fs fs1 Hrun).
  - intros p. now left.
  - intros p [].
  - now rewrite app_nil_r.
Qed.

Lemma sanitize_main_leaves_sanitized_files_witness :
  (sample_files_after "indexes/i1.json" = sample_files "indexes/i1.json" /\
   parses toy_load sample_files "indexes/i1.json" = false) \/
  exists out, sample_files_after "indexes/i1.json" = Some (toy_dumps false out) /\
              all_strings not_azure_url out = true.
Proof.
  apply (sanitize_main_leaves_sanitized_files toy_load toy_dumps
           (sample_args false) sample_files sample_files_after
           {| modified_count := 1; total_count := 2 |} "indexes/i1.json").
  - reflexivity.
  - reflexivity.
  - simpl. tauto.
Defined.

End SanitizerEndToEndExtras.

(* ================================================================== *)
(** * The Sanitizer at every nesting level *)
(* ================================================================== *)

Section SanitizerPaths.
Import Sanitizer Documents Paths.

Lemma well_formed_find (d : dict) (k : string) (x : json) :
  well_formed (JDict d) = true -> dict_find k d = Some x -> well_formed x = true.
Proof.
  intros Hwf Hf. pose proof (well_formed_get d k Hwf) as H.
  unfold dict_get in H. now rewrite Hf in H.
Qed.

Lemma well_formed_nth (l : list json) (i : nat) (x : json) :
  well_formed (JList l) = true -> nth_error l i = Some x -> well_formed x = true.
Proof.
  cbn [well_formed]. intros Hwf Hn. rewrite forallb_forall in Hwf.
  apply Hwf. exact (nth_error_In l i Hn).
Qed.

Lemma well_formed_keys (d : dict) :
  well_formed (JDict d) = true -> NoDup (dict_keys d).
Proof.
  cbn [well_formed]. intros H. apply andb_true_iff in H.
  apply distinct_NoDup. exact (proj1 H).
Qed.

(** An object or a list stored under a key is sanitized as an element of
    a list under that key is. *)
Lemma sanitize_entry_container (parent_key key : string) (x : json) :
  ~ scalar x -> sanitize_entry parent_key key x = sanitize_item key x.
Proof.
  destruct x; simpl; intros H; try reflexivity; now elim H.
Qed.

Lemma at_path_scalar (q : step) (p : list step) (x : json) :
  scalar x -> at_path (q :: p) x = None.
Proof. destruct q, x; simpl; intros H; try reflexivity; contradiction. Qed.

(** A pair of a secret key and a string, at the end of any path, is
    redacted. *)
Lemma at_path_secret (key s : string) :
  should_redact_key key = true -> s <> EmptyString -> s <> "null" ->
  forall (p : list step) (v : json) (c : string),
    well_formed v = true ->
    at_path (p ++ [Key key]) v = Some (JStr s) ->
    at_path (p ++ [Key key]) (sanitize_item c v) = Some (JStr REDACTED_PLACEHOLDER).
Proof.
  intros Hk Hne Hnull.
  induction p as [ | q p IH ]; intros v c Hwf H.
  - cbn [app at_path] in *.
    destruct v as [ | | | | | | d ]; try discriminate.
    rewrite sanitize_item_dict.
    rewrite sanitize_dict_find by now apply well_formed_keys.
    destruct (dict_find key d) as [x | ]; [ | discriminate ].
    injection H as ->. cbn [option_map sanitize_entry]. f_equal.
    now apply sanitize_scalar_secret.
  - cbn [app] in *. destruct q as [k | i]; cbn [at_path] in H.
    + destruct v as [ | | | | | | d ]; try discriminate.
      rewrite sanitize_item_dict. cbn [at_path].
      rewrite sanitize_dict_find by now apply well_formed_keys.
      destruct (dict_find k d) as [x | ] eqn:Hf; [ | discriminate ].
      cbn [option_map].
      assert (Hx : ~ scalar x).
      { intros Hs. destruct (p ++ [Key key]) as [ | q0 p0 ] eqn:Hp.
        - destruct p; discriminate.
        - rewrite (at_path_scalar q0 p0 x Hs) in H. discriminate. }
      rewrite (sanitize_entry_container c k x Hx).
      apply IH; [ | exact H ]. exact (well_formed_find d k x Hwf Hf).
    + destruct v as [ | | | | | l | ]; try discriminate.
      rewrite sanitize_item_list. cbn [at_path]. unfold sanitize_list.
      rewrite nth_error_map.
      destruct (nth_error l i) as [x | ] eqn:Hn; [ | discriminate ].
      cbn [option_map].
      apply IH; [ | exact H ]. exact (well_formed_nth l i x Hwf Hn).
Qed.

(** What a redaction leaves in place, path by path. *)
Lemma redaction_find (d d' : dict) (k : string) (x : json) :
  redaction (JDict d) (JDict d') -> dict_find k d = Some x ->
  exists x', dict_find k d' = Some x' /\ redaction x x'.
Proof.
  cbn [redaction]. revert d'.
  induction d as [ | [k0 x0] d IH ]; intros d' H Hf; [discriminate | ].
  destruct d' as [ | [k1 x1] d' ]; [contradiction | ].
  destruct H as [-> [Hx Hrest]]. cbn [dict_find] in *.
  destruct (String.eqb k0 k).
  - injection Hf as <-. now exists x1.
  - now apply IH.
Qed.

Lemma redaction_nth (l l' : list json) (i : nat) (x : json) :
  redaction (JList l) (JList l') -> nth_error l i = Some x ->
  exists x', nth_error l' i = Some x' /\ redaction x x'.
Proof.
  cbn [redaction]. revert l' i.
  induction l as [ | x0 l IH ]; intros l' i H Hn.
  - destruct i; discriminate.
  - destruct l' as [ | x1 l' ]; [contradiction | ].
    destruct H as [Hx Hrest]. destruct i as [ | i ]; cbn [nth_error] in *.
    + injection Hn as <-. now exists x1.
    + now apply IH.
Qed.

Lemma redaction_keys (d : dict) (v' : json) :
  redaction (JDict d) v' -> exists d', v' = JDict d' /\ dict_keys d' = dict_keys d.
Proof.
  destruct v' as [ | | | | | | d' ]; try contradiction.
  intros H. exists d'. split; [reflexivity | ].
  cbn [redaction] in H. revert d' H.
  induction d as [ | [k0 x0] d IH ]; intros d' H.
  - destruct d'; [reflexivity | contradiction].
  - destruct d' as [ | [k1 x1] d' ]; [contradiction | ].
    destruct H as [-> [_ Hrest]]. cbn [dict_keys map fst].
    f_equal. exact (IH d' Hrest).
Qed.

Lemma redaction_at_path (p : list step) :
  forall v v' x, redaction v v' -> at_path p v = Some x ->
                 exists x', at_path p v' = Some x' /\ redaction x x'.
Proof.
  induction p as [ | q p IH ]; intros v v' x H Hp.
  - injection Hp as <-. now exists v'.
  - destruct q as [k | i]; cbn [at_path] in Hp.
    + destruct v as [ | | | | | | d ]; try discriminate.
      destruct (dict_find k d) as [y | ] eqn:Hf; [ | discriminate ].
      destruct (redaction_keys d v' H) as [d' [-> _]].
      destruct (redaction_find d d' k y H Hf) as [y' [Hf' Hy]].
      cbn [at_path]. rewrite Hf'. now apply (IH y).
    + destruct v as [ | | | | | l | ]; try discriminate.
      destruct (nth_error l i) as [y | ] eqn:Hn; [ | discriminate ].
      destruct v' as [ | | | | | l' | ]; try contradiction.
      destruct (redaction_nth l l' i y H Hn) as [y' [Hn' Hy]].
      cbn [at_path]. rewrite Hn'. now apply (IH y).
Qed.

End SanitizerPaths.

Section SanitizerDepthClaims.
Import Sanitizer Documents Paths.

(** C5, as the code has it.  The Sanitizer drops no key.  The object that
    [sanitize_dict] returns has a key exactly when the given object has
    it; and in a document in which every object holds a key once, every
    object reached by a path of keys and list positions, at any depth, is
    still an object in the sanitized document, at the same path and with
    the same keys in the same order, the two protocol metadata keys
    included.  This holds for a document that is a dict and for one that
    is a list. *)
Theorem sanitize_dict_keeps_every_key :
  (forall (d : dict) (parent_key k : string),
      dict_in k (sanitize_dict d parent_key) = dict_in k d) /\
  (forall (d : dict) (parent_key : string) (p : list step) (o : dict),
      well_formed (JDict d) = true ->
      at_path p (JDict d) = Some (JDict o) ->
      exists o', at_path p (JDict (sanitize_dict d parent_key)) = Some (JDict o') /\
                 dict_keys o' = dict_keys o) /\
  (forall (l : list json) (parent_key : string) (p : list step) (o : dict),
      well_formed (JList l) = true ->
      at_path p (JList l) = Some (JDict o) ->
      exists o', at_path p (JList (sanitize_list parent_key l)) = Some (JDict o') /\
                 dict_keys o' = dict_keys o).
Proof.
  split; [ | split ].
  - intros d parent_key k. unfold sanitize_dict. now rewrite build_dict_in.
  - intros d parent_key p o Hwf Hp.
    pose proof (proj2 (sanitize_redaction_value (JDict d) Hwf) parent_key) as Hr.
    rewrite sanitize_item_dict in Hr.
    destruct (redaction_at_path p _ _ _ Hr Hp) as [x' [Hp' Hx]].
    destruct (redaction_keys o x' Hx) as [o' [-> Hk]]. now exists o'.
  - intros l parent_key p o Hwf Hp.
    pose proof (proj2 (sanitize_redaction_value (JList l) Hwf) parent_key) as Hr.
    rewrite sanitize_item_list in Hr.
    destruct (redaction_at_path p _ _ _ Hr Hp) as [x' [Hp' Hx]].
    destruct (redaction_keys o x' Hx) as [o' [-> Hk]]. now exists o'.
Qed.

Lemma sanitize_dict_keeps_every_key_witness :
  exists o',
    at_path [Key "skills"; Index 0]
      (JDict (sanitize_dict NestedSamples.skillset EmptyString))
    = Some (JDict o') /\
    dict_keys o' = ["name"; "@odata.etag"; "apiKey"; "inputs"].
Proof.
  apply (proj1 (proj2 sanitize_dict_keeps_every_key) NestedSamples.skillset
           EmptyString [Key "skills"; Index 0]
           [ ("name", JStr "embed");
             ("@odata.etag", JStr "0x1");
             ("apiKey", JStr "abc123");
             ("inputs", JList [ JDict [ ("name", JStr "text") ] ]) ]).
  - reflexivity.
  - reflexivity.
Defined.

(** C5 fails as stated: both metadata keys are still present in the
    sanitized document; only the context URL has been replaced. *)
Lemma sanitize_dict_keeps_odata_keys :
  sanitize_dict
    [ ("@odata.context",
       JStr "https://contoso.search.windows.net/$metadata#indexes/$entity");
      ("@odata.etag", JStr "0x8DE0A1B2C3D4E5F");
      ("name", JStr "docs-index") ] EmptyString
  = [ ("@odata.context", JStr "<AZURE_ENDPOINT_PLACEHOLDER>");
      ("@odata.etag", JStr "0x8DE0A1B2C3D4E5F");
      ("name", JStr "docs-index") ].
Proof. vm_compute. reflexivity. Qed.

(** C8. A string value that is neither empty nor the literal [null],
    under a key that matches a secret-indicating name, is replaced by
    [<REDACTED>]: as the value computed for the pair, as the value found
    under the key in the sanitized dict, and at every depth, that is, at
    the end of every path of keys and list positions of a document in
    which every object holds a key once, be the document a dict or a
    list.  The document [{apiKey: abc123}] becomes
    [{apiKey: <REDACTED>}]. *)
Theorem sanitize_redacts_secret_values :
  (forall (parent_key key s : string),
      secret_name key -> s <> EmptyString -> s <> "null" ->
      sanitize_entry parent_key key (JStr s) = JStr "<REDACTED>") /\
  (forall (d : dict) (parent_key key s : string),
      NoDup (dict_keys d) -> In (key, JStr s) d ->
      secret_name key -> s <> EmptyString -> s <> "null" ->
      In (key, JStr "<REDACTED>") (sanitize_dict d parent_key)) /\
  (forall (d : dict) (parent_key : string) (p : list step) (key s : string),
      well_formed (JDict d) = true ->
      at_path (p ++ [Key key]) (JDict d) = Some (JStr s) ->
      secret_name key -> s <> EmptyString -> s <> "null" ->
      at_path (p ++ [Key key]) (JDict (sanitize_dict d parent_key))
      = Some (JStr "<REDACTED>")) /\
  (forall (l : list json) (parent_key : string) (p : list step) (key s : string),
      well_formed (JList l) = true ->
      at_path (p ++ [Key key]) (JList l) = Some (JStr s) ->
      secret_name key -> s <> EmptyString -> s <> "null" ->
      at_path (p ++ [Key key]) (JList (sanitize_list parent_key l))
      = Some (JStr "<REDACTED>")) /\
  sanitize_dict [("apiKey", JStr "abc123")] EmptyString
  = [("apiKey", JStr "<REDACTED>")].
Proof.
  split; [ | split; [ | split; [ | split ] ] ].
  - intros parent_key key s Hk Hne Hnull.
    apply should_redact_key_spec in Hk.
    apply (sanitize_scalar_secret parent_key) with (s := s); assumption.
  - intros d parent_key key s Hnd Hin Hk Hne Hnull.
    unfold sanitize_dict. rewrite build_distinct by exact Hnd. simpl.
    apply in_map_iff. exists (key, JStr s). split; [ | assumption ].
    simpl. f_equal. apply should_redact_key_spec in Hk.
    apply (sanitize_scalar_secret parent_key) with (s := s); assumption.
  - intros d parent_key p key s Hwf Hp Hk Hne Hnull.
    apply should_redact_key_spec in Hk.
    exact (at_path_secret key s Hk Hne Hnull p (JDict d) parent_key Hwf Hp).
  - intros l parent_key p key s Hwf Hp Hk Hne Hnull.
    apply should_redact_key_spec in Hk.
    exact (at_path_secret key s Hk Hne Hnull p (JList l) parent_key Hwf Hp).
  - vm_compute. reflexivity.
Qed.

Lemma sanitize_redacts_secret_values_witness :
  sanitize_entry "azureOpenAIParameters" "API-Key" (JStr "abc123")
  = JStr "<REDACTED>" /\
  In ("connection_string", JStr "<REDACTED>")
     (sanitize_dict [ ("name", JStr "ds1");
                      ("connection_string", JStr "AccountKey=abc") ]
                    "credentials") /\
  at_path ([Key "skills"; Index 0] ++ [Key "apiKey"])
    (JDict (sanitize_dict NestedSamples.skillset EmptyString))
  = Some (JStr "<REDACTED>") /\
  at_path ([Index 1] ++ [Key "Primary_Key"])
    (JList (sanitize_list EmptyString
              [ JInt 1; JDict [ ("Primary_Key", JStr "pk-1") ] ]))
  = Some (JStr "<REDACTED>").
Proof.
  split; [ | split; [ | split ] ].
  - apply (proj1 sanitize_redacts_secret_values).
    + exists "api_key". split; [simpl; tauto | reflexivity].
    + discriminate.
    + discriminate.
  - apply (proj1 (proj2 sanitize_redacts_secret_values))
      with (s := "AccountKey=abc").
    + repeat constructor; simpl; intuition discriminate.
    + simpl. tauto.
    + exists "connectionstring". split; [simpl; tauto | reflexivity].
    + discriminate.
    + discriminate.
  - apply (proj1 (proj2 (proj2 sanitize_redacts_secret_values)))
      with (s := "abc123").
    + reflexivity.
    + reflexivity.
    + exists "apikey". split; [simpl; tauto | reflexivity].
    + discriminate.
    + discriminate.
  - apply (proj1 (proj2 (proj2 (proj2 sanitize_redacts_secret_values))))
      with (s := "pk-1").
    + reflexivity.
    + reflexivity.
    + exists "primarykey". split; [simpl; tauto | reflexivity].
    + discriminate.
    + discriminate.
Defined.

End SanitizerDepthClaims.

(* ================================================================== *)
(** * What the Restorer leaves alone *)
(* ================================================================== *)

Section RestorerKeeps.
Import Restorer Substitution.

Lemma keeps_weaken (e1 e2 : list string -> json -> Prop) (f : json -> res json) :
  (forall p v, e1 p v -> e2 p v) -> keeps e1 f -> keeps e2 f.
Proof.
  intros Hsub Hk x x' H path Hl Hn He.
  apply (Hk x x' H path Hl Hn). intros H1. apply He. now apply Hsub.
Qed.

Lemma keeps_ext (e : list string -> json -> Prop) (f g : json -> res json) :
  (forall x, f x = g x) -> keeps e f -> keeps e g.
Proof.
  intros Hfg Hk x x' H. rewrite <- Hfg in H. exact (Hk x x' H).
Qed.

(** Two steps in a row. *)
Lemma keeps_seq (e : list string -> json -> Prop) (f g : json -> res json) :
  keeps e f -> keeps e g -> keeps e (fun x => bind (f x) g).
Proof.
  intros Hf Hg x x' H path Hl Hn He.
  apply bind_Ok in H. destruct H as [x1 [H1 H2]].
  pose proof (Hf x x1 H1 path Hl Hn He) as E1.
  rewrite <- E1 in *. exact (Hg x1 x' H2 path Hl Hn He).
Qed.

Lemma below_nowhere (k : string) (path : list string) (v : json) :
  below k nowhere path v -> nowhere path v.
Proof. destruct path; cbn [below]; [exact (fun H => H) | intros [_ [[] _]]]. Qed.

(** The statement [if x.get(k) == token: x[k] = value], for one of the
    three tokens. *)
Lemma keeps_replace_if (k token value : string) :
  In token PLACEHOLDERS ->
  keeps nowhere (fun x => replace_if x k token value).
Proof.
  intros Hin x x' H path Hl Hn _.
  apply replace_if_Ok in H. destruct H as [d [-> ->]].
  destruct (is_str token (dict_get d k JNull)) eqn:Hs; [ | reflexivity ].
  apply is_str_true in Hs.
  destruct path as [ | k' p ]; [contradiction | ].
  destruct (string_dec k' k) as [-> | Hne]; [ | now apply field_set_other ].
  rewrite field_set_same.
  change (field (k :: p) (JDict d)) with (field p (dict_get d k JNull)) in *.
  rewrite Hs in *.
  destruct p as [ | k1 p ]; [ | reflexivity ].
  exfalso. now apply (Hn token Hin).
Qed.

(** The statement that fills in the connection string. *)
Lemma keeps_set_connection_string (cs : string) :
  keeps unset_connection_string
    (fun bp => bind (py_get bp "connectionString")
                 (fun c => if connection_string_unset c
                           then py_setitem bp "connectionString" (JStr cs)
                           else Ok bp)).
Proof.
  intros x x' H path Hl Hn He.
  destruct x as [ | | | | | | d ]; try discriminate. cbn [py_get bind] in H.
  destruct (connection_string_unset (dict_get d "connectionString" JNull)) eqn:Hu;
    cbn [py_setitem] in H; injection H as <-; [ | reflexivity ].
  destruct path as [ | k' p ]; [contradiction | ].
  destruct (string_dec k' "connectionString") as [-> | Hne];
    [ | now apply field_set_other ].
  rewrite field_set_same.
  change (field ("connectionString" :: p) (JDict d))
    with (field p (dict_get d "connectionString" JNull)) in *.
  destruct p as [ | k1 p ].
  - exfalso. apply He. split; [reflexivity | exact Hu].
  - destruct (dict_get d "connectionString" JNull); try discriminate Hu;
      reflexivity.
Qed.

(** The guarded descent under [k]. *)
Lemma keeps_at_key (k : string) (e : list string -> json -> Prop)
  (body : json -> res json) :
  keeps e body -> keeps (below k e) (fun x => at_key x k body).
Proof.
  intros Hb x x' H path Hl Hn He. apply at_key_Ok in H.
  destruct H as [[d [v [v' [-> [Hf [Ht [Hbv ->]]]]]]] | [-> _]]; [ | reflexivity ].
  destruct path as [ | k' p ]; [contradiction | ].
  destruct (string_dec k' k) as [-> | Hne]; [ | now apply field_set_other ].
  rewrite field_set_same.
  assert (Hx : field (k :: p) (JDict d) = field p v)
    by (simpl; unfold dict_get; now rewrite Hf).
  rewrite Hx in *. apply (Hb v v' Hbv p Hl Hn).
  intros Hex. apply He. cbn [below]. split; [reflexivity | split; [exact Hex | ]].
  intros ->. exact Ht.
Qed.

Lemma keeps_at_key_nowhere (k : string) (body : json -> res json) :
  keeps nowhere body -> keeps nowhere (fun x => at_key x k body).
Proof.
  intros Hb. apply (keeps_weaken (below k nowhere)); [apply below_nowhere | ].
  now apply keeps_at_key.
Qed.

(** The assignment of [None] to a block. *)
Lemma keeps_drop :
  keeps (fun _ w => w <> JNull) (fun _ : json => Ok JNull).
Proof.
  intros x x' [= <-] path Hl Hn He. rewrite field_null.
  destruct (field path x); try reflexivity; exfalso; apply He; discriminate.
Qed.

Lemma keeps_replace_aoai (endpoint key : string) :
  keeps nowhere (fun a => replace_aoai a endpoint key).
Proof.
  apply (keeps_seq nowhere
           (fun a => replace_if a "resourceUri" "<AZURE_ENDPOINT_PLACEHOLDER>" endpoint)
           (fun a => replace_if a "apiKey" "<REDACTED>" key));
    apply keeps_replace_if; simpl; tauto.
Qed.

Lemma keeps_replace_in_model (endpoint key : string) :
  keeps nowhere (fun m => replace_in_model m endpoint key).
Proof. apply keeps_at_key_nowhere. apply keeps_replace_aoai. Qed.

Lemma keeps_replace_in_ingest_model (model_key endpoint key : string) :
  keeps nowhere (fun ip => replace_in_ingest_model ip model_key endpoint key).
Proof. apply keeps_at_key_nowhere. apply keeps_replace_in_model. Qed.

Lemma keeps_replace_ai_services (e k : option string) :
  keeps (dropped_ai_services e k) (fun ip => replace_ai_services ip e k).
Proof.
  unfold replace_ai_services.
  destruct (ai_services_available e k) as [[endpoint key] | ] eqn:Ha.
  - apply (keeps_weaken nowhere); [intros p v [] | ].
    apply keeps_at_key_nowhere.
    apply (keeps_seq nowhere
             (fun a => replace_if a "uri" "<AZURE_ENDPOINT_PLACEHOLDER>" endpoint)
             (fun a => replace_if a "apiKey" "<REDACTED>" key));
      apply keeps_replace_if; simpl; tauto.
  - apply (keeps_weaken (below "aiServices" (fun _ w => w <> JNull))).
    + intros p v H. split; [exact Ha | exact H].
    + apply keeps_at_key. exact keeps_drop.
Qed.

Lemma keeps_replace_in_blob_ingestion (endpoint key : string) (e k : option string) :
  keeps (dropped_ai_services e k)
    (fun ip => replace_in_blob_ingestion ip endpoint key e k).
Proof.
  apply (keeps_seq (dropped_ai_services e k)
           (fun ip => replace_in_ingest_model ip "embeddingModel" endpoint key)
           (fun ip => bind (replace_in_ingest_model ip "chatCompletionModel" endpoint key)
                        (fun ip => replace_ai_services ip e k))).
  - apply (keeps_weaken nowhere); [intros p v [] | ].
    apply keeps_replace_in_ingest_model.
  - apply (keeps_seq (dropped_ai_services e k)
             (fun ip => replace_in_ingest_model ip "chatCompletionModel" endpoint key)
             (fun ip => replace_ai_services ip e k)).
    + apply (keeps_weaken nowhere); [intros p v [] | ].
      apply keeps_replace_in_ingest_model.
    + apply keeps_replace_ai_services.
Qed.

Lemma keeps_replace_in_blob_params (endpoint key cs container : string)
  (e k : option string) :
  keeps (blob_exceptions e k)
    (fun bp => replace_in_blob_params bp endpoint key cs container e k).
Proof.
  apply (keeps_ext _
           (fun bp =>
              bind (bind (py_get bp "connectionString")
                      (fun c => if connection_string_unset c
                                then py_setitem bp "connectionString" (JStr cs)
                                else Ok bp))
                (fun bp =>
                   bind (replace_if bp "containerName"
                           "<BLOB_CONTAINER_PLACEHOLDER>" container)
                     (fun bp =>
                        at_key bp "ingestionParameters"
                          (fun ip => replace_in_blob_ingestion ip endpoint key e k))))).
  { intros x. unfold replace_in_blob_params.
    destruct (py_get x "connectionString"); reflexivity. }
  apply (keeps_seq (blob_exceptions e k)).
  - apply (keeps_weaken unset_connection_string); [intros p v H; now left | ].
    apply keeps_set_connection_string.
  - apply (keeps_seq (blob_exceptions e k)
             (fun bp => replace_if bp "containerName"
                          "<BLOB_CONTAINER_PLACEHOLDER>" container)
             (fun bp => at_key bp "ingestionParameters"
                          (fun ip => replace_in_blob_ingestion ip endpoint key e k))).
    + apply (keeps_weaken nowhere); [intros p v [] | ].
      apply keeps_replace_if. simpl. tauto.
    + apply (keeps_weaken (below "ingestionParameters" (dropped_ai_services e k)));
        [intros p v H; now right | ].
      apply keeps_at_key. apply keeps_replace_in_blob_ingestion.
Qed.

Lemma keeps_replace_in_indexed_params (endpoint key : string) :
  keeps nowhere (fun params => replace_in_indexed_params params endpoint key).
Proof.
  apply keeps_at_key_nowhere.
  apply (keeps_replace_in_ingest_model "embeddingModel").
Qed.

Lemma keeps_replace_in_inference_params (endpoint key : string) :
  keeps nowhere (fun x => replace_in_inference_params x endpoint key).
Proof.
  intros x x' H path Hl Hn He. unfold replace_in_inference_params in H.
  apply bind_Ok in H. destruct H as [c [Hc H]].
  destruct c; [ | now injection H as <- ].
  apply bind_Ok in H. destruct H as [a [Ha H]].
  apply bind_Ok in H. destruct H as [a' [Ha' H]].
  destruct x as [ | | | | | | d ]; try discriminate.
  cbn [py_getitem] in Ha.
  destruct (dict_find "azureOpenAIParameters" d) as [v | ] eqn:Hd;
    [ | discriminate ].
  injection Ha as <-. cbn [py_setitem] in H. injection H as <-.
  destruct path as [ | k' p ]; [contradiction | ].
  destruct (string_dec k' "azureOpenAIParameters") as [-> | Hne];
    [ | now apply field_set_other ].
  rewrite field_set_same.
  assert (Hx : field ("azureOpenAIParameters" :: p) (JDict d) = field p v)
    by (simpl; unfold dict_get; now rewrite Hd).
  rewrite Hx in *.
  exact (keeps_replace_aoai endpoint key v a' Ha' p Hl Hn (fun F => F)).
Qed.

Lemma map_res_Forall2 {A B : Type} (f : A -> res B) (R : A -> B -> Prop) :
  (forall a b, f a = Ok b -> R a b) ->
  forall l l', map_res f l = Ok l' -> Forall2 R l l'.
Proof.
  intros Hf. induction l as [ | a l IH ]; simpl; intros l' H.
  - injection H as <-. constructor.
  - apply bind_Ok in H. destruct H as [b [Hb H]].
    apply bind_Ok in H. destruct H as [bs [Hbs H]]. injection H as <-.
    constructor; [now apply Hf | now apply IH].
Qed.

(** A field below a block that holds something: the block counts as true. *)
Lemma field_truthy (k : string) (path : list string) (x : json) :
  field (k :: path) x <> JNull -> truthy x = true.
Proof.
  intros H. destruct (truthy x) eqn:Ht; [reflexivity | ].
  now rewrite (field_falsy k path x Ht) in H.
Qed.

(** The fields of a knowledge source that hold no token and are none of
    the two exceptions. *)
Lemma replace_knowledge_source_keeps (d : dict)
  (endpoint key cs container : string) (e k : option string) (r : dict)
  (k0 : string) (path : list string) :
  replace_placeholders_in_knowledge_source d endpoint key cs container e k = Ok r ->
  k0 <> "@odata.context" -> k0 <> "@odata.etag" ->
  leaf (field (k0 :: path) (JDict d)) ->
  no_token (field (k0 :: path) (JDict d)) ->
  ~ below "azureBlobParameters" (blob_exceptions e k) (k0 :: path)
      (field (k0 :: path) (JDict d)) ->
  field (k0 :: path) (JDict r) = field (k0 :: path) (JDict d).
Proof.
  intros H Hc He Hl Hn Hex.
  unfold replace_placeholders_in_knowledge_source in H.
  apply bind_Ok in H. destruct H as [d1 [H1 H]].
  apply bind_Ok in H. destruct H as [d2 [H2 H]].
  apply bind_Ok in H. destruct H as [d3 [H3 H]]. injection H as <-.
  apply with_block_at_key in H1, H2, H3.
  set (d0 := dict_pop "@odata.etag" (dict_pop "@odata.context" d)) in *.
  assert (E0 : field (k0 :: path) (JDict d0) = field (k0 :: path) (JDict d)).
  { unfold d0. now rewrite !field_pop_other. }
  rewrite <- E0 in *.
  pose proof (keeps_at_key "azureBlobParameters" _ _
                (keeps_replace_in_blob_params endpoint key cs container e k)
                _ _ H1 (k0 :: path) Hl Hn Hex) as E1.
  rewrite <- E1 in *.
  pose proof (keeps_at_key_nowhere "indexedOneLakeParameters" _
                (keeps_replace_in_indexed_params endpoint key)
                _ _ H2 (k0 :: path) Hl Hn (fun F => F)) as E2.
  rewrite <- E2 in *.
  exact (keeps_at_key_nowhere "indexedSharePointParameters" _
           (keeps_replace_in_indexed_params endpoint key)
           _ _ H3 (k0 :: path) Hl Hn (fun F => F)).
Qed.

(** The two exceptions, seen from the document. *)
Lemma blob_exceptions_spelled (e k : option string) (d : dict)
  (k0 : string) (path : list string) :
  (k0 :: path = ["azureBlobParameters"; "connectionString"] ->
   connection_string_unset (field (k0 :: path) (JDict d)) = false) ->
  (ai_services_available e k = None ->
   truthy (field AI_SERVICES_PATH (JDict d)) = true ->
   forall p, k0 :: path <> AI_SERVICES_PATH ++ p) ->
  ~ below "azureBlobParameters" (blob_exceptions e k) (k0 :: path)
      (field (k0 :: path) (JDict d)).
Proof.
  intros Hcs Hai. cbn [below]. intros [-> [[[-> Hu] | Hdrop] _]].
  - rewrite (Hcs eq_refl) in Hu. discriminate.
  - destruct path as [ | k1 p1 ]; [contradiction | ].
    cbn [below] in Hdrop. destruct Hdrop as [-> [[Ha Hbelow] _]].
    destruct p1 as [ | k2 p2 ]; [contradiction | ].
    cbn [below] in Hbelow. destruct Hbelow as [-> [Hv Ht]].
    apply (Hai Ha) with (p := p2); [ | reflexivity ].
    change ("azureBlobParameters" :: "ingestionParameters" :: "aiServices" :: p2)
      with (AI_SERVICES_PATH ++ p2) in *.
    rewrite field_app in Hv, Ht.
    destruct p2 as [ | k3 p3 ]; [now apply Ht | ].
    exact (field_truthy k3 p3 _ Hv).
Qed.

(** The fields of a knowledge base outside [models]. *)
Lemma replace_knowledge_base_keeps (d : dict) (endpoint key : string) (r : dict)
  (k0 : string) (path : list string) :
  replace_placeholders_in_knowledge_base d endpoint key = Ok r ->
  k0 <> "@odata.context" -> k0 <> "@odata.etag" -> k0 <> "models" ->
  leaf (field (k0 :: path) (JDict d)) ->
  no_token (field (k0 :: path) (JDict d)) ->
  field (k0 :: path) (JDict r) = field (k0 :: path) (JDict d).
Proof.
  intros H Hc He Hm Hl Hn.
  unfold replace_placeholders_in_knowledge_base in H.
  apply bind_Ok in H. destruct H as [d1 [H1 H]].
  apply bind_Ok in H. destruct H as [d2 [H2 H]]. injection H as <-.
  apply with_block_at_key in H1, H2.
  set (d0 := dict_pop "@odata.etag" (dict_pop "@odata.context" d)) in *.
  assert (E0 : field (k0 :: path) (JDict d0) = field (k0 :: path) (JDict d)).
  { unfold d0. now rewrite !field_pop_other. }
  rewrite <- E0 in *.
  pose proof (at_key_frame _ _ k0 _ _ path H1 Hm) as E1.
  rewrite <- E1 in *.
  exact (keeps_at_key_nowhere "inferenceParameters" _
           (keeps_replace_in_inference_params endpoint key)
           _ _ H2 (k0 :: path) Hl Hn (fun F => F)).
Qed.

(** The elements of [models], one by one. *)
Lemma replace_in_models_keeps (models models' : json) (endpoint key : string) :
  replace_in_models models endpoint key = Ok models' ->
  match models with
  | JList l =>
      exists l', models' = JList l' /\
                 Forall2 (fun m m' =>
                            forall path, leaf (field path m) ->
                                         no_token (field path m) ->
                                         field path m' = field path m) l l'
  | _ => models' = models
  end.
Proof.
  intros H. unfold replace_in_models in H.
  apply bind_Ok in H. destruct H as [l0 [Hl H]].
  apply bind_Ok in H. destruct H as [l' [Hl' H]].
  destruct models as [ | | | | s | l | d ]; try (now injection H as <-).
  cbn [py_iter] in Hl. injection Hl as <-. injection H as <-.
  exists l'. split; [reflexivity | ].
  apply (map_res_Forall2 (fun model => replace_in_model model endpoint key) _)
    with (2 := Hl').
  intros m m' Hm path Hp Hn.
  exact (keeps_replace_in_model endpoint key m m' Hm path Hp Hn (fun F => F)).
Qed.

Lemma replace_knowledge_base_models (d : dict) (endpoint key : string) (r : dict) :
  replace_placeholders_in_knowledge_base d endpoint key = Ok r ->
  match field ["models"] (JDict d) with
  | JList l =>
      exists l', field ["models"] (JDict r) = JList l' /\
                 Forall2 (fun m m' =>
                            forall path, leaf (field path m) ->
                                         no_token (field path m) ->
                                         field path m' = field path m) l l'
  | _ => forall p, field ("models" :: p) (JDict r) = field ("models" :: p) (JDict d)
  end.
Proof.
  intros H. unfold replace_placeholders_in_knowledge_base in H.
  apply bind_Ok in H. destruct H as [d1 [H1 H]].
  apply bind_Ok in H. destruct H as [d2 [H2 H]]. injection H as <-.
  apply with_block_at_key in H1, H2.
  set (d0 := dict_pop "@odata.etag" (dict_pop "@odata.context" d)) in *.
  assert (E0 : forall p, field ("models" :: p) (JDict d0)
                         = field ("models" :: p) (JDict d)).
  { intros p. unfold d0. rewrite !field_pop_other by discriminate. reflexivity. }
  assert (E2 : forall p, field ("models" :: p) (JDict d2)
                         = field ("models" :: p) (JDict d1)).
  { intros p. apply (at_key_frame _ _ "models" _ _ p H2). discriminate. }
  rewrite <- (E0 []). rewrite (E2 []).
  assert (Hsame : match field ["models"] (JDict d0) with
                  | JList l =>
                      exists l', field ["models"] (JDict d1) = JList l' /\
                                 Forall2 (fun m m' =>
                                            forall path, leaf (field path m) ->
                                                         no_token (field path m) ->
                                                         field path m' = field path m)
                                         l l'
                  | _ => JDict d1 = JDict d0
                  end).
  { apply at_key_Ok in H1.
    destruct H1 as [[d' [v [v' [[= <-] [Hf [Ht [Hb Hd1]]]]]]] | [Hd1 _]].
    - rewrite Hd1. rewrite field_set_same. cbn [field].
      unfold dict_get. rewrite Hf.
      pose proof (replace_in_models_keeps v v' endpoint key Hb) as Hk.
      destruct v; try (rewrite Hk; now rewrite dict_set_same_value).
      exact Hk.
    - rewrite Hd1. destruct (field ["models"] (JDict d0)) as [ | | | | | l | ];
        try reflexivity.
      exists l. split; [reflexivity | ].
      clear. induction l; constructor; auto. }
  destruct (field ["models"] (JDict d0)) as [ | | | | | l | ] eqn:Hm;
    try exact Hsame;
    intros p; rewrite E2, <- E0; now rewrite Hsame.
Qed.

End RestorerKeeps.

Section RestorerFalsy.
Import Restorer.

(** A descent under a key that holds a false value does nothing. *)
Lemma at_key_falsy (x : json) (k : string) (body : json -> res json) (x' : json) :
  at_key x k body = Ok x' -> truthy (field [k] x) = false -> x' = x.
Proof.
  intros H Hf. apply at_key_Ok in H.
  destruct H as [[d [v [v' [-> [Hd [Hv [Hb ->]]]]]]] | [-> _]]; [ | reflexivity ].
  simpl in Hf. unfold dict_get in Hf. rewrite Hd in Hf. congruence.
Qed.

Lemma replace_in_blob_ingestion_keeps_ai_services (ip : json)
  (endpoint key : string) (e k : option string) (ip' : json) (path : list string) :
  replace_in_blob_ingestion ip endpoint key e k = Ok ip' ->
  truthy (field ["aiServices"] ip) = false ->
  field ("aiServices" :: path) ip' = field ("aiServices" :: path) ip.
Proof.
  intros H Ht. unfold replace_in_blob_ingestion in H.
  apply bind_Ok in H. destruct H as [ip1 [H1 H]].
  apply bind_Ok in H. destruct H as [ip2 [H2 H3]].
  rewrite <- (replace_in_ingest_model_frame ip "embeddingModel" endpoint key
                "aiServices" ip1 [] H1) in Ht by discriminate.
  rewrite <- (replace_in_ingest_model_frame ip1 "chatCompletionModel" endpoint key
                "aiServices" ip2 [] H2) in Ht by discriminate.
  unfold replace_ai_services in H3.
  rewrite (at_key_falsy ip2 _ _ ip' H3 Ht).
  rewrite (replace_in_ingest_model_frame ip1 "chatCompletionModel" endpoint key
             "aiServices" ip2 path H2) by discriminate.
  apply (replace_in_ingest_model_frame ip "embeddingModel" endpoint key
           "aiServices" ip1 path H1). discriminate.
Qed.

(** Below a key that the guard of a descent finds, the fields of the
    result are those that the body returns. *)
Lemma at_key_below (x : json) (k : string) (body : json -> res json) (x' : json) :
  at_key x k body = Ok x' ->
  x' = x \/
  exists v v', body v = Ok v' /\
               (forall p, field (k :: p) x = field p v) /\
               (forall p, field (k :: p) x' = field p v').
Proof.
  intros H. apply at_key_Ok in H.
  destruct H as [[d [v [v' [-> [Hd [Hv [Hb ->]]]]]]] | [-> Hg]]; [right | now left].
  exists v, v'. split; [assumption | ]. split; intros p.
  - simpl. unfold dict_get. now rewrite Hd.
  - apply field_set_same.
Qed.

Lemma replace_in_blob_params_keeps_ai_services (bp : json)
  (endpoint key cs container : string) (e k : option string) (bp' : json)
  (path : list string) :
  replace_in_blob_params bp endpoint key cs container e k = Ok bp' ->
  truthy (field ["ingestionParameters"; "aiServices"] bp) = false ->
  field ("ingestionParameters" :: "aiServices" :: path) bp'
  = field ("ingestionParameters" :: "aiServices" :: path) bp.
Proof.
  intros H Ht. unfold replace_in_blob_params in H.
  apply bind_Ok in H. destruct H as [v [Hv H]].
  apply bind_Ok in H. destruct H as [bp1 [H1 H]].
  apply bind_Ok in H. destruct H as [bp2 [H2 H3]].
  assert (Hf : forall p, field ("ingestionParameters" :: p) bp2
                         = field ("ingestionParameters" :: p) bp).
  { intros p.
    rewrite (replace_if_frame bp1 "containerName" "ingestionParameters" _ _ bp2 p H2)
      by discriminate.
    destruct bp as [ | | | | | | d ]; try discriminate.
    destruct (connection_string_unset v).
    - simpl in H1. injection H1 as <-. apply field_set_other. discriminate.
    - now injection H1 as <-. }
  rewrite <- (Hf ["aiServices"]) in Ht. rewrite <- Hf.
  destruct (at_key_below _ _ _ _ H3) as [-> | [ip [ip' [Hb [Hx Hx']]]]];
    [reflexivity | ].
  rewrite Hx, Hx'. rewrite Hx in Ht.
  exact (replace_in_blob_ingestion_keeps_ai_services ip endpoint key e k ip' path
           Hb Ht).
Qed.

Lemma replace_knowledge_source_keeps_ai_services (d : dict)
  (endpoint key cs container : string) (e k : option string) (r : dict)
  (path : list string) :
  replace_placeholders_in_knowledge_source d endpoint key cs container e k = Ok r ->
  truthy (field AI_SERVICES_PATH (JDict d)) = false ->
  field (AI_SERVICES_PATH ++ path) (JDict r)
  = field (AI_SERVICES_PATH ++ path) (JDict d).
Proof.
  intros H Ht. unfold replace_placeholders_in_knowledge_source in H.
  apply bind_Ok in H. destruct H as [d1 [H1 H]].
  apply bind_Ok in H. destruct H as [d2 [H2 H]].
  apply bind_Ok in H. destruct H as [d3 [H3 H]]. injection H as <-.
  apply with_block_at_key in H1, H2, H3.
  unfold AI_SERVICES_PATH in *. cbn [app].
  rewrite (at_key_frame _ _ "azureBlobParameters" _ _ _ H3) by discriminate.
  rewrite (at_key_frame _ _ "azureBlobParameters" _ _ _ H2) by discriminate.
  rewrite <- (field_pop_other "azureBlobParameters" "@odata.context") in Ht
    by discriminate.
  rewrite <- (field_pop_other "azureBlobParameters" "@odata.etag") in Ht
    by discriminate.
  rewrite <- (field_pop_other "azureBlobParameters" "@odata.context" _ d)
    by discriminate.
  rewrite <- (field_pop_other "azureBlobParameters" "@odata.etag" _
                (dict_pop "@odata.context" d))
    by discriminate.
  destruct (at_key_below _ _ _ _ H1) as [Heq | [bp [bp' [Hb [Hx Hx']]]]].
  - now rewrite Heq.
  - rewrite Hx, Hx'. rewrite Hx in Ht.
    exact (replace_in_blob_params_keeps_ai_services bp endpoint key cs container
             e k bp' path Hb Ht).
Qed.

Lemma replace_knowledge_source_nulls_ai_services (d : dict)
  (endpoint key cs container : string) (e k : option string) (r : dict) :
  replace_placeholders_in_knowledge_source d endpoint key cs container e k = Ok r ->
  ai_services_available e k = None ->
  truthy (field AI_SERVICES_PATH (JDict d)) = true ->
  exists ingest_params,
    field ["azureBlobParameters"; "ingestionParameters"] (JDict r)
    = JDict ingest_params /\
    dict_find "aiServices" ingest_params = Some JNull.
Proof.
  intros H Ha Ht.
  unfold replace_placeholders_in_knowledge_source in H.
  apply bind_Ok in H. destruct H as [d1 [H1 H]].
  apply bind_Ok in H. destruct H as [d2 [H2 H]].
  apply bind_Ok in H. destruct H as [d3 [H3 H]]. injection H as <-.
  apply with_block_at_key in H1, H2, H3.
  unfold AI_SERVICES_PATH in *.
  rewrite (at_key_frame _ _ "azureBlobParameters" _ _ _ H3) by discriminate.
  rewrite (at_key_frame _ _ "azureBlobParameters" _ _ _ H2) by discriminate.
  rewrite <- (field_pop_other "azureBlobParameters" "@odata.context") in Ht
    by discriminate.
  rewrite <- (field_pop_other "azureBlobParameters" "@odata.etag") in Ht
    by discriminate.
  destruct (at_key_descend _ _ _ _ _ H1 Ht) as [bp [bp' [Hb [Hf Hf']]]].
  rewrite Hf'. rewrite Hf in Ht.
  exact (replace_in_blob_params_nulls_ai_services bp endpoint key cs container
           e k bp' Hb Ha Ht).
Qed.

End RestorerFalsy.

Section RestorerFieldClaims.
Import Restorer Substitution.

(** C4, as the code has it.  When no AI-services credential is supplied
    (the endpoint or the key is [None], or empty), a replacement that
    returns, on a document whose blob ingestion parameters hold an
    [aiServices] block that is not empty (a value that Python counts as
    true), gives a document in which [aiServices] holds [None]: the block
    is gone, and so is every field below it.  A block that is empty (the
    object [{}], or another value that Python counts as false) is not
    removed: it and the fields below it are as they were, whatever
    credentials are supplied. *)
Theorem restore_without_ai_services_nulls_the_block :
  (forall (d : dict) (endpoint key cs container : string) (e k : option string)
          (r : dict),
      replace_placeholders_in_knowledge_source d endpoint key cs container e k
      = Ok r ->
      ai_services_available e k = None ->
      truthy (field AI_SERVICES_PATH (JDict d)) = true ->
      (exists ingest_params,
          field ["azureBlobParameters"; "ingestionParameters"] (JDict r)
          = JDict ingest_params /\
          dict_find "aiServices" ingest_params = Some JNull) /\
      forall path, field (AI_SERVICES_PATH ++ path) (JDict r) = JNull) /\
  (forall (d : dict) (endpoint key cs container : string) (e k : option string)
          (r : dict),
      replace_placeholders_in_knowledge_source d endpoint key cs container e k
      = Ok r ->
      truthy (field AI_SERVICES_PATH (JDict d)) = false ->
      forall path, field (AI_SERVICES_PATH ++ path) (JDict r)
                   = field (AI_SERVICES_PATH ++ path) (JDict d)).
Proof.
  split.
  - intros d endpoint key cs container e k r H Ha Ht.
    pose proof (replace_knowledge_source_nulls_ai_services d endpoint key cs
                  container e k r H Ha Ht) as Hr.
    split; [exact Hr | ].
    destruct Hr as [ip [Hip Hai]]. intros path.
    change AI_SERVICES_PATH
      with (["azureBlobParameters"; "ingestionParameters"] ++ ["aiServices"]).
    rewrite <- app_assoc, field_app, Hip. simpl. unfold dict_get. rewrite Hai.
    apply field_null.
  - intros d endpoint key cs container e k r H Ht path.
    exact (replace_knowledge_source_keeps_ai_services d endpoint key cs container
             e k r path H Ht).
Qed.

Lemma restore_without_ai_services_nulls_the_block_witness :
  field AI_SERVICES_PATH
    (JDict
       [ ("name", JStr "blob-ks");
         ("kind", JStr "azureBlob");
         ("azureBlobParameters",
          JDict
            [ ("connectionString",
               JStr "DefaultEndpointsProtocol=https;AccountName=live");
              ("containerName", JStr "docs");
              ("ingestionParameters",
               JDict
                 [ ("embeddingModel",
                    JDict
                      [ ("kind", JStr "azureOpenAI");
                        ("azureOpenAIParameters",
                         JDict
                           [ ("resourceUri", JStr "https://live.openai.azure.com");
                             ("deploymentId", JStr "text-embedding-3-large");
                             ("apiKey", JStr "live-key") ]) ]);
                   ("chatCompletionModel", JNull);
                   ("aiServices", JNull) ]) ]) ])
  = JNull /\
  field AI_SERVICES_PATH
    (JDict
       [ ("name", JStr "blob-ks");
         ("kind", JStr "azureBlob");
         ("azureBlobParameters",
          JDict
            [ ("connectionString",
               JStr "DefaultEndpointsProtocol=https;AccountName=live");
              ("containerName", JStr "docs");
              ("ingestionParameters",
               JDict [ ("embeddingModel", JNull);
                       ("aiServices", JDict []) ]) ]) ])
  = field AI_SERVICES_PATH (JDict NestedSamples.free_tier_source).
Proof.
  split.
  - exact (proj2 (proj1 restore_without_ai_services_nulls_the_block
                    Samples.blob_source
                    "https://live.openai.azure.com" "live-key"
                    "DefaultEndpointsProtocol=https;AccountName=live" "docs"
                    None (Some "ai-key") _ eq_refl eq_refl eq_refl) []).
  - exact (proj2 restore_without_ai_services_nulls_the_block
             NestedSamples.free_tier_source
             "https://live.openai.azure.com" "live-key"
             "DefaultEndpointsProtocol=https;AccountName=live" "docs"
             None None _ eq_refl eq_refl []).
Defined.

(** C4 fails as stated: the ingestion parameters of this knowledge source
    hold an [aiServices] block, the empty object; restored without
    AI-services credentials, the document still holds the block, which is
    not [None]. *)
Lemma restore_without_ai_services_keeps_an_empty_block :
  replace_placeholders_in_knowledge_source NestedSamples.free_tier_source
    "https://live.openai.azure.com" "live-key"
    "DefaultEndpointsProtocol=https;AccountName=live" "docs" None None
  = Ok [ ("name", JStr "blob-ks");
         ("kind", JStr "azureBlob");
         ("azureBlobParameters",
          JDict
            [ ("connectionString",
               JStr "DefaultEndpointsProtocol=https;AccountName=live");
              ("containerName", JStr "docs");
              ("ingestionParameters",
               JDict [ ("embeddingModel", JNull);
                       ("aiServices", JDict []) ]) ]) ]
  /\
  dict_find "aiServices"
    [ ("embeddingModel", JNull); ("aiServices", JDict []) ]
  = Some (JDict []) /\
  JDict [] <> JNull.
Proof. split; [ | split ]; [vm_compute; reflexivity | reflexivity | discriminate]. Qed.

(** C9, as the code has it.  The Restorer changes a field only where it
    holds one of the three tokens, with two exceptions in a knowledge
    source.  In a knowledge source, every field that ends in a value
    other than an object and other than the three tokens is as it was
    after a replacement that returns, unless it is one of the two dropped
    metadata keys, or the [connectionString] of the blob block and
    missing, [None] or empty (then it is filled in), or a field of a
    non-empty [aiServices] block while no AI-services credential is
    supplied (then the block is replaced by [None]).  In a knowledge base
    the same holds, without exceptions, for every field outside [models],
    and for every field of every element of the list [models]; a [models]
    that is no list is as it was.  And a document that holds no token
    anywhere and meets neither exception comes back as it was, apart from
    the two dropped metadata keys. *)
Theorem restore_changes_only_token_fields :
  (forall (d : dict) (endpoint key cs container : string) (e k : option string)
          (r : dict) (k0 : string) (path : list string),
      replace_placeholders_in_knowledge_source d endpoint key cs container e k
      = Ok r ->
      k0 <> "@odata.context" -> k0 <> "@odata.etag" ->
      leaf (field (k0 :: path) (JDict d)) ->
      no_token (field (k0 :: path) (JDict d)) ->
      (k0 :: path = ["azureBlobParameters"; "connectionString"] ->
       connection_string_unset (field (k0 :: path) (JDict d)) = false) ->
      (ai_services_available e k = None ->
       truthy (field AI_SERVICES_PATH (JDict d)) = true ->
       forall p, k0 :: path <> AI_SERVICES_PATH ++ p) ->
      field (k0 :: path) (JDict r) = field (k0 :: path) (JDict d)) /\
  (forall (d : dict) (endpoint key : string) (r : dict),
      replace_placeholders_in_knowledge_base d endpoint key = Ok r ->
      (forall (k0 : string) (path : list string),
          k0 <> "@odata.context" -> k0 <> "@odata.etag" -> k0 <> "models" ->
          leaf (field (k0 :: path) (JDict d)) ->
          no_token (field (k0 :: path) (JDict d)) ->
          field (k0 :: path) (JDict r) = field (k0 :: path) (JDict d)) /\
      (forall l, field ["models"] (JDict d) = JList l ->
                 exists l', field ["models"] (JDict r) = JList l' /\
                            Forall2 (fun m m' =>
                                       forall path,
                                         leaf (field path m) ->
                                         no_token (field path m) ->
                                         field path m' = field path m) l l') /\
      ((forall l, field ["models"] (JDict d) <> JList l) ->
       forall p, field ("models" :: p) (JDict r)
                 = field ("models" :: p) (JDict d))) /\
  (forall (d : dict) (endpoint key cs container : string) (e k : option string)
          (r : dict),
      replace_placeholders_in_knowledge_source d endpoint key cs container e k
      = Ok r ->
      mentions_placeholder (JDict d) = false ->
      (truthy (field ["azureBlobParameters"] (JDict d)) = true ->
       connection_string_unset
         (field ["azureBlobParameters"; "connectionString"] (JDict d)) = false) ->
      (ai_services_available e k <> None
       \/ truthy (field AI_SERVICES_PATH (JDict d)) = false) ->
      r = dict_pop "@odata.etag" (dict_pop "@odata.context" d)) /\
  (forall (d : dict) (endpoint key : string) (r : dict),
      replace_placeholders_in_knowledge_base d endpoint key = Ok r ->
      mentions_placeholder (JDict d) = false ->
      r = dict_pop "@odata.etag" (dict_pop "@odata.context" d)).
Proof.
  split; [ | split; [ | split ] ].
  - intros d endpoint key cs container e k r k0 path H Hc He Hl Hn Hcs Hai.
    apply (replace_knowledge_source_keeps d endpoint key cs container e k r
             k0 path H Hc He Hl Hn).
    now apply blob_exceptions_spelled.
  - intros d endpoint key r H. split; [ | split ].
    + intros k0 path Hc He Hm Hl Hn.
      exact (replace_knowledge_base_keeps d endpoint key r k0 path H Hc He Hm Hl Hn).
    + intros l Hl.
      pose proof (replace_knowledge_base_models d endpoint key r H) as Hm.
      rewrite Hl in Hm. exact Hm.
    + intros Hno p.
      pose proof (replace_knowledge_base_models d endpoint key r H) as Hm.
      destruct (field ["models"] (JDict d)) as [ | | | | | l | ];
        try exact (Hm p).
      now elim (Hno l).
  - exact (proj1 replace_plain_documents).
  - exact (proj2 replace_plain_documents).
Qed.

Lemma restore_changes_only_token_fields_witness :
  field ["azureBlobParameters"; "ingestionParameters"; "embeddingModel";
         "azureOpenAIParameters"; "resourceUri"]
    (JDict
       [ ("name", JStr "blob-ks");
         ("kind", JStr "azureBlob");
         ("azureBlobParameters",
          JDict
            [ ("connectionString", JStr "ResourceId=/subscriptions/s/storage;");
              ("containerName", JStr "docs");
              ("ingestionParameters",
               JDict
                 [ ("embeddingModel",
                    JDict
                      [ ("kind", JStr "azureOpenAI");
                        ("azureOpenAIParameters",
                         JDict
                           [ ("resourceUri", JStr "https://mine.openai.azure.com");
                             ("deploymentId", JStr "text-embedding-3-large");
                             ("apiKey", JStr "live-key") ]) ]) ]) ]) ])
  = JStr "https://mine.openai.azure.com" /\
  (exists l',
      field ["models"]
        (JDict
           [ ("name", JStr "kb1");
             ("models",
              JList
                [ JDict
                    [ ("kind", JStr "azureOpenAI");
                      ("azureOpenAIParameters",
                       JDict
                         [ ("resourceUri", JStr "https://mine.openai.azure.com");
                           ("deploymentId", JStr "gpt-4o");
                           ("apiKey", JStr "live-key") ]) ] ]);
             ("outputMode", JStr "answerSynthesis") ])
      = JList l' /\
      Forall2 (fun m m' =>
                 forall path, leaf (field path m) -> no_token (field path m) ->
                              field path m' = field path m)
        [ JDict
            [ ("kind", JStr "azureOpenAI");
              ("azureOpenAIParameters",
               JDict
                 [ ("resourceUri", JStr "https://mine.openai.azure.com");
                   ("deploymentId", JStr "gpt-4o");
                   ("apiKey", JStr "<REDACTED>") ]) ] ]
        l') /\
  [ ("name", JStr "blob-ks");
    ("kind", JStr "azureBlob");
    ("azureBlobParameters",
     JDict [ ("connectionString", JStr "ResourceId=/subscriptions/s/storage;");
             ("containerName", JStr "docs") ]) ]
  = dict_pop "@odata.etag" (dict_pop "@odata.context" Samples.plain_blob_source) /\
  [ ("name", JStr "kb0"); ("outputMode", JStr "answerSynthesis") ]
  = dict_pop "@odata.etag"
      (dict_pop "@odata.context"
         [ ("@odata.etag", JStr "0x1"); ("name", JStr "kb0");
           ("outputMode", JStr "answerSynthesis") ]).
Proof.
  split; [ | split; [ | split ] ].
  - refine (proj1 restore_changes_only_token_fields
              NestedSamples.half_sanitized_source
              "https://live.openai.azure.com" "live-key"
              "DefaultEndpointsProtocol=https;AccountName=live" "docs"
              None None _
              "azureBlobParameters"
              ["ingestionParameters"; "embeddingModel"; "azureOpenAIParameters";
               "resourceUri"]
              eq_refl _ _ I _ _ _).
    + discriminate.
    + discriminate.
    + intros token [<- | [<- | [<- | []]]]; discriminate.
    + discriminate.
    + intros _ Ht. vm_compute in Ht. discriminate.
  - refine (proj1 (proj2 (proj1 (proj2 restore_changes_only_token_fields)
                            NestedSamples.half_sanitized_base
                            "https://live.openai.azure.com" "live-key" _ eq_refl))
              _ eq_refl).
  - refine (proj1 (proj2 (proj2 restore_changes_only_token_fields))
              Samples.plain_blob_source
              "https://live.openai.azure.com" "live-key"
              "DefaultEndpointsProtocol=https;AccountName=live" "docs"
              None None _ eq_refl eq_refl (fun _ => eq_refl) _).
    right. reflexivity.
  - exact (proj2 (proj2 (proj2 restore_changes_only_token_fields))
             [ ("@odata.etag", JStr "0x1"); ("name", JStr "kb0");
               ("outputMode", JStr "answerSynthesis") ]
             "https://live.openai.azure.com" "live-key" _ eq_refl eq_refl).
Defined.

(** C9 fails as stated: the connection string of this knowledge source is
    the empty string, which is none of the three tokens, and the Restorer
    replaces it. *)
Lemma restore_fills_an_empty_connection_string :
  mentions_placeholder (JDict Samples.keyless_blob_source) = false /\
  replace_placeholders_in_knowledge_source Samples.keyless_blob_source
    "https://live.openai.azure.com" "live-key"
    "DefaultEndpointsProtocol=https;AccountName=live" "docs"
    (Some "https://live.cognitiveservices.azure.com") (Some "ai-key")
  = Ok [ ("name", JStr "blob-ks");
         ("kind", JStr "azureBlob");
         ("azureBlobParameters",
          JDict [ ("connectionString",
                   JStr "DefaultEndpointsProtocol=https;AccountName=live");
                  ("containerName", JStr "docs") ]) ].
Proof. split; vm_compute; reflexivity. Qed.

End RestorerFieldClaims.
